(** * Publishing Intelligence Platform: the spreadsheet ingestion pipeline

    A shallow embedding of the ingestion code shared by the server variants
    ([app1.js], [app5.js], [app7.js] and the unnamed variant), and the
    properties of the value normaliser, the column resolver, the
    subscription/browsing synthesiser, the per-file pipeline, the batch loop
    and the chat fallback.

    Conventions.
    - A JavaScript string is a [string] whose characters are code units in
      the range 0..255 (Latin-1).
    - A JavaScript number is kept abstract behind the class [JsNumber]; the
      integer fragment [intnum] is an instance.
    - [Math.random()] is an exact rational in the interval [0, 1), see [draw].
    - The sqlite3 connection executes the statements it is handed in the
      order they were issued, each followed by its callback, see [step]. *)

From Stdlib Require Import Bool Arith ZArith NArith Lia List Ascii String.
From Stdlib Require Import Permutation DecimalString.
From Stdlib Require DecimalZ.
Import ListNotations.

Local Open Scope string_scope.
Local Open Scope list_scope.

Set Implicit Arguments.

(* ------------------------------------------------------------------------- *)
(** ** JavaScript strings *)

Module JsString.

Definition code (c : ascii) : N := N_of_ascii c.

(** [WhiteSpace] and [LineTerminator] code units below 256, the ones
    [String.prototype.trim] strips. *)
Definition is_space (c : ascii) : bool :=
  let n := code c in
  ((9 <=? n) && (n <=? 13) || (n =? 32) || (n =? 160))%N.

(** Code units with a distinct lower-case form: A-Z, and the Latin-1
    capitals U+00C0..U+00DE except the multiplication sign U+00D7. *)
Definition is_upper (c : ascii) : bool :=
  let n := code c in
  ((65 <=? n) && (n <=? 90)
   || (192 <=? n) && (n <=? 214)
   || (216 <=? n) && (n <=? 222))%N.

Definition lower_char (c : ascii) : ascii :=
  if is_upper c then ascii_of_N (code c + 32) else c.

Fixpoint toLowerCase (s : string) : string :=
  match s with
  | EmptyString => EmptyString
  | String c s' => String (lower_char c) (toLowerCase s')
  end.

Fixpoint trimStart (s : string) : string :=
  match s with
  | EmptyString => EmptyString
  | String c s' => if is_space c then trimStart s' else s
  end.

Fixpoint trimEnd (s : string) : string :=
  match s with
  | EmptyString => EmptyString
  | String c s' =>
      match trimEnd s' with
      | EmptyString => if is_space c then EmptyString else String c EmptyString
      | t => String c t
      end
  end.

Definition trim (s : string) : string := trimEnd (trimStart s).

(** [s.includes(t)]: [t] occurs in [s] as a contiguous run. *)
Fixpoint includes (s t : string) : bool :=
  String.prefix t s
  || match s with
     | EmptyString => false
     | String _ s' => includes s' t
     end.

(** Strict equality [===] between two strings. *)
Definition seq (s t : string) : bool := String.eqb s t.

End JsString.

Import JsString.

(* ------------------------------------------------------------------------- *)
(** ** JavaScript numbers and cell values *)

(** What the code needs of a JavaScript number: its truthiness, its string
    form, [parseFloat], and the embedding of the integers that
    [Math.floor(...) + k] produces.  The two laws are the facts of the
    language the code relies on: the only falsy numbers are the zeros and
    [NaN], whose string forms are ["0"] and ["NaN"]; an integer's
    truthiness is that of the integer.  [num_sql_text] is the text the
    storage engine makes of a bound number (none for [NaN], bound as
    NULL). *)
Class JsNumber (num : Type) : Type := {
  num_falsy : num -> bool;
  num_to_string : num -> string;
  parseFloat : string -> num;
  num_of_Z : Z -> num;
  num_sql_text : num -> option string;
  num_falsy_to_string :
    forall n, num_falsy n = true ->
              num_to_string n = "0" \/ num_to_string n = "NaN";
  num_falsy_of_Z : forall z, num_falsy (num_of_Z z) = Z.eqb z 0
}.

(** A raw spreadsheet cell as [sheet_to_json] hands it over: a missing
    column reads as [undefined], the resolvers return [null]. *)
Inductive value (num : Type) : Type :=
| VUndefined
| VNull
| VBool (b : bool)
| VNum (n : num)
| VStr (s : string).

Arguments VUndefined {num}.
Arguments VNull {num}.
Arguments VBool {num} b.
Arguments VNum {num} n.
Arguments VStr {num} s.

Section Values.
Context {num : Type} `{JsNumber num}.

(** [String(v)] *)
Definition to_String (v : value num) : string :=
  match v with
  | VUndefined => "undefined"
  | VNull => "null"
  | VBool true => "true"
  | VBool false => "false"
  | VNum n => num_to_string n
  | VStr s => s
  end.

(** [!v] *)
Definition falsy (v : value num) : bool :=
  match v with
  | VUndefined | VNull => true
  | VBool b => negb b
  | VNum n => num_falsy n
  | VStr s => seq s ""
  end.

(** [a || b] *)
Definition js_or (a b : value num) : value num :=
  if falsy a then b else a.

(* ----------------------------------------------------------------------- *)
(** ** Value normaliser *)

(** [parseBoolean], app1.js and the unnamed variant. *)
Definition parseBoolean (v : value num) : bool :=
  if falsy v then false
  else
    let str := trim (toLowerCase (to_String v)) in
    seq str "1" || seq str "yes" || seq str "true" || seq str "y".

Definition is_undefined (v : value num) : bool :=
  match v with VUndefined => true | _ => false end.

Definition is_null (v : value num) : bool :=
  match v with VNull => true | _ => false end.

(** [v === s] for a string literal [s] *)
Definition strict_eq_str (v : value num) (s : string) : bool :=
  match v with VStr t => seq t s | _ => false end.

(** [parseSubscriptionStatus], app5.js. *)
Definition parseSubscriptionStatus (v : value num) : bool :=
  if is_undefined v || is_null v || strict_eq_str v "" then false
  else
    let str := trim (toLowerCase (to_String v)) in
    seq str "1" || seq str "yes" || seq str "true" || seq str "y"
    || seq str "subscribed".

End Values.

(** The truthy tokens of the specification, and the ones [parseBoolean]
    accepts. *)
Definition truthy_tokens : list string := ["1"; "yes"; "true"; "y"; "subscribed"].
Definition parseBoolean_tokens : list string := ["1"; "yes"; "true"; "y"].

(** The specification's reading: trim first, then lower-case. *)
Definition normal_form {num} `{JsNumber num} (v : value num) : string :=
  toLowerCase (trim (to_String v)).

(** *** The integer fragment of the numbers

    Integer-valued numbers and [NaN]; enough to run the pipeline on
    spreadsheets whose numeric cells are integers of at most nine digits
    and whose text cells, where a number is parsed out of them, begin with
    such an integer and go on with neither a fraction nor an exponent.
    The examples are run on this fragment; the theorems are about any
    [JsNumber]. *)
Inductive intnum : Type :=
| INaN
| IInt (z : Z).

Module IntNum.

Definition falsy (n : intnum) : bool :=
  match n with INaN => true | IInt z => Z.eqb z 0 end.

Definition to_string (n : intnum) : string :=
  match n with
  | INaN => "NaN"
  | IInt z => NilEmpty.string_of_int (Z.to_int z)
  end.

(** The text of a number that the connection binds as INTEGER, which is
    what it does with the integers that fit 32 bits: the decimal form.
    (Any other number is bound as REAL and its text has a fraction; such
    numbers are not of the fragment.) *)
Definition sql_text (n : intnum) : option string :=
  match n with
  | INaN => None
  | IInt z => Some (NilEmpty.string_of_int (Z.to_int z))
  end.

Definition digit (c : ascii) : option Z :=
  let n := code c in
  if ((48 <=? n) && (n <=? 57))%N then Some (Z.of_N n - 48)%Z else None.

(** The longest run of decimal digits at the head of [s], read as a
    number; [None] when there is none. *)
Fixpoint digits (acc : option Z) (s : string) : option Z :=
  match s with
  | EmptyString => acc
  | String c s' =>
      match digit c with
      | Some d =>
          digits (Some (match acc with Some a => 10 * a + d | None => d end)%Z) s'
      | None => acc
      end
  end.

(** [parseFloat] on the strings of the fragment: those that, after
    leading white space, have an optional sign and at most nine decimal
    digits with neither [.] nor an exponent after them, read as that
    integer; and those that begin with nothing [parseFloat] can read, which
    give [NaN].  ([parseFloat] also reads fractions, exponents and
    [Infinity], and rounds beyond 2^53: strings with those are not of the
    fragment.) *)
Definition parse (s : string) : intnum :=
  match trimStart s with
  | String "-" s' =>
      match digits None s' with Some z => IInt (- z) | None => INaN end
  | String "+" s' =>
      match digits None s' with Some z => IInt z | None => INaN end
  | s' =>
      match digits None s' with Some z => IInt z | None => INaN end
  end.

End IntNum.

#[export] Instance intnum_JsNumber : JsNumber intnum.
Proof.
  refine {| num_falsy := IntNum.falsy;
            num_to_string := IntNum.to_string;
            parseFloat := IntNum.parse;
            num_of_Z := IInt;
            num_sql_text := IntNum.sql_text |}.
  - intros [|z]; simpl; intros Hz.
    + now right.
    + apply Z.eqb_eq in Hz. subst z. now left.
  - reflexivity.
Defined.

(* ------------------------------------------------------------------------- *)
(** ** Row objects *)

(** A row is a plain object: its own properties in creation order.
    [sheet_to_json] creates one property per header, left to right. *)
Definition object (num : Type) : Type := list (string * value num).

Module JsObject.

Definition digit_value (c : ascii) : option N :=
  let n := code c in
  if ((48 <=? n) && (n <=? 57))%N then Some (n - 48)%N else None.

Fixpoint decimal (acc : N) (s : string) : option N :=
  match s with
  | EmptyString => Some acc
  | String c s' =>
      match digit_value c with
      | Some d => decimal (10 * acc + d) s'
      | None => None
      end
  end.

(** A property name is an array index when it is the canonical decimal
    form of an integer below 2^32 - 1. *)
Definition array_index (k : string) : option N :=
  match k with
  | EmptyString => None
  | String c s' =>
      match digit_value c with
      | None => None
      | Some d =>
          if (d =? 0)%N then
            match s' with EmptyString => Some 0%N | _ => None end
          else
            match decimal d s' with
            | Some n => if (n <? 4294967295)%N then Some n else None
            | None => None
            end
      end
  end.

Fixpoint insert_index (e : N * string) (l : list (N * string)) : list (N * string) :=
  match l with
  | [] => [e]
  | x :: l' => if (fst e <? fst x)%N then e :: l else x :: insert_index e l'
  end.

Fixpoint index_keys (ks : list string) : list (N * string) :=
  match ks with
  | [] => []
  | k :: ks' =>
      match array_index k with
      | Some n => insert_index (n, k) (index_keys ks')
      | None => index_keys ks'
      end
  end.

Definition is_named (k : string) : bool :=
  match array_index k with Some _ => false | None => true end.

(** [Object.keys(o)]: the array-index names in ascending numeric order,
    then the other names in creation order. *)
Definition keys {num} (o : object num) : list string :=
  map snd (index_keys (map fst o)) ++ filter is_named (map fst o).

(** [o[k]] *)
Fixpoint get {num} (o : object num) (k : string) : value num :=
  match o with
  | [] => VUndefined
  | (k', v) :: o' => if seq k' k then v else get o' k
  end.

End JsObject.

(* ------------------------------------------------------------------------- *)
(** ** Column resolver *)

Section Resolver.
Context {num : Type}.

(** The inner loop of [findValue]: does some candidate occur in the
    lower-cased column name? *)
Fixpoint findValue_match (lowerKey : string) (possibleKeys : list string) : bool :=
  match possibleKeys with
  | [] => false
  | possibleKey :: rest =>
      if includes lowerKey (toLowerCase possibleKey) then true
      else findValue_match lowerKey rest
  end.

Fixpoint findValue_loop (row : object num) (ks : list string)
         (possibleKeys : list string) : value num :=
  match ks with
  | [] => VNull
  | key :: rest =>
      let lowerKey := toLowerCase key in
      if findValue_match lowerKey possibleKeys then JsObject.get row key
      else findValue_loop row rest possibleKeys
  end.

(** [findValue], app1.js and the unnamed variant. *)
Definition findValue (row : object num) (possibleKeys : list string) : value num :=
  findValue_loop row (JsObject.keys row) possibleKeys.

(** The inner loop of [findColumnValue]: containment either way round. *)
Fixpoint findColumnValue_match (lowerKey : string) (possibleNames : list string) : bool :=
  match possibleNames with
  | [] => false
  | name :: rest =>
      if includes lowerKey (toLowerCase name)
         || includes (toLowerCase name) lowerKey
      then true
      else findColumnValue_match lowerKey rest
  end.

Fixpoint findColumnValue_loop (row : object num) (ks : list string)
         (possibleNames : list string) : value num :=
  match ks with
  | [] => VNull
  | key :: rest =>
      let lowerKey := trim (toLowerCase key) in
      if findColumnValue_match lowerKey possibleNames then JsObject.get row key
      else findColumnValue_loop row rest possibleNames
  end.

(** [findColumnValue], app5.js. *)
Definition findColumnValue (row : object num) (possibleNames : list string) : value num :=
  findColumnValue_loop row (JsObject.keys row) possibleNames.

(** *** The resolver as the specification words it *)

(** A column name matches when its lower-cased form contains some
    lower-cased candidate. *)
Definition name_contains (candidates : list string) (k : string) : bool :=
  existsb (fun c => includes (toLowerCase k) (toLowerCase c)) candidates.

(** [findColumnValue]'s notion: the trimmed lower-cased name contains a
    candidate, or is contained in one. *)
Definition name_overlaps (candidates : list string) (k : string) : bool :=
  existsb (fun c => includes (trim (toLowerCase k)) (toLowerCase c)
                    || includes (toLowerCase c) (trim (toLowerCase k)))
          candidates.

(** The value of the first name in [ks] that [matches], or null. *)
Definition first_match (matches : string -> bool) (row : object num)
           (ks : list string) : value num :=
  match find matches ks with
  | Some k => JsObject.get row k
  | None => VNull
  end.

(** Specification, 4.2: the columns are visited in insertion order. *)
Definition resolve_spec (row : object num) (candidates : list string) : value num :=
  first_match (name_contains candidates) row (map fst row).

End Resolver.

(* ------------------------------------------------------------------------- *)
(** ** Pseudo-random draws *)

(** One result of [Math.random()]: the rational [d_num / d_den], at least 0
    and below 1. *)
Record draw : Type := mkDraw {
  d_num : Z;
  d_den : Z;
  d_range : (0 <=? d_num)%Z && (d_num <? d_den)%Z = true
}.

(** [Math.floor(r * p / q)], for a positive scale [p / q]. *)
Definition floor_scaled (r : draw) (p q : Z) : Z :=
  (d_num r * p / (d_den r * q))%Z.

(** [Math.floor(Math.random() * n)] *)
Definition floor_random (r : draw) (n : Z) : Z := floor_scaled r n 1.

(** [r < p / q] *)
Definition random_lt (r : draw) (p q : Z) : bool :=
  (d_num r * q <? p * d_den r)%Z.

(* ------------------------------------------------------------------------- *)
(** ** The store *)

Section Store.
Context {num : Type} `{JsNumber num}.

Record University : Type := mkUniversity {
  u_id : Z;
  u_name : string;
  u_country : string;
  u_type : string
}.

Record Journal : Type := mkJournal {
  j_id : Z;
  j_title : string;
  j_issn : value num;
  j_publisher : value num;
  j_subject_area : value num;
  j_keywords : string;
  j_description : string
}.

Record Subscription : Type := mkSubscription {
  s_id : Z;
  s_university_id : Z;
  s_journal_id : Z;
  s_subscription_type : string;
  s_start_date : string;
  s_end_date : string;
  s_annual_cost : num;
  s_status : string;
  s_usage_count : Z
}.

(** [b_view_date] is a day, counted from a fixed one; see [date_days_ago]. *)
Record BrowsingHistoryEvent : Type := mkBrowsing {
  b_id : Z;
  b_university_id : Z;
  b_journal_id : Z;
  b_view_date : Z;
  b_view_count : Z;
  b_session_duration : Z;
  b_pages_viewed : Z;
  b_downloaded_samples : Z;
  b_requested_trial : Z
}.

(** The four tables in rowid order, and the AUTOINCREMENT counters. *)
Record Store : Type := mkStore {
  universities : list University;
  journals : list Journal;
  subscriptions : list Subscription;
  browsing_history : list BrowsingHistoryEvent;
  seq_universities : Z;
  seq_journals : Z;
  seq_subscriptions : Z;
  seq_browsing_history : Z
}.

Definition empty_store : Store := mkStore [] [] [] [] 0 0 0 0.

(** The statements the pipeline issues, with their bound parameters. *)
Inductive Stmt : Type :=
| SelectUniversity (name : string)
| InsertUniversity (name country type : string)
| DeleteSubscriptions (university_id : Z)
| DeleteBrowsingHistory (university_id : Z)
| SelectJournal (title : value num)
| InsertJournal (title issn publisher subject_area : value num)
                (keywords description : string)
| InsertSubscription (university_id journal_id : Z)
                     (subscription_type start_date end_date : string)
                     (annual_cost : num) (status : string) (usage_count : Z)
| InsertBrowsingHistory (university_id journal_id view_date view_count
                         session_duration pages_viewed downloaded_samples
                         requested_trial : Z).

(** What a callback receives: the row of a [db.get], [this.lastID] of a
    [db.run], or an error. *)
Inductive Result : Type :=
| RRow (id : option Z)
| RDone (lastID : Z)
| RError.

(** A parameter compared with, or stored into, a TEXT column: booleans
    are bound as 0 and 1, [null] and [undefined] as NULL. *)
Definition sql_text (v : value num) : option string :=
  match v with
  | VStr s => Some s
  | VNum n => num_sql_text n
  | VBool true => Some "1"
  | VBool false => Some "0"
  | VNull | VUndefined => None
  end.

Definition title_is (v : value num) (j : Journal) : bool :=
  match sql_text v with
  | Some t => seq (j_title j) t
  | None => false
  end.

Definition exec (s : Stmt) (db : Store) : Store * Result :=
  match s with
  | SelectUniversity name =>
      (db, RRow (option_map u_id
                   (find (fun u => seq (u_name u) name) (universities db))))
  | InsertUniversity name country type =>
      if existsb (fun u => seq (u_name u) name) (universities db)
      then (db, RError)
      else
        let id := (seq_universities db + 1)%Z in
        (mkStore (universities db ++ [mkUniversity id name country type])
                 (journals db) (subscriptions db) (browsing_history db)
                 id (seq_journals db) (seq_subscriptions db)
                 (seq_browsing_history db),
         RDone id)
  | DeleteSubscriptions uid =>
      (mkStore (universities db) (journals db)
               (filter (fun s => negb (s_university_id s =? uid)%Z)
                       (subscriptions db))
               (browsing_history db)
               (seq_universities db) (seq_journals db) (seq_subscriptions db)
               (seq_browsing_history db),
       RDone 0%Z)
  | DeleteBrowsingHistory uid =>
      (mkStore (universities db) (journals db) (subscriptions db)
               (filter (fun b => negb (b_university_id b =? uid)%Z)
                       (browsing_history db))
               (seq_universities db) (seq_journals db) (seq_subscriptions db)
               (seq_browsing_history db),
       RDone 0%Z)
  | SelectJournal title =>
      (db, RRow (option_map j_id (find (title_is title) (journals db))))
  | InsertJournal title issn publisher subject keywords description =>
      match sql_text title with
      | None => (db, RError)
      | Some t =>
          let id := (seq_journals db + 1)%Z in
          (mkStore (universities db)
                   (journals db
                    ++ [mkJournal id t issn publisher subject keywords description])
                   (subscriptions db) (browsing_history db)
                   (seq_universities db) id (seq_subscriptions db)
                   (seq_browsing_history db),
           RDone id)
      end
  | InsertSubscription uid jid type start_date end_date cost status usage =>
      let id := (seq_subscriptions db + 1)%Z in
      (mkStore (universities db) (journals db)
               (subscriptions db
                ++ [mkSubscription id uid jid type start_date end_date cost
                                   status usage])
               (browsing_history db)
               (seq_universities db) (seq_journals db) id
               (seq_browsing_history db),
       RDone id)
  | InsertBrowsingHistory uid jid view_date view_count duration pages samples
                          trial =>
      let id := (seq_browsing_history db + 1)%Z in
      (mkStore (universities db) (journals db) (subscriptions db)
               (browsing_history db
                ++ [mkBrowsing id uid jid view_date view_count duration pages
                               samples trial])
               (seq_universities db) (seq_journals db) (seq_subscriptions db)
               id,
       RDone id)
  end.

End Store.

Arguments University : clear implicits.
Arguments Journal : clear implicits.
Arguments Subscription : clear implicits.
Arguments Store : clear implicits.
Arguments Stmt : clear implicits.

(* ------------------------------------------------------------------------- *)
(** ** The event loop *)

Inductive PromiseState : Type :=
| Pending
| Resolved
| Rejected (message : string).

(** Console output of the batch loop and of the row loop. *)
Inductive LogEvent : Type :=
| LogProcessing (filename : string)
| LogProcessed (filename : string)
| LogFileError (filename message : string)
| LogAllProcessed
| LogNoTitle (index : nat).

Section EventLoop.
Context {num : Type} `{JsNumber num}.

(** The callbacks that wait on a statement: [R] is what the row
    callbacks close over. *)
Inductive Cont (R : Type) : Type :=
| KUniversityLookup (universityName : string) (data : list (object num))
| KUniversityInsert (universityName : string) (data : list (object num))
| KJournalLookup (row : R)
| KJournalInsert (row : R).

Variable R : Type.

Definition Task : Type := (Stmt num * option (Cont R))%type.

(** The JavaScript side: the statements handed to the connection and not
    yet completed, the sequence [Math.random()] walks through, the clock,
    the console, and the variables of the file being ingested (its
    promise, [processed], [errors] and [data.length]).

    The clock is read through the three lines
    [const viewDate = new Date(); viewDate.setDate(viewDate.getDate() - daysAgo);
    viewDate.toISOString().split('T')[0]] only.  [setDate] moves the local
    calendar and [toISOString] prints the UTC date, so what they come to
    depends on the instant and on the offsets of the local zone on both
    days: [date_days_ago n d] is the day they name when [new Date()] is taken
    after [n] calls of [Math.random()] with [daysAgo] at [d], and nothing
    is assumed of it. *)
Record Js : Type := mkJs {
  queue : list Task;
  random : nat -> draw;
  drawn : nat;
  date_days_ago : nat -> Z -> Z;
  console : list LogEvent;
  promise : PromiseState;
  processed : nat;
  errors : nat;
  data_length : nat;
  crashed : bool
}.

Definition set_queue (q : list Task) (js : Js) : Js :=
  mkJs q (random js) (drawn js) (date_days_ago js) (console js) (promise js)
       (processed js) (errors js) (data_length js) (crashed js).

(** [db.run(sql, params)] without a callback *)
Definition db_run (s : Stmt num) (js : Js) : Js :=
  set_queue (queue js ++ [(s, None)]) js.

(** [db.get(sql, params, callback)], [db.run(sql, params, callback)] *)
Definition db_call (s : Stmt num) (k : Cont R) (js : Js) : Js :=
  set_queue (queue js ++ [(s, Some k)]) js.

Definition Math_random (js : Js) : draw * Js :=
  (random js (drawn js),
   mkJs (queue js) (random js) (S (drawn js)) (date_days_ago js) (console js)
        (promise js) (processed js) (errors js) (data_length js) (crashed js)).

Definition console_log (e : LogEvent) (js : Js) : Js :=
  mkJs (queue js) (random js) (drawn js) (date_days_ago js) (console js ++ [e])
       (promise js) (processed js) (errors js) (data_length js) (crashed js).

Definition settle (p : PromiseState) (js : Js) : Js :=
  match promise js with
  | Pending =>
      mkJs (queue js) (random js) (drawn js) (date_days_ago js) (console js) p
           (processed js) (errors js) (data_length js) (crashed js)
  | _ => js
  end.

Definition resolve (js : Js) : Js := settle Resolved js.
Definition reject (message : string) (js : Js) : Js := settle (Rejected message) js.

(** [new Promise(...)] for the next file: fresh closure variables. *)
Definition new_promise (n : nat) (js : Js) : Js :=
  mkJs (queue js) (random js) (drawn js) (date_days_ago js) (console js) Pending
       0 0 n (crashed js).

(** [processed++] *)
Definition incr_processed (js : Js) : Js :=
  mkJs (queue js) (random js) (drawn js) (date_days_ago js) (console js)
       (promise js) (S (processed js)) (errors js) (data_length js) (crashed js).

(** [errors++] *)
Definition incr_errors (js : Js) : Js :=
  mkJs (queue js) (random js) (drawn js) (date_days_ago js) (console js)
       (promise js) (processed js) (S (errors js)) (data_length js) (crashed js).

(** An exception that leaves a callback is uncaught: the process ends. *)
Definition uncaught (js : Js) : Js :=
  mkJs (queue js) (random js) (drawn js) (date_days_ago js) (console js)
       (promise js) (processed js) (errors js) (data_length js) true.

Definition settled (js : Js) : bool :=
  match promise js with Pending => false | _ => true end.

Record Machine : Type := mkMachine {
  store : Store num;
  js : Js
}.

(** What each variant supplies: its callbacks. *)
Variable resume : Cont R -> Result -> Js -> Js.

(** The oldest statement completes and its callback runs: the order in
    which a connection completes statements that were issued one after
    the other, when nothing overtakes.  The servers serialise the
    creation of their tables only, so while files are ingested the
    connection is in parallel mode and that order is not promised; see
    [step_at]. *)
Definition step (m : Machine) : option Machine :=
  if crashed (js m) then None
  else
    match queue (js m) with
    | [] => None
    | (s, k) :: q =>
        let (db, r) := exec s (store m) in
        let js1 := set_queue q (js m) in
        Some (mkMachine db
                        match k with
                        | None => js1
                        | Some k => resume k r js1
                        end)
    end.

(** At most [fuel] completions. *)
Fixpoint run (fuel : nat) (m : Machine) : Machine :=
  match fuel with
  | O => m
  | S fuel' =>
      match step m with
      | None => m
      | Some m' => run fuel' m'
      end
  end.

(** The queue with one of its statements brought to the front: the one
    at the place [i], counted round the queue. *)
Definition to_front (i : nat) (q : list Task) : option (list Task) :=
  let n := (i mod List.length q)%nat in
  match nth_error q n with
  | Some t => Some (t :: firstn n q ++ skipn (S n) q)
  | None => None
  end.

(** Any statement in flight may be the next to complete: [step_at i] has
    the one at the place [i] complete and its callback run, the others
    staying in flight as they were.  A completion is the statement acting
    on the database followed by its callback.  Taking the callback at once
    loses no run: a callback reads nothing of the database but the result
    handed to it, and what it issues completes when it will.  [step] is
    [step_at 0]. *)
Definition step_at (i : nat) (m : Machine) : option Machine :=
  match to_front i (queue (js m)) with
  | Some q => step (mkMachine (store m) (set_queue q (js m)))
  | None => None
  end.

(** The completions [order] names, one after the other, each entry the
    place in the queue of the statement that completes; an entry that
    comes when nothing is in flight, or after the process has died, is
    passed over. *)
Fixpoint run_in (order : list nat) (m : Machine) : Machine :=
  match order with
  | [] => m
  | i :: rest =>
      match step_at i m with
      | Some m' => run_in rest m'
      | None => run_in rest m
      end
  end.

(** [await]: completions until the promise of the current file settles. *)
Fixpoint run_until_settled (fuel : nat) (m : Machine) : Machine :=
  match fuel with
  | O => m
  | S fuel' =>
      if settled (js m) then m
      else
        match step m with
        | None => m
        | Some m' => run_until_settled fuel' m'
        end
  end.

(** A bound on the completions a queue can still cause, from a bound
    [kweight] on what each callback can cause. *)
Variable kweight : Cont R -> nat.

Definition task_weight (t : Task) : nat :=
  match snd t with
  | None => 1
  | Some k => S (kweight k)
  end.

Definition budget (q : list Task) : nat :=
  fold_right (fun t n => task_weight t + n) 0 q.

Definition drain (m : Machine) : Machine := run (budget (queue (js m))) m.

Definition await (m : Machine) : Machine :=
  run_until_settled (budget (queue (js m))) m.

(** Nothing is left to happen. *)
Definition quiescent (m : Machine) : Prop :=
  crashed (js m) = true \/ queue (js m) = [].

End EventLoop.

Arguments Js : clear implicits.
Arguments Machine : clear implicits.
Arguments Task : clear implicits.
Arguments Cont : clear implicits.
Arguments KUniversityLookup {num R} universityName data.
Arguments KUniversityInsert {num R} universityName data.
Arguments KJournalLookup {num R} row.
Arguments KJournalInsert {num R} row.

(** A clock for the examples: one instant, in a zone whose UTC offset
    never changes, so that going back [daysAgo] days on the local calendar
    is going back as many UTC dates from day [today]. *)
Definition steady_clock (today : Z) : nat -> Z -> Z :=
  fun _ daysAgo => (today - daysAgo)%Z.

(** A workbook: its sheets in order, each with the rows [sheet_to_json]
    makes of it. *)
Definition Workbook (num : Type) : Type := list (string * list (object num)).

(** How a batch ends: every file was handled; or the promise of a file
    never settles and the files after it are never started; or the process
    died. *)
Inductive BatchOutcome : Type :=
| AllFilesHandled
| Suspended (filename : string) (not_started : list string)
| Died.

(* ------------------------------------------------------------------------- *)
(** ** String helpers of the file-name and keyword code *)

Module Text.

Definition ends_with (s suffix : string) : bool :=
  String.prefix (string_of_list_ascii (rev (list_ascii_of_string suffix)))
                (string_of_list_ascii (rev (list_ascii_of_string s))).

Definition drop_last (n : nat) (s : string) : string :=
  substring 0 (String.length s - n)%nat s.

Definition is_digit (c : ascii) : bool :=
  let n := code c in ((48 <=? n) && (n <=? 57))%N.

Fixpoint all_digits (s : string) : bool :=
  match s with
  | EmptyString => true
  | String c s' => is_digit c && all_digits s'
  end.

(** [s.replace(/_/g, ' ')] *)
Fixpoint underscores_to_spaces (s : string) : string :=
  match s with
  | EmptyString => EmptyString
  | String c s' =>
      String (if Ascii.eqb c "_" then " "%char else c) (underscores_to_spaces s')
  end.

(** [/_\d{8}_\d{6}$/] matches [s] *)
Definition has_timestamp (s : string) : bool :=
  let n := String.length s in
  (16 <=? n)%nat
  && seq (substring (n - 16)%nat 1 s) "_"
  && all_digits (substring (n - 15)%nat 8 s)
  && seq (substring (n - 7)%nat 1 s) "_"
  && all_digits (substring (n - 6)%nat 6 s).

(** [array.join(', ')] *)
Definition join (l : list string) : string := String.concat ", " l.

End Text.

(* ------------------------------------------------------------------------- *)
(** ** Observing the statements a piece of code issues *)

Section Observations.
Context {num : Type} {R : Type}.

(** A statement issued without a callback. *)
Definition passive (s : Stmt num) : Task num R := (s, None).

(** [t] inserts a browsing event of university [uid] and journal [jid],
    and has no callback. *)
Definition is_browsing_of (uid jid : Z) (t : Task num R) : bool :=
  match t with
  | (InsertBrowsingHistory u j _ _ _ _ _ _, None) => (u =? uid)%Z && (j =? jid)%Z
  | _ => false
  end.

(** The [requested_trial] parameter of a browsing insert. *)
Definition requested_trial (t : Task num R) : option Z :=
  match fst t with
  | InsertBrowsingHistory _ _ _ _ _ _ _ trial => Some trial
  | _ => None
  end.

(** A browsing insert of the pair [(uid, jid)] whose trial flag is 0 or
    1, and 0 when [never_trial] is set. *)
Definition browsing_ok (uid jid : Z) (never_trial : bool) (t : Task num R) : Prop :=
  is_browsing_of uid jid t = true
  /\ (never_trial = true -> requested_trial t = Some 0%Z)
  /\ (requested_trial t = Some 0%Z \/ requested_trial t = Some 1%Z).


End Observations.

(* ------------------------------------------------------------------------- *)
(** ** What a re-ingestion leaves of a university's rows *)

Section Audit.
Context {num : Type} `{JsNumber num} {R : Type}.

(** The store once a queue of statements without callbacks has completed. *)
Fixpoint complete (q : list (Task num R)) (db : Store num) : Store num :=
  match q with
  | [] => db
  | t :: q' => complete q' (fst (exec (fst t) db))
  end.

(** What an audit looks at: what the row closures of a variant expose,
    the university being re-ingested, the row closures its file gives rise
    to, and the AUTOINCREMENT counters of the two tables as they stood when
    the statements of earlier ingestions had completed. *)
Record View : Type := mkView {
  universityId_of : R -> Z;
  journalTitle_of : R -> value num;
  subscribed_of : R -> bool;
  uid : Z;
  from_file : R -> Prop;
  mark_subscriptions : Z;
  mark_browsing : Z
}.

Variable V : View.

(** [jid] is a journal that carries the title of a row of the file, a
    subscribed row when [subscribed] is set. *)
Definition journal_of_file (db : Store num) (jid : Z) (subscribed : bool) : Prop :=
  exists ctx j,
    from_file V ctx
    /\ (subscribed = true -> subscribed_of V ctx = true)
    /\ In j (journals db) /\ j_id j = jid
    /\ title_is (journalTitle_of V ctx) j = true.

Definition subscription_ok (db : Store num) (s : Subscription num) : Prop :=
  (mark_subscriptions V < s_id s)%Z
  /\ s_subscription_type s = "institutional"
  /\ s_start_date s = "2024-01-01"
  /\ s_end_date s = "2024-12-31"
  /\ s_status s = "active"
  /\ journal_of_file db (s_journal_id s) true.

Definition browsing_event_ok (db : Store num) (b : BrowsingHistoryEvent) : Prop :=
  (mark_browsing V < b_id b)%Z /\ journal_of_file db (b_journal_id b) false.

(** The only statements in flight are those of the file. *)
Definition task_ok (db : Store num) (t : Task num R) : Prop :=
  match t with
  | (InsertSubscription u jid type start_date end_date _ status _, None) =>
      u = uid V /\ type = "institutional" /\ start_date = "2024-01-01"
      /\ end_date = "2024-12-31" /\ status = "active"
      /\ journal_of_file db jid true
  | (InsertBrowsingHistory u jid _ _ _ _ _ _, None) =>
      u = uid V /\ journal_of_file db jid false
  | (SelectJournal title, Some (KJournalLookup ctx)) =>
      title = journalTitle_of V ctx /\ from_file V ctx /\ universityId_of V ctx = uid V
  | (InsertJournal title _ _ _ _ _, Some (KJournalInsert ctx)) =>
      title = journalTitle_of V ctx /\ from_file V ctx /\ universityId_of V ctx = uid V
      /\ exists s, title = VStr s
  | _ => False
  end.

(** The subscription inserts a queue will still lead to. *)
Definition pending_subscription (t : Task num R) : nat :=
  match t with
  | (InsertSubscription _ _ _ _ _ _ _ _, None) => 1
  | (SelectJournal _, Some (KJournalLookup ctx)) =>
      if subscribed_of V ctx then 1 else 0
  | (InsertJournal _ _ _ _ _ _, Some (KJournalInsert ctx)) =>
      if subscribed_of V ctx then 1 else 0
  | _ => 0
  end.

Definition pending_subscriptions (q : list (Task num R)) : nat :=
  list_sum (map pending_subscription q).

Definition subscriptions_of (db : Store num) : list (Subscription num) :=
  filter (fun s => (s_university_id s =? uid V)%Z) (subscriptions db).

Definition browsing_of (db : Store num) : list BrowsingHistoryEvent :=
  filter (fun b => (b_university_id b =? uid V)%Z) (browsing_history db).

(** The state of a re-ingestion from the moment its two deletes have
    completed: every row of the university is a row of this file, and the
    subscriptions made and still to be made add up to [expected]. *)
Definition audit (name : string) (expected : nat) (m : Machine num R) : Prop :=
  (exists u, In u (universities (store m)) /\ u_id u = uid V /\ u_name u = name)
  /\ (mark_subscriptions V <= seq_subscriptions (store m))%Z
  /\ (mark_browsing V <= seq_browsing_history (store m))%Z
  /\ Forall (subscription_ok (store m)) (subscriptions_of (store m))
  /\ Forall (browsing_event_ok (store m)) (browsing_of (store m))
  /\ Forall (task_ok (store m)) (queue (js m))
  /\ (crashed (js m) = false ->
      (List.length (subscriptions_of (store m))
       + pending_subscriptions (queue (js m)))%nat = expected).

End Audit.

Arguments View : clear implicits.


(* ------------------------------------------------------------------------- *)
(** ** The pipeline of app1.js and of the unnamed variant *)

(** The two files differ in the literals of the browsing synthesis only:
    [Math.floor(Math.random() * n) + k] is kept as the pair [(n, k)], and the
    trial probability as a fraction. *)
Record Policy : Type := mkPolicy {
  sessions_subscribed : Z * Z;
  sessions_other : Z * Z;
  view_count_range : Z * Z;
  session_duration_range : Z * Z;
  pages_viewed_range : Z * Z;
  trial_probability : Z * Z
}.

Definition option_bind {A B : Type} (x : option A) (f : A -> option B) : option B :=
  match x with Some a => f a | None => None end.

Notation "x <- e ;; k" := (option_bind e (fun x => k))
  (at level 61, e at next level, right associativity).

(** [v.toLowerCase()]: a TypeError unless [v] is a string. *)
Definition js_toLowerCase {num} (v : value num) : option string :=
  match v with VStr s => Some (toLowerCase s) | _ => None end.

Module App1.

(** app1.js *)
Definition policy : Policy :=
  mkPolicy (8, 3)%Z (20, 8)%Z (6, 1)%Z (1500, 300)%Z (12, 2)%Z (1, 4)%Z.

Definition title_keys : list string :=
  ["journal"; "title"; "publication"; "name"; "journal_title"].
Definition current_keys : list string :=
  ["current"; "current_year"; "2024"; "subscribed"].
Definition publisher_keys : list string := ["publisher"; "company"].
Definition subject_keys : list string := ["subject"; "category"; "area"].
Definition cost_keys : list string := ["cost"; "price"; "amount"].

(** The least and the greatest value of
    [Math.floor(Math.random() * 30000) + 20000]. *)
Definition fallbackRange : Z * Z := (20000, 49999)%Z.

Definition extractUniversityName (filename : string) : string :=
  let lower := toLowerCase filename in
  let name :=
    if Text.ends_with lower ".xlsx" then Text.drop_last 5 filename
    else if Text.ends_with lower ".xls" then Text.drop_last 4 filename
    else filename in
  let name :=
    if String.prefix "Export_" name
    then substring 7 (String.length name - 7) name else name in
  let name :=
    if Text.has_timestamp name then Text.drop_last 16 name else name in
  Text.underscores_to_spaces name.

Definition countryMap : list (string * list string) :=
  [("Singapore", ["National University of Singapore";
                  "Nanyang Technological University"]);
   ("Thailand", ["Mahidol University"]);
   ("Denmark", ["Aalborg University"])].

Definition getCountryFromName (universityName : string) : string :=
  match find (fun entry => existsb (fun uni => includes universityName uni)
                                   (snd entry)) countryMap with
  | Some entry => fst entry
  | None => "Unknown"
  end.

Section Pipeline.
Context {num : Type} `{JsNumber num}.
Variable P : Policy.

(** [None] is the TypeError of [toLowerCase] on a cell that is not a
    string. *)
Definition generateJournalKeywords (title subject : value num) : option string :=
  k1 <- (if falsy title then Some []
         else t <- js_toLowerCase title ;; Some [t]) ;;
  k2 <- (if falsy subject then Some k1
         else s <- js_toLowerCase subject ;; Some (k1 ++ [s])) ;;
  titleLower <- js_toLowerCase title ;;
  let k3 :=
    if includes titleLower "business" || includes titleLower "strategy"
    then k2 ++ ["business strategy"; "management"; "strategic planning"]
    else k2 in
  let k4 :=
    if includes titleLower "ai" || includes titleLower "artificial intelligence"
    then k3 ++ ["artificial intelligence"; "machine learning"; "AI strategy"]
    else k3 in
  let k5 :=
    if includes titleLower "technology" || includes titleLower "digital"
    then k4 ++ ["technology strategy"; "digital transformation"; "innovation"]
    else k4 in
  Some (Text.join k5).

(** What the callbacks of one row close over. *)
Record RowData : Type := mkRowData {
  universityId : Z;
  universityName : string;
  journalTitle : value num;
  isSubscribed : bool;
  publisher : value num;
  subject : value num;
  cost : num
}.

Definition State : Type := Js num RowData.

(** The [for] loop of [createSubscriptionData], [n] sessions to go. *)
Fixpoint browsing_loop (n : nat) (row : RowData) (journalId : Z)
         (js : State) : State :=
  match n with
  | O => js
  | S n' =>
      let (r1, js) := Math_random js in
      let daysAgo := floor_random r1 365 in
      let viewDate := date_days_ago js (drawn js) daysAgo in
      let (r2, js) := Math_random js in
      let (r3, js) := Math_random js in
      let (r4, js) := Math_random js in
      let (trial, js) :=
        if isSubscribed row then (0%Z, js)
        else
          let (r5, js) := Math_random js in
          (if random_lt r5 (fst (trial_probability P)) (snd (trial_probability P))
           then 1%Z else 0%Z, js) in
      let js :=
        db_run (InsertBrowsingHistory
                  (universityId row) journalId viewDate
                  (floor_random r2 (fst (view_count_range P))
                   + snd (view_count_range P))%Z
                  (floor_random r3 (fst (session_duration_range P))
                   + snd (session_duration_range P))%Z
                  (floor_random r4 (fst (pages_viewed_range P))
                   + snd (pages_viewed_range P))%Z
                  0%Z trial) js in
      browsing_loop n' row journalId js
  end.

(** What [createSubscriptionData] issues for the subscription of a
    row: one insert when the row is subscribed, nothing otherwise. *)
Definition subscription_of (row : RowData) (journalId : Z)
  : list (Task num RowData) :=
  if isSubscribed row
  then [passive (InsertSubscription (universityId row) journalId
                   "institutional" "2024-01-01" "2024-12-31" (cost row)
                   "active" 0%Z)]
  else [].

Definition createSubscriptionData (row : RowData) (journalId : Z)
           (js : State) : State :=
  let js :=
    if isSubscribed row
    then db_run (InsertSubscription (universityId row) journalId
                   "institutional" "2024-01-01" "2024-12-31" (cost row)
                   "active" 0%Z) js
    else js in
  let (r, js) := Math_random js in
  let sessions :=
    if isSubscribed row
    then (floor_random r (fst (sessions_subscribed P))
          + snd (sessions_subscribed P))%Z
    else (floor_random r (fst (sessions_other P)) + snd (sessions_other P))%Z in
  let js := browsing_loop (Z.to_nat sessions) row journalId js in
  let js := incr_processed js in
  if (data_length js <=? processed js)%nat then resolve js else js.

(** [parsed || Math.floor(Math.random() * 30000) + 20000] *)
Definition cost_or_fallback (parsed : num) (js : State) : num * State :=
  if num_falsy parsed
  then let (r, js) := Math_random js in
       (num_of_Z (floor_random r 30000 + 20000), js)
  else (parsed, js).

(** The body of [data.forEach] in [processSubscriptionData]. *)
Definition forEach_row (universityId : Z) (universityName : string)
           (row : object num) (index : nat) (js : State) : State :=
  let journalTitle := findValue row title_keys in
  if falsy journalTitle then console_log (LogNoTitle index) js
  else
    let currentSub := findValue row current_keys in
    let isSubscribed := parseBoolean currentSub in
    let publisher := js_or (findValue row publisher_keys) (VStr "Unknown") in
    let subject := js_or (findValue row subject_keys) (VStr "General") in
    let (cost, js) :=
      cost_or_fallback (parseFloat (to_String (findValue row cost_keys))) js in
    db_call (SelectJournal journalTitle)
            (KJournalLookup
               (mkRowData universityId universityName journalTitle
                          isSubscribed publisher subject cost))
            js.

Fixpoint forEach (universityId : Z) (universityName : string)
         (data : list (object num)) (index : nat) (js : State) : State :=
  match data with
  | [] => js
  | row :: rest =>
      forEach universityId universityName rest (S index)
              (forEach_row universityId universityName row index js)
  end.

Definition processSubscriptionData (universityId : Z) (universityName : string)
           (data : list (object num)) (js : State) : State :=
  let js := db_run (DeleteSubscriptions universityId) js in
  let js := db_run (DeleteBrowsingHistory universityId) js in
  forEach universityId universityName data 0 js.

(** The callbacks of [processExcelFile].  A [db.get] callback never
    sees [RDone] and a [db.run] callback never sees [RRow]; those cases
    leave the state alone. *)
Definition resume (k : Cont num RowData) (r : Result) (js : State) : State :=
  match k, r with
  | KUniversityLookup _ _, RError => reject "SQLITE_ERROR" js
  | KUniversityLookup name data, RRow (Some id) =>
      processSubscriptionData id name data js
  | KUniversityLookup name data, RRow None =>
      db_call (InsertUniversity name (getCountryFromName name) "Public")
              (KUniversityInsert name data) js
  | KUniversityInsert _ _, RError => reject "SQLITE_CONSTRAINT" js
  | KUniversityInsert name data, RDone lastID =>
      processSubscriptionData lastID name data js
  | KJournalLookup _, RError => js
  | KJournalLookup row, RRow (Some id) => createSubscriptionData row id js
  | KJournalLookup row, RRow None =>
      match generateJournalKeywords (journalTitle row) (subject row) with
      | None => uncaught js
      | Some keywords =>
          db_call (InsertJournal (journalTitle row) VUndefined (publisher row)
                     (subject row) keywords
                     ("Journal from " ++ universityName row))
                  (KJournalInsert row) js
      end
  | KJournalInsert _, RError => js
  | KJournalInsert row, RDone lastID => createSubscriptionData row lastID js
  | _, _ => js
  end.

(** [XLSX.utils.sheet_to_json(workbook.Sheets[workbook.SheetNames[0]])];
    a workbook without sheets gives no rows. *)
Definition first_sheet (workbook : Workbook num) : list (object num) :=
  match workbook with
  | [] => []
  | (_, data) :: _ => data
  end.

(** The executor of the promise [processExcelFile] returns. *)
Definition processExcelFile (workbook : Workbook num) (filename : string)
           (js : State) : State :=
  let universityName := extractUniversityName filename in
  let data := first_sheet workbook in
  let js := new_promise (List.length data) js in
  match data with
  | [] => resolve js
  | _ =>
      db_call (SelectUniversity universityName)
              (KUniversityLookup universityName data) js
  end.

(** A row that leads to a subscription: it has a title and its flag
    parses to true. *)
Definition subscribed_row (row : object num) : bool :=
  negb (falsy (findValue row title_keys))
  && parseBoolean (findValue row current_keys).

(** The audit of the re-ingestion of [data] for the university [uid]. *)
Definition view (uid : Z) (data : list (object num))
           (mark_subscriptions mark_browsing : Z) : View num RowData :=
  mkView universityId journalTitle isSubscribed uid
         (fun ctx =>
            exists row,
              In row data
              /\ journalTitle ctx = findValue row title_keys
              /\ falsy (journalTitle ctx) = false
              /\ isSubscribed ctx = parseBoolean (findValue row current_keys))
         mark_subscriptions mark_browsing.

(** A bound on the sessions one row can synthesise. *)
Definition max_sessions : nat :=
  Nat.max
    (Z.to_nat (Z.max 0 (fst (sessions_subscribed P))
               + Z.max 0 (snd (sessions_subscribed P))))
    (Z.to_nat (Z.max 0 (fst (sessions_other P))
               + Z.max 0 (snd (sessions_other P)))).

Definition kweight (k : Cont num RowData) : nat :=
  match k with
  | KJournalInsert _ => S max_sessions
  | KJournalLookup _ => S (S (S max_sessions))
  | KUniversityInsert _ data => 2 + List.length data * (4 + max_sessions)
  | KUniversityLookup _ data => 4 + List.length data * (4 + max_sessions)
  end.

Definition on_js (f : State -> State) (m : Machine num RowData) : Machine num RowData :=
  mkMachine (store m) (f (js m)).

(** The [for] loop of [processAllExcelFiles]; [readFile] is
    [XLSX.readFile] on the data folder, an error message when it
    throws. *)
Fixpoint files_loop (readFile : string -> Workbook num + string)
         (files : list string) (m : Machine num RowData)
  : Machine num RowData * BatchOutcome :=
  match files with
  | [] => (m, AllFilesHandled)
  | filename :: rest =>
      let m := on_js (console_log (LogProcessing filename)) m in
      match readFile filename with
      | inr message =>
          files_loop readFile rest
            (on_js (console_log (LogFileError filename message)) m)
      | inl workbook =>
          let m := await resume kweight
                         (on_js (processExcelFile workbook filename) m) in
          if crashed (js m) then (m, Died)
          else
            match promise (js m) with
            | Resolved =>
                files_loop readFile rest
                  (on_js (console_log (LogProcessed filename)) m)
            | Rejected message =>
                files_loop readFile rest
                  (on_js (console_log (LogFileError filename message)) m)
            | Pending => (m, Suspended filename rest)
            end
      end
  end.

Definition processAllExcelFiles (readFile : string -> Workbook num + string)
           (files : list string) (m : Machine num RowData)
  : Machine num RowData * BatchOutcome :=
  match files_loop readFile files m with
  | (m', AllFilesHandled) =>
      (on_js (console_log LogAllProcessed) m', AllFilesHandled)
  | stuck => stuck
  end.

(** The batch, and then whatever the connection still holds. *)
Definition ingest (readFile : string -> Workbook num + string)
           (files : list string) (m : Machine num RowData)
  : Machine num RowData * BatchOutcome :=
  let (m', outcome) := processAllExcelFiles readFile files m in
  (drain resume kweight m', outcome).

End Pipeline.

Arguments RowData : clear implicits.
Arguments State : clear implicits.

End App1.

Module Unnamed.

(** The unnamed variant: the code of app1.js with other literals. *)
Definition policy : Policy :=
  mkPolicy (5, 2)%Z (15, 5)%Z (5, 1)%Z (1200, 180)%Z (10, 1)%Z (3, 10)%Z.

End Unnamed.

(* ------------------------------------------------------------------------- *)
(** ** The pipeline of app5.js *)

Module App5.

Definition title_names : list string :=
  ["journal"; "journal title"; "title"; "publication"; "name";
   "journal name"; "publication title"].
Definition current_names : list string :=
  ["current year"; "current"; "2024"; "subscribed"; "active";
   "this year"; "current subscription"].
Definition publisher_names : list string :=
  ["publisher"; "company"; "provider"; "publishing house"].
Definition subject_names : list string :=
  ["subject"; "subject area"; "category"; "field"; "discipline";
   "research area"; "domain"].
Definition cost_names : list string :=
  ["cost"; "price"; "amount"; "fee"; "annual cost"; "subscription cost"].
Definition issn_names : list string := ["issn"; "isbn"; "identifier"].

(** The least and the greatest value of
    [Math.floor(Math.random() * 40000) + 15000]. *)
Definition fallbackRange : Z * Z := (15000, 54999)%Z.

Definition patterns : list (string * string) :=
  [("national_university_of_singapore", "National University of Singapore");
   ("nanyang_technological_university", "Nanyang Technological University");
   ("mahidol_university", "Mahidol University");
   ("aalborg_university", "Aalborg University")].

(** [None] is [null].  The patterns are case-insensitive. *)
Definition extractUniversityFromFilename (filename : string) : option string :=
  let lower := toLowerCase filename in
  match find (fun p => includes lower (fst p)) patterns with
  | Some p => Some (snd p)
  | None =>
      if includes lower "nus" || includes lower "singapore"
      then Some "National University of Singapore"
      else None
  end.

Definition countryMap : list (string * list string) :=
  [("Singapore", ["National University of Singapore";
                  "Nanyang Technological University"]);
   ("Thailand", ["Mahidol University"]);
   ("Denmark", ["Aalborg University"]);
   ("Australia", ["University of Melbourne"]);
   ("Japan", ["Tokyo Institute of Technology"])].

Definition getCountryFromUniversity (universityName : string) : string :=
  match find (fun entry => existsb (fun uni => includes universityName uni)
                                   (snd entry)) countryMap with
  | Some entry => fst entry
  | None => "Unknown"
  end.

Section Pipeline.
Context {num : Type} `{JsNumber num}.

Definition generateKeywords (title subject : value num) : option string :=
  k1 <- (if falsy title then Some []
         else t <- js_toLowerCase title ;; Some [t]) ;;
  k2 <- (if falsy subject then Some k1
         else s <- js_toLowerCase subject ;; Some (k1 ++ [s])) ;;
  k3 <- (if falsy title then Some k2
         else t <- js_toLowerCase title ;;
              Some (if includes t "business"
                    then k2 ++ ["business strategy"; "management"; "leadership"]
                    else k2)) ;;
  k4 <- (if falsy title then Some k3
         else t <- js_toLowerCase title ;;
              Some (if includes t "ai"
                    then k3 ++ ["artificial intelligence"; "machine learning";
                                "AI strategy"]
                    else k3)) ;;
  k5 <- (if falsy title then Some k4
         else t <- js_toLowerCase title ;;
              Some (if includes t "medical"
                    then k4 ++ ["medicine"; "healthcare"; "clinical research"]
                    else k4)) ;;
  Some (Text.join k5).

Record RowData : Type := mkRowData {
  universityId : Z;
  universityName : string;
  journalTitle : value num;
  isCurrentlySubscribed : bool;
  publisher : value num;
  subject : value num;
  cost : value num;
  issn : value num
}.

Definition State : Type := Js num RowData.

(** [baseEngagement], 1.5 or 1, as a fraction. *)
Definition baseEngagement (row : RowData) : Z * Z :=
  if isCurrentlySubscribed row then (3, 2)%Z else (1, 1)%Z.

Fixpoint browsing_loop (n : nat) (row : RowData) (journalId : Z)
         (js : State) : State :=
  match n with
  | O => js
  | S n' =>
      let (r1, js) := Math_random js in
      let daysAgo := floor_random r1 365 in
      let viewDate := date_days_ago js (drawn js) daysAgo in
      let e := baseEngagement row in
      let (r2, js) := Math_random js in
      let (r3, js) := Math_random js in
      let (r4, js) := Math_random js in
      let (r5, js) := Math_random js in
      let (r6, js) := Math_random js in
      let js :=
        db_run (InsertBrowsingHistory
                  (universityId row) journalId viewDate
                  (floor_scaled r2 (8 * fst e) (snd e) + 1)%Z
                  (floor_scaled r3 (1500 * fst e) (snd e) + 60)%Z
                  (floor_scaled r4 (15 * fst e) (snd e) + 1)%Z
                  (floor_scaled r5 (4 * fst e) (snd e))
                  (if (if isCurrentlySubscribed row
                       then random_lt r6 1 20 else random_lt r6 1 4)
                   then 1%Z else 0%Z)) js in
      browsing_loop n' row journalId js
  end.

Definition checkCompletion (js : State) : State :=
  if (data_length js <=? processed js + errors js)%nat then resolve js else js.

(** What [insertSubscriptionAndBrowsing] issues for the subscription
    of a row, with the cost and the usage count it settles on. *)
Definition subscription_with (row : RowData) (journalId : Z)
           (annual_cost : num) (usage_count : Z)
  : list (Task num RowData) :=
  if isCurrentlySubscribed row
  then [passive (InsertSubscription (universityId row) journalId
                   "institutional" "2024-01-01" "2024-12-31" annual_cost
                   "active" usage_count)]
  else [].

(** [parsed || Math.floor(Math.random() * 40000) + 15000] *)
Definition cost_or_fallback (parsed : num) (js : State) : num * State :=
  if num_falsy parsed
  then let (r, js) := Math_random js in
       (num_of_Z (floor_random r 40000 + 15000), js)
  else (parsed, js).

Definition insertSubscriptionAndBrowsing (row : RowData) (journalId : Z)
           (js : State) : State :=
  let js :=
    if isCurrentlySubscribed row
    then
      let (annual_cost, js) :=
        cost_or_fallback (parseFloat (to_String (cost row))) js in
      let (r, js) := Math_random js in
      db_run (InsertSubscription (universityId row) journalId
                "institutional" "2024-01-01" "2024-12-31" annual_cost
                "active" (floor_random r 1000 + 200)%Z) js
    else js in
  let (r, js) := Math_random js in
  let numBrowsingSessions :=
    if isCurrentlySubscribed row
    then (floor_random r 10 + 5)%Z
    else (floor_random r 25 + 10)%Z in
  let js := browsing_loop (Z.to_nat numBrowsingSessions) row journalId js in
  let js := incr_processed js in
  checkCompletion js.

(** [!journalTitle || journalTitle.toString().trim() === ''] *)
Definition no_title (journalTitle : value num) : bool :=
  falsy journalTitle || seq (trim (to_String journalTitle)) "".

(** The body of [data.forEach] in [processSheetData]. *)
Definition forEach_row (universityId : Z) (universityName : string)
           (row : object num) (index : nat) (js : State) : State :=
  let journalTitle := findColumnValue row title_names in
  let currentYear := findColumnValue row current_names in
  let publisher := findColumnValue row publisher_names in
  let subject := findColumnValue row subject_names in
  let cost := findColumnValue row cost_names in
  let issn := findColumnValue row issn_names in
  if no_title journalTitle then js
  else
    let isCurrentlySubscribed := parseSubscriptionStatus currentYear in
    db_call (SelectJournal journalTitle)
            (KJournalLookup
               (mkRowData universityId universityName journalTitle
                          isCurrentlySubscribed publisher subject cost issn))
            js.

Fixpoint forEach (universityId : Z) (universityName : string)
         (data : list (object num)) (index : nat) (js : State) : State :=
  match data with
  | [] => js
  | row :: rest =>
      forEach universityId universityName rest (S index)
              (forEach_row universityId universityName row index js)
  end.

Definition processSheetData (universityId : Z) (universityName : string)
           (data : list (object num)) (js : State) : State :=
  match data with
  | [] => resolve js
  | _ =>
      let js := db_run (DeleteSubscriptions universityId) js in
      let js := db_run (DeleteBrowsingHistory universityId) js in
      forEach universityId universityName data 0 js
  end.

Definition resume (k : Cont num RowData) (r : Result) (js : State) : State :=
  match k, r with
  | KUniversityLookup _ _, RError => reject "SQLITE_ERROR" js
  | KUniversityLookup name data, RRow (Some id) =>
      processSheetData id name data js
  | KUniversityLookup name data, RRow None =>
      db_call (InsertUniversity name (getCountryFromUniversity name) "Public")
              (KUniversityInsert name data) js
  | KUniversityInsert _ _, RError => reject "SQLITE_CONSTRAINT" js
  | KUniversityInsert name data, RDone lastID =>
      processSheetData lastID name data js
  | KJournalLookup _, RError => checkCompletion (incr_errors js)
  | KJournalLookup row, RRow (Some id) =>
      insertSubscriptionAndBrowsing row id js
  | KJournalLookup row, RRow None =>
      match generateKeywords (journalTitle row) (subject row) with
      | None => uncaught js
      | Some keywords =>
          db_call (InsertJournal (journalTitle row)
                     (js_or (issn row) (VStr ""))
                     (js_or (publisher row) (VStr "Unknown"))
                     (js_or (subject row) (VStr "General"))
                     keywords
                     ("Journal from " ++ universityName row
                      ++ " subscription data"))
                  (KJournalInsert row) js
      end
  | KJournalInsert _, RError => checkCompletion (incr_errors js)
  | KJournalInsert row, RDone lastID =>
      insertSubscriptionAndBrowsing row lastID js
  | _, _ => js
  end.

Definition is_subscription_sheet (name : string) : bool :=
  let lower := toLowerCase name in
  includes lower "subscription" || includes lower "journal"
  || includes lower "export".

(** The rows of the sheet [processSheetData] reads: the first sheet
    whose name qualifies, else the first sheet. *)
Definition subscription_sheet (workbook : Workbook num) : list (object num) :=
  match find (fun sheet => is_subscription_sheet (fst sheet)) workbook with
  | Some sheet => snd sheet
  | None =>
      match workbook with
      | [] => []
      | sheet :: _ => snd sheet
      end
  end.

(** The executor of the promise [processUniversityExcelFile] returns. *)
Definition processUniversityExcelFile (workbook : Workbook num)
           (filename : string) (js : State) : State :=
  let data := subscription_sheet workbook in
  let js := new_promise (List.length data) js in
  match extractUniversityFromFilename filename with
  | None =>
      reject ("Could not determine university from filename: " ++ filename) js
  | Some universityName =>
      db_call (SelectUniversity universityName)
              (KUniversityLookup universityName data) js
  end.

(** A row that leads to a subscription: it has a title and its flag
    parses to true. *)
Definition subscribed_row (row : object num) : bool :=
  negb (no_title (findColumnValue row title_names))
  && parseSubscriptionStatus (findColumnValue row current_names).

(** The audit of the re-ingestion of [data] for the university [uid]. *)
Definition view (uid : Z) (data : list (object num))
           (mark_subscriptions mark_browsing : Z) : View num RowData :=
  mkView universityId journalTitle isCurrentlySubscribed uid
         (fun ctx =>
            exists row,
              In row data
              /\ journalTitle ctx = findColumnValue row title_names
              /\ no_title (journalTitle ctx) = false
              /\ isCurrentlySubscribed ctx
                 = parseSubscriptionStatus (findColumnValue row current_names))
         mark_subscriptions mark_browsing.

Definition max_sessions : nat := 35.

Definition kweight (k : Cont num RowData) : nat :=
  match k with
  | KJournalInsert _ => S max_sessions
  | KJournalLookup _ => S (S (S max_sessions))
  | KUniversityInsert _ data => 2 + List.length data * (4 + max_sessions)
  | KUniversityLookup _ data => 4 + List.length data * (4 + max_sessions)
  end.

Definition on_js (f : State -> State) (m : Machine num RowData)
  : Machine num RowData :=
  mkMachine (store m) (f (js m)).

(** The [for] loop of [processExcelFilesFromFolder]; the totals it adds
    up are only printed. *)
Fixpoint files_loop (readFile : string -> Workbook num + string)
         (files : list string) (m : Machine num RowData)
  : Machine num RowData * BatchOutcome :=
  match files with
  | [] => (m, AllFilesHandled)
  | filename :: rest =>
      let m := on_js (console_log (LogProcessing filename)) m in
      match readFile filename with
      | inr message =>
          files_loop readFile rest
            (on_js (console_log (LogFileError filename message)) m)
      | inl workbook =>
          let m := await resume kweight
                         (on_js (processUniversityExcelFile workbook filename) m) in
          if crashed (js m) then (m, Died)
          else
            match promise (js m) with
            | Resolved =>
                files_loop readFile rest
                  (on_js (console_log (LogProcessed filename)) m)
            | Rejected message =>
                files_loop readFile rest
                  (on_js (console_log (LogFileError filename message)) m)
            | Pending => (m, Suspended filename rest)
            end
      end
  end.

Definition processExcelFilesFromFolder
           (readFile : string -> Workbook num + string)
           (files : list string) (m : Machine num RowData)
  : Machine num RowData * BatchOutcome :=
  match files_loop readFile files m with
  | (m', AllFilesHandled) =>
      (on_js (console_log LogAllProcessed) m', AllFilesHandled)
  | stuck => stuck
  end.

Definition ingest (readFile : string -> Workbook num + string)
           (files : list string) (m : Machine num RowData)
  : Machine num RowData * BatchOutcome :=
  let (m', outcome) := processExcelFilesFromFolder readFile files m in
  (drain resume kweight m', outcome).

End Pipeline.

Arguments RowData : clear implicits.
Arguments State : clear implicits.

End App5.

(* ------------------------------------------------------------------------- *)
(** ** Concrete runs *)

(** A database that was just created, a generator whose every draw is one
    half, and a handful of exports as [XLSX.readFile] would return them. *)
Module Scenario.

Definition half : draw := @mkDraw 1 2 eq_refl.

Definition boot {R : Type} : Js intnum R :=
  mkJs [] (fun _ => half) 0 (steady_clock 20000) [] Pending 0 0 0 false.

Definition start {R : Type} : Machine intnum R :=
  mkMachine (@empty_store intnum) boot.

Definition aalborg_2024 : string :=
  "Export_Aalborg_University_20240101_000000.xlsx".

Definition aalborg_2025 : string :=
  "Export_Aalborg_University_20250101_000000.xlsx".

Definition unreadable : string := "Export_Lund_University_20240101_000000.xlsx".

Definition anonymous : string := "notes.xlsx".

Definition nature (flag : string) : object intnum :=
  [("Journal", VStr "Nature"); ("current_year", VStr flag);
   ("cost", VNum (IInt 5000))].

Definition subscribed_export : Workbook intnum :=
  [("Sheet1", [nature "1"])].

Definition cancelled_export : Workbook intnum :=
  [("Sheet1", [nature "0"])].

Definition empty_export : Workbook intnum :=
  [("Sheet1", [])].

(** The same new title on two rows of one sheet. *)
Definition repeated_export : Workbook intnum :=
  [("Sheet1", [nature "1"; nature "0"])].

Definition disk (filename : string) : Workbook intnum + string :=
  if String.eqb filename aalborg_2024 then inl subscribed_export
  else if String.eqb filename aalborg_2025 then inl empty_export
  else if String.eqb filename anonymous then inl subscribed_export
  else inr "ENOENT: no such file or directory".

Definition mahidol_2024 : string :=
  "Export_Mahidol_University_20240101_000000.xlsx".

(** A title cell that holds a number. *)
Definition numbered_export : Workbook intnum :=
  [("Sheet1", [[("Journal", VNum (IInt 2024)); ("current_year", VStr "1")]])].

Definition shelf (filename : string) : Workbook intnum + string :=
  if String.eqb filename aalborg_2024 then inl numbered_export
  else inl subscribed_export.



(** Two orders of completion.  In the order of issue the oldest statement
    in flight completes each time.  In the other, statements overtake:
    each time the third statement in flight completes (counted round the
    queue), so the two deletes of a file complete after everything else
    of the file. *)
Definition issue_order : list nat := repeat 0 100.
Definition overtaking : list nat := repeat 2 100.

(** One file run to the end on app1.js, then a second one whose
    statements complete in the order [order]. *)
Definition app1_in (order : list nat) (first second : Workbook intnum)
  : Machine intnum (App1.RowData intnum) * Machine intnum (App1.RowData intnum) :=
  let m1 := drain (App1.resume App1.policy) (App1.kweight App1.policy)
              (App1.on_js (App1.processExcelFile first aalborg_2024) start) in
  (m1, run_in (App1.resume App1.policy) order
              (App1.on_js (App1.processExcelFile second aalborg_2025) m1)).

(** The same on app5.js. *)
Definition app5_in (order : list nat) (first second : Workbook intnum)
  : Machine intnum (App5.RowData intnum) * Machine intnum (App5.RowData intnum) :=
  let m1 := drain App5.resume App5.kweight
              (App5.on_js (App5.processUniversityExcelFile first aalborg_2024)
                          start) in
  (m1, run_in App5.resume order
              (App5.on_js (App5.processUniversityExcelFile second aalborg_2025)
                          m1)).

End Scenario.

(* ------------------------------------------------------------------------- *)
(** ** The chat endpoints *)

(** What awaiting a call comes to: its value, or the [Error] it threw (the
    reason its promise was rejected with), kept by its message. *)
Inductive Outcome (A : Type) : Type :=
| Returned (a : A)
| Thrown (error : string).

Arguments Thrown {A} error.

(** [try { body } catch (error) { handler }] *)
Definition try_catch {A : Type} (body : Outcome A) (handler : string -> Outcome A)
  : Outcome A :=
  match body with
  | Returned a => Returned a
  | Thrown error => handler error
  end.

Definition and_then {A B : Type} (x : Outcome A) (f : A -> Outcome B) : Outcome B :=
  match x with
  | Returned a => f a
  | Thrown error => Thrown error
  end.

(** The part of a chat completion the servers read:
    [completion.choices[0].message.content]. *)
Record ChatMessage : Type := mkChatMessage { content : option string }.
Record Choice : Type := mkChoice { message_of : option ChatMessage }.
Record Completion : Type := mkCompletion { choices : list Choice }.

(** [res.status(status).json(json)]; [res.json] alone answers 200. *)
Record Response (body : Type) : Type := mkResponse { status : nat; json : body }.

Definition dquote : string := String (ascii_of_nat 34) EmptyString.
Definition newline : string := String (ascii_of_nat 10) EmptyString.

(** The chat endpoint of app1.js.  The message of a request is text, as the
    chat form sends it, or is missing. *)
Module Chat1.

(** The body of a request whose [message], if there is one, is text. *)
Record Request : Type := mkRequest { message : option string }.

Section Chat.
Context {num : Type} `{JsNumber num}.

(** What [getDatabaseContext] resolves to; the breakdown holds the name and
    the subscription count of each university. *)
Record Context : Type := mkContext {
  totalUniversities : num;
  totalSubscriptions : num;
  universityBreakdown : list (string * num)
}.

Inductive Body : Type :=
| Answer (response : option string) (context : Context)
| Problem (error : string) (response : option string).

(** The average and the rounding of [calculateRevenuePotential], and the
    digit grouping of [toLocaleString], are arithmetic on doubles and are
    left open; both are total. *)
Variable calculateRevenuePotential : list (string * num) -> num.
Variable toLocaleString : num -> string.

Definition generateRuleBasedResponse (message : string) (context : Context)
  : string :=
  let lowerMessage := JsString.toLowerCase message in
  if JsString.includes lowerMessage "revenue"
     || JsString.includes lowerMessage "opportunity"
  then
    let potential := calculateRevenuePotential (universityBreakdown context) in
    ("Based on current subscription patterns across "
      ++ num_to_string (totalUniversities context)
      ++ " universities, I've identified approximately $"
      ++ toLocaleString potential
      ++ " in revenue opportunities. Key areas for expansion include AI/ML journals, Climate Science, and Digital Humanities collections.")%string
  else if JsString.includes lowerMessage "subscription"
          || JsString.includes lowerMessage "journal"
  then
    let breakdown :=
      String.concat ", "
        (map (fun u => (fst u ++ ": " ++ num_to_string (snd u)
                         ++ " subscriptions")%string)
             (universityBreakdown context)) in
    ("Currently tracking " ++ num_to_string (totalSubscriptions context)
      ++ " active subscriptions across "
      ++ num_to_string (totalUniversities context)
      ++ " universities. Distribution: " ++ breakdown ++ ".")%string
  else if JsString.includes lowerMessage "gap"
          || JsString.includes lowerMessage "missing"
  then
    "Gap analysis shows opportunities in emerging fields like AI & Machine Learning, Quantum Computing, and Climate Science. Universities with fewer than 100 subscriptions have the highest expansion potential."
  else if JsString.includes lowerMessage "usage"
          || JsString.includes lowerMessage "trend"
  then
    "Usage analytics indicate seasonal patterns with peak activity during academic terms. Digital access dominates with approximately 85% of total usage. Consider targeted campaigns during high-usage periods."
  else
    ("I can help analyze your publishing data covering "
      ++ num_to_string (totalUniversities context) ++ " universities and "
      ++ num_to_string (totalSubscriptions context)
      ++ " active subscriptions. Ask about revenue opportunities, subscription patterns, gap analysis, or specific universities.")%string.

(** [completion.choices[0].message.content]: a TypeError when there is no
    first choice or it has no message; the content may be [null]. *)
Definition completion_content (completion : Completion) : Outcome (option string) :=
  match choices completion with
  | [] => Thrown "Cannot read properties of undefined (reading 'message')"
  | choice :: _ =>
      match message_of choice with
      | None => Thrown "Cannot read properties of undefined (reading 'content')"
      | Some m => Returned (content m)
      end
  end.

(** [create] is what [openai.chat.completions.create] comes to on this
    request: a completion, or the error it throws (a timeout is one). *)
Definition generateOpenAIResponse (create : Outcome Completion)
           (message : string) (context : Context) : Outcome (option string) :=
  try_catch (and_then create completion_content)
            (fun _ => Returned (Some (generateRuleBasedResponse message context))).

(** [process.env.OPENAI_API_KEY && process.env.OPENAI_API_KEY !==
    'your_openai_api_key_here'] *)
Definition key_configured (OPENAI_API_KEY : option string) : bool :=
  match OPENAI_API_KEY with
  | None => false
  | Some key =>
      negb (JsString.seq key EmptyString)
      && negb (JsString.seq key "your_openai_api_key_here")
  end.

(** [app.post('/api/chat', ...)] *)
Definition chat (OPENAI_API_KEY : option string)
           (getDatabaseContext : Outcome Context)
           (create : Outcome Completion) (req : Request) : Response Body :=
  match message req with
  | None | Some EmptyString =>
      mkResponse 400 (Problem "Message is required" None)
  | Some message =>
      let attempt :=
        and_then getDatabaseContext (fun dataContext =>
        and_then (if key_configured OPENAI_API_KEY
                  then generateOpenAIResponse create message dataContext
                  else Returned
                         (Some (generateRuleBasedResponse message dataContext)))
                 (fun response =>
                    Returned (mkResponse 200 (Answer response dataContext)))) in
      match attempt with
      | Returned response => response
      | Thrown _ =>
          mkResponse 500
            (Problem "Error generating response"
                     (Some "I apologize, but I encountered an error processing your request. Please try again."))
      end
  end.

End Chat.

Arguments Context : clear implicits.
Arguments Body : clear implicits.

End Chat1.

(** The chat endpoint of app7.js. *)
Module Chat7.

Record Request : Type := mkRequest {
  message : option string;
  assistantType : option string;
  universityFilter : option string
}.

(** The session identifier and the time stamp of the answer come from the
    clock and are left out. *)
Inductive Body : Type :=
| Answer (response : string) (assistantType : string) (usingOpenAI : bool)
| Problem (error : string) (response : string).

Section Chat.

(** The four reports are queries on the database; what each resolves to,
    or that it throws, is given. *)
Variable generateSubscriptionAnalysis : string -> string -> Outcome string.
Variable generateUniversityAnalysis : string -> Outcome string.
Variable generateBrowsingAnalysis : string -> Outcome string.
Variable generateDataSummary : string -> Outcome string.

Definition generateRealDataResponse (message assistantType universityFilter : string)
  : string :=
  let lowerMessage := JsString.toLowerCase message in
  let report :=
    if JsString.includes lowerMessage "subscription"
       || JsString.includes lowerMessage "journal"
    then generateSubscriptionAnalysis message universityFilter
    else if JsString.includes lowerMessage "university"
            || JsString.includes lowerMessage "nus"
            || JsString.includes lowerMessage "singapore"
    then generateUniversityAnalysis message
    else if JsString.includes lowerMessage "browse"
            || JsString.includes lowerMessage "not purchased"
    then generateBrowsingAnalysis message
    else generateDataSummary assistantType in
  match report with
  | Returned response => response
  | Thrown _ =>
      "I'm having trouble accessing the data right now. Please try again or contact support if the issue persists."
  end.

(** [!s || s.trim() === ''] on a string. *)
Definition blank (s : string) : bool :=
  JsString.seq (JsString.trim s) EmptyString.

(** [completion.choices[0]?.message?.content || ''] *)
Definition completion_content (completion : Completion) : string :=
  match choices completion with
  | [] => EmptyString
  | choice :: _ =>
      match message_of choice with
      | None => EmptyString
      | Some m => match content m with None => EmptyString | Some s => s end
      end
  end.

Definition fallback (message : string) : string :=
  String.concat newline
    [ ("I'm analyzing your question about " ++ dquote ++ message ++ dquote
         ++ ".")%string;
      EmptyString;
      "Based on your data, I can provide insights about:";
      "• University subscription patterns";
      "• Journal browsing vs purchasing behavior  ";
      "• Revenue opportunities and trends";
      "• Cross-selling potential";
      EmptyString;
      "Please try a more specific question like:";
      ("• " ++ dquote ++ "NUS subscriptions analysis" ++ dquote)%string;
      ("• " ++ dquote ++ "Top browsed but unsubscribed journals" ++ dquote)%string;
      ("• " ++ dquote ++ "Revenue opportunities by subject area" ++ dquote)%string ].

Definition or_default (field : option string) (default : string) : string :=
  match field with Some s => s | None => default end.

(** [app.post('/api/chat/send', ...)]; [openai] tells whether the client
    was made at start-up, [create] what the completion call comes to on this
    request.  [getRealDataContext] always resolves, and nothing else in the
    outer [try] throws on a message that is text, so its [catch] is not
    reached. *)
Definition chat (openai : bool) (create : Outcome Completion) (req : Request)
  : Response Body :=
  match message req with
  | None =>
      mkResponse 400
        (Problem "Message is required" "Please provide a message to analyze.")
  | Some message =>
      if blank message
      then mkResponse 400
             (Problem "Message is required" "Please provide a message to analyze.")
      else
        let assistantType := or_default (assistantType req) "general" in
        let universityFilter := or_default (universityFilter req) "all" in
        let '(aiResponse, usingOpenAI) :=
          if openai
          then match create with
               | Returned completion => (completion_content completion, true)
               | Thrown _ =>
                   (generateRealDataResponse message assistantType universityFilter,
                    false)
               end
          else (generateRealDataResponse message assistantType universityFilter,
                false) in
        let aiResponse :=
          if blank aiResponse then fallback message else aiResponse in
        mkResponse 200 (Answer aiResponse assistantType usingOpenAI)
  end.

End Chat.

End Chat7.

(* ------------------------------------------------------------------------- *)
(** ** Whitespace *)

(** Every code unit of [s] is one that [trim] strips. *)
Fixpoint all_space (s : string) : bool :=
  match s with
  | EmptyString => true
  | String c s' => is_space c && all_space s'
  end.

(** Every code unit of [s] satisfies [p]. *)
Fixpoint string_forall (p : ascii -> bool) (s : string) : bool :=
  match s with
  | EmptyString => true
  | String c s' => p c && string_forall p s'
  end.

(** The code units a decimal numeral is written with. *)
Definition is_numeral_char (c : ascii) : bool :=
  Text.is_digit c || Ascii.eqb c "-".

(* ------------------------------------------------------------------------- *)
(** ** Naming a university in a chat message, app5.js *)

Module App5Reports.

(** The keys of the [universities] object, in the order they are written. *)
Definition universities : list (string * string) :=
  [("nus", "National University of Singapore");
   ("national university singapore", "National University of Singapore");
   ("ntu", "Nanyang Technological University");
   ("nanyang", "Nanyang Technological University");
   ("mahidol", "Mahidol University");
   ("aalborg", "Aalborg University")].

(** [None] is [null]. *)
Definition extractUniversityFromMessage (message : string) : option string :=
  let lowerMessage := toLowerCase message in
  match find (fun entry => includes lowerMessage (fst entry)) universities with
  | Some entry => Some (snd entry)
  | None => None
  end.

(** The universities app5.js can name. *)
Definition known_universities : list string :=
  ["National University of Singapore"; "Nanyang Technological University";
   "Mahidol University"; "Aalborg University"].

(** What a file name is searched for, lower-cased. *)
Definition filename_markers : list string :=
  map fst App5.patterns ++ ["nus"; "singapore"].

End App5Reports.

(* ------------------------------------------------------------------------- *)
(** ** The ranges of the synthesised fields *)

(** The least and the greatest value of
    [Math.floor(Math.random() * n) + k], for the pair [(n, k)]. *)
Definition range_of (nk : Z * Z) : Z * Z := (snd nk, snd nk + fst nk - 1)%Z.

Definition within (bounds : Z * Z) (z : Z) : Prop :=
  (fst bounds <= z <= snd bounds)%Z.

Section Ranges.
Context {num : Type} {R : Type}.

(** A browsing insert without a callback, dated as [clock] has it at some
    reading and for some number of days ago from 0 to 364, whose
    synthesised fields lie within the bounds. *)
Definition browsing_within (clock : nat -> Z -> Z)
           (view_count session_duration pages_viewed downloaded_samples : Z * Z)
           (t : Task num R) : Prop :=
  match t with
  | (InsertBrowsingHistory _ _ date count duration pages samples _, None) =>
      (exists reading daysAgo,
          within (0, 364)%Z daysAgo /\ date = clock reading daysAgo)
      /\ within view_count count
      /\ within session_duration duration
      /\ within pages_viewed pages
      /\ within downloaded_samples samples
  | _ => False
  end.

(** The [usage_count] of a subscription insert lies within the bounds. *)
Definition usage_within (bounds : Z * Z) (t : Task num R) : Prop :=
  match t with
  | (InsertSubscription _ _ _ _ _ _ _ usage_count, None) => within bounds usage_count
  | _ => False
  end.

End Ranges.

(** Every [Math.floor(Math.random() * n) + k] of the policy has a positive
    [n], and the session counts a [k] that is not negative. *)
Definition policy_positive (P : Policy) : Prop :=
  (0 < fst (sessions_subscribed P))%Z /\ (0 <= snd (sessions_subscribed P))%Z
  /\ (0 < fst (sessions_other P))%Z /\ (0 <= snd (sessions_other P))%Z
  /\ (0 < fst (view_count_range P))%Z
  /\ (0 < fst (session_duration_range P))%Z
  /\ (0 < fst (pages_viewed_range P))%Z.

(** The bounds of what [insertSubscriptionAndBrowsing] of app5.js makes
    up, for a subscribed row ([baseEngagement] 1.5) and for another. *)
Module App5Bounds.

Definition sessions (subscribed : bool) : Z * Z :=
  if subscribed then (5, 14)%Z else (10, 34)%Z.

Definition view_count (subscribed : bool) : Z * Z :=
  if subscribed then (1, 12)%Z else (1, 8)%Z.

Definition session_duration (subscribed : bool) : Z * Z :=
  if subscribed then (60, 2309)%Z else (60, 1559)%Z.

Definition pages_viewed (subscribed : bool) : Z * Z :=
  if subscribed then (1, 23)%Z else (1, 15)%Z.

Definition downloaded_samples (subscribed : bool) : Z * Z :=
  if subscribed then (0, 5)%Z else (0, 3)%Z.

Definition usage_count : Z * Z := (200, 1199)%Z.

End App5Bounds.

(* ------------------------------------------------------------------------- *)
(** ** What ingestion keeps of the store *)

Section StoreProperties.
Context {num : Type}.

(** No two universities have the same name. *)
Definition names_distinct (db : Store num) : Prop :=
  NoDup (map u_name (universities db)).

(** [db'] holds every university and every journal of [db], unchanged and
    in the same order, followed by the ones added since. *)
Definition extends (db db' : Store num) : Prop :=
  (exists added, universities db' = universities db ++ added)
  /\ (exists added, journals db' = journals db ++ added).

End StoreProperties.

(* ------------------------------------------------------------------------- *)
(** ** The rows of the other universities *)

Section Others.
Context {num : Type}.

(** [after] holds for every university but [uid] the subscriptions and
    the browsing events [before] holds, and no others. *)
Definition others_kept (uid : Z) (before after : Store num) : Prop :=
  filter (fun s => negb (s_university_id s =? uid)%Z) (subscriptions after)
  = filter (fun s => negb (s_university_id s =? uid)%Z) (subscriptions before)
  /\ filter (fun b => negb (b_university_id b =? uid)%Z) (browsing_history after)
     = filter (fun b => negb (b_university_id b =? uid)%Z)
              (browsing_history before).

End Others.

(* ------------------------------------------------------------------------- *)
(** ** More concrete runs *)

Module Examples.

(** The database after the export of Mahidol University, with Nature
    subscribed, has run to the end on app1.js and on app5.js. *)
Definition app1_after_mahidol : Machine intnum (App1.RowData intnum) :=
  drain (App1.resume App1.policy) (App1.kweight App1.policy)
        (App1.on_js (App1.processExcelFile Scenario.subscribed_export
                                           Scenario.mahidol_2024)
                    Scenario.start).

Definition app5_after_mahidol : Machine intnum (App5.RowData intnum) :=
  drain App5.resume App5.kweight
        (App5.on_js (App5.processUniversityExcelFile Scenario.subscribed_export
                                                     Scenario.mahidol_2024)
                    Scenario.start).

End Examples.

(* ------------------------------------------------------------------------- *)
(** ** The progress of a file *)

Section Progress.
Context {num : Type} {R : Type}.

(** A statement whose callback belongs to a row of the file. *)
Definition is_row_callback (t : Task num R) : bool :=
  match snd t with
  | Some (KJournalLookup _) | Some (KJournalInsert _) => true
  | _ => false
  end.

(** The rows of the file that still wait on the connection. *)
Definition row_callbacks (q : list (Task num R)) : nat :=
  List.length (filter is_row_callback q).

Definition passive_or_row (t : Task num R) : bool :=
  match snd t with
  | None | Some (KJournalLookup _) | Some (KJournalInsert _) => true
  | _ => false
  end.

(** [js'] has the promise and the counters of [js]. *)
Definition same_counters (js js' : Js num R) : Prop :=
  promise js' = promise js /\ processed js' = processed js
  /\ errors js' = errors js /\ data_length js' = data_length js.

End Progress.

(** How a promise stands once [resolve] was, or was not, called. *)
Definition promise_after (resolved : bool) (p : PromiseState) : PromiseState :=
  if resolved then match p with Pending => Resolved | _ => p end else p.

(** Where the ingestion of a file stands: the university is being looked
    up, behind the statements of earlier files; or it is being inserted; or
    the rows are under way, [done] of them dealt with and no more than
    [titled] of them ever to be.  [done] is what the server compares with
    [data.length]. *)
Section Phases.
Context {num : Type} `{JsNumber num} {R : Type}.
Variable done : Js num R -> nat.
Variables (name : string) (data : list (object num)) (titled : nat).

Inductive phase (m : Machine num R) : Prop :=
| looking_up (pre : list (Task num R)) :
    Forall (fun t => snd t = None) pre ->
    queue (js m)
    = pre ++ [(SelectUniversity name, Some (KUniversityLookup name data))] ->
    promise (js m) = Pending -> done (js m) = 0%nat ->
    phase m
| inserting (country type : string) :
    queue (js m)
    = [(InsertUniversity name country type, Some (KUniversityInsert name data))] ->
    existsb (fun u => seq (u_name u) name) (universities (store m)) = false ->
    promise (js m) = Pending -> done (js m) = 0%nat ->
    phase m
| in_rows :
    Forall (fun t => passive_or_row t = true) (queue (js m)) ->
    (done (js m) + row_callbacks (queue (js m)) <= titled)%nat ->
    (promise (js m) = Pending
     \/ (promise (js m) = Resolved /\ (List.length data <= done (js m))%nat)) ->
    phase m.

(** What every completion keeps while the file is ingested. *)
Definition file_invariant (m : Machine num R) : Prop :=
  data_length (js m) = List.length data /\ phase m.

End Phases.

Module App1Rows.

Section Rows.
Context {num : Type} `{JsNumber num}.

(** The row has a journal title. *)
Definition titled (row : object num) : bool :=
  negb (falsy (findValue row App1.title_keys)).

End Rows.

End App1Rows.

Module App5Rows.

Section Rows.
Context {num : Type} `{JsNumber num}.

Definition titled (row : object num) : bool :=
  negb (App5.no_title (findColumnValue row App5.title_names)).

(** What [checkCompletion] compares with [data.length]. *)
Definition done (js : App5.State num) : nat := (processed js + errors js)%nat.

End Rows.

End App5Rows.

Module Examples2.

(** An export whose second row has no journal title. *)
Definition untitled_export : Workbook intnum :=
  [("Sheet1", [Scenario.nature "1"; [("Cost", VNum (IInt 100))]])].

End Examples2.

(* ------------------------------------------------------------------------- *)
(** ** Files that are ingested to the end *)

(** A cell that is text, or counts as absent. *)
Definition text_or_nothing {num : Type} `{JsNumber num} (v : value num) : bool :=
  match v with
  | VStr _ => true
  | _ => falsy v
  end.

Module App1Health.

Section Health.
Context {num : Type} `{JsNumber num}.

(** A row app1.js can take to the end: its title is text that is not
    empty, and its subject is text or absent. *)
Definition good_row (row : object num) : bool :=
  match findValue row App1.title_keys with
  | VStr s => negb (seq s "")
  | _ => false
  end
  && text_or_nothing (findValue row App1.subject_keys).

(** The closure of a row whose callbacks do not throw. *)
Definition good (ctx : App1.RowData num) : Prop :=
  exists s keywords,
    App1.journalTitle ctx = VStr s
    /\ App1.generateJournalKeywords (App1.journalTitle ctx) (App1.subject ctx)
       = Some keywords.

End Health.

End App1Health.

Module App5Health.

Section Health.
Context {num : Type} `{JsNumber num}.

(** A row app5.js can take to the end: its title is text that is not
    blank, and its subject is text or absent. *)
Definition good_row (row : object num) : bool :=
  match findColumnValue row App5.title_names with
  | VStr s => negb (seq (trim s) "")
  | _ => false
  end
  && text_or_nothing (findColumnValue row App5.subject_names).

Definition good (ctx : App5.RowData num) : Prop :=
  exists s keywords,
    App5.journalTitle ctx = VStr s
    /\ App5.generateKeywords (App5.journalTitle ctx) (App5.subject ctx)
       = Some keywords.

End Health.

End App5Health.

Section HealthyPhases.
Context {num : Type} `{JsNumber num} {R : Type}.
Variable done : Js num R -> nat.
Variable good : R -> Prop.
Variables (name : string) (data : list (object num)).

(** A statement in flight that belongs to a row whose callbacks do not
    throw, with the statement its callback was handed over with. *)
Definition healthy_task (t : Task num R) : Prop :=
  match snd t with
  | None => True
  | Some (KJournalLookup ctx) =>
      match fst t with
      | SelectJournal _ => good ctx
      | _ => False
      end
  | Some (KJournalInsert ctx) =>
      match fst t with
      | InsertJournal (VStr _) _ _ _ _ _ => good ctx
      | _ => False
      end
  | Some _ => False
  end.

(** Where the ingestion of a file whose rows are all good stands: as
    [phase], with every row accounted for. *)
Inductive healthy_phase (m : Machine num R) : Prop :=
| healthy_looking_up (pre : list (Task num R)) :
    Forall (fun t => snd t = None) pre ->
    queue (js m)
    = pre ++ [(SelectUniversity name, Some (KUniversityLookup name data))] ->
    promise (js m) = Pending -> done (js m) = 0%nat ->
    healthy_phase m
| healthy_inserting (country type : string) :
    queue (js m)
    = [(InsertUniversity name country type, Some (KUniversityInsert name data))] ->
    existsb (fun u => seq (u_name u) name) (universities (store m)) = false ->
    promise (js m) = Pending -> done (js m) = 0%nat ->
    healthy_phase m
| healthy_in_rows :
    Forall healthy_task (queue (js m)) ->
    (done (js m) + row_callbacks (queue (js m)))%nat = List.length data ->
    ((promise (js m) = Pending /\ (done (js m) < List.length data)%nat)
     \/ (promise (js m) = Resolved /\ (List.length data <= done (js m))%nat)) ->
    healthy_phase m.

Definition healthy (m : Machine num R) : Prop :=
  crashed (js m) = false
  /\ data_length (js m) = List.length data
  /\ healthy_phase m.

End HealthyPhases.

(* ------------------------------------------------------------------------- *)
(** ** Cells the keyword generators take *)

(** [typeof v === 'string'] *)
Definition is_text {num : Type} (v : value num) : bool :=
  match v with
  | VStr _ => true
  | _ => false
  end.

(* ------------------------------------------------------------------------- *)
(** ** Journals that are already there *)

Section Reuse.
Context {num : Type} `{JsNumber num} {R : Type}.
Variable title_of : R -> value num.
Variable T : string.

(** The journals of the title [T], in the order of the table. *)
Definition journals_titled (db : Store num) : list (Journal num) :=
  filter (fun j => seq (j_title j) T) (journals db).

(** A statement in flight that cannot add a journal of the title [T]: it
    is no insert of one, and when its callback is the one of a journal
    lookup, it is the lookup of the title of that row. *)
Definition spares (t : Task num R) : Prop :=
  match fst t with
  | InsertJournal title _ _ _ _ _ => sql_text title <> Some T
  | _ => True
  end
  /\ match snd t with
     | Some (KJournalLookup ctx) => fst t = SelectJournal (title_of ctx)
     | _ => True
     end.

(** The journals of the title [T] are the ones of [db0], there is one,
    and nothing in flight can add another. *)
Definition reuses (db0 : Store num) (m : Machine num R) : Prop :=
  journals_titled (store m) = journals_titled db0
  /\ journals_titled db0 <> []
  /\ Forall spares (queue (js m)).

End Reuse.

(* ------------------------------------------------------------------------- *)
(** ** The country tables *)

(** The university names of a country table. *)
Definition table_names (table : list (string * list string)) : list string :=
  List.concat (map snd table).

(* ------------------------------------------------------------------------- *)
(** ** The trial flag of a browsing insert *)

(** [Math.random() < p ? 1 : 0] at the draw [r], for the trial probability
    of the policy. *)
Definition trial_of_draw (P : Policy) (r : draw) : Z :=
  if random_lt r (fst (trial_probability P)) (snd (trial_probability P))
  then 1%Z else 0%Z.

(* ------------------------------------------------------------------------- *)
(** ** A re-ingestion whose statements complete in any order *)

Section Replacing.
Context {num : Type} `{JsNumber num} {R : Type}.
Variable V : View num R.



End Replacing.

Section ReplacePhases.
Context {num : Type} `{JsNumber num} {R : Type}.
Variable view_of : Z -> View num R.
Variables (name : string) (data : list (object num)) (before : Store num).


End ReplacePhases.


(* ------------------------------------------------------------------------- *)
(** * Properties *)

(** The induction hypothesis of a loop lemma, at the state the loop
    continues from. *)
Ltac destruct_loop_IH IH :=
  match goal with
  | |- context [queue (?loop ?js')] =>
      lazymatch type of IH with
      | forall js, exists _, queue (loop js) = _ /\ _ =>
          destruct (IH js') as (ev & Hq & Hl & Hf)
      end
  end.

(** ** Strings *)

Lemma is_space_lower_char (c : ascii) : is_space (lower_char c) = is_space c.
Proof. destruct c as [[] [] [] [] [] [] [] []]; reflexivity. Qed.

Lemma lower_char_not_upper (c : ascii) : is_upper c = false -> lower_char c = c.
Proof. unfold lower_char. now intros ->. Qed.

Lemma toLowerCase_trimStart (s : string) :
  toLowerCase (trimStart s) = trimStart (toLowerCase s).
Proof.
  induction s as [|c s IH]; simpl; [reflexivity|].
  rewrite is_space_lower_char.
  destruct (is_space c); [exact IH | reflexivity].
Qed.

Lemma toLowerCase_trimEnd (s : string) :
  toLowerCase (trimEnd s) = trimEnd (toLowerCase s).
Proof.
  induction s as [|c s IH]; simpl; [reflexivity|].
  rewrite <- IH, is_space_lower_char.
  destruct (trimEnd s); simpl; [destruct (is_space c)|]; reflexivity.
Qed.

(** Trimming and lower-casing commute, so "trimmed, lower-cased" and the
    code's [toLowerCase().trim()] are the same string. *)
Lemma toLowerCase_trim (s : string) :
  toLowerCase (trim s) = trim (toLowerCase s).
Proof. unfold trim. now rewrite toLowerCase_trimEnd, toLowerCase_trimStart. Qed.

Lemma seq_eq (s t : string) : seq s t = true <-> s = t.
Proof. apply String.eqb_eq. Qed.

(* ------------------------------------------------------------------------- *)
(** ** Value normaliser *)

Section NormaliserFacts.
Context {num : Type} `{JsNumber num}.

Lemma normal_form_code (v : value num) :
  trim (toLowerCase (to_String v)) = normal_form v.
Proof. unfold normal_form. now rewrite toLowerCase_trim. Qed.

Lemma truthy_tokens_spec (s : string) :
  seq s "1" || seq s "yes" || seq s "true" || seq s "y" || seq s "subscribed"
  = true <-> In s truthy_tokens.
Proof.
  unfold truthy_tokens; simpl.
  rewrite !orb_true_iff, !seq_eq.
  intuition congruence.
Qed.

Lemma parseBoolean_tokens_spec (s : string) :
  seq s "1" || seq s "yes" || seq s "true" || seq s "y" = true
  <-> In s parseBoolean_tokens.
Proof.
  unfold parseBoolean_tokens; simpl.
  rewrite !orb_true_iff, !seq_eq.
  intuition congruence.
Qed.

(** A falsy value never has a truthy token as its normal form. *)
Lemma falsy_not_token (v : value num) :
  falsy v = true -> ~ In (normal_form v) truthy_tokens.
Proof.
  unfold normal_form.
  destruct v as [| |[]|n|s]; simpl; intros Hf.
  - vm_compute. intuition discriminate.
  - vm_compute. intuition discriminate.
  - discriminate.
  - vm_compute. intuition discriminate.
  - destruct (num_falsy_to_string n Hf) as [-> | ->];
      vm_compute; intuition discriminate.
  - apply seq_eq in Hf. subst s. vm_compute. intuition discriminate.
Qed.

Lemma parseBoolean_tokens_incl (s : string) :
  In s parseBoolean_tokens -> In s truthy_tokens.
Proof. unfold parseBoolean_tokens, truthy_tokens; simpl; tauto. Qed.

Lemma parseSubscriptionStatus_spec (v : value num) :
  parseSubscriptionStatus v = true <-> In (normal_form v) truthy_tokens.
Proof.
  unfold parseSubscriptionStatus.
  destruct (is_undefined v || is_null v || strict_eq_str v "") eqn:Hg.
  - split; [discriminate|]. intros Hin. exfalso.
    apply (falsy_not_token v); [|exact Hin].
    destruct v as [| |b|n|s]; simpl in *; try reflexivity; try discriminate.
    exact Hg.
  - cbv zeta. rewrite normal_form_code. apply truthy_tokens_spec.
Qed.

Lemma parseBoolean_spec (v : value num) :
  parseBoolean v = true <-> In (normal_form v) parseBoolean_tokens.
Proof.
  unfold parseBoolean.
  destruct (falsy v) eqn:Hf.
  - split; [discriminate|]. intros Hin. exfalso.
    apply (falsy_not_token v Hf). now apply parseBoolean_tokens_incl.
  - cbv zeta. rewrite normal_form_code. apply parseBoolean_tokens_spec.
Qed.

End NormaliserFacts.

(** C1, as stated, fails for [parseBoolean]: the cell ["subscribed"] has a
    truthy token as its normal form and is parsed to [false]. *)
Lemma C1_parseBoolean_rejects_subscribed :
  In (normal_form (VStr "subscribed" : value intnum)) truthy_tokens
  /\ parseBoolean (VStr "subscribed" : value intnum) = false.
Proof. split; [vm_compute; tauto | reflexivity]. Qed.

(** C1, amended.  On every cell value both normalisers are total;
    [parseSubscriptionStatus] returns true exactly when the trimmed,
    lower-cased string form is one of "1", "yes", "true", "y", "subscribed",
    and [parseBoolean] exactly when it is one of "1", "yes", "true", "y";
    undefined, null and the empty string give false in both. *)
Theorem C1_normaliser_tokens :
  forall (num : Type) (JN : JsNumber num) (v : value num),
    (parseSubscriptionStatus v = true <-> In (normal_form v) truthy_tokens)
    /\ (parseBoolean v = true <-> In (normal_form v) parseBoolean_tokens)
    /\ (is_undefined v || is_null v || strict_eq_str v "" = true ->
        parseSubscriptionStatus v = false /\ parseBoolean v = false).
Proof.
  intros num JN v. split; [apply parseSubscriptionStatus_spec|].
  split; [apply parseBoolean_spec|].
  intros Hg. destruct v as [| |b|n|s]; simpl in Hg; try discriminate.
  - now split.
  - now split.
  - apply seq_eq in Hg. subst s. now split.
Qed.

Lemma C1_normaliser_tokens_witness :
  parseSubscriptionStatus (VStr " Subscribed " : value intnum) = true
  /\ parseBoolean (VNum (IInt 1)) = true
  /\ parseBoolean (VNull : value intnum) = false.
Proof.
  destruct (C1_normaliser_tokens intnum_JsNumber (VStr " Subscribed ")) as [H1 _].
  destruct (C1_normaliser_tokens intnum_JsNumber (VNum (IInt 1))) as [_ [H3 _]].
  destruct (C1_normaliser_tokens intnum_JsNumber VNull) as [_ [_ H4]].
  split; [apply H1; vm_compute; tauto|].
  split; [apply H3; vm_compute; tauto|].
  apply H4. reflexivity.
Defined.

(* ------------------------------------------------------------------------- *)
(** ** Column resolver *)

Lemma existsb_Permutation {A : Type} (f : A -> bool) (l l' : list A) :
  Permutation l l' -> existsb f l = existsb f l'.
Proof.
  induction 1 as [|x l l' _ IH|x y l|l l' l'' _ IH1 _ IH2]; simpl.
  - reflexivity.
  - now rewrite IH.
  - now rewrite !orb_assoc, (orb_comm (f y)).
  - now rewrite IH1.
Qed.

Lemma find_ext_in {A : Type} (f g : A -> bool) (l : list A) :
  (forall x, In x l -> f x = g x) -> find f l = find g l.
Proof.
  induction l as [|x l IH]; simpl; intros Hfg; [reflexivity|].
  rewrite (Hfg x (or_introl eq_refl)).
  destruct (g x); [reflexivity|]. apply IH. intros y Hy. apply Hfg. now right.
Qed.

Module JsObjectFacts.
Import JsObject.

Lemma index_keys_none (ks : list string) :
  (forall k, In k ks -> array_index k = None) -> index_keys ks = [].
Proof.
  induction ks as [|k ks IH]; simpl; intros Hn; [reflexivity|].
  rewrite (Hn k (or_introl eq_refl)). apply IH. intros k' Hk'. apply Hn. now right.
Qed.

Lemma filter_is_named_all (ks : list string) :
  (forall k, In k ks -> array_index k = None) -> filter is_named ks = ks.
Proof.
  induction ks as [|k ks IH]; simpl; intros Hn; [reflexivity|].
  unfold is_named at 1. rewrite (Hn k (or_introl eq_refl)).
  f_equal. apply IH. intros k' Hk'. apply Hn. now right.
Qed.

(** Without array-index names, [Object.keys] is the creation order. *)
Lemma keys_insertion_order {num} (o : object num) :
  (forall k, In k (map fst o) -> array_index k = None) ->
  keys o = map fst o.
Proof.
  intros Hn. unfold keys.
  now rewrite (index_keys_none _ Hn), (filter_is_named_all _ Hn).
Qed.

End JsObjectFacts.

Section ResolverFacts.
Context {num : Type}.
Implicit Types (row : object num) (ks candidates : list string).

Lemma findValue_match_spec lowerKey candidates :
  findValue_match lowerKey candidates
  = existsb (fun c => includes lowerKey (toLowerCase c)) candidates.
Proof.
  induction candidates as [|c cs IH]; simpl; [reflexivity|].
  now destruct (includes lowerKey (toLowerCase c)).
Qed.

Lemma findColumnValue_match_spec lowerKey candidates :
  findColumnValue_match lowerKey candidates
  = existsb (fun c => includes lowerKey (toLowerCase c)
                      || includes (toLowerCase c) lowerKey) candidates.
Proof.
  induction candidates as [|c cs IH]; simpl; [reflexivity|].
  now destruct (includes lowerKey (toLowerCase c)
                || includes (toLowerCase c) lowerKey).
Qed.

Lemma findValue_loop_spec row ks candidates :
  findValue_loop row ks candidates = first_match (name_contains candidates) row ks.
Proof.
  unfold first_match, name_contains.
  induction ks as [|k ks IH]; simpl; [reflexivity|].
  rewrite findValue_match_spec.
  now destruct (existsb _ candidates).
Qed.

Lemma findColumnValue_loop_spec row ks candidates :
  findColumnValue_loop row ks candidates
  = first_match (name_overlaps candidates) row ks.
Proof.
  unfold first_match, name_overlaps.
  induction ks as [|k ks IH]; simpl; [reflexivity|].
  rewrite findColumnValue_match_spec.
  now destruct (existsb _ candidates).
Qed.

Lemma findValue_spec row candidates :
  findValue row candidates
  = first_match (name_contains candidates) row (JsObject.keys row).
Proof. apply findValue_loop_spec. Qed.

Lemma findColumnValue_spec row candidates :
  findColumnValue row candidates
  = first_match (name_overlaps candidates) row (JsObject.keys row).
Proof. apply findColumnValue_loop_spec. Qed.

Lemma findValue_Permutation row candidates candidates' :
  Permutation candidates candidates' ->
  findValue row candidates' = findValue row candidates.
Proof.
  intros HP. rewrite !findValue_spec. unfold first_match.
  erewrite find_ext_in; [reflexivity|].
  intros k _. unfold name_contains. symmetry. now apply existsb_Permutation.
Qed.

Lemma findColumnValue_Permutation row candidates candidates' :
  Permutation candidates candidates' ->
  findColumnValue row candidates' = findColumnValue row candidates.
Proof.
  intros HP. rewrite !findColumnValue_spec. unfold first_match.
  erewrite find_ext_in; [reflexivity|].
  intros k _. unfold name_overlaps. symmetry. now apply existsb_Permutation.
Qed.

(** No matching column: the resolver answers null. *)
Lemma findValue_no_match row candidates :
  (forall k, In k (JsObject.keys row) -> name_contains candidates k = false) ->
  findValue row candidates = VNull.
Proof.
  intros Hn. rewrite findValue_spec. unfold first_match.
  destruct (find _ _) as [k|] eqn:E; [|reflexivity].
  apply find_some in E. destruct E as [Hin Hk]. rewrite (Hn k Hin) in Hk. discriminate.
Qed.

Lemma findColumnValue_no_match row candidates :
  (forall k, In k (JsObject.keys row) -> name_overlaps candidates k = false) ->
  findColumnValue row candidates = VNull.
Proof.
  intros Hn. rewrite findColumnValue_spec. unfold first_match.
  destruct (find _ _) as [k|] eqn:E; [|reflexivity].
  apply find_some in E. destruct E as [Hin Hk]. rewrite (Hn k Hin) in Hk. discriminate.
Qed.

End ResolverFacts.

(** C4, as stated, fails twice.  [findColumnValue] also takes a column
    whose name is contained in a candidate: the column "ID" answers the
    candidate "identifier".  And [Object.keys] lists a header such as "2024"
    before the headers created ahead of it, so [findValue] returns the
    "2024" cell where the first matching column in insertion order is
    "Subscribed". *)
Lemma C4_resolver_counterexample :
  (findColumnValue [("ID", VStr "7" : value intnum)] ["identifier"] = VStr "7"
   /\ resolve_spec [("ID", VStr "7" : value intnum)] ["identifier"] = VNull)
  /\ (findValue [("Subscribed", VStr "yes" : value intnum); ("2024", VStr "0")]
                ["current"; "current_year"; "2024"; "subscribed"] = VStr "0"
      /\ resolve_spec [("Subscribed", VStr "yes" : value intnum); ("2024", VStr "0")]
                      ["current"; "current_year"; "2024"; "subscribed"] = VStr "yes").
Proof. repeat split; reflexivity. Qed.

(** C4, amended.  For every row and candidate list, [findValue] visits the
    column names in [Object.keys] order (array-index names first, in
    ascending order, then the others in insertion order; plain insertion
    order when no name is an array index), lower-cases each and returns the
    value of the first one that contains a lower-cased candidate, or null;
    [findColumnValue] does the same on the trimmed lower-cased name and also
    accepts a name contained in a candidate; permuting the candidate list
    changes the result of neither. *)
Theorem C4_resolver :
  forall (num : Type) (row : object num) (candidates : list string),
    findValue row candidates
    = first_match (name_contains candidates) row (JsObject.keys row)
    /\ findColumnValue row candidates
       = first_match (name_overlaps candidates) row (JsObject.keys row)
    /\ (forall candidates', Permutation candidates candidates' ->
          findValue row candidates' = findValue row candidates
          /\ findColumnValue row candidates' = findColumnValue row candidates)
    /\ ((forall k, In k (map fst row) -> JsObject.array_index k = None) ->
          JsObject.keys row = map fst row
          /\ findValue row candidates = resolve_spec row candidates).
Proof.
  intros num row candidates.
  split; [apply findValue_spec|].
  split; [apply findColumnValue_spec|].
  split.
  - intros candidates' HP. split.
    + now apply findValue_Permutation.
    + now apply findColumnValue_Permutation.
  - intros Hn. pose proof (JsObjectFacts.keys_insertion_order row Hn) as Hk.
    split; [exact Hk|].
    rewrite findValue_spec, Hk. reflexivity.
Qed.

Lemma C4_resolver_witness :
  findValue [("Journal_Title", VStr "X" : value intnum); ("Cost", VNum (IInt 100))]
            ["journal"; "title"]
  = findValue [("Journal_Title", VStr "X" : value intnum); ("Cost", VNum (IInt 100))]
              ["title"; "journal"]
  /\ findValue [("Journal_Title", VStr "X" : value intnum); ("Cost", VNum (IInt 100))]
               ["title"; "journal"] = VStr "X".
Proof.
  destruct (C4_resolver
              [("Journal_Title", VStr "X" : value intnum); ("Cost", VNum (IInt 100))]
              ["title"; "journal"]) as [_ [_ [HP Hins]]].
  split.
  - apply (HP ["journal"; "title"]). apply perm_swap.
  - destruct Hins as [_ ->]; [|reflexivity].
    intros k [<-|[<-|[]]]; reflexivity.
Defined.

(* ------------------------------------------------------------------------- *)
(** ** Draws *)

Lemma draw_bounds (r : draw) : (0 <= d_num r < d_den r)%Z.
Proof.
  pose proof (d_range r) as Hr.
  apply andb_true_iff in Hr. destruct Hr as [H0 H1].
  apply Z.leb_le in H0. apply Z.ltb_lt in H1. lia.
Qed.

(** [Math.floor(Math.random() * n)] is one of 0, ..., n - 1. *)
Lemma floor_random_bounds (r : draw) (n : Z) :
  (0 < n)%Z -> (0 <= floor_random r n < n)%Z.
Proof.
  intros Hn. pose proof (draw_bounds r) as Hr.
  unfold floor_random, floor_scaled. rewrite Z.mul_1_r. split.
  - apply Z.div_pos; nia.
  - apply Z.div_lt_upper_bound; nia.
Qed.

Lemma floor_random_le_max (r : draw) (n : Z) :
  (floor_random r n <= Z.max 0 n)%Z.
Proof.
  pose proof (draw_bounds r) as Hr.
  destruct (Z_lt_le_dec 0 n) as [Hn|Hn].
  - pose proof (floor_random_bounds r Hn). lia.
  - unfold floor_random, floor_scaled. rewrite Z.mul_1_r.
    assert (d_num r * n / d_den r <= 0)%Z; [|lia].
    apply Z.div_le_upper_bound; nia.
Qed.

Lemma floor_scaled_bounds (r : draw) (p q : Z) :
  (0 < p)%Z -> (0 < q)%Z -> (0 <= floor_scaled r p q)%Z /\ (floor_scaled r p q * q < p)%Z.
Proof.
  intros Hp Hq. pose proof (draw_bounds r) as Hr.
  unfold floor_scaled. split.
  - apply Z.div_pos; nia.
  - assert (Hd : (0 < d_den r * q)%Z) by nia.
    pose proof (Z.mul_div_le (d_num r * p) (d_den r * q) Hd) as Hle.
    nia.
Qed.

(* ------------------------------------------------------------------------- *)
(** ** What the JavaScript-side operations touch *)

Section JsFacts.
Context {num : Type} {R : Type}.
Implicit Types (js : Js num R) (s : Stmt num) (k : Cont num R).

Lemma queue_db_run s js : queue (db_run s js) = queue js ++ [passive s].
Proof. reflexivity. Qed.

Lemma queue_db_call s k js : queue (db_call s k js) = queue js ++ [(s, Some k)].
Proof. reflexivity. Qed.

Lemma queue_Math_random js : queue (snd (Math_random js)) = queue js.
Proof. reflexivity. Qed.

Lemma queue_console_log e js : queue (console_log e js) = queue js.
Proof. reflexivity. Qed.

Lemma queue_settle p js : queue (settle p js) = queue js.
Proof. unfold settle. now destruct (promise js). Qed.

Lemma queue_incr_processed js : queue (incr_processed js) = queue js.
Proof. reflexivity. Qed.

Lemma queue_incr_errors js : queue (incr_errors js) = queue js.
Proof. reflexivity. Qed.

Lemma crashed_settle p js : crashed (settle p js) = crashed js.
Proof. unfold settle. now destruct (promise js). Qed.

Lemma drawn_settle p js : drawn (settle p js) = drawn js.
Proof. unfold settle. now destruct (promise js). Qed.

End JsFacts.

(* ------------------------------------------------------------------------- *)
(** ** Subscription/browsing synthesiser *)

Section SettleFacts.
Context {num : Type} {R : Type}.
Implicit Types (js : Js num R).

Lemma queue_if_resolve (b : bool) js :
  queue (if b then resolve js else js) = queue js.
Proof. destruct b; [apply queue_settle | reflexivity]. Qed.

Lemma crashed_if_resolve (b : bool) js :
  crashed (if b then resolve js else js) = crashed js.
Proof. destruct b; [apply crashed_settle | reflexivity]. Qed.


End SettleFacts.

Module App1Facts.
Import App1.

Section Synthesis.
Context {num : Type} `{JsNumber num}.
Variable P : Policy.
Implicit Types (js : State num) (row : RowData num).

Lemma browsing_loop_queue n row journalId js :
  exists events,
    queue (browsing_loop P n row journalId js) = queue js ++ events
    /\ List.length events = n
    /\ Forall (browsing_ok (universityId row) journalId (isSubscribed row)) events.
Proof.
  revert js. induction n as [|n IH]; intros js.
  - exists []. simpl. now rewrite app_nil_r.
  - simpl. destruct (isSubscribed row) eqn:Hsub.
    + destruct_loop_IH IH.
      eexists (_ :: ev). rewrite Hq. simpl. rewrite <- app_assoc. simpl.
      split; [reflexivity|]. split; [now rewrite Hl|].
      constructor; [|exact Hf].
      unfold browsing_ok. simpl. rewrite !Z.eqb_refl. auto.
    + destruct_loop_IH IH.
      eexists (_ :: ev). rewrite Hq. simpl. rewrite <- app_assoc. simpl.
      split; [reflexivity|]. split; [now rewrite Hl|].
      constructor; [|exact Hf].
      unfold browsing_ok. simpl. rewrite !Z.eqb_refl.
      split; [reflexivity|]. split; [discriminate|].
      destruct (random_lt _ _ _); auto.
Qed.

Lemma browsing_loop_crashed n row journalId js :
  crashed (browsing_loop P n row journalId js) = crashed js.
Proof.
  revert js. induction n as [|n IH]; intros js; [reflexivity|].
  simpl. destruct (isSubscribed row); now rewrite IH.
Qed.

Lemma sessions_bound row (r : draw) :
  (Z.to_nat (if isSubscribed row
             then floor_random r (fst (sessions_subscribed P))
                  + snd (sessions_subscribed P)
             else floor_random r (fst (sessions_other P))
                  + snd (sessions_other P))%Z
   <= max_sessions P)%nat.
Proof.
  unfold max_sessions.
  destruct (isSubscribed row).
  - pose proof (floor_random_le_max r (fst (sessions_subscribed P))). lia.
  - pose proof (floor_random_le_max r (fst (sessions_other P))). lia.
Qed.

Lemma createSubscriptionData_queue row journalId js :
  exists events,
    queue (createSubscriptionData P row journalId js)
    = queue js ++ subscription_of row journalId ++ events
    /\ (List.length events <= max_sessions P)%nat
    /\ Forall (browsing_ok (universityId row) journalId (isSubscribed row)) events.
Proof.
  unfold createSubscriptionData, State.
  set (js1 := if isSubscribed row then db_run _ js else js).
  assert (Hq1 : queue js1 = queue js ++ subscription_of row journalId).
  { unfold js1, subscription_of. destruct (isSubscribed row).
    - apply queue_db_run.
    - now rewrite app_nil_r. }
  clearbody js1.
  pose proof (queue_Math_random js1) as Hq2.
  destruct (Math_random js1) as [r js2]. simpl in Hq2.
  pose proof (sessions_bound row r) as Hb.
  match goal with
  | |- context [browsing_loop P ?n row journalId js2] =>
      destruct (browsing_loop_queue n row journalId js2) as (ev & Hq & Hl & Hf)
  end.
  exists ev. cbv zeta.
  rewrite queue_if_resolve, queue_incr_processed, Hq, Hq2, Hq1, app_assoc.
  split; [reflexivity|]. split; [lia | exact Hf].
Qed.

Lemma createSubscriptionData_crashed row journalId js :
  crashed (createSubscriptionData P row journalId js) = crashed js.
Proof.
  unfold createSubscriptionData, State.
  set (js1 := if isSubscribed row then db_run _ js else js).
  assert (Hc1 : crashed js1 = crashed js)
    by (unfold js1; now destruct (isSubscribed row)).
  clearbody js1.
  assert (Hc2 : crashed (snd (Math_random js1)) = crashed js1) by reflexivity.
  destruct (Math_random js1) as [r js2]. simpl in Hc2. cbv zeta.
  rewrite crashed_if_resolve. unfold incr_processed. simpl.
  now rewrite browsing_loop_crashed, Hc2.
Qed.

End Synthesis.
End App1Facts.

Module App5Facts.
Import App5.

Section Synthesis.
Context {num : Type} `{JsNumber num}.
Implicit Types (js : State num) (row : RowData num).

(** In app5.js a subscribed pair can request a trial too. *)
Lemma browsing_loop_queue5 n row journalId js :
  exists events,
    queue (browsing_loop n row journalId js) = queue js ++ events
    /\ List.length events = n
    /\ Forall (browsing_ok (universityId row) journalId false) events.
Proof.
  revert js. induction n as [|n IH]; intros js.
  - exists []. simpl. now rewrite app_nil_r.
  - simpl. destruct_loop_IH IH.
    eexists (_ :: ev). rewrite Hq. simpl. rewrite <- app_assoc. simpl.
    split; [reflexivity|]. split; [now rewrite Hl|].
    constructor; [|exact Hf].
    unfold browsing_ok. simpl. rewrite !Z.eqb_refl.
    split; [reflexivity|]. split; [discriminate|].
    destruct (isCurrentlySubscribed row); destruct (random_lt _ _ _); auto.
Qed.

Lemma browsing_loop_crashed5 n row journalId js :
  crashed (browsing_loop n row journalId js) = crashed js.
Proof.
  revert js. induction n as [|n IH]; intros js; [reflexivity|].
  simpl. now rewrite IH.
Qed.

Lemma sessions_bound5 row (r : draw) :
  (Z.to_nat (if isCurrentlySubscribed row
             then floor_random r 10 + 5 else floor_random r 25 + 10)%Z
   <= max_sessions)%nat.
Proof.
  unfold max_sessions.
  destruct (isCurrentlySubscribed row).
  - pose proof (floor_random_bounds r (n := 10) eq_refl). lia.
  - pose proof (floor_random_bounds r (n := 25) eq_refl). lia.
Qed.

Lemma cost_or_fallback_queue (parsed : num) js :
  queue (snd (cost_or_fallback parsed js)) = queue js.
Proof. unfold cost_or_fallback. now destruct (num_falsy parsed). Qed.

Lemma cost_or_fallback_crashed (parsed : num) js :
  crashed (snd (cost_or_fallback parsed js)) = crashed js.
Proof. unfold cost_or_fallback. now destruct (num_falsy parsed). Qed.

Lemma cost_or_fallback_truthy (parsed : num) js :
  num_falsy parsed = false -> fst (cost_or_fallback parsed js) = parsed.
Proof. unfold cost_or_fallback. now intros ->. Qed.

Lemma queue_checkCompletion js : queue (checkCompletion js) = queue js.
Proof. unfold checkCompletion, State. apply queue_if_resolve. Qed.

Lemma crashed_checkCompletion js : crashed (checkCompletion js) = crashed js.
Proof. unfold checkCompletion, State. apply crashed_if_resolve. Qed.

Lemma insertSubscriptionAndBrowsing_queue row journalId js :
  exists annual_cost usage_count events,
    queue (insertSubscriptionAndBrowsing row journalId js)
    = queue js ++ subscription_with row journalId annual_cost usage_count
               ++ events
    /\ annual_cost = fst (cost_or_fallback (parseFloat (to_String (cost row))) js)
    /\ (List.length events <= max_sessions)%nat
    /\ Forall (browsing_ok (universityId row) journalId false) events.
Proof.
  unfold insertSubscriptionAndBrowsing, checkCompletion, State.
  pose proof (cost_or_fallback_queue (parseFloat (to_String (cost row))) js) as Hqc.
  destruct (cost_or_fallback (parseFloat (to_String (cost row))) js)
    as [annual_cost jsc] eqn:Ec.
  simpl in Hqc. cbv iota.
  set (usage := (floor_random (fst (Math_random jsc)) 1000 + 200)%Z).
  match goal with
  | |- context [if isCurrentlySubscribed row then ?a else js] =>
      set (js1 := if isCurrentlySubscribed row then a else js)
  end.
  assert (Hq1 : queue js1
                = queue js ++ subscription_with row journalId annual_cost usage).
  { unfold js1, subscription_with. destruct (isCurrentlySubscribed row).
    - unfold Math_random. cbv iota. rewrite queue_db_run. simpl. now rewrite Hqc.
    - now rewrite app_nil_r. }
  clearbody js1.
  pose proof (queue_Math_random js1) as Hq2.
  destruct (Math_random js1) as [r js2]. simpl in Hq2.
  pose proof (sessions_bound5 row r) as Hb.
  match goal with
  | |- context [browsing_loop ?n row journalId js2] =>
      destruct (browsing_loop_queue5 n row journalId js2) as (ev & Hq & Hl & Hf)
  end.
  exists annual_cost, usage, ev. cbv zeta.
  rewrite queue_if_resolve, queue_incr_processed, Hq, Hq2, Hq1, app_assoc.
  split; [reflexivity|]. split; [reflexivity|]. split; [lia | exact Hf].
Qed.

Lemma insertSubscriptionAndBrowsing_crashed row journalId js :
  crashed (insertSubscriptionAndBrowsing row journalId js) = crashed js.
Proof.
  unfold insertSubscriptionAndBrowsing, checkCompletion, State.
  pose proof (cost_or_fallback_crashed (parseFloat (to_String (cost row))) js) as Hcc.
  destruct (cost_or_fallback (parseFloat (to_String (cost row))) js)
    as [annual_cost jsc].
  simpl in Hcc. cbv iota.
  match goal with
  | |- context [if isCurrentlySubscribed row then ?a else js] =>
      set (js1 := if isCurrentlySubscribed row then a else js)
  end.
  assert (Hc1 : crashed js1 = crashed js).
  { unfold js1. destruct (isCurrentlySubscribed row); [|reflexivity].
    unfold Math_random. cbv iota. simpl. exact Hcc. }
  clearbody js1.
  assert (Hc2 : crashed (snd (Math_random js1)) = crashed js1) by reflexivity.
  destruct (Math_random js1) as [r js2]. simpl in Hc2. cbv zeta.
  rewrite crashed_if_resolve. unfold incr_processed. simpl.
  now rewrite browsing_loop_crashed5, Hc2.
Qed.

End Synthesis.
End App5Facts.



(* ------------------------------------------------------------------------- *)
(** ** Cost fallback *)

Section CostFacts.
Context {num : Type} `{JsNumber num}.

Lemma App1_cost_or_fallback_falsy (parsed : num) (js : App1.State num) :
  num_falsy parsed = true ->
  exists z, fst (App1.cost_or_fallback parsed js) = num_of_Z z
            /\ (20000 <= z <= 49999)%Z.
Proof.
  intros Hp. unfold App1.cost_or_fallback. rewrite Hp.
  unfold Math_random. cbv iota. simpl.
  eexists. split; [reflexivity|].
  pose proof (floor_random_bounds (random js (drawn js)) (n := 30000) eq_refl).
  lia.
Qed.

Lemma App5_cost_or_fallback_falsy (parsed : num) (js : App5.State num) :
  num_falsy parsed = true ->
  exists z, fst (App5.cost_or_fallback parsed js) = num_of_Z z
            /\ (15000 <= z <= 54999)%Z.
Proof.
  intros Hp. unfold App5.cost_or_fallback. rewrite Hp.
  unfold Math_random. cbv iota. simpl.
  eexists. split; [reflexivity|].
  pose proof (floor_random_bounds (random js (drawn js)) (n := 40000) eq_refl).
  lia.
Qed.

End CostFacts.

(** C6.  When the cost cell fails to parse or parses to zero
    ([parseFloat] gives a falsy number), the cost is the integer
    [Math.floor(Math.random() * 30000) + 20000] in app1.js and
    [Math.floor(Math.random() * 40000) + 15000] in app5.js: whatever the
    draw, it lies in the variant's fallback range, inside 15,000-65,000,
    and is a positive, truthy number. *)
Theorem C6_cost_fallback_bounds :
  forall (num : Type) (JN : JsNumber num) (parsed : num)
         (js1 : App1.State num) (js5 : App5.State num),
    num_falsy parsed = true ->
    (exists z, fst (App1.cost_or_fallback parsed js1) = num_of_Z z
               /\ (fst App1.fallbackRange <= z <= snd App1.fallbackRange)%Z
               /\ (15000 <= z <= 65000)%Z /\ (0 < z)%Z
               /\ num_falsy (num_of_Z z) = false)
    /\ (exists z, fst (App5.cost_or_fallback parsed js5) = num_of_Z z
                  /\ (fst App5.fallbackRange <= z <= snd App5.fallbackRange)%Z
                  /\ (15000 <= z <= 65000)%Z /\ (0 < z)%Z
                  /\ num_falsy (num_of_Z z) = false).
Proof.
  intros num JN parsed js1 js5 Hp. split.
  - destruct (App1_cost_or_fallback_falsy parsed js1 Hp) as (z & Hz & Hr).
    exists z. simpl. repeat split; try lia; try exact Hz.
    rewrite num_falsy_of_Z. apply Z.eqb_neq. lia.
  - destruct (App5_cost_or_fallback_falsy parsed js5 Hp) as (z & Hz & Hr).
    exists z. simpl. repeat split; try lia; try exact Hz.
    rewrite num_falsy_of_Z. apply Z.eqb_neq. lia.
Qed.

Lemma C6_cost_fallback_bounds_witness :
  num_falsy (parseFloat "n/a" : intnum) = true
  /\ exists z,
      fst (App1.cost_or_fallback
             (parseFloat "n/a")
             (mkJs [] (fun _ => @mkDraw 1 2 eq_refl) 0 (steady_clock 0) [] Pending 0 0 1 false
              : App1.State intnum)) = IInt z
      /\ (20000 <= z <= 49999)%Z.
Proof.
  assert (Hp : num_falsy (parseFloat "n/a" : intnum) = true) by reflexivity.
  split; [exact Hp|].
  destruct (C6_cost_fallback_bounds intnum_JsNumber (parseFloat "n/a")
              (mkJs [] (fun _ => @mkDraw 1 2 eq_refl) 0 (steady_clock 0) [] Pending 0 0 1 false)
              (mkJs [] (fun _ => @mkDraw 1 2 eq_refl) 0 (steady_clock 0) [] Pending 0 0 1 false)
              Hp) as [(z & Hz & Hr & _) _].
  exists z. split; [exact Hz | exact Hr].
Defined.

(* ------------------------------------------------------------------------- *)
(** ** Rows without a journal title *)



(* ------------------------------------------------------------------------- *)
(** ** Trial requests *)

Module App1Trials.
Import App1.

Section Trials.
Context {num : Type} `{JsNumber num}.
Variable P : Policy.
Implicit Types (row : RowData num).

(** Each pass of the loop for a row that is not subscribed takes five
    draws, the last of them for the trial flag. *)
Lemma browsing_loop_draws n row journalId (js0 : State num) :
  isSubscribed row = false ->
  exists events,
    queue (browsing_loop P n row journalId js0) = queue js0 ++ events
    /\ List.length events = n
    /\ forall i t,
        nth_error events i = Some t ->
        requested_trial t
        = Some (trial_of_draw P (random js0 (drawn js0 + 5 * i + 4))).
Proof.
  intros Hsub. revert js0. induction n as [|n IH]; intros js0.
  - exists []. simpl. rewrite app_nil_r. split; [reflexivity|].
    split; [reflexivity|]. intros [|i] t E; discriminate.
  - simpl. rewrite Hsub.
    match goal with
    | |- context [queue (browsing_loop P n row journalId ?js')] =>
        destruct (IH js') as (ev & Hq & Hl & Ht)
    end.
    eexists (_ :: ev). rewrite Hq. simpl. rewrite <- app_assoc. simpl.
    split; [reflexivity|]. split; [now rewrite Hl|].
    intros [|i] t E; simpl in E.
    + injection E as <-. unfold requested_trial, trial_of_draw. simpl.
      replace (drawn js0 + 0 + 4)%nat with (S (S (S (S (drawn js0)))))
        by lia.
      reflexivity.
    + rewrite (Ht i t E). simpl. do 3 f_equal. lia.
Qed.

Lemma createSubscriptionData_draws row journalId (js0 : State num) :
  exists events,
    queue (createSubscriptionData P row journalId js0)
    = queue js0 ++ subscription_of row journalId ++ events
    /\ List.length events
       = Z.to_nat (if isSubscribed row
                   then floor_random (random js0 (drawn js0))
                                     (fst (sessions_subscribed P))
                        + snd (sessions_subscribed P)
                   else floor_random (random js0 (drawn js0))
                                     (fst (sessions_other P))
                        + snd (sessions_other P))%Z
    /\ Forall (browsing_ok (universityId row) journalId (isSubscribed row))
              events
    /\ (isSubscribed row = false ->
        forall i t,
          nth_error events i = Some t ->
          requested_trial t
          = Some (trial_of_draw P (random js0 (drawn js0 + 5 * i + 5)))).
Proof.
  unfold createSubscriptionData, State.
  destruct (isSubscribed row) eqn:Hsub.
  - cbn [Math_random fst snd]. cbv zeta.
    match goal with
    | |- context [browsing_loop P ?n row journalId ?js'] =>
        destruct (App1Facts.browsing_loop_queue P n row journalId js')
          as (ev & Hq & Hl & Hf)
    end.
    exists ev.
    rewrite queue_if_resolve, queue_incr_processed, Hq. cbn [queue].
    rewrite queue_db_run. unfold subscription_of. rewrite Hsub.
    rewrite <- app_assoc. split; [reflexivity|].
    split; [rewrite Hl; reflexivity|]. rewrite Hsub in Hf.
    split; [exact Hf | discriminate].
  - cbn [Math_random fst snd]. cbv zeta.
    match goal with
    | |- context [browsing_loop P ?n row journalId ?js'] =>
        destruct (App1Facts.browsing_loop_queue P n row journalId js')
          as (ev & Hq & Hl & Hf);
        destruct (browsing_loop_draws n row journalId js' Hsub)
          as (ev' & Hq' & _ & Ht)
    end.
    assert (ev' = ev) by (rewrite Hq in Hq'; now apply app_inv_head in Hq').
    subst ev'. exists ev.
    rewrite queue_if_resolve, queue_incr_processed, Hq. cbn [queue].
    unfold subscription_of. rewrite Hsub. cbn [app].
    split; [reflexivity|]. split; [rewrite Hl; reflexivity|].
    rewrite Hsub in Hf. split; [exact Hf|].
    intros _ i t E. rewrite (Ht i t E). cbn [random drawn].
    do 3 f_equal. lia.
Qed.

End Trials.
End App1Trials.

(** C10.  In [createSubscriptionData] of app1.js and of the unnamed
    variant, whatever was in flight before, what a row issues after its
    subscription insert is browsing inserts of its pair, as many as the
    session count drawn.  For a subscribed pair every one of them has
    [requested_trial] 0.  For a pair that is not subscribed the flag of
    the [i]-th is [Math.random() < p ? 1 : 0] at its own draw, the fifth of
    its pass of the loop; and with the literals of either file, draws of 0
    make every insert issued, and there is one, a trial request. *)
Theorem C10_subscribed_never_trial :
  forall (num : Type) (JN : JsNumber num) (P : Policy)
         (row : App1.RowData num) (jid : Z) (js : App1.State num),
    exists events,
      queue (App1.createSubscriptionData P row jid js)
      = queue js ++ App1.subscription_of row jid ++ events
      /\ List.length events
         = Z.to_nat (if App1.isSubscribed row
                     then floor_random (random js (drawn js))
                                       (fst (sessions_subscribed P))
                          + snd (sessions_subscribed P)
                     else floor_random (random js (drawn js))
                                       (fst (sessions_other P))
                          + snd (sessions_other P))%Z
      /\ Forall (browsing_ok (App1.universityId row) jid (App1.isSubscribed row))
                events
      /\ (App1.isSubscribed row = false ->
          forall i t,
            nth_error events i = Some t ->
            requested_trial t
            = Some (trial_of_draw P (random js (drawn js + 5 * i + 5))))
      /\ (App1.isSubscribed row = false ->
          P = App1.policy \/ P = Unnamed.policy ->
          (forall n, d_num (random js n) = 0%Z) ->
          events <> []
          /\ Forall (fun t => requested_trial t = Some 1%Z) events).
Proof.
  intros num JN P row jid js.
  destruct (App1Trials.createSubscriptionData_draws P row jid js)
    as (events & Hq & Hl & Hf & Ht).
  exists events. split; [exact Hq|]. split; [exact Hl|].
  split; [exact Hf|]. split; [exact Ht|].
  intros Hsub HP Hzero. rewrite Hsub in Hl.
  assert (Hfloor : forall n, floor_random (random js (drawn js)) n = 0%Z).
  { intros n. unfold floor_random, floor_scaled. rewrite Hzero. reflexivity. }
  rewrite Hfloor in Hl. split.
  - intros E. rewrite E in Hl. destruct HP as [-> | ->]; discriminate Hl.
  - apply Forall_forall. intros t Hin.
    apply In_nth_error in Hin. destruct Hin as [i Hi].
    rewrite (Ht Hsub i t Hi). unfold trial_of_draw, random_lt.
    rewrite Hzero.
    pose proof (draw_bounds (random js (drawn js + 5 * i + 5))) as Hd.
    rewrite Hzero in Hd.
    destruct HP as [-> | ->]; cbn [App1.policy Unnamed.policy
                                   trial_probability fst snd];
      destruct (Z.ltb_spec (0 * 4)
                  (1 * d_den (random js (drawn js + 5 * i + 5))));
      destruct (Z.ltb_spec (0 * 10)
                  (3 * d_den (random js (drawn js + 5 * i + 5))));
      try reflexivity; lia.
Qed.

Lemma C10_subscribed_never_trial_witness :
  exists events,
    queue (App1.createSubscriptionData Unnamed.policy
             (App1.mkRowData 1%Z "Aalborg University"
                (VStr "Unknown Weekly") false (VStr "Unknown")
                (VStr "General") (IInt 30000)) 2%Z
             (mkJs [passive (DeleteSubscriptions 1%Z)]
                   (fun _ => @mkDraw 0 1 eq_refl) 0 (steady_clock 0) []
                   Pending 0 0 1 false))
    = [passive (DeleteSubscriptions 1%Z)] ++ events
    /\ List.length events = 5%nat
    /\ Forall (fun t => requested_trial t = Some 1%Z) events.
Proof.
  destruct (@C10_subscribed_never_trial intnum intnum_JsNumber Unnamed.policy
              (App1.mkRowData 1%Z "Aalborg University"
                 (VStr "Unknown Weekly") false (VStr "Unknown")
                 (VStr "General") (IInt 30000)) 2%Z
              (mkJs [passive (DeleteSubscriptions 1%Z)]
                    (fun _ => @mkDraw 0 1 eq_refl) 0 (steady_clock 0) []
                    Pending 0 0 1 false))
    as (events & Hq & Hl & _ & _ & Hone).
  exists events. split; [exact Hq|]. split; [exact Hl|].
  apply Hone; [reflexivity | now right | reflexivity].
Defined.

(* ------------------------------------------------------------------------- *)
(** ** The event loop comes to rest *)

Section EventLoopFacts.
Context {num : Type} `{JsNumber num} {R : Type}.
Variable resume : Cont num R -> Result -> Js num R -> Js num R.
Variable kweight : Cont num R -> nat.
Implicit Types (m : Machine num R) (q : list (Task num R)).

(** The callbacks stay within their weight, and none revives a dead
    process. *)
Hypothesis resume_budget :
  forall k r js,
    (budget kweight (queue (resume k r js)) <= budget kweight (queue js) + kweight k)%nat.

Lemma budget_app q q' :
  budget kweight (q ++ q') = (budget kweight q + budget kweight q')%nat.
Proof.
  induction q as [|t q IH]; simpl; [reflexivity|]. rewrite IH. lia.
Qed.

Lemma step_budget m m' :
  step resume m = Some m' ->
  (budget kweight (queue (js m')) < budget kweight (queue (js m)))%nat.
Proof.
  unfold step. destruct (crashed (js m)); [discriminate|].
  destruct (queue (js m)) as [|[s k] q] eqn:Eq; [discriminate|].
  destruct (exec s (store m)) as [db r]. intros E. inversion E; subst m'; clear E.
  simpl. destruct k as [k|]; unfold task_weight; simpl.
  - pose proof (resume_budget k r (set_queue q (js m))) as Hb. simpl in Hb. lia.
  - lia.
Qed.

Lemma step_None_quiescent m : step resume m = None <-> quiescent m.
Proof.
  unfold step, quiescent. destruct (crashed (js m)).
  - split; auto.
  - destruct (queue (js m)) as [|[s k] q].
    + split; auto.
    + destruct (exec s (store m)). split; [discriminate|].
      intros [Hc|Hq]; discriminate.
Qed.

Lemma run_quiescent fuel m :
  (budget kweight (queue (js m)) <= fuel)%nat -> quiescent (run resume fuel m).
Proof.
  revert m. induction fuel as [|fuel IH]; intros m Hb; simpl.
  - right. destruct (queue (js m)) as [|t q]; [reflexivity|].
    simpl in Hb. unfold task_weight in Hb. destruct (snd t); lia.
  - destruct (step resume m) as [m'|] eqn:E.
    + apply IH. pose proof (@step_budget m m' E). lia.
    + now apply step_None_quiescent.
Qed.

(** [drain] ends in a state where nothing is left to happen. *)
Lemma drain_quiescent m : quiescent (drain resume kweight m).
Proof. apply run_quiescent. lia. Qed.

Lemma run_until_settled_rest fuel m :
  (budget kweight (queue (js m)) <= fuel)%nat ->
  settled (js (run_until_settled resume fuel m)) = true
  \/ quiescent (run_until_settled resume fuel m).
Proof.
  revert m. induction fuel as [|fuel IH]; intros m Hb; simpl.
  - right. right. destruct (queue (js m)) as [|t q]; [reflexivity|].
    simpl in Hb. unfold task_weight in Hb. destruct (snd t); lia.
  - destruct (settled (js m)) eqn:Es; [now left|].
    destruct (step resume m) as [m'|] eqn:E.
    + apply IH. pose proof (@step_budget m m' E). lia.
    + right. now apply step_None_quiescent.
Qed.

(** [await] returns with the promise settled, or else nothing is left to
    happen and the promise stays pending for good. *)
Lemma await_settled_or_quiescent m :
  settled (js (await resume kweight m)) = true
  \/ quiescent (await resume kweight m).
Proof. apply run_until_settled_rest. lia. Qed.

Lemma run_add a b m : run resume (a + b) m = run resume b (run resume a m).
Proof.
  revert m. induction a as [|a IH]; intros m; simpl; [reflexivity|].
  destruct (step resume m) as [m'|] eqn:E; [apply IH|].
  destruct b; simpl; [reflexivity|]. now rewrite E.
Qed.

Lemma run_at_rest fuel m : quiescent m -> run resume fuel m = m.
Proof.
  intros Hq. apply step_None_quiescent in Hq.
  destruct fuel; simpl; [reflexivity|]. now rewrite Hq.
Qed.

(** Any run that is long enough ends where [drain] ends. *)
Lemma run_enough fuel m :
  (budget kweight (queue (js m)) <= fuel)%nat ->
  run resume fuel m = drain resume kweight m.
Proof.
  intros Hb. unfold drain.
  replace fuel with (budget kweight (queue (js m))
                     + (fuel - budget kweight (queue (js m))))%nat by lia.
  rewrite run_add. apply run_at_rest. apply drain_quiescent.
Qed.

Lemma run_rest_unique f1 f2 m :
  quiescent (run resume f1 m) -> quiescent (run resume f2 m) ->
  run resume f1 m = run resume f2 m.
Proof.
  intros H1 H2. destruct (Nat.le_ge_cases f1 f2) as [Hle|Hle].
  - replace f2 with (f1 + (f2 - f1))%nat by lia.
    rewrite run_add. symmetry. now apply run_at_rest.
  - replace f1 with (f2 + (f1 - f2))%nat by lia.
    rewrite run_add. now apply run_at_rest.
Qed.

(** A state reached on the way drains to the same end. *)
Lemma drain_run a m :
  drain resume kweight (run resume a m) = drain resume kweight m.
Proof.
  unfold drain at 1. rewrite <- run_add.
  apply run_rest_unique.
  - rewrite run_add. apply drain_quiescent.
  - apply drain_quiescent.
Qed.

(** A property every step keeps holds wherever a run ends. *)
Lemma run_invariant (I : Machine num R -> Prop) :
  (forall m m', I m -> step resume m = Some m' -> I m') ->
  forall fuel m, I m -> I (run resume fuel m).
Proof.
  intros Hstep fuel. induction fuel as [|fuel IH]; intros m Hm; simpl; [exact Hm|].
  destruct (step resume m) as [m'|] eqn:E; [|exact Hm].
  apply IH. now apply (Hstep m).
Qed.

End EventLoopFacts.

Section BudgetFacts.
Context {num : Type} {R : Type}.
Variable kweight : Cont num R -> nat.

Lemma budget_browsing uid jid b (events : list (Task num R)) :
  Forall (browsing_ok uid jid b) events ->
  budget kweight events = List.length events.
Proof.
  induction 1 as [|t ev [Ht _] _ IH]; simpl; [reflexivity|].
  rewrite IH. unfold task_weight, is_browsing_of in *.
  destruct t as [[] [k|]]; simpl in *; (reflexivity || discriminate).
Qed.

Lemma budget_settle p (js : Js num R) :
  budget kweight (queue (settle p js)) = budget kweight (queue js).
Proof. now rewrite queue_settle. Qed.

End BudgetFacts.

Module App1Rest.
Import App1.

Section Rest.
Context {num : Type} `{JsNumber num}.
Variable P : Policy.
Implicit Types (js : State num) (row : RowData num).

Lemma budget_subscription_of row jid :
  (budget (kweight P) (subscription_of row jid) <= 1)%nat.
Proof. unfold subscription_of. destruct (isSubscribed row); simpl; lia. Qed.

Lemma createSubscriptionData_budget row jid js :
  (budget (kweight P) (queue (createSubscriptionData P row jid js))
   <= budget (kweight P) (queue js) + S (max_sessions P))%nat.
Proof.
  destruct (App1Facts.createSubscriptionData_queue P row jid js)
    as (ev & -> & Hl & Hf).
  rewrite !budget_app, (budget_browsing _ Hf).
  pose proof (budget_subscription_of row jid). lia.
Qed.

(** One row issues nothing, or the lookup of its journal. *)
Lemma forEach_row_queue uid name (r : object num) index js :
  queue (forEach_row uid name r index js) = queue js
  \/ exists ctx,
      queue (forEach_row uid name r index js)
      = queue js ++ [(SelectJournal (findValue r title_keys), Some (KJournalLookup ctx))]
      /\ universityId ctx = uid
      /\ journalTitle ctx = findValue r title_keys
      /\ falsy (journalTitle ctx) = false
      /\ isSubscribed ctx = parseBoolean (findValue r current_keys).
Proof.
  unfold forEach_row. destruct (falsy (findValue r title_keys)) eqn:Ht.
  - now left.
  - right.
    assert (Hq : queue (snd (cost_or_fallback
                               (parseFloat (to_String (findValue r cost_keys))) js))
                 = queue js).
    { unfold cost_or_fallback. now destruct (num_falsy _). }
    destruct (cost_or_fallback _ js) as [c js']. simpl in Hq.
    eexists. rewrite queue_db_call, Hq. split; [reflexivity|]. now repeat split.
Qed.

Lemma forEach_budget uid name data index js :
  (budget (kweight P) (queue (forEach uid name data index js))
   <= budget (kweight P) (queue js) + List.length data * (4 + max_sessions P))%nat.
Proof.
  revert index js. induction data as [|r data IH]; intros index js; simpl; [lia|].
  specialize (IH (S index) (forEach_row uid name r index js)).
  destruct (forEach_row_queue uid name r index js) as [Hq | (ctx & Hq & _)];
    rewrite Hq in IH.
  - lia.
  - rewrite budget_app in IH. simpl in IH. unfold task_weight in IH. simpl in IH. lia.
Qed.

Lemma processSubscriptionData_budget uid name data js :
  (budget (kweight P) (queue (processSubscriptionData uid name data js))
   <= budget (kweight P) (queue js)
      + 2 + List.length data * (4 + max_sessions P))%nat.
Proof.
  unfold processSubscriptionData.
  match goal with |- context [forEach uid name data 0 ?js'] =>
    pose proof (forEach_budget uid name data 0 js') as Hb end.
  rewrite !queue_db_run, !budget_app in Hb. simpl in Hb.
  unfold task_weight in Hb. simpl in Hb. lia.
Qed.

Lemma resume_budget k r js :
  (budget (kweight P) (queue (resume P k r js))
   <= budget (kweight P) (queue js) + kweight P k)%nat.
Proof.
  destruct k as [name data|name data|row|row]; destruct r as [[id|]|lastID|];
    unfold resume; cbv beta iota; unfold reject; rewrite ?queue_settle;
    try (simpl; lia).
  - pose proof (processSubscriptionData_budget id name data js). simpl. lia.
  - rewrite queue_db_call, budget_app. simpl. unfold task_weight. simpl. lia.
  - pose proof (processSubscriptionData_budget lastID name data js). simpl. lia.
  - pose proof (createSubscriptionData_budget row id js). simpl. lia.
  - destruct (generateJournalKeywords (journalTitle row) (subject row)).
    + rewrite queue_db_call, budget_app. simpl. unfold task_weight. simpl. lia.
    + simpl. lia.
  - pose proof (createSubscriptionData_budget row lastID js). simpl. lia.
Qed.

(** app1.js and the unnamed variant: once the batch has gone as far as it
    can, the connection runs dry. *)
Lemma ingest_quiescent readFile files (m : Machine num (RowData num)) :
  quiescent (fst (ingest P readFile files m)).
Proof.
  unfold ingest. destruct (processAllExcelFiles P readFile files m) as [m' o].
  simpl. apply drain_quiescent. apply resume_budget.
Qed.

End Rest.
End App1Rest.

Module App5Rest.
Import App5.

Section Rest.
Context {num : Type} `{JsNumber num}.
Implicit Types (js : State num) (row : RowData num).

Lemma budget_subscription_with row jid c u :
  (budget kweight (subscription_with row jid c u) <= 1)%nat.
Proof. unfold subscription_with. destruct (isCurrentlySubscribed row); simpl; lia. Qed.

Lemma insertSubscriptionAndBrowsing_budget row jid js :
  (budget kweight (queue (insertSubscriptionAndBrowsing row jid js))
   <= budget kweight (queue js) + S max_sessions)%nat.
Proof.
  destruct (App5Facts.insertSubscriptionAndBrowsing_queue row jid js)
    as (c & u & ev & -> & _ & Hl & Hf).
  rewrite !budget_app, (budget_browsing _ Hf).
  pose proof (budget_subscription_with row jid c u). lia.
Qed.

(** One row issues nothing, or the lookup of its journal. *)
Lemma forEach_row_queue5 uid name (r : object num) index js :
  forEach_row uid name r index js = js
  \/ exists ctx,
      forEach_row uid name r index js
      = db_call (SelectJournal (findColumnValue r title_names))
                (KJournalLookup ctx) js
      /\ universityId ctx = uid
      /\ journalTitle ctx = findColumnValue r title_names
      /\ no_title (journalTitle ctx) = false
      /\ isCurrentlySubscribed ctx
         = parseSubscriptionStatus (findColumnValue r current_names).
Proof.
  unfold forEach_row. destruct (no_title (findColumnValue r title_names)) eqn:Ht.
  - now left.
  - right. eexists. split; [reflexivity|]. now repeat split.
Qed.

Lemma forEach_budget5 uid name data index js :
  (budget kweight (queue (forEach uid name data index js))
   <= budget kweight (queue js) + List.length data * (4 + max_sessions))%nat.
Proof.
  revert index js. induction data as [|r data IH]; intros index js;
    [simpl; lia|].
  cbn [forEach List.length]. rewrite Nat.mul_succ_l.
  specialize (IH (S index) (forEach_row uid name r index js)).
  destruct (forEach_row_queue5 uid name r index js) as [Hq | (ctx & Hq & _)];
    rewrite Hq in IH |- *.
  - lia.
  - rewrite queue_db_call, budget_app in IH. cbn [budget fold_right] in IH.
    unfold task_weight in IH. cbn [snd kweight] in IH.
    lia.
Qed.

Lemma processSheetData_budget uid name data js :
  (budget kweight (queue (processSheetData uid name data js))
   <= budget kweight (queue js) + 2 + List.length data * (4 + max_sessions))%nat.
Proof.
  unfold processSheetData. destruct data as [|r data].
  - unfold resolve. rewrite queue_settle. lia.
  - match goal with |- context [forEach uid name ?d 0 ?js'] =>
      pose proof (forEach_budget5 uid name d 0 js') as Hb end.
    rewrite !queue_db_run, !budget_app in Hb. cbn [budget fold_right] in Hb.
    unfold task_weight in Hb. cbn [snd passive] in Hb. lia.
Qed.

Lemma resume_budget5 k r js :
  (budget kweight (queue (resume k r js))
   <= budget kweight (queue js) + kweight k)%nat.
Proof.
  destruct k as [name data|name data|row|row]; destruct r as [[id|]|lastID|];
    unfold resume; cbv beta iota; unfold reject;
    rewrite ?App5Facts.queue_checkCompletion, ?queue_incr_errors, ?queue_settle;
    cbn [kweight]; try lia.
  - pose proof (processSheetData_budget id name data js). lia.
  - rewrite queue_db_call, budget_app. cbn [budget fold_right].
    unfold task_weight. cbn [snd kweight]. lia.
  - pose proof (processSheetData_budget lastID name data js). lia.
  - pose proof (insertSubscriptionAndBrowsing_budget row id js). lia.
  - destruct (generateKeywords (journalTitle row) (subject row)).
    + rewrite queue_db_call, budget_app. cbn [budget fold_right].
      unfold task_weight. cbn [snd kweight]. lia.
    + cbn [uncaught queue]. lia.
  - pose proof (insertSubscriptionAndBrowsing_budget row lastID js). lia.
Qed.

(** app5.js: once the batch has gone as far as it can, the connection
    runs dry. *)
Lemma ingest_quiescent5 readFile files (m : Machine num (RowData num)) :
  quiescent (fst (ingest readFile files m)).
Proof.
  unfold ingest. destruct (processExcelFilesFromFolder readFile files m) as [m' o].
  simpl. apply drain_quiescent. apply resume_budget5.
Qed.

End Rest.
End App5Rest.

(* ------------------------------------------------------------------------- *)
(** ** The batch loop *)

Section BatchFacts.
Context {num : Type} `{JsNumber num}.

Lemma App1_files_loop_app P readFile pre post
      (m m1 : Machine num (App1.RowData num)) :
  App1.files_loop P readFile pre m = (m1, AllFilesHandled) ->
  App1.files_loop P readFile (pre ++ post) m = App1.files_loop P readFile post m1.
Proof.
  revert m. induction pre as [|f pre IH]; intros m; simpl.
  - intros E. now inversion E.
  - destruct (readFile f) as [workbook|message]; [|apply IH].
    destruct (crashed _); [discriminate|].
    destruct (promise _); [discriminate | apply IH | apply IH].
Qed.

Lemma App5_files_loop_app readFile pre post
      (m m1 : Machine num (App5.RowData num)) :
  App5.files_loop readFile pre m = (m1, AllFilesHandled) ->
  App5.files_loop readFile (pre ++ post) m = App5.files_loop readFile post m1.
Proof.
  revert m. induction pre as [|f pre IH]; intros m; simpl.
  - intros E. now inversion E.
  - destruct (readFile f) as [workbook|message]; [|apply IH].
    destruct (crashed _); [discriminate|].
    destruct (promise _); [discriminate | apply IH | apply IH].
Qed.

(** Awaiting a promise that is settled already takes no time. *)
Lemma await_settled {R : Type} resume kweight (m : Machine num R) :
  settled (js m) = true -> await resume kweight m = m.
Proof.
  intros Hs. unfold await. destruct (budget kweight (queue (js m))); simpl;
    [reflexivity|]. now rewrite Hs.
Qed.

End BatchFacts.

(** C8, at a batch where the claim and the code part: two files, both
    readable, the title cell of the first holding the number 2024.  No
    journal has that title, so the callback of the lookup calls the keyword
    generator, [title.toLowerCase] is not a function, and the TypeError is
    thrown inside a database callback, where the [try]/[catch] of the batch
    loop does not reach.  The failure of the first file is neither caught
    nor logged and the batch does not go on: the process dies with the
    console holding the first file's start only, and the second file is
    never started.  On app1.js and on app5.js. *)
Lemma C8_uncaught_exception_stops_batch :
  (snd (App1.processAllExcelFiles
          App1.policy Scenario.shelf
          [Scenario.aalborg_2024; Scenario.mahidol_2024] Scenario.start)
   = Died
   /\ console
        (js (fst (App1.processAllExcelFiles
                    App1.policy Scenario.shelf
                    [Scenario.aalborg_2024; Scenario.mahidol_2024]
                    Scenario.start)))
      = [LogProcessing Scenario.aalborg_2024])
  /\ (snd (App5.processExcelFilesFromFolder
             Scenario.shelf
             [Scenario.aalborg_2024; Scenario.mahidol_2024] Scenario.start)
      = Died
      /\ console
           (js (fst (App5.processExcelFilesFromFolder
                       Scenario.shelf
                       [Scenario.aalborg_2024; Scenario.mahidol_2024]
                       Scenario.start)))
         = [LogProcessing Scenario.aalborg_2024]).
Proof. repeat split; vm_compute; reflexivity. Qed.

(** X19.  The failures the batch loop does contain: an exception thrown
    by [XLSX.readFile] and a rejection of the promise of the file.
    Wherever a file stands in the batch, once the loop reaches it:
    if [XLSX.readFile] throws, the error is logged, the store is as it
    was, and the loop goes on with the files after it exactly as it would
    from that state; the same when the promise of the file is rejected (in
    app5.js, for one, when no university can be made out of the file
    name). *)
Theorem X19_caught_failure_does_not_stop_batch :
  forall (num : Type) (JN : JsNumber num) (P : Policy)
         (readFile : string -> Workbook num + string)
         (pre post : list string) (f : string),
    (forall (m m1 : Machine num (App1.RowData num)),
        App1.files_loop P readFile pre m = (m1, AllFilesHandled) ->
        (forall message,
            readFile f = inr message ->
            exists m2,
              App1.files_loop P readFile (pre ++ f :: post) m
              = App1.files_loop P readFile post m2
              /\ store m2 = store m1
              /\ queue (js m2) = queue (js m1)
              /\ In (LogFileError f message) (console (js m2)))
        /\ (forall workbook message,
            readFile f = inl workbook ->
            let m' := await (App1.resume P) (App1.kweight P)
                        (App1.on_js (App1.processExcelFile workbook f)
                           (App1.on_js (console_log (LogProcessing f)) m1)) in
            crashed (js m') = false ->
            promise (js m') = Rejected message ->
            App1.files_loop P readFile (pre ++ f :: post) m
            = App1.files_loop P readFile post
                (App1.on_js (console_log (LogFileError f message)) m')))
    /\ (forall (m m1 : Machine num (App5.RowData num)),
        App5.files_loop readFile pre m = (m1, AllFilesHandled) ->
        (forall message,
            readFile f = inr message ->
            exists m2,
              App5.files_loop readFile (pre ++ f :: post) m
              = App5.files_loop readFile post m2
              /\ store m2 = store m1
              /\ queue (js m2) = queue (js m1)
              /\ In (LogFileError f message) (console (js m2)))
        /\ (forall workbook message,
            readFile f = inl workbook ->
            let m' := await App5.resume App5.kweight
                        (App5.on_js (App5.processUniversityExcelFile workbook f)
                           (App5.on_js (console_log (LogProcessing f)) m1)) in
            crashed (js m') = false ->
            promise (js m') = Rejected message ->
            App5.files_loop readFile (pre ++ f :: post) m
            = App5.files_loop readFile post
                (App5.on_js (console_log (LogFileError f message)) m'))
        /\ (forall workbook,
            readFile f = inl workbook ->
            App5.extractUniversityFromFilename f = None ->
            crashed (js m1) = false ->
            exists m2,
              App5.files_loop readFile (pre ++ f :: post) m
              = App5.files_loop readFile post m2
              /\ store m2 = store m1
              /\ queue (js m2) = queue (js m1)
              /\ In (LogFileError
                       f ("Could not determine university from filename: " ++ f))
                    (console (js m2)))).
Proof.
  intros num JN P readFile pre post f. split.
  - intros m m1 Hpre. split.
    + intros message Hr. eexists. split.
      * erewrite App1_files_loop_app; [|exact Hpre].
        simpl. rewrite Hr. reflexivity.
      * simpl. repeat split. apply in_or_app. right. now left.
    + intros workbook message Hr m' Hc Hp.
      erewrite App1_files_loop_app; [|exact Hpre].
      simpl. rewrite Hr. fold m'. now rewrite Hc, Hp.
  - intros m m1 Hpre. split; [|split].
    + intros message Hr. eexists. split.
      * erewrite App5_files_loop_app; [|exact Hpre].
        simpl. rewrite Hr. reflexivity.
      * simpl. repeat split. apply in_or_app. right. now left.
    + intros workbook message Hr m' Hc Hp.
      erewrite App5_files_loop_app; [|exact Hpre].
      simpl. rewrite Hr. fold m'. now rewrite Hc, Hp.
    + intros workbook Hr Hname Hc. eexists. split.
      * erewrite App5_files_loop_app; [|exact Hpre].
        simpl. rewrite Hr. rewrite await_settled.
        -- unfold App5.processUniversityExcelFile. rewrite Hname. simpl.
           rewrite Hc. reflexivity.
        -- unfold App5.processUniversityExcelFile. rewrite Hname. reflexivity.
      * simpl. repeat split. apply in_or_app. right. now left.
Qed.

Lemma X19_caught_failure_does_not_stop_batch_witness :
  (exists m2 : Machine intnum (App1.RowData intnum),
      App1.files_loop App1.policy Scenario.disk
                      ([] ++ Scenario.unreadable :: [Scenario.aalborg_2024])
                      Scenario.start
      = App1.files_loop App1.policy Scenario.disk [Scenario.aalborg_2024] m2
      /\ store m2 = @empty_store intnum
      /\ queue (js m2) = []
      /\ In (LogFileError Scenario.unreadable
                          "ENOENT: no such file or directory")
            (console (js m2)))
  /\ (exists m2 : Machine intnum (App5.RowData intnum),
         App5.files_loop Scenario.disk
                         ([] ++ Scenario.anonymous :: [Scenario.aalborg_2024])
                         Scenario.start
         = App5.files_loop Scenario.disk [Scenario.aalborg_2024] m2
         /\ store m2 = @empty_store intnum
         /\ queue (js m2) = []
         /\ In (LogFileError
                  Scenario.anonymous
                  ("Could not determine university from filename: "
                     ++ Scenario.anonymous))
               (console (js m2))).
Proof.
  split.
  - destruct (X19_caught_failure_does_not_stop_batch
                intnum_JsNumber App1.policy Scenario.disk
                [] [Scenario.aalborg_2024] Scenario.unreadable) as [H1 _].
    destruct (H1 Scenario.start Scenario.start eq_refl) as [Hthrow _].
    apply Hthrow. reflexivity.
  - destruct (X19_caught_failure_does_not_stop_batch
                intnum_JsNumber App1.policy Scenario.disk
                [] [Scenario.aalborg_2024] Scenario.anonymous) as [_ H5].
    destruct (H5 Scenario.start Scenario.start eq_refl) as (_ & _ & Hname).
    apply (Hname Scenario.subscribed_export); reflexivity.
Defined.

(* ------------------------------------------------------------------------- *)
(** ** Re-ingestion replaces the rows of a university *)

(** The seven clauses of [audit], one goal each. *)
Ltac split_audit :=
  unfold audit; split; [|split; [|split; [|split; [|split; [|split]]]]].

Section AuditFacts.
Context {num : Type} `{JsNumber num} {R : Type}.
Variable V : View num R.
Implicit Types (db : Store num) (t : Task num R) (q : list (Task num R)).

Lemma journal_of_file_mono db db' jid b :
  incl (journals db) (journals db') ->
  journal_of_file V db jid b -> journal_of_file V db' jid b.
Proof.
  intros Hi (ctx & j & Hf & Hs & Hj & Hid & Ht).
  exists ctx, j. repeat split; auto.
Qed.

Lemma journal_of_file_weaken db jid b :
  journal_of_file V db jid b -> journal_of_file V db jid false.
Proof.
  intros (ctx & j & Hf & Hs & Hj & Hid & Ht).
  exists ctx, j. split; [exact Hf|]. split; [discriminate|]. auto.
Qed.

Lemma subscription_ok_mono db db' s :
  incl (journals db) (journals db') ->
  subscription_ok V db s -> subscription_ok V db' s.
Proof.
  intros Hi (H1 & H2 & H3 & H4 & H5 & H6).
  repeat split; auto. eapply journal_of_file_mono; eauto.
Qed.

Lemma browsing_event_ok_mono db db' b :
  incl (journals db) (journals db') ->
  browsing_event_ok V db b -> browsing_event_ok V db' b.
Proof.
  intros Hi (H1 & H2). split; auto. eapply journal_of_file_mono; eauto.
Qed.

Lemma task_ok_mono db db' t :
  incl (journals db) (journals db') -> task_ok V db t -> task_ok V db' t.
Proof.
  intros Hi. destruct t as [s [k|]]; destruct s; simpl; try tauto.
  - intros (H1 & H2 & H3 & H4 & H5 & H6). repeat split; auto.
    eapply journal_of_file_mono; eauto.
  - intros (H1 & H2). split; auto. eapply journal_of_file_mono; eauto.
Qed.

Lemma pending_subscriptions_app q q' :
  pending_subscriptions V (q ++ q')
  = (pending_subscriptions V q + pending_subscriptions V q')%nat.
Proof. unfold pending_subscriptions. now rewrite map_app, list_sum_app. Qed.

Lemma pending_subscriptions_browsing u j b q :
  Forall (browsing_ok u j b) q -> pending_subscriptions V q = 0%nat.
Proof.
  induction 1 as [|t q [Ht _] _ IH]; [reflexivity|].
  unfold pending_subscriptions in *. simpl. rewrite IH.
  unfold is_browsing_of in Ht.
  destruct t as [[] [k|]]; simpl in *; (reflexivity || discriminate).
Qed.

(** The browsing inserts a synthesiser issues for a journal of the file
    are statements of the file. *)
Lemma task_ok_browsing db jid b q :
  journal_of_file V db jid false ->
  Forall (browsing_ok (uid V) jid b) q -> Forall (task_ok V db) q.
Proof.
  intros Hj. apply Forall_impl. intros t [Ht _].
  unfold is_browsing_of in Ht.
  destruct t as [[] [k|]]; simpl in *; try discriminate.
  apply andb_true_iff in Ht. destruct Ht as [Hu Hjid].
  apply Z.eqb_eq in Hu. apply Z.eqb_eq in Hjid. subst. now split.
Qed.

(** The callbacks of the row loop, as both variants have them: a journal
    found or just inserted goes to the synthesiser [synth]; a journal not
    found is inserted under its title, a string, unless the keyword code
    throws. *)
Variable resume : Cont num R -> Result -> Js num R -> Js num R.
Variable synth : R -> Z -> Js num R -> Js num R.

Hypothesis resume_found :
  forall ctx id js, resume (KJournalLookup ctx) (RRow (Some id)) js = synth ctx id js.
Hypothesis resume_inserted :
  forall ctx id js, resume (KJournalInsert ctx) (RDone id) js = synth ctx id js.
Hypothesis resume_missing :
  forall ctx js,
    from_file V ctx ->
    resume (KJournalLookup ctx) (RRow None) js = uncaught js
    \/ exists issn publisher subject keywords description s,
        journalTitle_of V ctx = VStr s
        /\ resume (KJournalLookup ctx) (RRow None) js
           = db_call (InsertJournal (journalTitle_of V ctx) issn publisher subject
                        keywords description)
                     (KJournalInsert ctx) js.
Hypothesis synth_issues :
  forall ctx jid js,
    crashed (synth ctx jid js) = crashed js
    /\ exists annual_cost usage_count events,
        queue (synth ctx jid js)
        = queue js
          ++ (if subscribed_of V ctx
              then [passive (InsertSubscription (universityId_of V ctx) jid
                               "institutional" "2024-01-01" "2024-12-31"
                               annual_cost "active" usage_count)]
              else [])
          ++ events
        /\ Forall (browsing_ok (universityId_of V ctx) jid false) events.

Lemma audit_synth db ctx jid js :
  Forall (task_ok V db) (queue js) ->
  from_file V ctx -> universityId_of V ctx = uid V ->
  (exists j, In j (journals db) /\ j_id j = jid
             /\ title_is (journalTitle_of V ctx) j = true) ->
  Forall (task_ok V db) (queue (synth ctx jid js))
  /\ pending_subscriptions V (queue (synth ctx jid js))
     = (pending_subscriptions V (queue js)
        + if subscribed_of V ctx then 1 else 0)%nat
  /\ crashed (synth ctx jid js) = crashed js.
Proof.
  intros Hq Hf Hu (j & Hj & Hid & Ht).
  destruct (synth_issues ctx jid js) as (Hc & c & u & ev & -> & Hev).
  rewrite Hu in *.
  assert (Hjf : forall b, (b = true -> subscribed_of V ctx = true) ->
                          journal_of_file V db jid b).
  { intros b Hb. exists ctx, j. auto. }
  split; [|split; [|exact Hc]].
  - apply Forall_app. split; [exact Hq|]. apply Forall_app. split.
    + destruct (subscribed_of V ctx) eqn:Hs; constructor; [|constructor].
      simpl. repeat split; auto.
    + eapply task_ok_browsing; [|exact Hev]. apply Hjf. discriminate.
  - rewrite !pending_subscriptions_app.
    rewrite (pending_subscriptions_browsing Hev).
    destruct (subscribed_of V ctx); unfold pending_subscriptions; simpl; lia.
Qed.

Lemma audit_step name expected m m' :
  audit V name expected m -> step resume m = Some m' ->
  audit V name expected m'.
Proof.
  intros (Hu & Hms & Hmb & Hsubs & Hbrow & Htasks & Hcount) Hstep.
  unfold step in Hstep.
  destruct (crashed (js m)) eqn:Hc; [discriminate|].
  destruct (queue (js m)) as [|[s k] q] eqn:Hq; [discriminate|].
  specialize (Hcount eq_refl).
  apply Forall_cons_iff in Htasks. destruct Htasks as [Ht Hrest].
  destruct s; destruct k as [[]|]; simpl in Ht; try contradiction.
  - (* the lookup of a journal *)
    destruct Ht as (Etitle & Hf & Hid). subst title.
    unfold exec in Hstep.
    destruct (find (title_is (journalTitle_of V row)) (journals (store m)))
      as [j|] eqn:Ef; simpl in Hstep.
    + apply find_some in Ef. destruct Ef as [Hj Ht].
      rewrite resume_found in Hstep.
      injection Hstep as Hm'. subst m'.
      destruct (@audit_synth (store m) row (j_id j) (set_queue q (js m)))
        as (Hq' & Hp' & Hc'); auto; [now exists j|].
      split_audit; simpl; auto.
      intros _. rewrite Hp'. rewrite <- Hcount.
      unfold pending_subscriptions. simpl. lia.
    + destruct (resume_missing row (set_queue q (js m)) Hf)
        as [E | (i & p & sj & kw & d & s0 & Hs0 & E)];
        rewrite E in Hstep; injection Hstep as Hm'; subst m'.
      * split_audit; simpl; auto. discriminate.
      * split_audit; simpl; auto.
        -- apply Forall_app. split; [exact Hrest|]. constructor; [|constructor].
           simpl. repeat split; auto. now exists s0.
        -- intros _. rewrite pending_subscriptions_app, <- Hcount.
           unfold pending_subscriptions. simpl. lia.
  - (* the insert of a journal *)
    destruct Ht as (Etitle & Hf & Hid & s0 & Hs0). subst title.
    unfold exec in Hstep. rewrite Hs0 in Hstep. simpl in Hstep.
    rewrite resume_inserted in Hstep. injection Hstep as Hm'. subst m'.
    match goal with
    | |- audit V _ _ (mkMachine ?db' _) =>
        assert (Hi : incl (journals (store m)) (journals db'))
          by (simpl; apply incl_appl, incl_refl);
        destruct (@audit_synth db' row (seq_journals (store m) + 1)%Z
                               (set_queue q (js m)))
          as (Hq' & Hp' & Hc'); auto
    end.
    + simpl. eapply Forall_impl; [|exact Hrest].
      intros t. apply task_ok_mono. exact Hi.
    + eexists. split; [simpl; apply in_or_app; right; left; reflexivity|].
      split; [reflexivity|].
      unfold title_is. rewrite Hs0. simpl. apply String.eqb_refl.
    + split_audit; simpl; auto.
      * eapply Forall_impl; [|exact Hsubs].
        intros s. apply subscription_ok_mono. exact Hi.
      * eapply Forall_impl; [|exact Hbrow].
        intros b. apply browsing_event_ok_mono. exact Hi.
      * intros _. rewrite Hp', <- Hcount.
        unfold pending_subscriptions, subscriptions_of. simpl. lia.
  - (* the insert of a subscription *)
    destruct Ht as (-> & -> & -> & -> & -> & Hj).
    unfold exec in Hstep. injection Hstep as Hm'. subst m'.
    split_audit; unfold subscriptions_of, browsing_of in *; simpl;
      rewrite ?filter_app; simpl; rewrite ?Z.eqb_refl; auto; try lia.
    + apply Forall_app. split; [exact Hsubs|].
      constructor; [|constructor]. unfold subscription_ok. simpl.
      repeat split; auto; try lia.
    + intros _. rewrite length_app, <- Hcount.
      unfold pending_subscriptions. simpl. lia.
  - (* the insert of a browsing event *)
    destruct Ht as (-> & Hj).
    unfold exec in Hstep. injection Hstep as Hm'. subst m'.
    split_audit; unfold subscriptions_of, browsing_of in *; simpl;
      rewrite ?filter_app; simpl; rewrite ?Z.eqb_refl; auto; try lia.
    + apply Forall_app. split; [exact Hbrow|].
      constructor; [|constructor]. unfold browsing_event_ok. simpl.
      split; [lia | exact Hj].
Qed.

(** Wherever the event loop comes to rest after the two deletes, the audit
    holds. *)
Lemma audit_run name expected fuel m :
  audit V name expected m -> audit V name expected (run resume fuel m).
Proof.
  apply (run_invariant resume (audit V name expected)).
  intros m1 m2. apply audit_step.
Qed.

End AuditFacts.

Section PhaseFacts.
Context {num : Type} `{JsNumber num} {R : Type}.
Variable resume : Cont num R -> Result -> Js num R -> Js num R.
Implicit Types (m : Machine num R) (q : list (Task num R)) (db : Store num).

Lemma step_passive m s q :
  crashed (js m) = false -> queue (js m) = passive s :: q ->
  step resume m
  = Some (mkMachine (fst (exec s (store m))) (set_queue q (js m))).
Proof.
  intros Hc Hq. unfold step. rewrite Hc, Hq. unfold passive.
  now destruct (exec s (store m)).
Qed.

Lemma step_callback m s k q :
  crashed (js m) = false -> queue (js m) = (s, Some k) :: q ->
  step resume m
  = Some (mkMachine (fst (exec s (store m)))
                    (resume k (snd (exec s (store m))) (set_queue q (js m)))).
Proof.
  intros Hc Hq. unfold step. rewrite Hc, Hq.
  now destruct (exec s (store m)).
Qed.

(** Statements without callbacks complete one after the other and leave
    the JavaScript side alone. *)
Lemma run_passive q :
  Forall (fun t => snd t = None) q ->
  forall m rest,
    crashed (js m) = false -> queue (js m) = q ++ rest ->
    run resume (List.length q) m
    = mkMachine (complete q (store m)) (set_queue rest (js m)).
Proof.
  induction 1 as [|[s k] q Hk _ IH]; intros m rest Hc Hq; simpl in *.
  - destruct m as [db st]. simpl in *. f_equal.
    destruct st; simpl in *. now subst.
  - subst k. rewrite (step_passive m Hc Hq).
    rewrite IH with (rest := rest); simpl; auto.
Qed.

Lemma filter_filter_negb {A : Type} (f : A -> bool) (l : list A) :
  filter f (filter (fun x => negb (f x)) l) = [].
Proof.
  induction l as [|x l IH]; simpl; [reflexivity|].
  destruct (f x) eqn:E; simpl; [exact IH|]. now rewrite E.
Qed.

Lemma find_none_existsb {A : Type} (f : A -> bool) (l : list A) :
  find f l = None -> existsb f l = false.
Proof.
  induction l as [|x l IH]; simpl; [reflexivity|].
  destruct (f x); [discriminate|]. exact IH.
Qed.

End PhaseFacts.

Section WeakenFacts.
Context {num : Type} {R : Type}.

Lemma browsing_ok_weaken uid jid b (t : Task num R) :
  browsing_ok uid jid b t -> browsing_ok uid jid false t.
Proof. intros (H1 & _ & H3). split; [exact H1|]. split; [discriminate | exact H3]. Qed.

End WeakenFacts.

Module App1Replace.
Import App1.

Section Replace.
Context {num : Type} `{JsNumber num}.
Variable P : Policy.
Implicit Types (js : State num) (row : RowData num) (m : Machine num (RowData num)).

Lemma generateJournalKeywords_string (title subject : value num) keywords :
  generateJournalKeywords title subject = Some keywords ->
  exists s, title = VStr s.
Proof.
  unfold generateJournalKeywords.
  destruct title as [| |b|n|s]; try (now exists s);
    intros E; exfalso; revert E; unfold option_bind; simpl;
    repeat match goal with
           | |- context [if ?c then _ else _] => destruct c
           | |- context [match ?x with Some _ => _ | None => _ end] => destruct x
           end; discriminate.
Qed.

Lemma resume_missing uid data ms mb row js :
  from_file (view uid data ms mb) row ->
  resume P (KJournalLookup row) (RRow None) js = uncaught js
  \/ exists issn publisher subject keywords description s,
      journalTitle row = VStr s
      /\ resume P (KJournalLookup row) (RRow None) js
         = db_call (InsertJournal (journalTitle row) issn publisher subject
                      keywords description)
                   (KJournalInsert row) js.
Proof.
  intros _. unfold resume.
  destruct (generateJournalKeywords (journalTitle row) (App1.subject row))
    as [keywords|] eqn:E; [right | now left].
  destruct (generateJournalKeywords_string _ _ E) as [s Hs].
  now exists VUndefined, (App1.publisher row), (App1.subject row), keywords,
    ("Journal from " ++ universityName row)%string, s.
Qed.

Lemma synth_issues row jid js :
  crashed (createSubscriptionData P row jid js) = crashed js
  /\ exists annual_cost usage_count events,
      queue (createSubscriptionData P row jid js)
      = queue js
        ++ (if isSubscribed row
            then [passive (InsertSubscription (universityId row) jid
                             "institutional" "2024-01-01" "2024-12-31"
                             annual_cost "active" usage_count)]
            else [])
        ++ events
      /\ Forall (browsing_ok (universityId row) jid false) events.
Proof.
  split; [apply App1Facts.createSubscriptionData_crashed|].
  destruct (App1Facts.createSubscriptionData_queue P row jid js)
    as (ev & Hq & _ & Hf).
  exists (cost row), 0%Z, ev. split; [exact Hq|].
  eapply Forall_impl; [|exact Hf]. intros t. apply browsing_ok_weaken.
Qed.

Lemma forEach_row_crashed uid name (r : object num) index js :
  crashed (forEach_row uid name r index js) = crashed js.
Proof.
  unfold forEach_row. destruct (falsy (findValue r title_keys)); [reflexivity|].
  unfold cost_or_fallback. now destruct (num_falsy _).
Qed.

Lemma forEach_row_cases uid name (r : object num) index js :
  (subscribed_row r = false
   /\ queue (forEach_row uid name r index js) = queue js)
  \/ exists ctx,
      queue (forEach_row uid name r index js)
      = queue js ++ [(SelectJournal (journalTitle ctx), Some (KJournalLookup ctx))]
      /\ universityId ctx = uid
      /\ journalTitle ctx = findValue r title_keys
      /\ falsy (journalTitle ctx) = false
      /\ isSubscribed ctx = parseBoolean (findValue r current_keys)
      /\ isSubscribed ctx = subscribed_row r.
Proof.
  unfold forEach_row, subscribed_row.
  destruct (falsy (findValue r title_keys)) eqn:Ht.
  - now left.
  - right.
    assert (Hq : queue (snd (cost_or_fallback
                               (parseFloat (to_String (findValue r cost_keys))) js))
                 = queue js).
    { unfold cost_or_fallback. now destruct (num_falsy _). }
    destruct (cost_or_fallback _ js) as [c js']. simpl in Hq.
    exists (mkRowData uid name (findValue r title_keys)
                      (parseBoolean (findValue r current_keys))
                      (js_or (findValue r publisher_keys) (VStr "Unknown"))
                      (js_or (findValue r subject_keys) (VStr "General")) c).
    rewrite queue_db_call, Hq. split; [reflexivity|]. now repeat split.
Qed.

(** The row loop issues the journal lookups of the rows that have a title,
    as many of them subscribed as the file has subscribed rows. *)
Lemma forEach_tasks uid name all ms mb db rows :
  incl rows all ->
  forall index js,
    crashed (forEach uid name rows index js) = crashed js
    /\ exists lookups,
        queue (forEach uid name rows index js) = queue js ++ lookups
        /\ Forall (task_ok (view uid all ms mb) db) lookups
        /\ pending_subscriptions (view uid all ms mb) lookups
           = List.length (filter subscribed_row rows).
Proof.
  induction rows as [|r rows IH]; intros Hi index js.
  - split; [reflexivity|]. exists []. simpl. now rewrite app_nil_r.
  - assert (Hr : In r all) by (apply Hi; now left).
    assert (Hi' : incl rows all) by (intros x Hx; apply Hi; now right).
    cbn [forEach].
    destruct (IH Hi' (S index) (forEach_row uid name r index js))
      as (Hc & lookups & Hq & Hok & Hp).
    split; [now rewrite Hc, forEach_row_crashed|].
    destruct (forEach_row_cases uid name r index js)
      as [[Hs Hq1] | (ctx & Hq1 & Hu & Ht & Hf & Hsub & Hrow)].
    + exists lookups. rewrite Hq, Hq1. split; [reflexivity|].
      split; [exact Hok|]. cbn [filter]. now rewrite Hs.
    + exists ((SelectJournal (journalTitle ctx), Some (KJournalLookup ctx))
              :: lookups).
      rewrite Hq, Hq1, <- app_assoc. split; [reflexivity|]. split.
      * constructor; [|exact Hok]. simpl. split; [reflexivity|].
        split; [|exact Hu]. exists r. now repeat split.
      * match goal with |- pending_subscriptions ?V (?x :: ?l) = _ =>
          assert (E : pending_subscriptions V (x :: l)
                      = (pending_subscription V x + pending_subscriptions V l)%nat)
            by reflexivity
        end.
        rewrite E, Hp. cbn [filter]. rewrite <- Hrow. simpl.
        destruct (isSubscribed ctx); simpl; lia.
Qed.

(** From the start of a file with rows to the row loop: the statements
    of earlier files complete, the university is found or made, and
    [processSubscriptionData] runs with nothing else in flight. *)
Lemma processExcelFile_reaches_rows workbook filename m :
  crashed (js m) = false ->
  Forall (fun t => snd t = None) (queue (js m)) ->
  first_sheet workbook <> [] ->
  exists a uid db st,
    run (resume P) a (on_js (processExcelFile workbook filename) m)
    = mkMachine db (processSubscriptionData
                      uid (extractUniversityName filename)
                      (first_sheet workbook) st)
    /\ queue st = [] /\ crashed st = false
    /\ (exists u, In u (universities db) /\ u_id u = uid
                  /\ u_name u = extractUniversityName filename)
    /\ subscriptions db = subscriptions (complete (queue (js m)) (store m))
    /\ browsing_history db
       = browsing_history (complete (queue (js m)) (store m))
    /\ seq_subscriptions db
       = seq_subscriptions (complete (queue (js m)) (store m))
    /\ seq_browsing_history db
       = seq_browsing_history (complete (queue (js m)) (store m)).
Proof.
  intros Hc Hpassive Hdata.
  set (name := extractUniversityName filename).
  set (data := first_sheet workbook) in *.
  set (db0 := complete (queue (js m)) (store m)).
  set (m1 := on_js (processExcelFile workbook filename) m).
  assert (Hq1 : queue (js m1)
                = queue (js m)
                  ++ [(SelectUniversity name, Some (KUniversityLookup name data))]).
  { unfold m1, on_js, processExcelFile. fold data. fold name.
    destruct data; [contradiction|]. reflexivity. }
  assert (Hc1 : crashed (js m1) = false).
  { unfold m1, on_js, processExcelFile. fold data.
    destruct data; [contradiction|]. exact Hc. }
  pose proof (@run_passive _ _ _ (resume P) _ Hpassive m1 _ Hc1 Hq1) as Hrun.
  change (store m1) with (store m) in Hrun. fold db0 in Hrun.
  set (m2 := mkMachine db0 (set_queue [(SelectUniversity name,
                                        Some (KUniversityLookup name data))]
                                      (js m1))) in Hrun.
  assert (Hstep2 := @step_callback _ _ _ (resume P) m2 _ _ [] Hc1 eq_refl).
  cbn [m2 store js exec fst snd] in Hstep2.
  destruct (find (fun u => seq (u_name u) name) (universities db0))
    as [u|] eqn:Ef.
  - exists (List.length (queue (js m)) + 1)%nat, (u_id u), db0.
    eexists. rewrite run_add, Hrun. cbn [run]. rewrite Hstep2.
    cbn [option_map resume]. split; [reflexivity|].
    apply find_some in Ef. destruct Ef as [Hu Hn]. apply seq_eq in Hn.
    repeat split; auto. now exists u.
  - set (m3 := mkMachine db0
                 (resume P (KUniversityLookup name data) (RRow None)
                         (set_queue [] (set_queue
                                          [(SelectUniversity name,
                                            Some (KUniversityLookup name data))]
                                          (js m1))))) in *.
    assert (Hstep3 := @step_callback _ _ _ (resume P) m3 _ _ [] Hc1 eq_refl).
    cbn [m3 store js exec fst snd] in Hstep3.
    rewrite (find_none_existsb _ _ Ef) in Hstep3. cbn [fst snd] in Hstep3.
    exists (List.length (queue (js m)) + 2)%nat, (seq_universities db0 + 1)%Z.
    eexists. eexists. rewrite run_add, Hrun. cbn [run]. rewrite Hstep2.
    cbn [option_map]. fold m3. rewrite Hstep3.
    cbn [resume]. split; [reflexivity|].
    repeat split; auto.
    eexists. split; [simpl; apply in_or_app; right; left; reflexivity|].
    now split.
Qed.

Lemma audit_holds uid all ms mb name expected fuel m :
  audit (view uid all ms mb) name expected m ->
  audit (view uid all ms mb) name expected (run (resume P) fuel m).
Proof.
  apply audit_run with (synth := createSubscriptionData P).
  - reflexivity.
  - reflexivity.
  - intros ctx st. apply resume_missing.
  - intros ctx jid st. apply synth_issues.
Qed.

(** The row loop of a re-ingestion: the two deletes complete first, and
    wherever the event loop then comes to rest the audit holds, against the
    counters as they stood before the deletes. *)
Lemma processSubscriptionData_replaces uid name data db st :
  queue st = [] -> crashed st = false ->
  (exists u, In u (universities db) /\ u_id u = uid /\ u_name u = name) ->
  audit (view uid data (seq_subscriptions db) (seq_browsing_history db))
        name (List.length (filter subscribed_row data))
        (drain (resume P) (kweight P)
               (mkMachine db (processSubscriptionData uid name data st))).
Proof.
  intros Hq0 Hc0 Hu.
  set (V := view uid data (seq_subscriptions db) (seq_browsing_history db)).
  set (m0 := mkMachine db (processSubscriptionData uid name data st)).
  set (db1 := fst (exec (DeleteSubscriptions uid) db)).
  set (db2 := fst (exec (DeleteBrowsingHistory uid) db1)).
  destruct (forEach_tasks uid name (seq_subscriptions db)
                          (seq_browsing_history db) db2 (incl_refl data) 0
                          (db_run (DeleteBrowsingHistory uid)
                                  (db_run (DeleteSubscriptions uid) st)))
    as (Hc & lookups & Hq & Hok & Hp).
  rewrite !queue_db_run, Hq0 in Hq. cbn [app] in Hq.
  assert (Hcm : crashed (js m0) = false).
  { unfold m0, processSubscriptionData. cbn [js]. rewrite Hc. exact Hc0. }
  assert (Hqm : queue (js m0)
                = passive (DeleteSubscriptions uid)
                  :: passive (DeleteBrowsingHistory uid) :: lookups).
  { unfold m0, processSubscriptionData. cbn [js]. exact Hq. }
  set (m1 := mkMachine db1 (set_queue (passive (DeleteBrowsingHistory uid)
                                       :: lookups) (js m0))).
  set (m2 := mkMachine db2 (set_queue lookups (js m0))).
  assert (H1 : step (resume P) m0 = Some m1)
    by (rewrite (@step_passive _ _ _ (resume P) m0 _ _ Hcm Hqm); reflexivity).
  assert (H2 : step (resume P) m1 = Some m2)
    by (rewrite (@step_passive _ _ _ (resume P) m1 _ _ Hcm eq_refl); reflexivity).
  assert (Hrun : run (resume P) 2 m0 = m2)
    by (cbn [run]; now rewrite H1, H2).
  rewrite <- (@drain_run _ _ _ (resume P) (kweight P)
                          (App1Rest.resume_budget P) 2 m0), Hrun.
  apply audit_holds.
  split_audit; unfold subscriptions_of, browsing_of; simpl; auto; try lia.
  - rewrite filter_filter_negb. constructor.
  - rewrite filter_filter_negb. constructor.
  - intros _. rewrite filter_filter_negb. exact Hp.
Qed.

End Replace.
End App1Replace.

Section AuditEnd.
Context {num : Type} `{JsNumber num} {R : Type}.
Variable V : View num R.


End AuditEnd.

Module App1Reingest.
Import App1.

Section Reingest.
Context {num : Type} `{JsNumber num}.
Variable P : Policy.


End Reingest.
End App1Reingest.

Module App5Replace.
Import App5.

Section Replace.
Context {num : Type} `{JsNumber num}.
Implicit Types (js : State num) (row : RowData num) (m : Machine num (RowData num)).

Lemma generateKeywords_string (title subject : value num) keywords :
  falsy title = false ->
  generateKeywords title subject = Some keywords ->
  exists s, title = VStr s.
Proof.
  unfold generateKeywords. intros Hf. rewrite Hf.
  destruct title as [| |b|n|s]; try (now exists s);
    intros E; exfalso; revert E; unfold option_bind; simpl; discriminate.
Qed.

Lemma no_title_truthy (title : value num) :
  no_title title = false -> falsy title = false.
Proof. unfold no_title. intros E. now apply orb_false_iff in E. Qed.

Lemma resume_missing5 uid data ms mb row js :
  from_file (view uid data ms mb) row ->
  resume (KJournalLookup row) (RRow None) js = uncaught js
  \/ exists issn publisher subject keywords description s,
      journalTitle row = VStr s
      /\ resume (KJournalLookup row) (RRow None) js
         = db_call (InsertJournal (journalTitle row) issn publisher subject
                      keywords description)
                   (KJournalInsert row) js.
Proof.
  intros (r & _ & _ & Hnt & _). unfold resume.
  destruct (generateKeywords (journalTitle row) (App5.subject row))
    as [keywords|] eqn:E; [right | now left].
  destruct (generateKeywords_string _ _ (no_title_truthy _ Hnt) E) as [s Hs].
  now exists (js_or (App5.issn row) (VStr "")),
    (js_or (App5.publisher row) (VStr "Unknown")),
    (js_or (App5.subject row) (VStr "General")), keywords,
    ("Journal from " ++ universityName row ++ " subscription data")%string, s.
Qed.

Lemma synth_issues5 row jid js :
  crashed (insertSubscriptionAndBrowsing row jid js) = crashed js
  /\ exists annual_cost usage_count events,
      queue (insertSubscriptionAndBrowsing row jid js)
      = queue js
        ++ (if isCurrentlySubscribed row
            then [passive (InsertSubscription (universityId row) jid
                             "institutional" "2024-01-01" "2024-12-31"
                             annual_cost "active" usage_count)]
            else [])
        ++ events
      /\ Forall (browsing_ok (universityId row) jid false) events.
Proof.
  split; [apply App5Facts.insertSubscriptionAndBrowsing_crashed|].
  destruct (App5Facts.insertSubscriptionAndBrowsing_queue row jid js)
    as (c & u & ev & Hq & _ & _ & Hf).
  now exists c, u, ev.
Qed.

Lemma forEach_row_crashed5 uid name (r : object num) index js :
  crashed (forEach_row uid name r index js) = crashed js.
Proof.
  unfold forEach_row. now destruct (no_title (findColumnValue r title_names)).
Qed.

Lemma forEach_row_cases5 uid name (r : object num) index js :
  (subscribed_row r = false
   /\ queue (forEach_row uid name r index js) = queue js)
  \/ exists ctx,
      queue (forEach_row uid name r index js)
      = queue js ++ [(SelectJournal (journalTitle ctx), Some (KJournalLookup ctx))]
      /\ universityId ctx = uid
      /\ journalTitle ctx = findColumnValue r title_names
      /\ no_title (journalTitle ctx) = false
      /\ isCurrentlySubscribed ctx
         = parseSubscriptionStatus (findColumnValue r current_names)
      /\ isCurrentlySubscribed ctx = subscribed_row r.
Proof.
  unfold forEach_row, subscribed_row.
  destruct (no_title (findColumnValue r title_names)) eqn:Ht.
  - now left.
  - right.
    exists (mkRowData uid name (findColumnValue r title_names)
                      (parseSubscriptionStatus (findColumnValue r current_names))
                      (findColumnValue r publisher_names)
                      (findColumnValue r subject_names)
                      (findColumnValue r cost_names)
                      (findColumnValue r issn_names)).
    rewrite queue_db_call. split; [reflexivity|]. now repeat split.
Qed.

Lemma forEach_tasks5 uid name all ms mb db rows :
  incl rows all ->
  forall index js,
    crashed (forEach uid name rows index js) = crashed js
    /\ exists lookups,
        queue (forEach uid name rows index js) = queue js ++ lookups
        /\ Forall (task_ok (view uid all ms mb) db) lookups
        /\ pending_subscriptions (view uid all ms mb) lookups
           = List.length (filter subscribed_row rows).
Proof.
  induction rows as [|r rows IH]; intros Hi index js.
  - split; [reflexivity|]. exists []. simpl. now rewrite app_nil_r.
  - assert (Hr : In r all) by (apply Hi; now left).
    assert (Hi' : incl rows all) by (intros x Hx; apply Hi; now right).
    cbn [forEach].
    destruct (IH Hi' (S index) (forEach_row uid name r index js))
      as (Hc & lookups & Hq & Hok & Hp).
    split; [now rewrite Hc, forEach_row_crashed5|].
    destruct (forEach_row_cases5 uid name r index js)
      as [[Hs Hq1] | (ctx & Hq1 & Hu & Ht & Hf & Hsub & Hrow)].
    + exists lookups. rewrite Hq, Hq1. split; [reflexivity|].
      split; [exact Hok|]. cbn [filter]. now rewrite Hs.
    + exists ((SelectJournal (journalTitle ctx), Some (KJournalLookup ctx))
              :: lookups).
      rewrite Hq, Hq1, <- app_assoc. split; [reflexivity|]. split.
      * constructor; [|exact Hok]. simpl. split; [reflexivity|].
        split; [|exact Hu]. exists r. now repeat split.
      * match goal with |- pending_subscriptions ?V (?x :: ?l) = _ =>
          assert (E : pending_subscriptions V (x :: l)
                      = (pending_subscription V x + pending_subscriptions V l)%nat)
            by reflexivity
        end.
        rewrite E, Hp. cbn [filter]. rewrite <- Hrow. simpl.
        destruct (isCurrentlySubscribed ctx); simpl; lia.
Qed.

(** From the start of a file of a university that can be made out, to the
    row loop. *)
Lemma processUniversityExcelFile_reaches_rows workbook filename name m :
  crashed (js m) = false ->
  Forall (fun t => snd t = None) (queue (js m)) ->
  extractUniversityFromFilename filename = Some name ->
  exists a uid db st,
    run resume a (on_js (processUniversityExcelFile workbook filename) m)
    = mkMachine db (processSheetData uid name (subscription_sheet workbook) st)
    /\ queue st = [] /\ crashed st = false
    /\ (exists u, In u (universities db) /\ u_id u = uid /\ u_name u = name)
    /\ subscriptions db = subscriptions (complete (queue (js m)) (store m))
    /\ browsing_history db
       = browsing_history (complete (queue (js m)) (store m))
    /\ seq_subscriptions db
       = seq_subscriptions (complete (queue (js m)) (store m))
    /\ seq_browsing_history db
       = seq_browsing_history (complete (queue (js m)) (store m)).
Proof.
  intros Hc Hpassive Hname.
  set (data := subscription_sheet workbook) in *.
  set (db0 := complete (queue (js m)) (store m)).
  set (m1 := on_js (processUniversityExcelFile workbook filename) m).
  assert (Hq1 : queue (js m1)
                = queue (js m)
                  ++ [(SelectUniversity name, Some (KUniversityLookup name data))]).
  { unfold m1, on_js, processUniversityExcelFile. now rewrite Hname. }
  assert (Hc1 : crashed (js m1) = false).
  { unfold m1, on_js, processUniversityExcelFile. now rewrite Hname. }
  pose proof (@run_passive _ _ _ resume _ Hpassive m1 _ Hc1 Hq1) as Hrun.
  change (store m1) with (store m) in Hrun. fold db0 in Hrun.
  set (m2 := mkMachine db0 (set_queue [(SelectUniversity name,
                                        Some (KUniversityLookup name data))]
                                      (js m1))) in Hrun.
  assert (Hstep2 := @step_callback _ _ _ resume m2 _ _ [] Hc1 eq_refl).
  cbn [m2 store js exec fst snd] in Hstep2.
  destruct (find (fun u => seq (u_name u) name) (universities db0))
    as [u|] eqn:Ef.
  - exists (List.length (queue (js m)) + 1)%nat, (u_id u), db0.
    eexists. rewrite run_add, Hrun. cbn [run]. rewrite Hstep2.
    cbn [option_map resume]. split; [reflexivity|].
    apply find_some in Ef. destruct Ef as [Hu Hn]. apply seq_eq in Hn.
    repeat split; auto. now exists u.
  - set (m3 := mkMachine db0
                 (resume (KUniversityLookup name data) (RRow None)
                         (set_queue [] (set_queue
                                          [(SelectUniversity name,
                                            Some (KUniversityLookup name data))]
                                          (js m1))))) in *.
    assert (Hstep3 := @step_callback _ _ _ resume m3 _ _ [] Hc1 eq_refl).
    cbn [m3 store js exec fst snd] in Hstep3.
    rewrite (find_none_existsb _ _ Ef) in Hstep3. cbn [fst snd] in Hstep3.
    exists (List.length (queue (js m)) + 2)%nat, (seq_universities db0 + 1)%Z.
    eexists. eexists. rewrite run_add, Hrun. cbn [run]. rewrite Hstep2.
    cbn [option_map]. fold m3. rewrite Hstep3.
    cbn [resume]. split; [reflexivity|].
    repeat split; auto.
    eexists. split; [simpl; apply in_or_app; right; left; reflexivity|].
    now split.
Qed.

Lemma audit_holds5 uid all ms mb name expected fuel m :
  audit (view uid all ms mb) name expected m ->
  audit (view uid all ms mb) name expected (run resume fuel m).
Proof.
  apply audit_run with (synth := insertSubscriptionAndBrowsing).
  - reflexivity.
  - reflexivity.
  - intros ctx st. apply resume_missing5.
  - intros ctx jid st. apply synth_issues5.
Qed.

Lemma processSheetData_replaces uid name data db st :
  data <> [] ->
  queue st = [] -> crashed st = false ->
  (exists u, In u (universities db) /\ u_id u = uid /\ u_name u = name) ->
  audit (view uid data (seq_subscriptions db) (seq_browsing_history db))
        name (List.length (filter subscribed_row data))
        (drain resume kweight
               (mkMachine db (processSheetData uid name data st))).
Proof.
  intros Hdata Hq0 Hc0 Hu.
  set (m0 := mkMachine db (processSheetData uid name data st)).
  set (db1 := fst (exec (DeleteSubscriptions uid) db)).
  set (db2 := fst (exec (DeleteBrowsingHistory uid) db1)).
  destruct (forEach_tasks5 uid name (seq_subscriptions db)
                           (seq_browsing_history db) db2 (incl_refl data) 0
                           (db_run (DeleteBrowsingHistory uid)
                                   (db_run (DeleteSubscriptions uid) st)))
    as (Hc & lookups & Hq & Hok & Hp).
  rewrite !queue_db_run, Hq0 in Hq. cbn [app] in Hq.
  assert (Hcm : crashed (js m0) = false).
  { unfold m0, processSheetData. destruct data; [contradiction|].
    cbn [js]. rewrite Hc. exact Hc0. }
  assert (Hqm : queue (js m0)
                = passive (DeleteSubscriptions uid)
                  :: passive (DeleteBrowsingHistory uid) :: lookups).
  { unfold m0, processSheetData. destruct data; [contradiction|].
    cbn [js]. exact Hq. }
  set (m1 := mkMachine db1 (set_queue (passive (DeleteBrowsingHistory uid)
                                       :: lookups) (js m0))).
  set (m2 := mkMachine db2 (set_queue lookups (js m0))).
  assert (H1 : step resume m0 = Some m1)
    by (rewrite (@step_passive _ _ _ resume m0 _ _ Hcm Hqm); reflexivity).
  assert (H2 : step resume m1 = Some m2)
    by (rewrite (@step_passive _ _ _ resume m1 _ _ Hcm eq_refl); reflexivity).
  assert (Hrun : run resume 2 m0 = m2)
    by (cbn [run]; now rewrite H1, H2).
  rewrite <- (@drain_run _ _ _ resume kweight App5Rest.resume_budget5 2 m0), Hrun.
  apply audit_holds5.
  split_audit; unfold subscriptions_of, browsing_of; simpl; auto; try lia.
  - rewrite filter_filter_negb. constructor.
  - rewrite filter_filter_negb. constructor.
  - intros _. rewrite filter_filter_negb. exact Hp.
Qed.


End Replace.
End App5Replace.

(* ------------------------------------------------------------------------- *)
(** ** Completions in any order *)

Section AnyOrder.
Context {num : Type} `{JsNumber num} {R : Type}.
Variable resume : Cont num R -> Result -> Js num R -> Js num R.
Implicit Types (m : Machine num R) (q : list (Task num R)).








(** Whatever the order, the completions come to an end. *)
Variable kweight : Cont num R -> nat.

Hypothesis resume_budget :
  forall k r js,
    (budget kweight (queue (resume k r js)) <= budget kweight (queue js) + kweight k)%nat.






End AnyOrder.

(* ------------------------------------------------------------------------- *)
(** ** What a re-ingestion keeps in any order of completion *)


Section ReplacingFacts.
Context {num : Type} `{JsNumber num} {R : Type}.
Variable V : View num R.
Implicit Types (db : Store num) (t : Task num R) (q : list (Task num R)).




Variable resume : Cont num R -> Result -> Js num R -> Js num R.
Variable synth : R -> Z -> Js num R -> Js num R.

Hypothesis resume_found :
  forall ctx id js, resume (KJournalLookup ctx) (RRow (Some id)) js = synth ctx id js.
Hypothesis resume_inserted :
  forall ctx id js, resume (KJournalInsert ctx) (RDone id) js = synth ctx id js.
Hypothesis resume_missing :
  forall ctx js,
    from_file V ctx ->
    resume (KJournalLookup ctx) (RRow None) js = uncaught js
    \/ exists issn publisher subject keywords description s,
        journalTitle_of V ctx = VStr s
        /\ resume (KJournalLookup ctx) (RRow None) js
           = db_call (InsertJournal (journalTitle_of V ctx) issn publisher subject
                        keywords description)
                     (KJournalInsert ctx) js.
Hypothesis synth_issues :
  forall ctx jid js,
    crashed (synth ctx jid js) = crashed js
    /\ exists annual_cost usage_count events,
        queue (synth ctx jid js)
        = queue js
          ++ (if subscribed_of V ctx
              then [passive (InsertSubscription (universityId_of V ctx) jid
                               "institutional" "2024-01-01" "2024-12-31"
                               annual_cost "active" usage_count)]
              else [])
          ++ events
        /\ Forall (browsing_ok (universityId_of V ctx) jid false) events.





End ReplacingFacts.

Section ReplacePhaseFacts.
Context {num : Type} `{JsNumber num} {R : Type}.
Variable view_of : Z -> View num R.
Variables (name : string) (data : list (object num)) (before : Store num).
Variable resume : Cont num R -> Result -> Js num R -> Js num R.
Variable synth : R -> Z -> Js num R -> Js num R.
Variable rows : Z -> Js num R -> Js num R.
Variables (country type : string).

Hypothesis view_uid : forall id, uid (view_of id) = id.
Hypothesis view_marks :
  forall id, mark_subscriptions (view_of id) = seq_subscriptions before
             /\ mark_browsing (view_of id) = seq_browsing_history before.
Hypothesis university_found :
  forall id js0,
    resume (KUniversityLookup name data) (RRow (Some id)) js0 = rows id js0.
Hypothesis university_missing :
  forall js0,
    resume (KUniversityLookup name data) (RRow None) js0
    = db_call (InsertUniversity name country type) (KUniversityInsert name data) js0.
Hypothesis university_inserted :
  forall id js0,
    resume (KUniversityInsert name data) (RDone id) js0 = rows id js0.
Hypothesis rows_issue :
  forall id db js0,
    queue js0 = [] ->
    exists lookups,
      queue (rows id js0)
      = passive (DeleteSubscriptions id)
        :: passive (DeleteBrowsingHistory id) :: lookups
      /\ Forall (task_ok (view_of id) db) lookups.
Hypothesis journal_found :
  forall ctx jid js0,
    resume (KJournalLookup ctx) (RRow (Some jid)) js0 = synth ctx jid js0.
Hypothesis journal_inserted :
  forall ctx jid js0,
    resume (KJournalInsert ctx) (RDone jid) js0 = synth ctx jid js0.
Hypothesis journal_missing :
  forall id ctx js0,
    from_file (view_of id) ctx ->
    resume (KJournalLookup ctx) (RRow None) js0 = uncaught js0
    \/ exists issn publisher subject keywords description s,
        journalTitle_of (view_of id) ctx = VStr s
        /\ resume (KJournalLookup ctx) (RRow None) js0
           = db_call (InsertJournal (journalTitle_of (view_of id) ctx) issn
                        publisher subject keywords description)
                     (KJournalInsert ctx) js0.
Hypothesis synth_issues :
  forall id ctx jid js0,
    crashed (synth ctx jid js0) = crashed js0
    /\ exists annual_cost usage_count events,
        queue (synth ctx jid js0)
        = queue js0
          ++ (if subscribed_of (view_of id) ctx
              then [passive (InsertSubscription (universityId_of (view_of id) ctx)
                               jid "institutional" "2024-01-01" "2024-12-31"
                               annual_cost "active" usage_count)]
              else [])
          ++ events
        /\ Forall (browsing_ok (universityId_of (view_of id) ctx) jid false) events.






End ReplacePhaseFacts.

Module App1Order.
Import App1.

Section Order.
Context {num : Type} `{JsNumber num}.
Variable P : Policy.



End Order.
End App1Order.

Module App5Order.
Import App5.

Section Order.
Context {num : Type} `{JsNumber num}.



End Order.
End App5Order.

Section IssueOrder.
Context {num : Type} `{JsNumber num} {R : Type}.
Variable resume : Cont num R -> Result -> Js num R -> Js num R.
Variable kweight : Cont num R -> nat.

Hypothesis resume_budget :
  forall k r js,
    (budget kweight (queue (resume k r js)) <= budget kweight (queue js) + kweight k)%nat.


End IssueOrder.

(* ------------------------------------------------------------------------- *)
(** ** Two ingestions of one university *)




(** Why the count needs the order of issue: Nature is subscribed in both
    exports of Aalborg University.  In the order [Scenario.overtaking] the
    two deletes of the second file complete after its inserts, and take
    the new subscription and the new browsing events with them: the
    process is alive, nothing is in flight, and the university is left
    with no subscription at all.  In the order of issue it has the one
    subscription of the second file. *)
Lemma late_deletes_take_the_new_rows :
  (List.length (filter App1.subscribed_row
                       (App1.first_sheet Scenario.subscribed_export)) = 1
   /\ crashed (js (snd (Scenario.app1_in Scenario.overtaking
                          Scenario.subscribed_export
                          Scenario.subscribed_export))) = false
   /\ queue (js (snd (Scenario.app1_in Scenario.overtaking
                        Scenario.subscribed_export
                        Scenario.subscribed_export))) = []
   /\ subscriptions
        (store (snd (Scenario.app1_in Scenario.overtaking
                       Scenario.subscribed_export
                       Scenario.subscribed_export))) = []
   /\ browsing_history
        (store (snd (Scenario.app1_in Scenario.overtaking
                       Scenario.subscribed_export
                       Scenario.subscribed_export))) = []
   /\ List.length
        (subscriptions
           (store (snd (Scenario.app1_in Scenario.issue_order
                          Scenario.subscribed_export
                          Scenario.subscribed_export)))) = 1)
  /\ (List.length (filter App5.subscribed_row
                          (App5.subscription_sheet Scenario.subscribed_export)) = 1
      /\ crashed (js (snd (Scenario.app5_in Scenario.overtaking
                             Scenario.subscribed_export
                             Scenario.subscribed_export))) = false
      /\ queue (js (snd (Scenario.app5_in Scenario.overtaking
                           Scenario.subscribed_export
                           Scenario.subscribed_export))) = []
      /\ subscriptions
           (store (snd (Scenario.app5_in Scenario.overtaking
                          Scenario.subscribed_export
                          Scenario.subscribed_export))) = []
      /\ browsing_history
           (store (snd (Scenario.app5_in Scenario.overtaking
                          Scenario.subscribed_export
                          Scenario.subscribed_export))) = []
      /\ List.length
           (subscriptions
              (store (snd (Scenario.app5_in Scenario.issue_order
                             Scenario.subscribed_export
                             Scenario.subscribed_export)))) = 1).
Proof. vm_compute. repeat split; reflexivity. Qed.

(* ------------------------------------------------------------------------- *)
(** ** One title on two rows of a file *)

(** C3, at a file where the claim and the code part: Nature, not yet in
    the database, stands on two rows of one sheet.  [data.forEach] issues
    both SELECT statements before either callback runs, both find nothing,
    and both callbacks insert: two journals with the title Nature, on
    app1.js and on app5.js. *)
Theorem C3_same_title_twice_in_one_file :
  map (@j_title intnum)
      (journals
         (store (fst (App1.ingest App1.policy
                                  (fun _ => inl Scenario.repeated_export)
                                  [Scenario.aalborg_2024] Scenario.start))))
  = ["Nature"; "Nature"]
  /\ map (@j_title intnum)
         (journals
            (store (fst (App5.ingest (fun _ => inl Scenario.repeated_export)
                                     [Scenario.aalborg_2024] Scenario.start))))
     = ["Nature"; "Nature"].
Proof. split; vm_compute; reflexivity. Qed.

(* ------------------------------------------------------------------------- *)
(** ** The language model fails *)

(** C9.  The completion call is reached and throws (an API error, a
    timeout).  On app1.js the handler answers 200 with the rule-based
    response to the message; on app7.js it answers 200, not marked as
    coming from the model, with the report of the local analysis: its text,
    its apology when the report itself cannot be made, or the canned hints
    when that text is blank. *)
Theorem C9_llm_failure_falls_back :
  forall (num : Type) (JN : JsNumber num),
    (forall (calculateRevenuePotential : list (string * num) -> num)
            (toLocaleString : num -> string)
            (OPENAI_API_KEY : option string) (dataContext : Chat1.Context num)
            (create : Outcome Completion) (req : Chat1.Request)
            (message error : string),
        Chat1.message req = Some message ->
        message <> EmptyString ->
        Chat1.key_configured OPENAI_API_KEY = true ->
        create = Thrown error ->
        Chat1.chat calculateRevenuePotential toLocaleString OPENAI_API_KEY
                   (Returned dataContext) create req
        = mkResponse 200
            (Chat1.Answer
               (Some (Chat1.generateRuleBasedResponse
                        calculateRevenuePotential toLocaleString
                        message dataContext))
               dataContext))
    /\ (forall (generateSubscriptionAnalysis : string -> string -> Outcome string)
               (generateUniversityAnalysis generateBrowsingAnalysis
                  generateDataSummary : string -> Outcome string)
               (create : Outcome Completion) (req : Chat7.Request)
               (message error : string),
           Chat7.message req = Some message ->
           Chat7.blank message = false ->
           create = Thrown error ->
           let assistantType :=
             Chat7.or_default (Chat7.assistantType req) "general" in
           let local :=
             Chat7.generateRealDataResponse
               generateSubscriptionAnalysis generateUniversityAnalysis
               generateBrowsingAnalysis generateDataSummary
               message assistantType
               (Chat7.or_default (Chat7.universityFilter req) "all") in
           Chat7.chat generateSubscriptionAnalysis generateUniversityAnalysis
                      generateBrowsingAnalysis generateDataSummary
                      true create req
           = mkResponse 200
               (Chat7.Answer
                  (if Chat7.blank local then Chat7.fallback message else local)
                  assistantType false)).
Proof.
  intros num JN. split.
  - intros calc toLoc key ctx create req message error Hm Hne Hk ->.
    unfold Chat1.chat. rewrite Hm.
    destruct message as [|c rest]; [contradiction|].
    cbn [and_then]. rewrite Hk.
    unfold Chat1.generateOpenAIResponse. reflexivity.
  - intros subs univ brow summ create req message error Hm Hb ->
           assistantType local.
    unfold Chat7.chat. rewrite Hm, Hb. reflexivity.
Qed.

Lemma C9_llm_failure_falls_back_witness :
  Chat1.chat (fun _ => IInt 0) IntNum.to_string (Some "sk-test")
             (Returned (Chat1.mkContext (IInt 1) (IInt 1)
                                        [("Aalborg University", IInt 1)]))
             (Thrown "Request timed out.")
             (Chat1.mkRequest (Some "Which journals are missing?"))
  = mkResponse 200
      (Chat1.Answer
         (Some "Currently tracking 1 active subscriptions across 1 universities. Distribution: Aalborg University: 1 subscriptions.")
         (Chat1.mkContext (IInt 1) (IInt 1) [("Aalborg University", IInt 1)]))
  /\ Chat7.chat (fun _ _ => Thrown "SQLITE_BUSY")
                (fun _ => Returned "University report")
                (fun _ => Returned "Browsing report")
                (fun _ => Returned "Summary")
                true (Thrown "Request timed out.")
                (Chat7.mkRequest (Some "NUS usage") None None)
     = mkResponse 200 (Chat7.Answer "University report" "general" false).
Proof.
  destruct (C9_llm_failure_falls_back intnum_JsNumber) as [H1 H7]. split.
  - rewrite (H1 (fun _ => IInt 0) IntNum.to_string (Some "sk-test")
                (Chat1.mkContext (IInt 1) (IInt 1)
                                 [("Aalborg University", IInt 1)])
                (Thrown "Request timed out.")
                (Chat1.mkRequest (Some "Which journals are missing?"))
                "Which journals are missing?" "Request timed out.");
      [reflexivity | reflexivity | discriminate | reflexivity | reflexivity].
  - rewrite (H7 (fun _ _ => Thrown "SQLITE_BUSY")
                (fun _ => Returned "University report")
                (fun _ => Returned "Browsing report")
                (fun _ => Returned "Summary")
                (Thrown "Request timed out.")
                (Chat7.mkRequest (Some "NUS usage") None None)
                "NUS usage" "Request timed out.");
      [reflexivity | reflexivity | reflexivity | reflexivity].
Defined.

(* ------------------------------------------------------------------------- *)
(** ** More on the value normaliser *)

Lemma lower_char_idem (c : ascii) : lower_char (lower_char c) = lower_char c.
Proof. destruct c as [[] [] [] [] [] [] [] []]; reflexivity. Qed.

Lemma toLowerCase_idem (s : string) : toLowerCase (toLowerCase s) = toLowerCase s.
Proof.
  induction s as [|c s IH]; simpl; [reflexivity|].
  now rewrite lower_char_idem, IH.
Qed.

Lemma toLowerCase_app (s t : string) :
  toLowerCase (s ++ t) = (toLowerCase s ++ toLowerCase t)%string.
Proof. induction s as [|c s IH]; simpl; [reflexivity|]. now rewrite IH. Qed.

Lemma trimStart_all_space (l s : string) :
  all_space l = true -> trimStart (l ++ s) = trimStart s.
Proof.
  induction l as [|c l IH]; simpl; [reflexivity|].
  intros Hl. apply andb_true_iff in Hl. destruct Hl as [Hc Hl].
  rewrite Hc. now apply IH.
Qed.

Lemma trimEnd_all_space_nil (r : string) :
  all_space r = true -> trimEnd r = EmptyString.
Proof.
  induction r as [|c r IH]; simpl; [reflexivity|].
  intros Hr. apply andb_true_iff in Hr. destruct Hr as [Hc Hr].
  now rewrite (IH Hr), Hc.
Qed.

Lemma trimEnd_all_space (s r : string) :
  all_space r = true -> trimEnd (s ++ r) = trimEnd s.
Proof.
  intros Hr. induction s as [|c s IH]; simpl.
  - now apply trimEnd_all_space_nil.
  - now rewrite IH.
Qed.

Lemma trimStart_app_not_space (s r : string) :
  all_space s = false -> trimStart (s ++ r) = (trimStart s ++ r)%string.
Proof.
  induction s as [|c s IH]; simpl; [discriminate|].
  destruct (is_space c); simpl; [exact IH | reflexivity].
Qed.

Lemma trimStart_nil_all_space (s : string) :
  all_space s = true -> trimStart s = EmptyString.
Proof.
  induction s as [|c s IH]; simpl; [reflexivity|].
  intros Hs. apply andb_true_iff in Hs. destruct Hs as [Hc Hs].
  rewrite Hc. now apply IH.
Qed.

Lemma all_space_app (s t : string) :
  all_space (s ++ t) = all_space s && all_space t.
Proof.
  induction s as [|c s IH]; simpl; [reflexivity|].
  now rewrite IH, andb_assoc.
Qed.

(** Whitespace on either side of a string is what [trim] strips. *)
Lemma trim_padding (l s r : string) :
  all_space l = true -> all_space r = true ->
  trim (l ++ s ++ r) = trim s.
Proof.
  intros Hl Hr. unfold trim. rewrite trimStart_all_space by exact Hl.
  destruct (all_space s) eqn:Hs.
  - rewrite trimStart_nil_all_space
      by (rewrite all_space_app, Hs, Hr; reflexivity).
    rewrite (trimStart_nil_all_space _ Hs). reflexivity.
  - rewrite trimStart_app_not_space by exact Hs. now apply trimEnd_all_space.
Qed.

Section NormaliserPadding.
Context {num : Type} `{JsNumber num}.

Lemma parseBoolean_text (s : string) :
  parseBoolean (VStr s : value num)
  = let str := trim (toLowerCase s) in
    seq str "1" || seq str "yes" || seq str "true" || seq str "y".
Proof.
  unfold parseBoolean. simpl. destruct s; reflexivity.
Qed.

Lemma parseSubscriptionStatus_text (s : string) :
  parseSubscriptionStatus (VStr s : value num)
  = let str := trim (toLowerCase s) in
    seq str "1" || seq str "yes" || seq str "true" || seq str "y"
    || seq str "subscribed".
Proof.
  unfold parseSubscriptionStatus. simpl. destruct s; reflexivity.
Qed.

End NormaliserPadding.

(** X1.  Whitespace around the text of a cell and the case of its letters
    do not matter to either normaliser: two text cells that differ only in
    padding with whitespace, or only in letter case, are read alike. *)
Theorem X1_normaliser_ignores_padding_and_case :
  forall (num : Type) (JN : JsNumber num) (l s r t : string),
    (all_space l = true -> all_space r = true ->
     parseBoolean (VStr (l ++ s ++ r) : value num) = parseBoolean (VStr s)
     /\ parseSubscriptionStatus (VStr (l ++ s ++ r) : value num)
        = parseSubscriptionStatus (VStr s))
    /\ (toLowerCase s = toLowerCase t ->
        parseBoolean (VStr s : value num) = parseBoolean (VStr t)
        /\ parseSubscriptionStatus (VStr s : value num)
           = parseSubscriptionStatus (VStr t)).
Proof.
  intros num JN l s r t. split.
  - intros Hl Hr.
    rewrite !parseBoolean_text, !parseSubscriptionStatus_text. cbv zeta.
    rewrite <- !toLowerCase_trim, (trim_padding _ s _ Hl Hr). now split.
  - intros E.
    rewrite !parseBoolean_text, !parseSubscriptionStatus_text. cbv zeta.
    rewrite E. now split.
Qed.

Lemma X1_normaliser_ignores_padding_and_case_witness :
  parseBoolean (VStr ("  " ++ "Yes" ++ " ") : value intnum)
  = parseBoolean (VStr "Yes")
  /\ parseSubscriptionStatus (VStr "SUBSCRIBED" : value intnum)
     = parseSubscriptionStatus (VStr "subscribed").
Proof.
  destruct (X1_normaliser_ignores_padding_and_case
              intnum_JsNumber "  " "Yes" " " "Yes") as [Hpad _].
  destruct (X1_normaliser_ignores_padding_and_case
              intnum_JsNumber "" "SUBSCRIBED" "" "subscribed") as [_ Hcase].
  split.
  - apply Hpad; reflexivity.
  - apply Hcase. reflexivity.
Defined.

Lemma to_string_one (z : Z) :
  IntNum.to_string (IInt z) = "1" <-> z = 1%Z.
Proof.
  split; [|now intros ->].
  unfold IntNum.to_string. intros E.
  assert (E' : NilEmpty.int_of_string (NilEmpty.string_of_int (Z.to_int z))
               = NilEmpty.int_of_string "1") by now rewrite E.
  rewrite NilEmpty.isi in E'. simpl in E'. injection E' as E'.
  rewrite <- (DecimalZ.of_to z), E'. reflexivity.
Qed.

Lemma numeral_char_plain (c : ascii) :
  is_numeral_char c = true -> is_space c = false /\ lower_char c = c.
Proof.
  destruct c as [[] [] [] [] [] [] [] []]; try discriminate; now split.
Qed.

Lemma string_of_uint_numeral (d : Decimal.uint) :
  string_forall is_numeral_char (NilEmpty.string_of_uint d) = true.
Proof. induction d; simpl; auto. Qed.

Lemma to_string_numeral (z : Z) :
  string_forall is_numeral_char (IntNum.to_string (IInt z)) = true.
Proof.
  unfold IntNum.to_string, NilEmpty.string_of_int.
  destruct (Z.to_int z); simpl; apply string_of_uint_numeral.
Qed.

Lemma numeral_toLowerCase (s : string) :
  string_forall is_numeral_char s = true -> toLowerCase s = s.
Proof.
  induction s as [|c s IH]; simpl; [reflexivity|].
  intros Hs. apply andb_true_iff in Hs. destruct Hs as [Hc Hs].
  destruct (numeral_char_plain _ Hc) as [_ ->]. now rewrite IH.
Qed.

Lemma numeral_trimEnd (s : string) :
  string_forall is_numeral_char s = true -> trimEnd s = s.
Proof.
  induction s as [|c s IH]; simpl; [reflexivity|].
  intros Hs. apply andb_true_iff in Hs. destruct Hs as [Hc Hs].
  rewrite (IH Hs). destruct (numeral_char_plain _ Hc) as [-> _].
  now destruct s.
Qed.

Lemma numeral_trim (s : string) :
  string_forall is_numeral_char s = true -> trim s = s.
Proof.
  intros Hs. unfold trim.
  assert (E : trimStart s = s).
  { destruct s as [|c s]; [reflexivity|]. simpl in *.
    apply andb_true_iff in Hs. destruct Hs as [Hc _].
    now destruct (numeral_char_plain _ Hc) as [-> _]. }
  rewrite E. now apply numeral_trimEnd.
Qed.

Lemma integer_normal_form (z : Z) :
  normal_form (VNum (IInt z) : value intnum) = IntNum.to_string (IInt z).
Proof.
  change (normal_form (VNum (IInt z) : value intnum))
    with (toLowerCase (trim (IntNum.to_string (IInt z)))).
  rewrite (numeral_trim _ (to_string_numeral z)).
  apply numeral_toLowerCase, to_string_numeral.
Qed.

Lemma integer_token (z : Z) :
  In (normal_form (VNum (IInt z) : value intnum)) truthy_tokens <-> z = 1%Z.
Proof.
  rewrite integer_normal_form. split.
  - intros Hin. apply to_string_one.
    pose proof (to_string_numeral z) as Hn.
    remember (IntNum.to_string (IInt z)) as str eqn:Estr. clear Estr.
    unfold truthy_tokens in Hin. cbn [In] in Hin.
    destruct Hin as [E|[E|[E|[E|[E|[]]]]]]; subst str;
      solve [reflexivity | discriminate Hn].
  - intros ->. now left.
Qed.

(** X2.  A boolean cell is read as itself, and an integer cell as
    subscribed exactly when it is 1; [NaN] is never subscribed.  By both
    normalisers. *)
Theorem X2_boolean_and_integer_cells :
  forall (b : bool) (z : Z),
    parseBoolean (VBool b : value intnum) = b
    /\ parseSubscriptionStatus (VBool b : value intnum) = b
    /\ parseBoolean (VNum (IInt z)) = (z =? 1)%Z
    /\ parseSubscriptionStatus (VNum (IInt z)) = (z =? 1)%Z
    /\ parseBoolean (VNum INaN) = false
    /\ parseSubscriptionStatus (VNum INaN) = false.
Proof.
  intros b z. split; [now destruct b|]. split; [now destruct b|].
  split; [|split; [|now split]].
  - destruct (Z.eqb_spec z 1) as [->|Hne]; [reflexivity|].
    destruct (parseBoolean (VNum (IInt z))) eqn:E; [|reflexivity].
    apply parseBoolean_spec, parseBoolean_tokens_incl, integer_token in E.
    contradiction.
  - destruct (Z.eqb_spec z 1) as [->|Hne]; [reflexivity|].
    destruct (parseSubscriptionStatus (VNum (IInt z))) eqn:E; [|reflexivity].
    apply parseSubscriptionStatus_spec, integer_token in E. contradiction.
Qed.

(* ------------------------------------------------------------------------- *)
(** ** More on the column resolver *)

Module JsObjectMore.
Import JsObject.

Lemma insert_index_in (e x : N * string) (l : list (N * string)) :
  In x (insert_index e l) -> x = e \/ In x l.
Proof.
  induction l as [|y l IH]; simpl.
  - intros [<-|[]]. now left.
  - destruct (fst e <? fst y)%N; simpl.
    + intros [<-|Hx]; [now left | now right].
    + intros [<-|Hx]; [right; now left|].
      destruct (IH Hx) as [->|Hl]; [now left | right; now right].
Qed.

Lemma index_keys_in (ks : list string) (x : N * string) :
  In x (index_keys ks) -> In (snd x) ks.
Proof.
  induction ks as [|k ks IH]; simpl; [tauto|].
  destruct (array_index k) as [n|].
  - intros Hx. destruct (insert_index_in _ _ _ Hx) as [->|Hl]; [now left|].
    right. now apply IH.
  - intros Hx. right. now apply IH.
Qed.

(** [Object.keys] lists own property names only. *)
Lemma keys_in {num} (o : object num) (k : string) :
  In k (keys o) -> In k (map fst o).
Proof.
  unfold keys. intros Hk. apply in_app_or in Hk. destruct Hk as [Hk|Hk].
  - apply in_map_iff in Hk. destruct Hk as (x & <- & Hx).
    now apply index_keys_in.
  - now apply filter_In in Hk.
Qed.

(** Reading an own property gives one of the object's cells. *)
Lemma get_in {num} (o : object num) (k : string) :
  In k (map fst o) -> In (k, get o k) o.
Proof.
  induction o as [|[k' v] o IH]; simpl; [tauto|].
  destruct (seq k' k) eqn:E.
  - intros _. apply seq_eq in E. subst k'. now left.
  - intros [->|Hk]; [|right; now apply IH].
    assert (seq k k = true) by now apply seq_eq. congruence.
Qed.

End JsObjectMore.

Section ResolverCells.
Context {num : Type}.
Implicit Types (row : object num) (candidates : list string).

Lemma first_match_cases (matches : string -> bool) row :
  (first_match matches row (JsObject.keys row) = VNull
   /\ forall k, In k (JsObject.keys row) -> matches k = false)
  \/ exists k,
      matches k = true
      /\ In (k, first_match matches row (JsObject.keys row)) row.
Proof.
  unfold first_match.
  destruct (find matches (JsObject.keys row)) as [k|] eqn:E.
  - right. exists k. apply find_some in E. destruct E as [Hk Hm].
    split; [exact Hm|]. now apply JsObjectMore.get_in, JsObjectMore.keys_in.
  - left. split; [reflexivity|]. intros k Hk.
    now apply (find_none _ _ E).
Qed.

End ResolverCells.

(** X3.  What a resolver returns is never made up: either no column name
    of the row matches and the result is [null], or the result is the cell
    the row holds under a column name that matches.  A row without columns
    and an empty candidate list both give [null]. *)
Theorem X3_resolver_returns_a_cell_of_the_row :
  forall (num : Type) (row : object num) (candidates : list string),
    ((findValue row candidates = VNull
      /\ forall k, In k (JsObject.keys row) -> name_contains candidates k = false)
     \/ exists k, name_contains candidates k = true
                  /\ In (k, findValue row candidates) row)
    /\ ((findColumnValue row candidates = VNull
         /\ forall k, In k (JsObject.keys row) ->
                      name_overlaps candidates k = false)
        \/ exists k, name_overlaps candidates k = true
                     /\ In (k, findColumnValue row candidates) row)
    /\ findValue row [] = VNull
    /\ findColumnValue row [] = VNull
    /\ findValue ([] : object num) candidates = VNull
    /\ findColumnValue ([] : object num) candidates = VNull.
Proof.
  intros num row candidates.
  split; [rewrite findValue_spec; apply first_match_cases|].
  split; [rewrite findColumnValue_spec; apply first_match_cases|].
  split; [now apply findValue_no_match|].
  split; [now apply findColumnValue_no_match|].
  now split.
Qed.

(* ------------------------------------------------------------------------- *)
(** ** File names *)

Section StringFacts.

Lemma string_app_assoc (a b c : string) :
  ((a ++ b) ++ c = a ++ (b ++ c))%string.
Proof. induction a as [|x a IH]; simpl; [reflexivity|]. now rewrite IH. Qed.

Lemma string_app_nil_r (a : string) : (a ++ "")%string = a.
Proof. induction a as [|x a IH]; simpl; [reflexivity|]. now rewrite IH. Qed.

Lemma string_length_app (a b : string) :
  String.length (a ++ b) = (String.length a + String.length b)%nat.
Proof. induction a as [|x a IH]; simpl; [reflexivity|]. now rewrite IH. Qed.

Lemma toLowerCase_length (s : string) :
  String.length (toLowerCase s) = String.length s.
Proof. induction s as [|c s IH]; simpl; [reflexivity|]. now rewrite IH. Qed.

Lemma substring_prefix (a b : string) :
  substring 0 (String.length a) (a ++ b) = a.
Proof.
  induction a as [|x a IH]; simpl.
  - now destruct b.
  - now rewrite IH.
Qed.

Lemma substring_skip (a b : string) (n : nat) :
  substring (String.length a) n (a ++ b) = substring 0 n b.
Proof. induction a as [|x a IH]; simpl; [reflexivity | exact IH]. Qed.

Lemma substring_none (a : string) : substring 0 0 a = EmptyString.
Proof. now destruct a. Qed.

Lemma substring_all (a : string) : substring 0 (String.length a) a = a.
Proof.
  rewrite <- (string_app_nil_r a) at 2. rewrite substring_prefix.
  reflexivity.
Qed.

Lemma list_ascii_app (a b : string) :
  list_ascii_of_string (a ++ b)
  = list_ascii_of_string a ++ list_ascii_of_string b.
Proof. induction a as [|x a IH]; simpl; [reflexivity|]. now rewrite IH. Qed.

Lemma string_of_list_app (l l' : list ascii) :
  string_of_list_ascii (l ++ l')
  = (string_of_list_ascii l ++ string_of_list_ascii l')%string.
Proof. induction l as [|x l IH]; simpl; [reflexivity|]. now rewrite IH. Qed.

Lemma prefix_app (a b : string) : String.prefix a (a ++ b) = true.
Proof.
  induction a as [|x a IH]; simpl; [now destruct b|].
  rewrite IH. now destruct (ascii_dec x x).
Qed.

(** The code units of [a ++ b] from the last backwards. *)
Lemma reversed_app (a b : string) :
  string_of_list_ascii (rev (list_ascii_of_string (a ++ b)))
  = (string_of_list_ascii (rev (list_ascii_of_string b))
     ++ string_of_list_ascii (rev (list_ascii_of_string a)))%string.
Proof. now rewrite list_ascii_app, rev_app_distr, string_of_list_app. Qed.

Lemma ends_with_app (a b : string) : Text.ends_with (a ++ b) b = true.
Proof. unfold Text.ends_with. rewrite reversed_app. apply prefix_app. Qed.

Lemma drop_last_app (a b : string) :
  Text.drop_last (String.length b) (a ++ b) = a.
Proof.
  unfold Text.drop_last. rewrite string_length_app.
  replace (String.length a + String.length b - String.length b)%nat
    with (String.length a) by lia.
  apply substring_prefix.
Qed.

Lemma underscores_to_spaces_clean (s : string) :
  includes (Text.underscores_to_spaces s) "_" = false.
Proof.
  induction s as [|c s IH]; [reflexivity|].
  cbn [Text.underscores_to_spaces includes]. rewrite IH, orb_false_r.
  destruct (Ascii.eqb c "_") eqn:E; [reflexivity|].
  cbn [String.prefix].
  destruct (ascii_dec "_" c) as [<-|Hne]; [discriminate E | reflexivity].
Qed.

End StringFacts.

Lemma extension_stripped (stem ext : string) :
  toLowerCase ext = ".xlsx" \/ toLowerCase ext = ".xls" ->
  (if Text.ends_with (toLowerCase (stem ++ ext)) ".xlsx"
   then Text.drop_last 5 (stem ++ ext)
   else if Text.ends_with (toLowerCase (stem ++ ext)) ".xls"
        then Text.drop_last 4 (stem ++ ext)
        else (stem ++ ext)%string)
  = stem.
Proof.
  intros [E|E].
  - assert (Hl : String.length ext = 5%nat)
      by (rewrite <- toLowerCase_length, E; reflexivity).
    rewrite toLowerCase_app, E, ends_with_app, <- Hl. apply drop_last_app.
  - assert (Hl : String.length ext = 4%nat)
      by (rewrite <- toLowerCase_length, E; reflexivity).
    rewrite toLowerCase_app, E.
    assert (Hx : Text.ends_with (toLowerCase stem ++ ".xls") ".xlsx" = false).
    { unfold Text.ends_with. rewrite reversed_app. reflexivity. }
    rewrite Hx, ends_with_app, <- Hl. apply drop_last_app.
Qed.

Lemma timestamp_stripped (U D8 D6 : string) :
  Text.all_digits D8 = true -> String.length D8 = 8%nat ->
  Text.all_digits D6 = true -> String.length D6 = 6%nat ->
  Text.has_timestamp (U ++ "_" ++ D8 ++ "_" ++ D6) = true
  /\ Text.drop_last 16 (U ++ "_" ++ D8 ++ "_" ++ D6) = U.
Proof.
  intros Hd8 Hl8 Hd6 Hl6.
  assert (Hn : String.length (U ++ "_" ++ D8 ++ "_" ++ D6)
               = (String.length U + 16)%nat).
  { rewrite !string_length_app, Hl8, Hl6. simpl. lia. }
  split.
  - unfold Text.has_timestamp. rewrite Hn. cbv zeta.
    replace (String.length U + 16 - 16)%nat with (String.length U) by lia.
    replace (String.length U + 16 - 15)%nat
      with (String.length (U ++ "_")) by (rewrite string_length_app; simpl; lia).
    replace (String.length U + 16 - 7)%nat
      with (String.length (U ++ "_" ++ D8))
      by (rewrite !string_length_app, Hl8; simpl; lia).
    replace (String.length U + 16 - 6)%nat
      with (String.length ((U ++ "_" ++ D8) ++ "_"))
      by (rewrite !string_length_app, Hl8; simpl; lia).
    assert (E1 : (16 <=? String.length U + 16)%nat = true)
      by (apply Nat.leb_le; lia).
    rewrite E1, substring_skip.
    replace (U ++ "_" ++ D8 ++ "_" ++ D6)%string
      with ((U ++ "_") ++ D8 ++ "_" ++ D6)%string at 1
      by (now rewrite string_app_assoc).
    rewrite substring_skip, <- Hl8, substring_prefix, Hd8.
    replace (U ++ "_" ++ D8 ++ "_" ++ D6)%string
      with ((U ++ "_" ++ D8) ++ "_" ++ D6)%string at 1
      by (now rewrite !string_app_assoc).
    rewrite substring_skip.
    replace (U ++ "_" ++ D8 ++ "_" ++ D6)%string
      with (((U ++ "_" ++ D8) ++ "_") ++ D6)%string
      by (now rewrite !string_app_assoc).
    rewrite substring_skip, <- Hl6, substring_all, Hd6.
    simpl. rewrite !substring_none. reflexivity.
  - unfold Text.drop_last. rewrite Hn.
    replace (String.length U + 16 - 16)%nat with (String.length U) by lia.
    apply substring_prefix.
Qed.

(** X4.  The export naming scheme is undone: from
    [Export_<name>_<8 digits>_<6 digits>.xlsx] (or [.xls], in any letter
    case) [extractUniversityName] returns <name> with its underscores turned
    into spaces; and whatever the file name, the result has no underscore. *)
Theorem X4_export_name_decoded :
  forall (U D8 D6 ext filename : string),
    (Text.all_digits D8 = true -> String.length D8 = 8%nat ->
     Text.all_digits D6 = true -> String.length D6 = 6%nat ->
     toLowerCase ext = ".xlsx" \/ toLowerCase ext = ".xls" ->
     App1.extractUniversityName
       ("Export_" ++ U ++ "_" ++ D8 ++ "_" ++ D6 ++ ext)
     = Text.underscores_to_spaces U)
    /\ includes (App1.extractUniversityName filename) "_" = false.
Proof.
  intros U D8 D6 ext filename. split.
  - intros Hd8 Hl8 Hd6 Hl6 Hext. unfold App1.extractUniversityName.
    set (body := (U ++ "_" ++ D8 ++ "_" ++ D6)%string).
    replace ("Export_" ++ U ++ "_" ++ D8 ++ "_" ++ D6 ++ ext)%string
      with (("Export_" ++ body) ++ ext)%string
      by (unfold body; now rewrite !string_app_assoc).
    cbv zeta. rewrite (extension_stripped _ _ Hext).
    assert (Hp : String.prefix "Export_" ("Export_" ++ body) = true)
      by apply prefix_app.
    rewrite Hp.
    assert (Hs : substring 7 (String.length ("Export_" ++ body) - 7)
                           ("Export_" ++ body) = body).
    { rewrite string_length_app.
      change (String.length "Export_") with 7%nat.
      replace (7 + String.length body - 7)%nat with (String.length body) by lia.
      change 7%nat with (String.length "Export_") at 1.
      rewrite substring_skip. apply substring_all. }
    rewrite Hs.
    destruct (timestamp_stripped U D8 D6 Hd8 Hl8 Hd6 Hl6) as [Ht Hdrop].
    fold body in Ht, Hdrop. now rewrite Ht, Hdrop.
  - apply underscores_to_spaces_clean.
Qed.

Lemma X4_export_name_decoded_witness :
  App1.extractUniversityName
    ("Export_" ++ "National_University_of_Singapore" ++ "_" ++ "20240101"
       ++ "_" ++ "000000" ++ ".XLSX")
  = "National University of Singapore".
Proof.
  destruct (X4_export_name_decoded
              "National_University_of_Singapore" "20240101" "000000" ".XLSX"
              "") as [H _].
  rewrite H; [reflexivity | reflexivity | reflexivity | reflexivity
              | reflexivity | left; reflexivity].
Defined.

Lemma extractUniversityFromFilename_cases (filename : string) :
  (App5.extractUniversityFromFilename filename = None
   /\ forall marker, In marker App5Reports.filename_markers ->
                     includes (toLowerCase filename) marker = false)
  \/ exists name marker,
      App5.extractUniversityFromFilename filename = Some name
      /\ In marker App5Reports.filename_markers
      /\ includes (toLowerCase filename) marker = true
      /\ In name App5Reports.known_universities.
Proof.
  unfold App5.extractUniversityFromFilename, App5.patterns,
    App5Reports.filename_markers, App5Reports.known_universities.
  cbn [find fst snd map app].
  set (lower := toLowerCase filename).
  destruct (includes lower "national_university_of_singapore") eqn:E1;
    [right; eexists; eexists; split; [reflexivity|];
     split; [left; reflexivity|]; split; [exact E1|]; simpl; tauto|].
  destruct (includes lower "nanyang_technological_university") eqn:E2;
    [right; eexists; eexists; split; [reflexivity|];
     split; [right; left; reflexivity|]; split; [exact E2|]; simpl; tauto|].
  destruct (includes lower "mahidol_university") eqn:E3;
    [right; eexists; eexists; split; [reflexivity|];
     split; [do 2 right; left; reflexivity|]; split; [exact E3|];
     simpl; tauto|].
  destruct (includes lower "aalborg_university") eqn:E4;
    [right; eexists; eexists; split; [reflexivity|];
     split; [do 3 right; left; reflexivity|]; split; [exact E4|];
     simpl; tauto|].
  destruct (includes lower "nus") eqn:E5;
    [right; eexists; eexists; split; [reflexivity|];
     split; [do 4 right; left; reflexivity|]; split; [exact E5|];
     simpl; tauto|].
  destruct (includes lower "singapore") eqn:E6;
    [right; eexists; eexists; split; [reflexivity|];
     split; [do 5 right; left; reflexivity|]; split; [exact E6|];
     simpl; tauto|].
  left. split; [reflexivity|].
  intros marker [<-|[<-|[<-|[<-|[<-|[<-|[]]]]]]]; assumption.
Qed.

Lemma known_university_country (name : string) :
  In name App5Reports.known_universities ->
  In (App5.getCountryFromUniversity name) ["Singapore"; "Thailand"; "Denmark"].
Proof.
  intros [<-|[<-|[<-|[<-|[]]]]]; vm_compute; tauto.
Qed.

(** X5.  Which universities app5.js makes of a file name, and of a chat
    message.  A file name gives no university exactly when its lower-cased
    form contains none of the four underscored names, nor [nus], nor
    [singapore]; otherwise it gives one of four universities, each of which
    the country table places in Singapore, Thailand or Denmark, so a
    university created for a file is never of country [Unknown].  The letter
    case of the file name does not matter.  A chat message names one of the
    same four universities, or none. *)
Theorem X5_universities_of_file_names_and_messages :
  forall (filename message : string),
    (App5.extractUniversityFromFilename filename = None
     <-> forall marker, In marker App5Reports.filename_markers ->
                        includes (toLowerCase filename) marker = false)
    /\ (forall name,
           App5.extractUniversityFromFilename filename = Some name ->
           In name App5Reports.known_universities
           /\ In (App5.getCountryFromUniversity name)
                 ["Singapore"; "Thailand"; "Denmark"])
    /\ App5.extractUniversityFromFilename (toLowerCase filename)
       = App5.extractUniversityFromFilename filename
    /\ (forall name,
           App5Reports.extractUniversityFromMessage message = Some name ->
           In name App5Reports.known_universities)
    /\ (App5Reports.extractUniversityFromMessage message = None
        <-> forall key, In key (map fst App5Reports.universities) ->
                        includes (toLowerCase message) key = false).
Proof.
  intros filename message. split; [|split; [|split; [|split]]].
  - destruct (extractUniversityFromFilename_cases filename)
      as [[E Hnone] | (name & marker & E & Hin & Hinc & _)].
    + split; [intros _; exact Hnone | intros _; exact E].
    + rewrite E. split; [discriminate|].
      intros Hnone. rewrite (Hnone marker Hin) in Hinc. discriminate.
  - intros name E.
    destruct (extractUniversityFromFilename_cases filename)
      as [[E' _] | (name' & marker & E' & _ & _ & Hk)]; [congruence|].
    assert (name' = name) by congruence. subst name'.
    split; [exact Hk | now apply known_university_country].
  - unfold App5.extractUniversityFromFilename. now rewrite toLowerCase_idem.
  - unfold App5Reports.extractUniversityFromMessage, App5Reports.universities,
      App5Reports.known_universities.
    cbn [find fst snd]. intros name.
    repeat match goal with
           | |- context [if ?b then _ else _] => destruct b
           end; intros E; inversion E; simpl; tauto.
  - unfold App5Reports.extractUniversityFromMessage, App5Reports.universities.
    cbn [find fst snd map].
    set (lower := toLowerCase message).
    destruct (includes lower "nus") eqn:E1;
      [split; [discriminate | intros Hn; rewrite Hn in E1;
                              [discriminate | simpl; tauto]]|].
    destruct (includes lower "national university singapore") eqn:E2;
      [split; [discriminate | intros Hn; rewrite Hn in E2;
                              [discriminate | simpl; tauto]]|].
    destruct (includes lower "ntu") eqn:E3;
      [split; [discriminate | intros Hn; rewrite Hn in E3;
                              [discriminate | simpl; tauto]]|].
    destruct (includes lower "nanyang") eqn:E4;
      [split; [discriminate | intros Hn; rewrite Hn in E4;
                              [discriminate | simpl; tauto]]|].
    destruct (includes lower "mahidol") eqn:E5;
      [split; [discriminate | intros Hn; rewrite Hn in E5;
                              [discriminate | simpl; tauto]]|].
    destruct (includes lower "aalborg") eqn:E6;
      [split; [discriminate | intros Hn; rewrite Hn in E6;
                              [discriminate | simpl; tauto]]|].
    split; [|reflexivity]. intros _ key [<-|[<-|[<-|[<-|[<-|[<-|[]]]]]]];
      assumption.
Qed.

Lemma X5_universities_of_file_names_and_messages_witness :
  In "Aalborg University" App5Reports.known_universities
  /\ In (App5.getCountryFromUniversity "Aalborg University")
        ["Singapore"; "Thailand"; "Denmark"].
Proof.
  destruct (X5_universities_of_file_names_and_messages
              "Export_Aalborg_University_20240101_000000.xlsx" "")
    as (_ & Hname & _).
  apply Hname. reflexivity.
Defined.

(* ------------------------------------------------------------------------- *)
(** ** The ranges of what the synthesiser makes up *)

Lemma floor_random_within (r : draw) (nk : Z * Z) :
  (0 < fst nk)%Z -> within (range_of nk) (floor_random r (fst nk) + snd nk).
Proof.
  intros Hn. pose proof (floor_random_bounds r Hn).
  unfold within, range_of. simpl. lia.
Qed.

Lemma days_ago_within (r : draw) :
  within (0, 364)%Z (floor_random r 365).
Proof.
  assert (H365 : (0 < 365)%Z) by lia.
  pose proof (floor_random_bounds r H365). unfold within. simpl. lia.
Qed.

Module App1Ranges.
Import App1.

Section Ranges.
Context {num : Type} `{JsNumber num}.
Variable P : Policy.
Hypothesis HP : policy_positive P.
Implicit Types (js : State num) (row : RowData num).

Lemma browsing_loop_within n row journalId js :
  exists events,
    queue (browsing_loop P n row journalId js) = queue js ++ events
    /\ List.length events = n
    /\ Forall (browsing_within (date_days_ago js)
                 (range_of (view_count_range P))
                 (range_of (session_duration_range P))
                 (range_of (pages_viewed_range P)) (0, 0)%Z) events.
Proof.
  destruct HP as (_ & _ & _ & _ & Hv & Hd & Hp).
  revert js. induction n as [|n IH]; intros js.
  - exists []. simpl. now rewrite app_nil_r.
  - simpl. destruct (isSubscribed row) eqn:Hsub.
    + destruct_loop_IH IH.
      eexists (_ :: ev). rewrite Hq. simpl. rewrite <- app_assoc. simpl.
      split; [reflexivity|]. split; [now rewrite Hl|].
      constructor; [|exact Hf].
      simpl. split; [eexists; eexists; split;
                      [apply days_ago_within | reflexivity]|].
      split; [now apply floor_random_within|].
      split; [now apply floor_random_within|].
      split; [now apply floor_random_within|]. unfold within. simpl. lia.
    + destruct_loop_IH IH.
      eexists (_ :: ev). rewrite Hq. simpl. rewrite <- app_assoc. simpl.
      split; [reflexivity|]. split; [now rewrite Hl|].
      constructor; [|exact Hf].
      simpl. split; [eexists; eexists; split;
                      [apply days_ago_within | reflexivity]|].
      split; [now apply floor_random_within|].
      split; [now apply floor_random_within|].
      split; [now apply floor_random_within|]. unfold within. simpl. lia.
Qed.

Lemma createSubscriptionData_within row journalId js :
  exists events,
    queue (createSubscriptionData P row journalId js)
    = queue js ++ subscription_of row journalId ++ events
    /\ within (range_of (if isSubscribed row then sessions_subscribed P
                         else sessions_other P))
              (Z.of_nat (List.length events))
    /\ Forall (browsing_within (date_days_ago js)
                 (range_of (view_count_range P))
                 (range_of (session_duration_range P))
                 (range_of (pages_viewed_range P)) (0, 0)%Z) events.
Proof.
  destruct HP as (Hs1 & Hs2 & Ho1 & Ho2 & _).
  unfold createSubscriptionData, State.
  set (js1 := if isSubscribed row then db_run _ js else js).
  assert (Hq1 : queue js1 = queue js ++ subscription_of row journalId).
  { unfold js1, subscription_of. destruct (isSubscribed row).
    - apply queue_db_run.
    - now rewrite app_nil_r. }
  assert (Hc1 : date_days_ago js1 = date_days_ago js)
    by (unfold js1; now destruct (isSubscribed row)).
  clearbody js1.
  pose proof (queue_Math_random js1) as Hq2.
  assert (Hc2 : date_days_ago (snd (Math_random js1)) = date_days_ago js1)
    by reflexivity.
  destruct (Math_random js1) as [r js2]. simpl in Hq2, Hc2.
  match goal with
  | |- context [browsing_loop P ?n row journalId js2] =>
      destruct (browsing_loop_within n row journalId js2) as (ev & Hq & Hl & Hf)
  end.
  exists ev. cbv zeta.
  rewrite queue_if_resolve, queue_incr_processed, Hq, Hq2, Hq1, app_assoc.
  split; [reflexivity|]. rewrite Hc2, Hc1 in Hf. split; [|exact Hf].
  rewrite Hl. destruct (isSubscribed row).
  - pose proof (floor_random_within r (sessions_subscribed P) Hs1) as Hw.
    unfold within, range_of in *. simpl in *. lia.
  - pose proof (floor_random_within r (sessions_other P) Ho1) as Hw.
    unfold within, range_of in *. simpl in *. lia.
Qed.

End Ranges.
End App1Ranges.

(** X6.  What [createSubscriptionData] makes up, app1.js and the unnamed
    variant.  After the subscription insert, if any, it issues browsing
    inserts only; their number lies in the range of the session count (3 to
    10 for a subscribed row and 8 to 27 otherwise in app1.js; 2 to 6 and 5 to
    19 in the unnamed variant), each carries the date the clock gives for
    a number of days ago from 0 to 364 (which UTC date that is, is left to
    the clock and the local zone), and its view count, session duration and
    pages viewed lie in the ranges of the policy (1 to 6, 300 to 1799 and 2
    to 13 in app1.js; 1 to 5, 180 to 1379 and 1 to 10 in the unnamed
    variant). *)
Theorem X6_browsing_ranges_app1 :
  forall (num : Type) (JN : JsNumber num) (P : Policy)
         (row : App1.RowData num) (jid : Z) (js : App1.State num),
    policy_positive P ->
    exists events,
      queue (App1.createSubscriptionData P row jid js)
      = queue js ++ App1.subscription_of row jid ++ events
      /\ within (range_of (if App1.isSubscribed row then sessions_subscribed P
                           else sessions_other P))
                (Z.of_nat (List.length events))
      /\ Forall (browsing_within (date_days_ago js)
                   (range_of (view_count_range P))
                   (range_of (session_duration_range P))
                   (range_of (pages_viewed_range P)) (0, 0)%Z) events.
Proof.
  intros num JN P row jid js HP.
  now apply App1Ranges.createSubscriptionData_within.
Qed.

Lemma X6_browsing_ranges_app1_witness :
  (exists events,
      queue (App1.createSubscriptionData App1.policy
               (App1.mkRowData 1%Z "Aalborg University" (VStr "Nature") true
                               (VStr "Unknown") (VStr "General") (IInt 5000))
               1%Z Scenario.boot)
      = queue (Scenario.boot : App1.State intnum)
        ++ App1.subscription_of
             (App1.mkRowData 1%Z "Aalborg University" (VStr "Nature") true
                             (VStr "Unknown") (VStr "General") (IInt 5000)) 1%Z
        ++ events
      /\ within (3, 10)%Z (Z.of_nat (List.length events))
      /\ Forall (browsing_within (steady_clock 20000) (1, 6)%Z (300, 1799)%Z
                                 (2, 13)%Z (0, 0)%Z) events)
  /\ (exists events,
         queue (App1.createSubscriptionData Unnamed.policy
                  (App1.mkRowData 1%Z "Aalborg University" (VStr "Nature") false
                                  (VStr "Unknown") (VStr "General") (IInt 5000))
                  1%Z Scenario.boot)
         = queue (Scenario.boot : App1.State intnum)
           ++ App1.subscription_of
                (App1.mkRowData 1%Z "Aalborg University" (VStr "Nature") false
                                (VStr "Unknown") (VStr "General") (IInt 5000)) 1%Z
           ++ events
         /\ within (5, 19)%Z (Z.of_nat (List.length events))
         /\ Forall (browsing_within (steady_clock 20000) (1, 5)%Z (180, 1379)%Z
                                    (1, 10)%Z (0, 0)%Z) events).
Proof.
  split.
  - apply (@X6_browsing_ranges_app1 intnum intnum_JsNumber App1.policy
             (App1.mkRowData 1%Z "Aalborg University" (VStr "Nature") true
                             (VStr "Unknown") (VStr "General") (IInt 5000))
             1%Z Scenario.boot).
    unfold policy_positive. simpl. lia.
  - apply (@X6_browsing_ranges_app1 intnum intnum_JsNumber Unnamed.policy
             (App1.mkRowData 1%Z "Aalborg University" (VStr "Nature") false
                             (VStr "Unknown") (VStr "General") (IInt 5000))
             1%Z Scenario.boot).
    unfold policy_positive. simpl. lia.
Defined.

Module App5Ranges.
Import App5.

Section Ranges.
Context {num : Type} `{JsNumber num}.
Implicit Types (js : State num) (row : RowData num).

Lemma scaled_within (r : draw) (p q k hi : Z) :
  (0 < p)%Z -> (0 < q)%Z -> (p <= (hi - k + 1) * q)%Z ->
  within (k, hi) (floor_scaled r p q + k).
Proof.
  intros Hp Hq Hhi. destruct (floor_scaled_bounds r Hp Hq) as [H0 H1].
  unfold within. simpl. nia.
Qed.

Lemma browsing_loop_within5 n row journalId js :
  exists events,
    queue (browsing_loop n row journalId js) = queue js ++ events
    /\ List.length events = n
    /\ Forall (browsing_within (date_days_ago js)
                 (App5Bounds.view_count (isCurrentlySubscribed row))
                 (App5Bounds.session_duration (isCurrentlySubscribed row))
                 (App5Bounds.pages_viewed (isCurrentlySubscribed row))
                 (App5Bounds.downloaded_samples (isCurrentlySubscribed row)))
              events.
Proof.
  revert js. induction n as [|n IH]; intros js.
  - exists []. simpl. now rewrite app_nil_r.
  - simpl. destruct_loop_IH IH.
    eexists (_ :: ev). rewrite Hq. simpl. rewrite <- app_assoc. simpl.
    split; [reflexivity|]. split; [now rewrite Hl|].
    constructor; [|exact Hf].
    unfold baseEngagement. simpl.
    split; [eexists; eexists; split; [apply days_ago_within | reflexivity]|].
    destruct (isCurrentlySubscribed row); simpl;
      (split; [apply scaled_within; lia|]);
      (split; [apply scaled_within; lia|]);
      (split; [apply scaled_within; lia|]);
      match goal with
      | |- within _ (floor_scaled ?r ?p ?q) =>
          replace (floor_scaled r p q) with (floor_scaled r p q + 0)%Z by lia;
          apply scaled_within; lia
      end.
Qed.

Lemma insertSubscriptionAndBrowsing_within row journalId js :
  exists annual_cost usage_count events,
    queue (insertSubscriptionAndBrowsing row journalId js)
    = queue js ++ subscription_with row journalId annual_cost usage_count
               ++ events
    /\ within App5Bounds.usage_count usage_count
    /\ within (App5Bounds.sessions (isCurrentlySubscribed row))
              (Z.of_nat (List.length events))
    /\ Forall (browsing_within (date_days_ago js)
                 (App5Bounds.view_count (isCurrentlySubscribed row))
                 (App5Bounds.session_duration (isCurrentlySubscribed row))
                 (App5Bounds.pages_viewed (isCurrentlySubscribed row))
                 (App5Bounds.downloaded_samples (isCurrentlySubscribed row)))
              events.
Proof.
  unfold insertSubscriptionAndBrowsing, checkCompletion, State.
  pose proof (App5Facts.cost_or_fallback_queue
                (parseFloat (to_String (cost row))) js) as Hqc.
  assert (Hcc : date_days_ago (snd (cost_or_fallback
                                    (parseFloat (to_String (cost row))) js))
                = date_days_ago js).
  { unfold cost_or_fallback. now destruct (num_falsy _). }
  destruct (cost_or_fallback (parseFloat (to_String (cost row))) js)
    as [annual_cost jsc] eqn:Ec.
  simpl in Hqc, Hcc. cbv iota.
  set (usage := (floor_random (fst (Math_random jsc)) 1000 + 200)%Z).
  match goal with
  | |- context [if isCurrentlySubscribed row then ?a else js] =>
      set (js1 := if isCurrentlySubscribed row then a else js)
  end.
  assert (Hq1 : queue js1
                = queue js ++ subscription_with row journalId annual_cost usage).
  { unfold js1, subscription_with. destruct (isCurrentlySubscribed row).
    - unfold Math_random. cbv iota. rewrite queue_db_run. simpl. now rewrite Hqc.
    - now rewrite app_nil_r. }
  assert (Hc1 : date_days_ago js1 = date_days_ago js).
  { unfold js1. destruct (isCurrentlySubscribed row); [|reflexivity].
    unfold Math_random. cbv iota. simpl. exact Hcc. }
  clearbody js1.
  pose proof (queue_Math_random js1) as Hq2.
  assert (Hc2 : date_days_ago (snd (Math_random js1)) = date_days_ago js1)
    by reflexivity.
  destruct (Math_random js1) as [r js2]. simpl in Hq2, Hc2.
  match goal with
  | |- context [browsing_loop ?n row journalId js2] =>
      destruct (browsing_loop_within5 n row journalId js2) as (ev & Hq & Hl & Hf)
  end.
  exists annual_cost, usage, ev. cbv zeta.
  rewrite queue_if_resolve, queue_incr_processed, Hq, Hq2, Hq1, app_assoc.
  split; [reflexivity|]. rewrite Hc2, Hc1 in Hf.
  split; [|split; [|exact Hf]].
  - unfold usage. apply (floor_random_within _ (1000, 200)%Z). simpl. lia.
  - rewrite Hl. destruct (isCurrentlySubscribed row).
    + pose proof (floor_random_within r (10, 5)%Z) as Hw.
      unfold within, range_of in *. simpl in *. lia.
    + pose proof (floor_random_within r (25, 10)%Z) as Hw.
      unfold within, range_of in *. simpl in *. lia.
Qed.

End Ranges.
End App5Ranges.

(** X7.  What [insertSubscriptionAndBrowsing] of app5.js makes up.  The
    subscription insert, if any, has a usage count from 200 to 1199; after
    it come browsing inserts only, 5 to 14 of them for a subscribed row and
    10 to 34 otherwise, each carrying the date the clock gives for a number
    of days ago from 0 to 364 (which UTC date that is, is left to the clock
    and the local zone), with a view count from 1 to 12, a session duration
    from 60 to 2309, 1 to 23 pages viewed and 0 to 5 downloaded samples for
    a subscribed row, and from 1 to 8, 60 to 1559, 1 to 15 and 0 to 3
    otherwise. *)
Theorem X7_browsing_ranges_app5 :
  forall (num : Type) (JN : JsNumber num)
         (row : App5.RowData num) (jid : Z) (js : App5.State num),
    exists annual_cost usage_count events,
      queue (App5.insertSubscriptionAndBrowsing row jid js)
      = queue js ++ App5.subscription_with row jid annual_cost usage_count
                 ++ events
      /\ within App5Bounds.usage_count usage_count
      /\ within (App5Bounds.sessions (App5.isCurrentlySubscribed row))
                (Z.of_nat (List.length events))
      /\ Forall (browsing_within (date_days_ago js)
                   (App5Bounds.view_count (App5.isCurrentlySubscribed row))
                   (App5Bounds.session_duration (App5.isCurrentlySubscribed row))
                   (App5Bounds.pages_viewed (App5.isCurrentlySubscribed row))
                   (App5Bounds.downloaded_samples
                      (App5.isCurrentlySubscribed row)))
                events.
Proof.
  intros num JN row jid js.
  apply App5Ranges.insertSubscriptionAndBrowsing_within.
Qed.

Lemma X7_browsing_ranges_app5_witness :
  exists annual_cost usage_count events,
    queue (App5.insertSubscriptionAndBrowsing
             (App5.mkRowData 1%Z "Aalborg University" (VStr "Nature") true
                             VNull VNull (VNum (IInt 5000)) VNull)
             1%Z Scenario.boot)
    = queue (Scenario.boot : App5.State intnum)
      ++ App5.subscription_with
           (App5.mkRowData 1%Z "Aalborg University" (VStr "Nature") true
                           VNull VNull (VNum (IInt 5000)) VNull)
           1%Z annual_cost usage_count
      ++ events
    /\ within (200, 1199)%Z usage_count
    /\ within (5, 14)%Z (Z.of_nat (List.length events))
    /\ Forall (browsing_within (steady_clock 20000) (1, 12)%Z (60, 2309)%Z
                               (1, 23)%Z (0, 5)%Z) events.
Proof.
  exact (@X7_browsing_ranges_app5 intnum intnum_JsNumber
           (App5.mkRowData 1%Z "Aalborg University" (VStr "Nature") true
                           VNull VNull (VNum (IInt 5000)) VNull)
           1%Z Scenario.boot).
Defined.

(* ------------------------------------------------------------------------- *)
(** ** What a batch keeps of the store *)

Section StoreInvariants.
Context {num : Type} `{JsNumber num}.

(** A property of the store that no statement breaks. *)
Variable I : Store num -> Prop.
Hypothesis exec_keeps : forall s db, I db -> I (fst (exec s db)).

Lemma step_keeps {R : Type} (resume : Cont num R -> Result -> Js num R -> Js num R)
      (m m' : Machine num R) :
  I (store m) -> step resume m = Some m' -> I (store m').
Proof.
  intros Hi. unfold step. destruct (crashed (js m)); [discriminate|].
  destruct (queue (js m)) as [|[s k] q]; [discriminate|].
  pose proof (exec_keeps s Hi) as He.
  destruct (exec s (store m)) as [db r]. intros E. injection E as <-. exact He.
Qed.

Lemma run_keeps {R : Type} (resume : Cont num R -> Result -> Js num R -> Js num R)
      fuel (m : Machine num R) :
  I (store m) -> I (store (run resume fuel m)).
Proof.
  revert m. induction fuel as [|fuel IH]; intros m Hi; [exact Hi|].
  simpl. destruct (step resume m) as [m'|] eqn:E; [|exact Hi].
  apply IH. eapply step_keeps; eauto.
Qed.

Lemma run_until_settled_keeps {R : Type}
      (resume : Cont num R -> Result -> Js num R -> Js num R)
      fuel (m : Machine num R) :
  I (store m) -> I (store (run_until_settled resume fuel m)).
Proof.
  revert m. induction fuel as [|fuel IH]; intros m Hi; [exact Hi|].
  simpl. destruct (settled (js m)); [exact Hi|].
  destruct (step resume m) as [m'|] eqn:E; [|exact Hi].
  apply IH. eapply step_keeps; eauto.
Qed.

Lemma App1_files_loop_keeps P readFile files (m : Machine num (App1.RowData num)) :
  I (store m) -> I (store (fst (App1.files_loop P readFile files m))).
Proof.
  revert m. induction files as [|f files IH]; intros m Hi; [exact Hi|].
  cbn [App1.files_loop]. destruct (readFile f) as [workbook|message].
  - set (m1 := await _ _ _).
    assert (H1 : I (store m1)) by (apply run_until_settled_keeps; exact Hi).
    clearbody m1. destruct (crashed (js m1)); [exact H1|].
    destruct (promise (js m1)); [exact H1 | now apply IH | now apply IH].
  - now apply IH.
Qed.

Lemma App1_ingest_keeps P readFile files (m : Machine num (App1.RowData num)) :
  I (store m) -> I (store (fst (App1.ingest P readFile files m))).
Proof.
  intros Hi. unfold App1.ingest, App1.processAllExcelFiles.
  pose proof (App1_files_loop_keeps P readFile files m Hi) as Hl.
  destruct (App1.files_loop P readFile files m) as [m' [| |]];
    simpl in *; apply run_keeps; exact Hl.
Qed.

Lemma App5_files_loop_keeps readFile files (m : Machine num (App5.RowData num)) :
  I (store m) -> I (store (fst (App5.files_loop readFile files m))).
Proof.
  revert m. induction files as [|f files IH]; intros m Hi; [exact Hi|].
  cbn [App5.files_loop]. destruct (readFile f) as [workbook|message].
  - set (m1 := await _ _ _).
    assert (H1 : I (store m1)) by (apply run_until_settled_keeps; exact Hi).
    clearbody m1. destruct (crashed (js m1)); [exact H1|].
    destruct (promise (js m1)); [exact H1 | now apply IH | now apply IH].
  - now apply IH.
Qed.

Lemma App5_ingest_keeps readFile files (m : Machine num (App5.RowData num)) :
  I (store m) -> I (store (fst (App5.ingest readFile files m))).
Proof.
  intros Hi. unfold App5.ingest, App5.processExcelFilesFromFolder.
  pose proof (App5_files_loop_keeps readFile files m Hi) as Hl.
  destruct (App5.files_loop readFile files m) as [m' [| |]];
    simpl in *; apply run_keeps; exact Hl.
Qed.

End StoreInvariants.

Section StoreFacts.
Context {num : Type} `{JsNumber num}.

Lemma exec_names_distinct (s : Stmt num) (db : Store num) :
  names_distinct db -> names_distinct (fst (exec s db)).
Proof.
  unfold names_distinct. intros Hd.
  destruct s; simpl; try exact Hd.
  - destruct (existsb _ _) eqn:E; simpl; [exact Hd|].
    rewrite map_app. simpl. apply NoDup_rev in Hd.
    rewrite <- (rev_involutive (_ ++ _)). apply NoDup_rev.
    rewrite rev_app_distr. simpl. constructor; [|exact Hd].
    rewrite <- in_rev. intros Hin. apply in_map_iff in Hin.
    destruct Hin as (u & Hu & Hin).
    assert (Ht : existsb (fun u => seq (u_name u) name) (universities db) = true).
    { apply existsb_exists. exists u. split; [exact Hin|]. now apply seq_eq. }
    congruence.
  - destruct (sql_text title); simpl; exact Hd.
Qed.

Lemma extends_refl (db : Store num) : extends db db.
Proof. split; exists []; now rewrite app_nil_r. Qed.

Lemma exec_extends (db0 : Store num) (s : Stmt num) (db : Store num) :
  extends db0 db -> extends db0 (fst (exec s db)).
Proof.
  intros [[lu Hu] [lj Hj]].
  destruct s; simpl; try (split; [now exists lu | now exists lj]).
  - destruct (existsb _ _); simpl; [split; [now exists lu | now exists lj]|].
    split; [|now exists lj]. eexists. rewrite Hu, <- app_assoc. reflexivity.
  - destruct (sql_text title); simpl; [|split; [now exists lu | now exists lj]].
    split; [now exists lu|]. eexists. rewrite Hj, <- app_assoc. reflexivity.
Qed.

End StoreFacts.

(** X8.  Whatever files a batch reads, on app1.js (with any synthesis
    literals) and on app5.js, it leaves no two universities of the same
    name, if there were none before; and every university and every journal
    the store held before the batch is still there afterwards, unchanged and
    in the same place: ingestion adds universities and journals, and never
    deletes or rewrites one. *)
Theorem X8_batch_keeps_universities_and_journals :
  forall (num : Type) (JN : JsNumber num) (P : Policy)
         (readFile : string -> Workbook num + string) (files : list string),
    (forall m : Machine num (App1.RowData num),
        (names_distinct (store m) ->
         names_distinct (store (fst (App1.ingest P readFile files m))))
        /\ extends (store m) (store (fst (App1.ingest P readFile files m))))
    /\ (forall m : Machine num (App5.RowData num),
           (names_distinct (store m) ->
            names_distinct (store (fst (App5.ingest readFile files m))))
           /\ extends (store m) (store (fst (App5.ingest readFile files m)))).
Proof.
  intros num JN P readFile files. split; intros m; split.
  - apply App1_ingest_keeps. intros s db. apply exec_names_distinct.
  - apply (App1_ingest_keeps (extends (store m))).
    + intros s db. apply exec_extends.
    + apply extends_refl.
  - apply App5_ingest_keeps. intros s db. apply exec_names_distinct.
  - apply (App5_ingest_keeps (extends (store m))).
    + intros s db. apply exec_extends.
    + apply extends_refl.
Qed.

Lemma X8_batch_keeps_universities_and_journals_witness :
  names_distinct
    (store (fst (App1.ingest App1.policy Scenario.disk
                             [Scenario.aalborg_2024; Scenario.aalborg_2025]
                             Scenario.start))).
Proof.
  destruct (@X8_batch_keeps_universities_and_journals
              intnum intnum_JsNumber App1.policy Scenario.disk
              [Scenario.aalborg_2024; Scenario.aalborg_2025]) as [H1 _].
  destruct (H1 Scenario.start) as [Hd _]. apply Hd.
  unfold names_distinct. simpl. constructor.
Defined.

(* ------------------------------------------------------------------------- *)
(** ** A file touches the rows of its own university only *)

Lemma filter_idem {A : Type} (f : A -> bool) (l : list A) :
  filter f (filter f l) = filter f l.
Proof.
  induction l as [|x l IH]; simpl; [reflexivity|].
  destruct (f x) eqn:E; simpl; [now rewrite E, IH | exact IH].
Qed.

Section OthersFacts.
Context {num : Type} `{JsNumber num} {R : Type}.
Variable V : View num R.
Variable resume : Cont num R -> Result -> Js num R -> Js num R.
Variables (name : string) (expected : nat).
Hypothesis audit_kept :
  forall m m', audit V name expected m -> step resume m = Some m' ->
               audit V name expected m'.

Lemma others_kept_refl (u : Z) (db : Store num) : others_kept u db db.
Proof. now split. Qed.

Lemma others_kept_trans (u : Z) (a b c : Store num) :
  others_kept u a b -> others_kept u b c -> others_kept u a c.
Proof. intros [H1 H2] [H3 H4]. split; congruence. Qed.

(** A statement of the file being audited leaves the other universities
    alone. *)
Lemma others_step m m' :
  audit V name expected m -> step resume m = Some m' ->
  others_kept (uid V) (store m) (store m').
Proof.
  intros (_ & _ & _ & _ & _ & Htasks & _) Hstep.
  unfold step in Hstep.
  destruct (crashed (js m)); [discriminate|].
  destruct (queue (js m)) as [|[s k] q]; [discriminate|].
  apply Forall_cons_iff in Htasks. destruct Htasks as [Ht _].
  destruct s; destruct k as [[]|]; simpl in Ht; try contradiction.
  - simpl in Hstep. injection Hstep as <-. apply others_kept_refl.
  - simpl in Hstep. destruct (sql_text title); simpl in Hstep;
      injection Hstep as <-; split; reflexivity.
  - destruct Ht as (-> & _). simpl in Hstep. injection Hstep as <-.
    split; simpl; [|reflexivity].
    rewrite filter_app. simpl. rewrite Z.eqb_refl. simpl. apply app_nil_r.
  - destruct Ht as (-> & _). simpl in Hstep. injection Hstep as <-.
    split; simpl; [reflexivity|].
    rewrite filter_app. simpl. rewrite Z.eqb_refl. simpl. apply app_nil_r.
Qed.

Lemma others_run fuel m :
  audit V name expected m ->
  others_kept (uid V) (store m) (store (run resume fuel m)).
Proof.
  revert m. induction fuel as [|fuel IH]; intros m Ha;
    [apply others_kept_refl|].
  simpl. destruct (step resume m) as [m'|] eqn:E; [|apply others_kept_refl].
  eapply others_kept_trans; [eapply others_step; eauto|].
  apply IH. eapply audit_kept; eauto.
Qed.

End OthersFacts.

Section DeleteFacts.
Context {num : Type} `{JsNumber num}.

(** The two deletes of a re-ingestion leave the other universities
    alone. *)
Lemma others_kept_deletes (u : Z) (db : Store num) :
  others_kept u db
    (fst (exec (DeleteBrowsingHistory u) (fst (exec (DeleteSubscriptions u) db)))).
Proof. split; simpl; apply filter_idem. Qed.

End DeleteFacts.

Module App1Others.
Import App1.

Section Others.
Context {num : Type} `{JsNumber num}.
Variable P : Policy.
Implicit Types (m : Machine num (RowData num)).

Lemma audit_kept uid all ms mb name expected m m' :
  audit (view uid all ms mb) name expected m ->
  step (resume P) m = Some m' ->
  audit (view uid all ms mb) name expected m'.
Proof.
  apply audit_step with (synth := createSubscriptionData P).
  - reflexivity.
  - reflexivity.
  - intros ctx st. apply App1Replace.resume_missing.
  - intros ctx jid st. apply App1Replace.synth_issues.
Qed.

Lemma processSubscriptionData_others uid name data db st :
  queue st = [] -> crashed st = false ->
  (exists u, In u (universities db) /\ u_id u = uid /\ u_name u = name) ->
  others_kept uid db
    (store (drain (resume P) (kweight P)
                  (mkMachine db (processSubscriptionData uid name data st)))).
Proof.
  intros Hq0 Hc0 Hu.
  set (V := view uid data (seq_subscriptions db) (seq_browsing_history db)).
  set (m0 := mkMachine db (processSubscriptionData uid name data st)).
  set (db1 := fst (exec (DeleteSubscriptions uid) db)).
  set (db2 := fst (exec (DeleteBrowsingHistory uid) db1)).
  destruct (App1Replace.forEach_tasks
              uid name (seq_subscriptions db)
              (seq_browsing_history db) db2 (incl_refl data) 0
              (db_run (DeleteBrowsingHistory uid)
                      (db_run (DeleteSubscriptions uid) st)))
    as (Hc & lookups & Hq & Hok & Hp).
  rewrite !queue_db_run, Hq0 in Hq. cbn [app] in Hq.
  assert (Hcm : crashed (js m0) = false).
  { unfold m0, processSubscriptionData. cbn [js]. rewrite Hc. exact Hc0. }
  assert (Hqm : queue (js m0)
                = passive (DeleteSubscriptions uid)
                  :: passive (DeleteBrowsingHistory uid) :: lookups).
  { unfold m0, processSubscriptionData. cbn [js]. exact Hq. }
  set (m1 := mkMachine db1 (set_queue (passive (DeleteBrowsingHistory uid)
                                       :: lookups) (js m0))).
  set (m2 := mkMachine db2 (set_queue lookups (js m0))).
  assert (H1 : step (resume P) m0 = Some m1)
    by (rewrite (@step_passive _ _ _ (resume P) m0 _ _ Hcm Hqm); reflexivity).
  assert (H2 : step (resume P) m1 = Some m2)
    by (rewrite (@step_passive _ _ _ (resume P) m1 _ _ Hcm eq_refl); reflexivity).
  assert (Hrun : run (resume P) 2 m0 = m2)
    by (cbn [run]; now rewrite H1, H2).
  rewrite <- (@drain_run _ _ _ (resume P) (kweight P)
                          (App1Rest.resume_budget P) 2 m0), Hrun.
  apply others_kept_trans with (b := db2); [apply others_kept_deletes|].
  change db2 with (store m2) at 1.
  apply (@others_run _ _ _ V (resume P) name
                     (List.length (filter subscribed_row data))).
  - intros a b. apply audit_kept.
  - split_audit; unfold subscriptions_of, browsing_of; simpl; auto; try lia.
    + rewrite filter_filter_negb. constructor.
    + rewrite filter_filter_negb. constructor.
    + intros _. rewrite filter_filter_negb. exact Hp.
Qed.

Lemma processExcelFile_others workbook filename m :
  crashed (js m) = false ->
  Forall (fun t => snd t = None) (queue (js m)) ->
  first_sheet workbook <> [] ->
  exists uid,
    (exists u,
        In u (universities
                (store (drain (resume P) (kweight P)
                              (on_js (processExcelFile workbook filename) m))))
        /\ u_id u = uid /\ u_name u = extractUniversityName filename)
    /\ others_kept uid (complete (queue (js m)) (store m))
         (store (drain (resume P) (kweight P)
                       (on_js (processExcelFile workbook filename) m))).
Proof.
  intros Hc Hpassive Hdata.
  destruct (App1Replace.processExcelFile_reaches_rows P workbook filename m
              Hc Hpassive Hdata)
    as (a & uid & db & st & Hrun & Hq & Hcs & Hu & Hs & Hb & _ & _).
  exists uid.
  rewrite <- (@drain_run _ _ _ (resume P) (kweight P)
                          (App1Rest.resume_budget P) a), Hrun.
  pose proof (@processSubscriptionData_others
                uid (extractUniversityName filename) (first_sheet workbook)
                db st Hq Hcs Hu) as [Ho1 Ho2].
  split.
  - pose proof (@App1Replace.processSubscriptionData_replaces
                  _ _ P uid (extractUniversityName filename)
                  (first_sheet workbook) db st Hq Hcs Hu) as (Hu' & _).
    exact Hu'.
  - split; [now rewrite Ho1, Hs | now rewrite Ho2, Hb].
Qed.

End Others.
End App1Others.

Module App5Others.
Import App5.

Section Others.
Context {num : Type} `{JsNumber num}.
Implicit Types (m : Machine num (RowData num)).

Lemma audit_kept5 uid all ms mb name expected m m' :
  audit (view uid all ms mb) name expected m ->
  step resume m = Some m' ->
  audit (view uid all ms mb) name expected m'.
Proof.
  apply audit_step with (synth := insertSubscriptionAndBrowsing).
  - reflexivity.
  - reflexivity.
  - intros ctx st. apply App5Replace.resume_missing5.
  - intros ctx jid st. apply App5Replace.synth_issues5.
Qed.

Lemma processSheetData_others uid name data db st :
  data <> [] ->
  queue st = [] -> crashed st = false ->
  (exists u, In u (universities db) /\ u_id u = uid /\ u_name u = name) ->
  others_kept uid db
    (store (drain resume kweight
                  (mkMachine db (processSheetData uid name data st)))).
Proof.
  intros Hdata Hq0 Hc0 Hu.
  set (V := view uid data (seq_subscriptions db) (seq_browsing_history db)).
  set (m0 := mkMachine db (processSheetData uid name data st)).
  set (db1 := fst (exec (DeleteSubscriptions uid) db)).
  set (db2 := fst (exec (DeleteBrowsingHistory uid) db1)).
  destruct (App5Replace.forEach_tasks5
              uid name (seq_subscriptions db)
              (seq_browsing_history db) db2 (incl_refl data) 0
              (db_run (DeleteBrowsingHistory uid)
                      (db_run (DeleteSubscriptions uid) st)))
    as (Hc & lookups & Hq & Hok & Hp).
  rewrite !queue_db_run, Hq0 in Hq. cbn [app] in Hq.
  assert (Hcm : crashed (js m0) = false).
  { unfold m0, processSheetData. destruct data; [contradiction|].
    cbn [js]. rewrite Hc. exact Hc0. }
  assert (Hqm : queue (js m0)
                = passive (DeleteSubscriptions uid)
                  :: passive (DeleteBrowsingHistory uid) :: lookups).
  { unfold m0, processSheetData. destruct data; [contradiction|].
    cbn [js]. exact Hq. }
  set (m1 := mkMachine db1 (set_queue (passive (DeleteBrowsingHistory uid)
                                       :: lookups) (js m0))).
  set (m2 := mkMachine db2 (set_queue lookups (js m0))).
  assert (H1 : step resume m0 = Some m1)
    by (rewrite (@step_passive _ _ _ resume m0 _ _ Hcm Hqm); reflexivity).
  assert (H2 : step resume m1 = Some m2)
    by (rewrite (@step_passive _ _ _ resume m1 _ _ Hcm eq_refl); reflexivity).
  assert (Hrun : run resume 2 m0 = m2)
    by (cbn [run]; now rewrite H1, H2).
  rewrite <- (@drain_run _ _ _ resume kweight App5Rest.resume_budget5 2 m0), Hrun.
  apply others_kept_trans with (b := db2); [apply others_kept_deletes|].
  change db2 with (store m2) at 1.
  apply (@others_run _ _ _ V resume name
                     (List.length (filter subscribed_row data))).
  - intros a b. apply audit_kept5.
  - split_audit; unfold subscriptions_of, browsing_of; simpl; auto; try lia.
    + rewrite filter_filter_negb. constructor.
    + rewrite filter_filter_negb. constructor.
    + intros _. rewrite filter_filter_negb. exact Hp.
Qed.

Lemma processUniversityExcelFile_others workbook filename name m :
  crashed (js m) = false ->
  Forall (fun t => snd t = None) (queue (js m)) ->
  extractUniversityFromFilename filename = Some name ->
  subscription_sheet workbook <> [] ->
  exists uid,
    (exists u,
        In u (universities
                (store (drain resume kweight
                              (on_js (processUniversityExcelFile workbook filename)
                                     m))))
        /\ u_id u = uid /\ u_name u = name)
    /\ others_kept uid (complete (queue (js m)) (store m))
         (store (drain resume kweight
                       (on_js (processUniversityExcelFile workbook filename) m))).
Proof.
  intros Hc Hpassive Hname Hdata.
  destruct (App5Replace.processUniversityExcelFile_reaches_rows
              workbook filename m Hc Hpassive Hname)
    as (a & uid & db & st & Hrun & Hq & Hcs & Hu & Hs & Hb & _ & _).
  exists uid.
  rewrite <- (@drain_run _ _ _ resume kweight App5Rest.resume_budget5 a), Hrun.
  pose proof (@processSheetData_others
                uid name (subscription_sheet workbook)
                db st Hdata Hq Hcs Hu) as [Ho1 Ho2].
  split.
  - pose proof (@App5Replace.processSheetData_replaces
                  _ _ uid name (subscription_sheet workbook) db st
                  Hdata Hq Hcs Hu) as (Hu' & _).
    exact Hu'.
  - split; [now rewrite Ho1, Hs | now rewrite Ho2, Hb].
Qed.

End Others.
End App5Others.

(** X9.  A file touches the rows of its own university only.  When a file
    with at least one row has run to the end, on app1.js (with any synthesis
    literals) or on app5.js, the subscriptions and the browsing events of
    every other university are exactly the ones that were there before, in
    the same order: the two deletes and every insert of the file carry the
    identifier of the file's university. *)
Theorem X9_other_universities_untouched :
  forall (num : Type) (JN : JsNumber num),
    (forall (P : Policy) (workbook : Workbook num) (filename : string)
            (m : Machine num (App1.RowData num)),
        crashed (js m) = false ->
        Forall (fun t => snd t = None) (queue (js m)) ->
        App1.first_sheet workbook <> [] ->
        exists uid,
          (exists u,
              In u (universities
                      (store (drain (App1.resume P) (App1.kweight P)
                                    (App1.on_js
                                       (App1.processExcelFile workbook filename)
                                       m))))
              /\ u_id u = uid
              /\ u_name u = App1.extractUniversityName filename)
          /\ others_kept uid (complete (queue (js m)) (store m))
               (store (drain (App1.resume P) (App1.kweight P)
                             (App1.on_js
                                (App1.processExcelFile workbook filename) m))))
    /\ (forall (workbook : Workbook num) (filename name : string)
               (m : Machine num (App5.RowData num)),
           crashed (js m) = false ->
           Forall (fun t => snd t = None) (queue (js m)) ->
           App5.extractUniversityFromFilename filename = Some name ->
           App5.subscription_sheet workbook <> [] ->
           exists uid,
             (exists u,
                 In u (universities
                         (store (drain App5.resume App5.kweight
                                       (App5.on_js
                                          (App5.processUniversityExcelFile
                                             workbook filename) m))))
                 /\ u_id u = uid /\ u_name u = name)
             /\ others_kept uid (complete (queue (js m)) (store m))
                  (store (drain App5.resume App5.kweight
                                (App5.on_js
                                   (App5.processUniversityExcelFile
                                      workbook filename) m)))).
Proof.
  intros num JN. split.
  - intros P workbook filename m. apply App1Others.processExcelFile_others.
  - intros workbook filename name m.
    apply App5Others.processUniversityExcelFile_others.
Qed.

Lemma X9_other_universities_untouched_witness :
  (exists uid,
      (exists u,
          In u (universities
                  (store (drain (App1.resume App1.policy)
                                (App1.kweight App1.policy)
                                (App1.on_js
                                   (App1.processExcelFile
                                      Scenario.cancelled_export
                                      Scenario.aalborg_2024)
                                   Examples.app1_after_mahidol))))
          /\ u_id u = uid
          /\ u_name u = App1.extractUniversityName Scenario.aalborg_2024)
      /\ others_kept uid
           (complete (queue (js Examples.app1_after_mahidol))
                     (store Examples.app1_after_mahidol))
           (store (drain (App1.resume App1.policy) (App1.kweight App1.policy)
                         (App1.on_js
                            (App1.processExcelFile Scenario.cancelled_export
                                                   Scenario.aalborg_2024)
                            Examples.app1_after_mahidol))))
  /\ (exists uid,
         (exists u,
             In u (universities
                     (store (drain App5.resume App5.kweight
                                   (App5.on_js
                                      (App5.processUniversityExcelFile
                                         Scenario.cancelled_export
                                         Scenario.aalborg_2024)
                                      Examples.app5_after_mahidol))))
             /\ u_id u = uid /\ u_name u = "Aalborg University")
         /\ others_kept uid
              (complete (queue (js Examples.app5_after_mahidol))
                        (store Examples.app5_after_mahidol))
              (store (drain App5.resume App5.kweight
                            (App5.on_js
                               (App5.processUniversityExcelFile
                                  Scenario.cancelled_export
                                  Scenario.aalborg_2024)
                               Examples.app5_after_mahidol)))).
Proof.
  destruct (X9_other_universities_untouched intnum_JsNumber) as [H1 H5].
  split.
  - apply H1.
    + vm_compute. reflexivity.
    + vm_compute. constructor.
    + vm_compute. discriminate.
  - apply H5.
    + vm_compute. reflexivity.
    + vm_compute. constructor.
    + vm_compute. reflexivity.
    + vm_compute. discriminate.
Defined.

(* ------------------------------------------------------------------------- *)
(** ** A file with a row that has no title *)

Section ProgressFacts.
Context {num : Type} {R : Type}.
Implicit Types (js : Js num R) (q : list (Task num R)) (t : Task num R).

Lemma row_callbacks_app q q' :
  row_callbacks (q ++ q') = (row_callbacks q + row_callbacks q')%nat.
Proof. unfold row_callbacks. now rewrite filter_app, length_app. Qed.

Lemma row_callbacks_passive q :
  Forall (fun t => snd t = None) q -> row_callbacks q = 0%nat.
Proof.
  induction 1 as [|[s k] q Hk _ IH]; [reflexivity|].
  simpl in Hk. subst k. exact IH.
Qed.

Lemma passive_passive_or_row q :
  Forall (fun t => snd t = None) q ->
  Forall (fun t => passive_or_row t = true) q.
Proof.
  apply Forall_impl. intros [s k] Hk. simpl in Hk. now subst k.
Qed.

Lemma browsing_ok_passive uid jid b q :
  Forall (browsing_ok uid jid b) q -> Forall (fun t => snd t = None) q.
Proof.
  apply Forall_impl. intros [s k] (Hb & _).
  unfold is_browsing_of in Hb. destruct s; try discriminate.
  destruct k; [discriminate | reflexivity].
Qed.

Lemma same_counters_refl js : same_counters js js.
Proof. now repeat split. Qed.

Lemma same_counters_trans js1 js2 js3 :
  same_counters js1 js2 -> same_counters js2 js3 -> same_counters js1 js3.
Proof.
  intros (A1 & A2 & A3 & A4) (B1 & B2 & B3 & B4). repeat split; congruence.
Qed.

Lemma same_counters_set_queue q js : same_counters js (set_queue q js).
Proof. now repeat split. Qed.

Lemma same_counters_db_run s js : same_counters js (db_run s js).
Proof. now repeat split. Qed.

Lemma same_counters_db_call s k js : same_counters js (db_call s k js).
Proof. now repeat split. Qed.

Lemma same_counters_random js : same_counters js (snd (Math_random js)).
Proof. now repeat split. Qed.

Lemma same_counters_log e js : same_counters js (console_log e js).
Proof. now repeat split. Qed.

Lemma same_counters_uncaught js : same_counters js (uncaught js).
Proof. now repeat split. Qed.

End ProgressFacts.

Module App1Progress.
Import App1.

Section Progress.
Context {num : Type} `{JsNumber num}.
Variable P : Policy.
Implicit Types (js : State num) (row : RowData num) (m : Machine num (RowData num)).

Lemma browsing_loop_counters n row journalId js :
  same_counters js (browsing_loop P n row journalId js).
Proof.
  revert js. induction n as [|n IH]; intros js; [apply same_counters_refl|].
  simpl. destruct (isSubscribed row);
    (eapply same_counters_trans; [|apply IH]); now repeat split.
Qed.

Lemma createSubscriptionData_counters row journalId js :
  data_length (createSubscriptionData P row journalId js) = data_length js
  /\ errors (createSubscriptionData P row journalId js) = errors js
  /\ processed (createSubscriptionData P row journalId js) = S (processed js)
  /\ promise (createSubscriptionData P row journalId js)
     = promise_after (data_length js <=? S (processed js))%nat (promise js).
Proof.
  unfold createSubscriptionData, State.
  set (js1 := if isSubscribed row then db_run _ js else js).
  assert (H1 : same_counters js js1)
    by (unfold js1; destruct (isSubscribed row); now repeat split).
  clearbody js1.
  pose proof (same_counters_random js1) as H2.
  destruct (Math_random js1) as [r js2]. simpl in H2. cbv zeta.
  match goal with
  | |- context [browsing_loop P ?n row journalId js2] =>
      pose proof (browsing_loop_counters n row journalId js2) as H3;
      set (js3 := browsing_loop P n row journalId js2) in *
  end.
  clearbody js3.
  destruct (same_counters_trans H1 (same_counters_trans H2 H3))
    as (Ep & Epr & Ee & Ed).
  assert (Ei : data_length (incr_processed js3) = data_length js
               /\ processed (incr_processed js3) = S (processed js)
               /\ errors (incr_processed js3) = errors js
               /\ promise (incr_processed js3) = promise js)
    by (simpl; repeat split; congruence).
  destruct Ei as (Ei1 & Ei2 & Ei3 & Ei4).
  rewrite Ei1, Ei2.
  destruct (data_length js <=? S (processed js))%nat; simpl.
  - unfold resolve, settle. rewrite Ei4.
    destruct (promise js); simpl; repeat split; auto.
  - repeat split; auto.
Qed.

(** What a row that reaches [createSubscriptionData] does to the
    counters and to the queue. *)
Lemma createSubscriptionData_progress row journalId js :
  data_length (createSubscriptionData P row journalId js) = data_length js
  /\ errors (createSubscriptionData P row journalId js) = errors js
  /\ processed (createSubscriptionData P row journalId js) = S (processed js)
  /\ promise (createSubscriptionData P row journalId js)
     = promise_after (data_length js <=? S (processed js))%nat (promise js)
  /\ exists new,
      queue (createSubscriptionData P row journalId js) = queue js ++ new
      /\ Forall (fun t => snd t = None) new.
Proof.
  destruct (createSubscriptionData_counters row journalId js)
    as (Hd & He & Hp & Hpr).
  split; [exact Hd|]. split; [exact He|]. split; [exact Hp|].
  split; [exact Hpr|].
  destruct (App1Facts.createSubscriptionData_queue P row journalId js)
    as (ev & Hq & _ & Hf).
  exists (subscription_of row journalId ++ ev). split; [exact Hq|].
  apply Forall_app. split; [|eapply browsing_ok_passive; exact Hf].
  unfold subscription_of. destruct (isSubscribed row); repeat constructor.
Qed.

Lemma forEach_row_progress uid name (r : object num) index js :
  same_counters js (forEach_row uid name r index js)
  /\ exists new,
      queue (forEach_row uid name r index js) = queue js ++ new
      /\ Forall (fun t => is_row_callback t = true) new
      /\ List.length new = (if App1Rows.titled r then 1 else 0)%nat.
Proof.
  unfold forEach_row, App1Rows.titled.
  destruct (falsy (findValue r title_keys)); simpl.
  - split; [apply same_counters_log|]. exists []. simpl.
    now rewrite app_nil_r.
  - unfold cost_or_fallback.
    destruct (num_falsy _); simpl;
      (split; [now repeat split|]); eexists; (split; [reflexivity|]);
      split; auto.
Qed.

Lemma forEach_progress uid name data index js :
  same_counters js (forEach uid name data index js)
  /\ exists lookups,
      queue (forEach uid name data index js) = queue js ++ lookups
      /\ Forall (fun t => is_row_callback t = true) lookups
      /\ List.length lookups = List.length (filter App1Rows.titled data).
Proof.
  revert index js. induction data as [|r data IH]; intros index js.
  - split; [apply same_counters_refl|]. exists []. simpl.
    now rewrite app_nil_r.
  - cbn [forEach].
    destruct (forEach_row_progress uid name r index js)
      as (Hs1 & new & Hq1 & Hf1 & Hl1).
    destruct (IH (S index) (forEach_row uid name r index js))
      as (Hs2 & lookups & Hq2 & Hf2 & Hl2).
    split; [eapply same_counters_trans; eauto|].
    exists (new ++ lookups). rewrite Hq2, Hq1, <- app_assoc.
    split; [reflexivity|]. split; [now apply Forall_app|].
    rewrite length_app, Hl1, Hl2. cbn [filter].
    destruct (App1Rows.titled r); reflexivity.
Qed.

Lemma processSubscriptionData_progress uid name data js :
  queue js = [] ->
  same_counters js (processSubscriptionData uid name data js)
  /\ Forall (fun t => passive_or_row t = true)
            (queue (processSubscriptionData uid name data js))
  /\ row_callbacks (queue (processSubscriptionData uid name data js))
     = List.length (filter App1Rows.titled data).
Proof.
  intros Hq0. unfold processSubscriptionData.
  destruct (forEach_progress uid name data 0
              (db_run (DeleteBrowsingHistory uid)
                      (db_run (DeleteSubscriptions uid) js)))
    as (Hs & lookups & Hq & Hf & Hl).
  split; [eapply same_counters_trans; [|exact Hs]; now repeat split|].
  rewrite Hq, !queue_db_run, Hq0. cbn [app]. split.
  - constructor; [reflexivity|]. constructor; [reflexivity|].
    eapply Forall_impl; [|exact Hf].
    intros [s [[]|]]; simpl; intros E; try discriminate; reflexivity.
  - unfold row_callbacks. cbn [filter is_row_callback snd passive].
    rewrite <- Hl. f_equal.
    clear Hq Hl. induction Hf as [|t l Ht _ IH]; [reflexivity|].
    cbn [filter]. now rewrite Ht, IH.
Qed.

(** What the callback of a row does, whatever the statement came to. *)
Lemma resume_row_progress (k : Cont num (RowData num)) (r : Result) js :
  (exists row, k = KJournalLookup row \/ k = KJournalInsert row) ->
  data_length (resume P k r js) = data_length js
  /\ exists new,
      queue (resume P k r js) = queue js ++ new
      /\ Forall (fun t => passive_or_row t = true) new
      /\ ((same_counters js (resume P k r js) /\ (row_callbacks new <= 1)%nat)
          \/ (processed (resume P k r js) = S (processed js)
              /\ row_callbacks new = 0%nat
              /\ promise (resume P k r js)
                 = promise_after (data_length js <=? S (processed js))%nat
                                 (promise js))).
Proof.
  assert (Hsame : data_length js = data_length js
                  /\ exists new,
                      queue js = queue js ++ new
                      /\ Forall (fun t => passive_or_row t = true) new
                      /\ ((same_counters js js /\ (row_callbacks new <= 1)%nat)
                          \/ (processed js = S (processed js)
                              /\ row_callbacks new = 0%nat
                              /\ promise js
                                 = promise_after
                                     (data_length js <=? S (processed js))%nat
                                     (promise js)))).
  { split; [reflexivity|]. exists []. rewrite app_nil_r.
    split; [reflexivity|]. split; [constructor|]. left.
    split; [apply same_counters_refl | unfold row_callbacks; simpl; lia]. }
  assert (Hsynth : forall row id,
             data_length (createSubscriptionData P row id js) = data_length js
             /\ exists new,
                 queue (createSubscriptionData P row id js) = queue js ++ new
                 /\ Forall (fun t => passive_or_row t = true) new
                 /\ ((same_counters js (createSubscriptionData P row id js)
                      /\ (row_callbacks new <= 1)%nat)
                     \/ (processed (createSubscriptionData P row id js)
                         = S (processed js)
                         /\ row_callbacks new = 0%nat
                         /\ promise (createSubscriptionData P row id js)
                            = promise_after
                                (data_length js <=? S (processed js))%nat
                                (promise js)))).
  { intros row id.
    destruct (createSubscriptionData_progress row id js)
      as (Hd & _ & Hp & Hpr & new & Hq & Hf).
    split; [exact Hd|]. exists new. split; [exact Hq|].
    split; [now apply passive_passive_or_row|]. right.
    split; [exact Hp|]. split; [now apply row_callbacks_passive | exact Hpr]. }
  intros (row & [-> | ->]); destruct r as [[id|]| |]; cbn [resume];
    try exact Hsame; try apply Hsynth.
  destruct (generateJournalKeywords (journalTitle row) (subject row)).
  - split; [reflexivity|]. eexists. split; [apply queue_db_call|].
    split; [repeat constructor|]. left.
    split; [apply same_counters_db_call | unfold row_callbacks; simpl; lia].
  - split; [reflexivity|]. exists []. rewrite app_nil_r.
    split; [reflexivity|]. split; [constructor|]. left.
    split; [apply same_counters_uncaught | unfold row_callbacks; simpl; lia].
Qed.

End Progress.
End App1Progress.

Section InvariantRuns.
Context {num : Type} `{JsNumber num} {R : Type}.
Variable resume : Cont num R -> Result -> Js num R -> Js num R.

(** A property that every completion keeps holds wherever [await] stops. *)
Lemma run_until_settled_invariant (I : Machine num R -> Prop) :
  (forall m m', I m -> step resume m = Some m' -> I m') ->
  forall fuel m, I m -> I (run_until_settled resume fuel m).
Proof.
  intros Hstep. induction fuel as [|fuel IH]; intros m Hi; [exact Hi|].
  simpl. destruct (settled (js m)); [exact Hi|].
  destruct (step resume m) as [m'|] eqn:E; [|exact Hi].
  apply IH. eapply Hstep; eauto.
Qed.

End InvariantRuns.

Module App1Stuck.
Import App1.

Section Stuck.
Context {num : Type} `{JsNumber num}.
Variable P : Policy.
Variables (name : string) (data : list (object num)).
Implicit Types (js : State num) (m : Machine num (RowData num)).

Let titled_rows : nat := List.length (filter App1Rows.titled data).

Lemma rows_begin uid js (db : Store num) :
  queue js = [] -> promise js = Pending -> processed js = 0%nat ->
  data_length js = List.length data ->
  file_invariant (@processed num (RowData num)) name data titled_rows
                 (mkMachine db (processSubscriptionData uid name data js)).
Proof.
  intros Hq Hp Hpr Hd.
  destruct (App1Progress.processSubscriptionData_progress uid name data js Hq)
    as ((Ep & Epr & _ & Ed) & Hf & Hrc).
  split; [simpl; congruence|]. apply in_rows; simpl.
  - exact Hf.
  - rewrite Epr, Hpr, Hrc. unfold titled_rows. lia.
  - left. congruence.
Qed.

(** Every completion keeps the invariant of the file. *)
Lemma file_invariant_step m m' :
  file_invariant (@processed num (RowData num)) name data titled_rows m ->
  step (resume P) m = Some m' ->
  file_invariant (@processed num (RowData num)) name data titled_rows m'.
Proof.
  intros [Hd Hph] Hstep. unfold step in Hstep.
  destruct (crashed (js m)) eqn:Hc; [discriminate|].
  destruct Hph as [pre Hpre Hq Hp Hpr | country type Hq Hex Hp Hpr | Hf Hle Hp].
  - (* the university is being looked up *)
    rewrite Hq in Hstep. destruct pre as [|[s k] pre].
    + cbn [app] in Hstep. cbn [exec] in Hstep. injection Hstep as <-.
      destruct (find (fun u => seq (u_name u) name) (universities (store m)))
        as [u|] eqn:Ef; cbn [option_map resume].
      * now apply rows_begin.
      * split; [exact Hd|].
        eapply inserting; simpl; eauto using find_none_existsb.
    + cbn [app] in Hstep. apply Forall_cons_iff in Hpre.
      destruct Hpre as [Hk Hpre]. simpl in Hk. subst k.
      destruct (exec s (store m)) as [db r]. injection Hstep as <-.
      split; [exact Hd|]. now apply looking_up with (pre := pre).
  - (* the university is being inserted *)
    rewrite Hq in Hstep. cbn [exec] in Hstep. rewrite Hex in Hstep.
    injection Hstep as <-. cbn [resume]. now apply rows_begin.
  - (* the rows are under way *)
    destruct (queue (js m)) as [|[s k] q] eqn:Hq; [discriminate|].
    apply Forall_cons_iff in Hf. destruct Hf as [Hk Hf].
    destruct (exec s (store m)) as [db r]. injection Hstep as <-.
    destruct k as [k|].
    + assert (Hrow : exists row, k = KJournalLookup row \/ k = KJournalInsert row).
      { destruct k; try discriminate Hk; eauto. }
      match type of Hle with
      | context [row_callbacks ?l] =>
          assert (Hrc : row_callbacks l = S (row_callbacks q))
            by (destruct Hrow as (row & [-> | ->]); reflexivity);
          rewrite Hrc in Hle
      end.
      destruct (App1Progress.resume_row_progress P r (set_queue q (js m)) Hrow)
        as (Ed & new & Enew & Hnew & Hcase).
      cbn [queue set_queue data_length processed promise] in Ed, Enew, Hcase.
      split; [simpl; congruence|]. apply in_rows; cbn [js store].
      * rewrite Enew. now apply Forall_app.
      * rewrite Enew, row_callbacks_app.
        destruct Hcase as [[(Ep' & Epr' & _) Hrn] | (Epr' & Hrn & _)].
        -- simpl in Epr'. rewrite Epr'. lia.
        -- rewrite Epr', Hrn. lia.
      * destruct Hcase as [[(Ep' & Epr' & _) Hrn] | (Epr' & Hrn & Ep')].
        -- simpl in Ep', Epr'. rewrite Ep', Epr'. exact Hp.
        -- rewrite Ep', Epr', Hd. unfold promise_after.
           destruct (List.length data <=? S (processed (js m)))%nat eqn:El.
           ++ apply Nat.leb_le in El. right. split; [|exact El].
              destruct Hp as [-> | [-> _]]; reflexivity.
           ++ destruct Hp as [Hp | [Hp Hl]]; [now left|].
              apply Nat.leb_gt in El. lia.
    + split; [exact Hd|]. apply in_rows; simpl; auto.
Qed.

(** The start of the file. *)
Lemma file_invariant_start filename workbook m :
  name = extractUniversityName filename -> data = first_sheet workbook ->
  data <> [] ->
  Forall (fun t => snd t = None) (queue (js m)) ->
  file_invariant (@processed num (RowData num)) name data titled_rows
                 (on_js (processExcelFile workbook filename) m).
Proof.
  intros -> Ed Hdata Hpassive. unfold on_js, processExcelFile.
  rewrite <- Ed. destruct data as [|r rest] eqn:E; [contradiction|].
  split; [reflexivity|].
  apply looking_up with (pre := queue (js m)); auto.
Qed.

(** With a row that has no title the promise of the file stays pending,
    whatever happens. *)
Lemma never_settles m :
  (titled_rows < List.length data)%nat ->
  file_invariant (@processed num (RowData num)) name data titled_rows m ->
  promise (js m) = Pending.
Proof.
  intros Hlt [_ Hph].
  destruct Hph as [pre _ _ Hp _ | c t _ _ Hp _ | _ Hle Hp]; auto.
  destruct Hp as [Hp | [_ Hl]]; [exact Hp | lia].
Qed.

End Stuck.
End App1Stuck.

Module App5Progress.
Import App5.

Section Progress.
Context {num : Type} `{JsNumber num}.
Implicit Types (js : State num) (row : RowData num) (m : Machine num (RowData num)).

Lemma browsing_loop_counters5 n row journalId js :
  same_counters js (browsing_loop n row journalId js).
Proof.
  revert js. induction n as [|n IH]; intros js; [apply same_counters_refl|].
  simpl. (eapply same_counters_trans; [|apply IH]); now repeat split.
Qed.

Lemma checkCompletion_counters js :
  data_length (checkCompletion js) = data_length js
  /\ App5Rows.done (checkCompletion js) = App5Rows.done js
  /\ promise (checkCompletion js)
     = promise_after (data_length js <=? App5Rows.done js)%nat (promise js).
Proof.
  unfold checkCompletion, App5Rows.done.
  destruct (data_length js <=? processed js + errors js)%nat; simpl;
    [|now repeat split].
  unfold resolve, settle. destruct (promise js) eqn:E; simpl;
    rewrite ?E; now repeat split.
Qed.

Lemma insertSubscriptionAndBrowsing_counters row journalId js :
  data_length (insertSubscriptionAndBrowsing row journalId js) = data_length js
  /\ App5Rows.done (insertSubscriptionAndBrowsing row journalId js)
     = S (App5Rows.done js)
  /\ promise (insertSubscriptionAndBrowsing row journalId js)
     = promise_after (data_length js <=? S (App5Rows.done js))%nat (promise js).
Proof.
  unfold insertSubscriptionAndBrowsing, State.
  match goal with
  | |- context [if isCurrentlySubscribed row then ?a else js] =>
      set (js1 := if isCurrentlySubscribed row then a else js)
  end.
  assert (H1 : same_counters js js1).
  { unfold js1. destruct (isCurrentlySubscribed row);
      [|apply same_counters_refl].
    unfold cost_or_fallback. destruct (num_falsy _); now repeat split. }
  clearbody js1.
  pose proof (same_counters_random js1) as H2.
  destruct (Math_random js1) as [r js2]. simpl in H2. cbv zeta.
  match goal with
  | |- context [browsing_loop ?n row journalId js2] =>
      pose proof (browsing_loop_counters5 n row journalId js2) as H3;
      set (js3 := browsing_loop n row journalId js2) in *
  end.
  clearbody js3.
  destruct (same_counters_trans H1 (same_counters_trans H2 H3))
    as (Ep & Epr & Ee & Ed).
  destruct (checkCompletion_counters (incr_processed js3)) as (C1 & C2 & C3).
  rewrite C1, C2, C3. unfold App5Rows.done. simpl.
  rewrite Ed, Epr, Ee, Ep. now repeat split.
Qed.

Lemma insertSubscriptionAndBrowsing_progress row journalId js :
  exists new,
    queue (insertSubscriptionAndBrowsing row journalId js) = queue js ++ new
    /\ Forall (fun t => snd t = None) new.
Proof.
  destruct (App5Facts.insertSubscriptionAndBrowsing_queue row journalId js)
    as (c & u & ev & Hq & _ & _ & Hf).
  exists (subscription_with row journalId c u ++ ev). split; [exact Hq|].
  apply Forall_app. split; [|eapply browsing_ok_passive; exact Hf].
  unfold subscription_with. destruct (isCurrentlySubscribed row);
    repeat constructor.
Qed.

Lemma forEach_row_progress5 uid name (r : object num) index js :
  same_counters js (forEach_row uid name r index js)
  /\ exists new,
      queue (forEach_row uid name r index js) = queue js ++ new
      /\ Forall (fun t => is_row_callback t = true) new
      /\ List.length new = (if App5Rows.titled r then 1 else 0)%nat.
Proof.
  unfold forEach_row, App5Rows.titled.
  destruct (no_title (findColumnValue r title_names)); simpl.
  - split; [apply same_counters_refl|]. exists []. simpl.
    now rewrite app_nil_r.
  - split; [now repeat split|]. eexists. split; [reflexivity|].
    split; auto.
Qed.

Lemma forEach_progress5 uid name data index js :
  same_counters js (forEach uid name data index js)
  /\ exists lookups,
      queue (forEach uid name data index js) = queue js ++ lookups
      /\ Forall (fun t => is_row_callback t = true) lookups
      /\ List.length lookups = List.length (filter App5Rows.titled data).
Proof.
  revert index js. induction data as [|r data IH]; intros index js.
  - split; [apply same_counters_refl|]. exists []. simpl.
    now rewrite app_nil_r.
  - cbn [forEach].
    destruct (forEach_row_progress5 uid name r index js)
      as (Hs1 & new & Hq1 & Hf1 & Hl1).
    destruct (IH (S index) (forEach_row uid name r index js))
      as (Hs2 & lookups & Hq2 & Hf2 & Hl2).
    split; [eapply same_counters_trans; eauto|].
    exists (new ++ lookups). rewrite Hq2, Hq1, <- app_assoc.
    split; [reflexivity|]. split; [now apply Forall_app|].
    rewrite length_app, Hl1, Hl2. cbn [filter].
    destruct (App5Rows.titled r); reflexivity.
Qed.

Lemma processSheetData_progress uid name data js :
  data <> [] -> queue js = [] ->
  same_counters js (processSheetData uid name data js)
  /\ Forall (fun t => passive_or_row t = true)
            (queue (processSheetData uid name data js))
  /\ row_callbacks (queue (processSheetData uid name data js))
     = List.length (filter App5Rows.titled data).
Proof.
  intros Hdata Hq0. unfold processSheetData.
  destruct data as [|r0 rest] eqn:Edata; [contradiction|]. rewrite <- Edata.
  destruct (forEach_progress5 uid name data 0
              (db_run (DeleteBrowsingHistory uid)
                      (db_run (DeleteSubscriptions uid) js)))
    as (Hs & lookups & Hq & Hf & Hl).
  split; [eapply same_counters_trans; [|exact Hs]; now repeat split|].
  rewrite Hq, !queue_db_run, Hq0. cbn [app]. split.
  - constructor; [reflexivity|]. constructor; [reflexivity|].
    eapply Forall_impl; [|exact Hf].
    intros [s [[]|]]; simpl; intros E; try discriminate; reflexivity.
  - unfold row_callbacks. cbn [filter is_row_callback snd passive].
    rewrite <- Hl. f_equal.
    clear Hq Hl. induction Hf as [|t l Ht _ IH]; [reflexivity|].
    cbn [filter]. now rewrite Ht, IH.
Qed.

(** What the callback of a row does, whatever the statement came to. *)
Lemma resume_row_progress5 (k : Cont num (RowData num)) (r : Result) js :
  (exists row, k = KJournalLookup row \/ k = KJournalInsert row) ->
  data_length (resume k r js) = data_length js
  /\ exists new,
      queue (resume k r js) = queue js ++ new
      /\ Forall (fun t => passive_or_row t = true) new
      /\ ((same_counters js (resume k r js) /\ (row_callbacks new <= 1)%nat)
          \/ (App5Rows.done (resume k r js) = S (App5Rows.done js)
              /\ row_callbacks new = 0%nat
              /\ promise (resume k r js)
                 = promise_after (data_length js <=? S (App5Rows.done js))%nat
                                 (promise js))).
Proof.
  assert (Hsame : data_length js = data_length js
                  /\ exists new,
                      queue js = queue js ++ new
                      /\ Forall (fun t => passive_or_row t = true) new
                      /\ ((same_counters js js /\ (row_callbacks new <= 1)%nat)
                          \/ (App5Rows.done js = S (App5Rows.done js)
                              /\ row_callbacks new = 0%nat
                              /\ promise js
                                 = promise_after
                                     (data_length js <=? S (App5Rows.done js))%nat
                                     (promise js)))).
  { split; [reflexivity|]. exists []. rewrite app_nil_r.
    split; [reflexivity|]. split; [constructor|]. left.
    split; [apply same_counters_refl | unfold row_callbacks; simpl; lia]. }
  assert (Hsynth : forall row id,
             data_length (insertSubscriptionAndBrowsing row id js)
             = data_length js
             /\ exists new,
                 queue (insertSubscriptionAndBrowsing row id js) = queue js ++ new
                 /\ Forall (fun t => passive_or_row t = true) new
                 /\ ((same_counters js (insertSubscriptionAndBrowsing row id js)
                      /\ (row_callbacks new <= 1)%nat)
                     \/ (App5Rows.done (insertSubscriptionAndBrowsing row id js)
                         = S (App5Rows.done js)
                         /\ row_callbacks new = 0%nat
                         /\ promise (insertSubscriptionAndBrowsing row id js)
                            = promise_after
                                (data_length js <=? S (App5Rows.done js))%nat
                                (promise js)))).
  { intros row id.
    destruct (insertSubscriptionAndBrowsing_counters row id js)
      as (Hd & Hp & Hpr).
    destruct (insertSubscriptionAndBrowsing_progress row id js)
      as (new & Hq & Hf).
    split; [exact Hd|]. exists new. split; [exact Hq|].
    split; [now apply passive_passive_or_row|]. right.
    split; [exact Hp|]. split; [now apply row_callbacks_passive | exact Hpr]. }
  assert (Herr : data_length (checkCompletion (incr_errors js)) = data_length js
                 /\ exists new,
                     queue (checkCompletion (incr_errors js)) = queue js ++ new
                     /\ Forall (fun t => passive_or_row t = true) new
                     /\ ((same_counters js (checkCompletion (incr_errors js))
                          /\ (row_callbacks new <= 1)%nat)
                         \/ (App5Rows.done (checkCompletion (incr_errors js))
                             = S (App5Rows.done js)
                             /\ row_callbacks new = 0%nat
                             /\ promise (checkCompletion (incr_errors js))
                                = promise_after
                                    (data_length js <=? S (App5Rows.done js))%nat
                                    (promise js)))).
  { destruct (checkCompletion_counters (incr_errors js)) as (C1 & C2 & C3).
    split; [now rewrite C1|]. exists [].
    rewrite App5Facts.queue_checkCompletion, app_nil_r.
    split; [reflexivity|]. split; [constructor|]. right.
    rewrite C2, C3. unfold App5Rows.done. simpl.
    split; [lia|]. split; [reflexivity|].
    now replace (processed js + S (errors js))%nat
      with (S (processed js + errors js)) by lia. }
  intros (row & [-> | ->]); destruct r as [[id|]| |]; cbn [resume];
    try exact Hsame; try apply Hsynth; try exact Herr.
  destruct (generateKeywords (journalTitle row) (subject row)).
  - split; [reflexivity|]. eexists. split; [apply queue_db_call|].
    split; [repeat constructor|]. left.
    split; [apply same_counters_db_call | unfold row_callbacks; simpl; lia].
  - split; [reflexivity|]. exists []. rewrite app_nil_r.
    split; [reflexivity|]. split; [constructor|]. left.
    split; [apply same_counters_uncaught | unfold row_callbacks; simpl; lia].
Qed.

End Progress.
End App5Progress.

Module App5Stuck.
Import App5.

Section Stuck.
Context {num : Type} `{JsNumber num}.
Variables (name : string) (data : list (object num)).
Hypothesis data_not_empty : data <> [].
Implicit Types (js : State num) (m : Machine num (RowData num)).

Let titled_rows : nat := List.length (filter App5Rows.titled data).

Lemma rows_begin5 uid js (db : Store num) :
  queue js = [] -> promise js = Pending -> App5Rows.done js = 0%nat ->
  data_length js = List.length data ->
  file_invariant App5Rows.done name data titled_rows
                 (mkMachine db (processSheetData uid name data js)).
Proof.
  intros Hq Hp Hpr Hd.
  destruct (App5Progress.processSheetData_progress
              uid name js data_not_empty Hq)
    as ((Ep & Epr & Ee & Ed) & Hf & Hrc).
  split; [simpl; congruence|]. apply in_rows; simpl.
  - exact Hf.
  - unfold App5Rows.done in *. rewrite Epr, Ee, Hpr, Hrc.
    unfold titled_rows. lia.
  - left. congruence.
Qed.

Lemma file_invariant_step5 m m' :
  file_invariant App5Rows.done name data titled_rows m ->
  step resume m = Some m' ->
  file_invariant App5Rows.done name data titled_rows m'.
Proof.
  intros [Hd Hph] Hstep. unfold step in Hstep.
  destruct (crashed (js m)) eqn:Hc; [discriminate|].
  destruct Hph as [pre Hpre Hq Hp Hpr | country type Hq Hex Hp Hpr | Hf Hle Hp].
  - rewrite Hq in Hstep. destruct pre as [|[s k] pre].
    + cbn [app] in Hstep. cbn [exec] in Hstep. injection Hstep as <-.
      destruct (find (fun u => seq (u_name u) name) (universities (store m)))
        as [u|] eqn:Ef; cbn [option_map resume].
      * now apply rows_begin5.
      * split; [exact Hd|].
        eapply inserting; simpl; eauto using find_none_existsb.
    + cbn [app] in Hstep. apply Forall_cons_iff in Hpre.
      destruct Hpre as [Hk Hpre]. simpl in Hk. subst k.
      destruct (exec s (store m)) as [db r]. injection Hstep as <-.
      split; [exact Hd|]. now apply looking_up with (pre := pre).
  - rewrite Hq in Hstep. cbn [exec] in Hstep. rewrite Hex in Hstep.
    injection Hstep as <-. cbn [resume]. now apply rows_begin5.
  - destruct (queue (js m)) as [|[s k] q] eqn:Hq; [discriminate|].
    apply Forall_cons_iff in Hf. destruct Hf as [Hk Hf].
    destruct (exec s (store m)) as [db r]. injection Hstep as <-.
    destruct k as [k|].
    + assert (Hrow : exists row, k = KJournalLookup row \/ k = KJournalInsert row).
      { destruct k; try discriminate Hk; eauto. }
      match type of Hle with
      | context [row_callbacks ?l] =>
          assert (Hrc : row_callbacks l = S (row_callbacks q))
            by (destruct Hrow as (row & [-> | ->]); reflexivity);
          rewrite Hrc in Hle
      end.
      destruct (App5Progress.resume_row_progress5 r (set_queue q (js m)) Hrow)
        as (Ed & new & Enew & Hnew & Hcase).
      unfold App5Rows.done in *.
      cbn [queue set_queue data_length processed errors promise]
        in Ed, Enew, Hcase.
      split; [simpl; congruence|]. apply in_rows; cbn [js store].
      * rewrite Enew. now apply Forall_app.
      * rewrite Enew, row_callbacks_app.
        destruct Hcase as [[(Ep' & Epr' & Ee' & _) Hrn] | (Epr' & Hrn & _)].
        -- simpl in Epr', Ee'. rewrite Epr', Ee'. lia.
        -- rewrite Epr', Hrn. lia.
      * destruct Hcase as [[(Ep' & Epr' & Ee' & _) Hrn] | (Epr' & Hrn & Ep')].
        -- simpl in Ep', Epr', Ee'. rewrite Ep', Epr', Ee'. exact Hp.
        -- rewrite Ep', Epr', Hd. unfold promise_after.
           destruct (List.length data
                     <=? S (processed (js m) + errors (js m)))%nat eqn:El.
           ++ apply Nat.leb_le in El. right. split; [|exact El].
              destruct Hp as [-> | [-> _]]; reflexivity.
           ++ destruct Hp as [Hp | [Hp Hl]]; [now left|].
              apply Nat.leb_gt in El. lia.
    + split; [exact Hd|]. apply in_rows; simpl; auto.
Qed.

Lemma file_invariant_start5 filename workbook m :
  extractUniversityFromFilename filename = Some name ->
  data = subscription_sheet workbook ->
  Forall (fun t => snd t = None) (queue (js m)) ->
  file_invariant App5Rows.done name data titled_rows
                 (on_js (processUniversityExcelFile workbook filename) m).
Proof.
  intros Hname Ed Hpassive. unfold on_js, processUniversityExcelFile.
  rewrite <- Ed, Hname.
  split; [reflexivity|].
  apply looking_up with (pre := queue (js m)); auto.
Qed.

Lemma never_settles5 m :
  (titled_rows < List.length data)%nat ->
  file_invariant App5Rows.done name data titled_rows m ->
  promise (js m) = Pending.
Proof.
  intros Hlt [_ Hph].
  destruct Hph as [pre _ _ Hp _ | c t _ _ Hp _ | _ Hle Hp]; auto.
  destruct Hp as [Hp | [_ Hl]]; [exact Hp | lia].
Qed.

End Stuck.
End App5Stuck.

Lemma filter_length_lt {A : Type} (f : A -> bool) (l : list A) :
  (exists x, In x l /\ f x = false) ->
  (List.length (filter f l) < List.length l)%nat.
Proof.
  intros (x & Hx & Hf). induction l as [|y l IH]; [destruct Hx|].
  simpl. pose proof (filter_length_le f l) as Hle.
  destruct Hx as [-> | Hx].
  - rewrite Hf. lia.
  - specialize (IH Hx). destruct (f y); simpl; lia.
Qed.

(** X10.  A row without a title stops the batch.  [processed] counts the
    rows that reach the synthesiser, a row that is skipped is never counted,
    and the promise of the file is resolved only when the count reaches
    [data.length]: so when some row of a sheet has no title, the promise of
    the file stays pending whatever the connection does, [await] never
    returns, and the files after it are never started (or the process has
    died on the way).  On app1.js, with any synthesis literals, and on
    app5.js, where [errors] does not count skipped rows either. *)
Theorem X10_row_without_title_suspends_batch :
  forall (num : Type) (JN : JsNumber num)
         (readFile : string -> Workbook num + string)
         (f : string) (rest : list string) (workbook : Workbook num),
    (forall (P : Policy) (m : Machine num (App1.RowData num)),
        readFile f = inl workbook ->
        Forall (fun t => snd t = None) (queue (js m)) ->
        (exists row, In row (App1.first_sheet workbook)
                     /\ App1Rows.titled row = false) ->
        (forall fuel,
            promise (js (run (App1.resume P) fuel
                             (App1.on_js (App1.processExcelFile workbook f) m)))
            = Pending)
        /\ (snd (App1.files_loop P readFile (f :: rest) m) = Suspended f rest
            \/ snd (App1.files_loop P readFile (f :: rest) m) = Died))
    /\ (forall (name : string) (m : Machine num (App5.RowData num)),
           readFile f = inl workbook ->
           Forall (fun t => snd t = None) (queue (js m)) ->
           App5.extractUniversityFromFilename f = Some name ->
           (exists row, In row (App5.subscription_sheet workbook)
                        /\ App5Rows.titled row = false) ->
           (forall fuel,
               promise (js (run App5.resume fuel
                                (App5.on_js
                                   (App5.processUniversityExcelFile workbook f)
                                   m)))
               = Pending)
           /\ (snd (App5.files_loop readFile (f :: rest) m) = Suspended f rest
               \/ snd (App5.files_loop readFile (f :: rest) m) = Died)).
Proof.
  intros num JN readFile f rest workbook. split.
  - intros P m Hread Hpassive Hrow.
    assert (Hdata : App1.first_sheet workbook <> [])
      by (destruct Hrow as (row & Hin & _); intros E; rewrite E in Hin;
          destruct Hin).
    pose proof (filter_length_lt _ _ Hrow) as Hlt.
    assert (Hstart : forall m0 : Machine num (App1.RowData num),
               Forall (fun t => snd t = None) (queue (js m0)) ->
               file_invariant (@processed num (App1.RowData num))
                 (App1.extractUniversityName f) (App1.first_sheet workbook)
                 (List.length (filter App1Rows.titled (App1.first_sheet workbook)))
                 (App1.on_js (App1.processExcelFile workbook f) m0)).
    { intros m0 H0. now apply App1Stuck.file_invariant_start. }
    split.
    + intros fuel. eapply App1Stuck.never_settles; [exact Hlt|].
      apply run_invariant;
        [intros a b Ha Hs; eapply App1Stuck.file_invariant_step; eassumption|].
      now apply Hstart.
    + cbn [App1.files_loop]. rewrite Hread.
      set (m1 := await _ _ _).
      assert (Hp : promise (js m1) = Pending).
      { eapply App1Stuck.never_settles; [exact Hlt|].
        unfold m1, await. apply run_until_settled_invariant;
          [intros a b Ha Hs; eapply App1Stuck.file_invariant_step; eassumption|].
        apply Hstart. exact Hpassive. }
      destruct (crashed (js m1)); [now right|]. rewrite Hp. now left.
  - intros name m Hread Hpassive Hname Hrow.
    assert (Hdata : App5.subscription_sheet workbook <> [])
      by (destruct Hrow as (row & Hin & _); intros E; rewrite E in Hin;
          destruct Hin).
    pose proof (filter_length_lt _ _ Hrow) as Hlt.
    assert (Hstart : forall m0 : Machine num (App5.RowData num),
               Forall (fun t => snd t = None) (queue (js m0)) ->
               file_invariant App5Rows.done
                 name (App5.subscription_sheet workbook)
                 (List.length (filter App5Rows.titled
                                      (App5.subscription_sheet workbook)))
                 (App5.on_js (App5.processUniversityExcelFile workbook f) m0)).
    { intros m0 H0. now apply App5Stuck.file_invariant_start5. }
    split.
    + intros fuel. eapply App5Stuck.never_settles5; [exact Hlt|].
      apply run_invariant;
        [intros a b Ha Hs; eapply App5Stuck.file_invariant_step5; eassumption|].
      now apply Hstart.
    + cbn [App5.files_loop]. rewrite Hread.
      set (m1 := await _ _ _).
      assert (Hp : promise (js m1) = Pending).
      { eapply App5Stuck.never_settles5; [exact Hlt|].
        unfold m1, await. apply run_until_settled_invariant;
          [intros a b Ha Hs; eapply App5Stuck.file_invariant_step5; eassumption|].
        apply Hstart. exact Hpassive. }
      destruct (crashed (js m1)); [now right|]. rewrite Hp. now left.
Qed.

Lemma X10_row_without_title_suspends_batch_witness :
  (snd (App1.files_loop App1.policy (fun _ => inl Examples2.untitled_export)
                        (Scenario.aalborg_2024 :: [Scenario.mahidol_2024])
                        Scenario.start)
   = Suspended Scenario.aalborg_2024 [Scenario.mahidol_2024]
   \/ snd (App1.files_loop App1.policy (fun _ => inl Examples2.untitled_export)
                           (Scenario.aalborg_2024 :: [Scenario.mahidol_2024])
                           Scenario.start)
      = Died)
  /\ (snd (App5.files_loop (fun _ => inl Examples2.untitled_export)
                           (Scenario.aalborg_2024 :: [Scenario.mahidol_2024])
                           Scenario.start)
      = Suspended Scenario.aalborg_2024 [Scenario.mahidol_2024]
      \/ snd (App5.files_loop (fun _ => inl Examples2.untitled_export)
                              (Scenario.aalborg_2024 :: [Scenario.mahidol_2024])
                              Scenario.start)
         = Died).
Proof.
  destruct (@X10_row_without_title_suspends_batch
              intnum intnum_JsNumber (fun _ => inl Examples2.untitled_export)
              Scenario.aalborg_2024 [Scenario.mahidol_2024]
              Examples2.untitled_export) as [H1 H5].
  split.
  - apply (H1 App1.policy Scenario.start).
    + reflexivity.
    + constructor.
    + exists [("Cost", VNum (IInt 100))]. split; [simpl; tauto | reflexivity].
  - apply (H5 "Aalborg University" Scenario.start).
    + reflexivity.
    + constructor.
    + reflexivity.
    + exists [("Cost", VNum (IInt 100))]. split; [simpl; tauto | reflexivity].
Defined.

(* ------------------------------------------------------------------------- *)
(** ** Files whose rows are all good *)

Section HealthFacts.
Context {num : Type} `{JsNumber num} {R : Type}.
Variable done : Js num R -> nat.
Variable good : R -> Prop.
Variables (name : string) (data : list (object num)).
Implicit Types (m : Machine num R) (q : list (Task num R)).

Lemma healthy_passive q :
  Forall (fun t => snd t = None) q -> Forall (healthy_task good) q.
Proof. apply Forall_impl. intros [s k] Hk. simpl in Hk. now subst k. Qed.

Lemma healthy_no_callbacks q :
  Forall (healthy_task good) q -> row_callbacks q = 0%nat ->
  Forall (fun t => snd t = None) q.
Proof.
  induction 1 as [|[s k] q Ht _ IH]; intros Hrc; [constructor|].
  destruct k as [k|].
  - exfalso. destruct k;
      try (unfold row_callbacks in Hrc; simpl in Hrc; discriminate);
      exact Ht.
  - constructor; [reflexivity|]. apply IH. exact Hrc.
Qed.

(** Where a healthy file comes to rest, or has its promise settled, the
    promise is resolved and only statements without callbacks are left. *)
Lemma healthy_end m :
  healthy done good name data m ->
  settled (js m) = true \/ quiescent m ->
  promise (js m) = Resolved
  /\ Forall (fun t => snd t = None) (queue (js m)).
Proof.
  intros (Hc & _ & Hph) Hend.
  assert (Hq : settled (js m) = true \/ queue (js m) = []).
  { destruct Hend as [Hs | [Hcr | Hq]]; auto. congruence. }
  clear Hend.
  destruct Hph as [pre _ Hqu Hp _ | c t Hqu _ Hp _ | Hf Hsum Hp].
  - exfalso. destruct Hq as [Hs | Hq].
    + unfold settled in Hs. rewrite Hp in Hs. discriminate.
    + rewrite Hqu in Hq. now destruct pre.
  - exfalso. destruct Hq as [Hs | Hq].
    + unfold settled in Hs. rewrite Hp in Hs. discriminate.
    + rewrite Hqu in Hq. discriminate.
  - assert (Hres : promise (js m) = Resolved
                   /\ row_callbacks (queue (js m)) = 0%nat).
    { destruct Hp as [[Hp Hlt] | [Hp Hle]].
      - exfalso. destruct Hq as [Hs | Hq].
        + unfold settled in Hs. rewrite Hp in Hs. discriminate.
        + rewrite Hq in Hsum. unfold row_callbacks in Hsum. simpl in Hsum. lia.
      - split; [exact Hp | lia]. }
    destruct Hres as [Hp' Hrc]. split; [exact Hp'|].
    now apply healthy_no_callbacks.
Qed.

End HealthFacts.

Module App1Healthy.
Import App1.

Section Healthy.
Context {num : Type} `{JsNumber num}.
Variable P : Policy.
Implicit Types (js : State num) (row : RowData num) (m : Machine num (RowData num)).

Lemma keywords_of_text (s t : string) :
  exists keywords,
    generateJournalKeywords (VStr s : value num) (VStr t) = Some keywords.
Proof.
  unfold generateJournalKeywords, option_bind. simpl.
  destruct (seq s ""), (seq t ""); eexists; reflexivity.
Qed.

Lemma subject_is_text (v : value num) :
  text_or_nothing v = true -> exists t, js_or v (VStr "General") = VStr t.
Proof.
  unfold js_or. destruct v as [| |b|n|s]; simpl; intros Hv;
    try rewrite Hv; eauto.
  destruct (seq s ""); eauto.
Qed.

Lemma good_row_titled (r : object num) :
  App1Health.good_row r = true -> App1Rows.titled r = true.
Proof.
  unfold App1Health.good_row, App1Rows.titled. intros Hg.
  apply andb_true_iff in Hg. destruct Hg as [Hg _].
  destruct (findValue r title_keys); try discriminate. simpl.
  exact Hg.
Qed.

Lemma forEach_row_healthy uid name (r : object num) index js :
  App1Health.good_row r = true ->
  exists ctx,
    queue (forEach_row uid name r index js)
    = queue js ++ [(SelectJournal (journalTitle ctx), Some (KJournalLookup ctx))]
    /\ App1Health.good ctx.
Proof.
  intros Hg. pose proof (good_row_titled r Hg) as Ht.
  unfold App1Health.good_row in Hg. apply andb_true_iff in Hg.
  destruct Hg as [Hs Hsub].
  destruct (subject_is_text _ Hsub) as [t Et].
  unfold forEach_row. unfold App1Rows.titled in Ht.
  apply negb_true_iff in Ht. rewrite Ht.
  destruct (findValue r title_keys) as [| | | |s] eqn:Etitle; try discriminate.
  destruct (cost_or_fallback _ js) as [c js1] eqn:Ec.
  assert (Hq1 : queue js1 = queue js).
  { unfold cost_or_fallback in Ec. destruct (num_falsy _);
      injection Ec as _ <-; reflexivity. }
  match goal with |- context [KJournalLookup ?c] => exists c end.
  rewrite queue_db_call, Hq1. split; [reflexivity|].
  unfold App1Health.good. cbn [journalTitle subject]. rewrite Et.
  destruct (keywords_of_text s t) as [kw Hkw]. now exists s, kw.
Qed.

Lemma forEach_healthy uid name data index js :
  Forall (fun r => App1Health.good_row r = true) data ->
  exists lookups,
    queue (forEach uid name data index js) = queue js ++ lookups
    /\ Forall (healthy_task App1Health.good) lookups
    /\ row_callbacks lookups = List.length data.
Proof.
  intros Hgood. revert index js.
  induction Hgood as [|r data Hr _ IH]; intros index js.
  - exists []. simpl. now rewrite app_nil_r.
  - cbn [forEach].
    destruct (forEach_row_healthy uid name r index js Hr) as (ctx & Hq1 & Hg).
    destruct (IH (S index) (forEach_row uid name r index js))
      as (lookups & Hq2 & Hf & Hl).
    exists ((SelectJournal (journalTitle ctx), Some (KJournalLookup ctx))
            :: lookups).
    rewrite Hq2, Hq1, <- app_assoc. split; [reflexivity|].
    split; [constructor; [exact Hg | exact Hf]|].
    unfold row_callbacks in *. simpl. now rewrite Hl.
Qed.

Section File.
Variables (name : string) (data : list (object num)).
Hypothesis data_good : Forall (fun r => App1Health.good_row r = true) data.

Lemma rows_begin_healthy uid js0 (db : Store num) :
  data <> [] ->
  queue js0 = [] -> promise js0 = Pending -> processed js0 = 0%nat ->
  data_length js0 = List.length data -> crashed js0 = false ->
  healthy (@processed num (RowData num)) App1Health.good name data
          (mkMachine db (processSubscriptionData uid name data js0)).
Proof.
  intros Hdata Hq Hp Hpr Hd Hc.
  destruct (App1Progress.processSubscriptionData_progress uid name data js0 Hq)
    as ((Ep & Epr & _ & Ed) & _ & _).
  assert (Hcr : crashed (processSubscriptionData uid name data js0) = false).
  { unfold processSubscriptionData.
    destruct (App1Replace.forEach_tasks uid name 0%Z 0%Z db (incl_refl data) 0
                (db_run (DeleteBrowsingHistory uid)
                        (db_run (DeleteSubscriptions uid) js0))) as [Hcr _].
    rewrite Hcr. exact Hc. }
  destruct (forEach_healthy uid name 0
              (db_run (DeleteBrowsingHistory uid)
                      (db_run (DeleteSubscriptions uid) js0)) data_good)
    as (lookups & Hql & Hf & Hl).
  rewrite !queue_db_run, Hq in Hql. cbn [app] in Hql.
  split; [exact Hcr|]. split; [simpl; congruence|].
  apply healthy_in_rows; cbn [js store].
  - unfold processSubscriptionData. rewrite Hql.
    constructor; [exact I|]. constructor; [exact I | exact Hf].
  - unfold processSubscriptionData at 2. rewrite Hql, Epr, Hpr.
    unfold row_callbacks in *. simpl. exact Hl.
  - left. split; [congruence|]. rewrite Epr, Hpr.
    destruct data; [contradiction | simpl; lia].
Qed.

Lemma healthy_step m m' :
  data <> [] ->
  healthy (@processed num (RowData num)) App1Health.good name data m ->
  step (resume P) m = Some m' ->
  healthy (@processed num (RowData num)) App1Health.good name data m'.
Proof.
  intros Hdata (Hc & Hd & Hph) Hstep. unfold step in Hstep. rewrite Hc in Hstep.
  destruct Hph as [pre Hpre Hq Hp Hpr | country type Hq Hex Hp Hpr | Hf Hsum Hp].
  - rewrite Hq in Hstep. destruct pre as [|[s k] pre].
    + cbn [app] in Hstep. cbn [exec] in Hstep. injection Hstep as <-.
      destruct (find (fun u => seq (u_name u) name) (universities (store m)))
        as [u|] eqn:Ef; cbn [option_map resume].
      * now apply rows_begin_healthy.
      * split; [exact Hc|]. split; [exact Hd|].
        eapply healthy_inserting; simpl; eauto using find_none_existsb.
    + cbn [app] in Hstep. apply Forall_cons_iff in Hpre.
      destruct Hpre as [Hk Hpre]. simpl in Hk. subst k.
      destruct (exec s (store m)) as [db r]. injection Hstep as <-.
      split; [exact Hc|]. split; [exact Hd|].
      now apply healthy_looking_up with (pre := pre).
  - rewrite Hq in Hstep. cbn [exec] in Hstep. rewrite Hex in Hstep.
    injection Hstep as <-. cbn [resume]. now apply rows_begin_healthy.
  - destruct (queue (js m)) as [|[s k] q] eqn:Hq; [discriminate|].
    apply Forall_cons_iff in Hf. destruct Hf as [Hk Hf].
    assert (Hsynth : forall row id db,
               App1Health.good row ->
               (processed (js m) + S (row_callbacks q))%nat = List.length data ->
               healthy (@processed num (RowData num)) App1Health.good name data
                       (mkMachine db (createSubscriptionData P row id
                                        (set_queue q (js m))))).
    { intros row id db Hg Hs.
      destruct (App1Progress.createSubscriptionData_progress
                  P row id (set_queue q (js m)))
        as (Ed & _ & Epr & Ep & new & Enew & Hnew).
      cbn [queue set_queue data_length processed promise] in Ed, Epr, Ep, Enew.
      split; [cbn [js]; rewrite App1Facts.createSubscriptionData_crashed; exact Hc|].
      split; [simpl; congruence|].
      apply healthy_in_rows; cbn [js store].
      - rewrite Enew. apply Forall_app. split; [exact Hf|].
        now apply healthy_passive.
      - rewrite Enew, row_callbacks_app, Epr,
          (row_callbacks_passive Hnew). lia.
      - rewrite Ep, Epr, Hd. unfold promise_after.
        destruct (List.length data <=? S (processed (js m)))%nat eqn:El.
        + apply Nat.leb_le in El. right. split; [|exact El].
          destruct Hp as [[-> _] | [-> _]]; reflexivity.
        + apply Nat.leb_gt in El. left. split; [|exact El].
          destruct Hp as [[Hp _] | [_ Hl]]; [exact Hp | lia]. }
    destruct k as [[| |row|row]|]; simpl in Hk; try contradiction.
    + (* the lookup of a journal *)
      destruct s; try contradiction.
      cbn [exec] in Hstep. injection Hstep as <-.
      unfold row_callbacks in Hsum. simpl in Hsum.
      destruct (find (title_is title) (journals (store m))) as [j|];
        cbn [option_map resume].
      * apply Hsynth; [exact Hk|]. unfold row_callbacks. exact Hsum.
      * destruct Hk as (s0 & kw & Et & Ekw). rewrite Ekw.
        split; [exact Hc|]. split; [exact Hd|].
        apply healthy_in_rows; cbn [js store].
        -- rewrite queue_db_call. apply Forall_app. split; [exact Hf|].
           constructor; [|constructor]. simpl. rewrite Et.
           now exists s0, kw.
        -- rewrite queue_db_call, row_callbacks_app.
           unfold row_callbacks in *. simpl in *. lia.
        -- exact Hp.
    + (* the insert of a journal *)
      destruct s; try contradiction.
      destruct title as [| | | |s0]; try contradiction.
      cbn [exec sql_text] in Hstep. injection Hstep as <-. cbn [resume].
      unfold row_callbacks in Hsum. simpl in Hsum.
      apply Hsynth; [exact Hk|]. unfold row_callbacks. exact Hsum.
    + destruct (exec s (store m)) as [db r]. injection Hstep as <-.
      split; [exact Hc|]. split; [exact Hd|].
      apply healthy_in_rows; simpl; auto.
Qed.

End File.

(** The start of a file whose rows are all good. *)
Lemma healthy_start filename workbook m :
  Forall (fun r => App1Health.good_row r = true) (first_sheet workbook) ->
  crashed (js m) = false ->
  Forall (fun t => snd t = None) (queue (js m)) ->
  healthy (@processed num (RowData num)) App1Health.good
          (extractUniversityName filename) (first_sheet workbook)
          (on_js (processExcelFile workbook filename) m).
Proof.
  intros Hgood Hc Hpassive. unfold on_js, processExcelFile.
  destruct (first_sheet workbook) as [|r rest] eqn:E.
  - split; [exact Hc|]. split; [reflexivity|].
    apply healthy_in_rows; simpl.
    + unfold resolve, settle. simpl. now apply healthy_passive.
    + unfold resolve, settle. simpl. now apply row_callbacks_passive.
    + right. split; [reflexivity | lia].
  - split; [exact Hc|]. split; [reflexivity|].
    apply healthy_looking_up with (pre := queue (js m)); auto.
Qed.

End Healthy.
End App1Healthy.

Section SettledRuns.
Context {num : Type} `{JsNumber num} {R : Type}.
Variable resume : Cont num R -> Result -> Js num R -> Js num R.

Lemma run_until_settled_settled fuel (m : Machine num R) :
  settled (js m) = true -> run_until_settled resume fuel m = m.
Proof. intros Hs. destruct fuel; simpl; [reflexivity|]. now rewrite Hs. Qed.

End SettledRuns.

Module App1Batch.
Import App1.

Section Batch.
Context {num : Type} `{JsNumber num}.
Variable P : Policy.
Variable readFile : string -> Workbook num + string.
Implicit Types (m : Machine num (RowData num)).

(** Where [await] leaves a file whose rows are all good. *)
Lemma await_healthy filename workbook m :
  Forall (fun r => App1Health.good_row r = true) (first_sheet workbook) ->
  crashed (js m) = false ->
  Forall (fun t => snd t = None) (queue (js m)) ->
  let m1 := await (resume P) (kweight P)
                  (on_js (processExcelFile workbook filename) m) in
  crashed (js m1) = false
  /\ promise (js m1) = Resolved
  /\ Forall (fun t => snd t = None) (queue (js m1)).
Proof.
  intros Hgood Hc Hpassive m1.
  pose proof (App1Healthy.healthy_start filename workbook m Hgood Hc Hpassive)
    as Hstart.
  assert (Hh : healthy (@processed num (RowData num)) App1Health.good
                       (extractUniversityName filename) (first_sheet workbook)
                       m1).
  { destruct (first_sheet workbook) as [|r rest] eqn:E.
    - unfold m1, await. rewrite run_until_settled_settled; [exact Hstart|].
      unfold on_js, processExcelFile. rewrite E. reflexivity.
    - unfold m1, await. apply run_until_settled_invariant; [|exact Hstart].
      intros a b Ha Hs.
      eapply (App1Healthy.healthy_step P); [exact Hgood| |exact Ha|exact Hs].
      discriminate. }
  assert (Hend : settled (js m1) = true \/ quiescent m1).
  { unfold m1. apply await_settled_or_quiescent.
    apply App1Rest.resume_budget. }
  destruct (healthy_end Hh Hend) as [Hp Hq].
  destruct Hh as (Hc1 & _). auto.
Qed.

Lemma files_loop_healthy files m :
  (forall f workbook,
      In f files -> readFile f = inl workbook ->
      Forall (fun r => App1Health.good_row r = true) (first_sheet workbook)) ->
  crashed (js m) = false ->
  Forall (fun t => snd t = None) (queue (js m)) ->
  snd (files_loop P readFile files m) = AllFilesHandled
  /\ crashed (js (fst (files_loop P readFile files m))) = false
  /\ Forall (fun t => snd t = None)
            (queue (js (fst (files_loop P readFile files m)))).
Proof.
  revert m. induction files as [|f rest IH]; intros m Hgood Hc Hpassive.
  - simpl. auto.
  - cbn [files_loop].
    assert (Hrest : forall f' workbook,
               In f' rest -> readFile f' = inl workbook ->
               Forall (fun r => App1Health.good_row r = true)
                      (first_sheet workbook))
      by (intros f' w Hin; apply Hgood; now right).
    destruct (readFile f) as [workbook|message] eqn:Hread.
    + destruct (await_healthy f workbook
                  (on_js (console_log (LogProcessing f)) m))
        as (Hc1 & Hp1 & Hq1);
        [apply (Hgood f); [now left | exact Hread] | exact Hc | exact Hpassive|].
      cbv zeta in Hc1, Hp1, Hq1. rewrite Hc1, Hp1.
      apply IH; [exact Hrest | exact Hc1 | exact Hq1].
    + apply IH; [exact Hrest | exact Hc | exact Hpassive].
Qed.

End Batch.
End App1Batch.

Module App5Healthy.
Import App5.

Section Healthy.
Context {num : Type} `{JsNumber num}.
Implicit Types (js : State num) (row : RowData num) (m : Machine num (RowData num)).

Lemma keywords_of_text5 (s : string) (sub : value num) :
  text_or_nothing sub = true ->
  exists keywords, generateKeywords (VStr s : value num) sub = Some keywords.
Proof.
  unfold generateKeywords, option_bind. intros Hsub.
  destruct sub as [| |b|n|t]; simpl in *; rewrite ?Hsub;
    destruct (seq s ""); simpl; try destruct (seq t ""); simpl;
    eexists; reflexivity.
Qed.

Lemma good_row_titled5 (r : object num) :
  App5Health.good_row r = true -> App5Rows.titled r = true.
Proof.
  unfold App5Health.good_row, App5Rows.titled, no_title. intros Hg.
  apply andb_true_iff in Hg. destruct Hg as [Hg _].
  destruct (findColumnValue r title_names) as [| | | |s]; try discriminate.
  cbn [falsy to_String]. apply negb_true_iff in Hg. rewrite Hg.
  destruct (seq s "") eqn:Es; [|reflexivity].
  apply seq_eq in Es. subst s. discriminate Hg.
Qed.

Lemma forEach_row_healthy5 uid name (r : object num) index js :
  App5Health.good_row r = true ->
  exists ctx,
    queue (forEach_row uid name r index js)
    = queue js ++ [(SelectJournal (journalTitle ctx), Some (KJournalLookup ctx))]
    /\ App5Health.good ctx.
Proof.
  intros Hg. pose proof (good_row_titled5 r Hg) as Ht.
  unfold App5Health.good_row in Hg. apply andb_true_iff in Hg.
  destruct Hg as [Hs Hsub].
  unfold forEach_row. unfold App5Rows.titled in Ht.
  apply negb_true_iff in Ht. rewrite Ht.
  destruct (findColumnValue r title_names) as [| | | |s] eqn:Etitle;
    try discriminate.
  match goal with |- context [KJournalLookup ?c] => exists c end.
  rewrite queue_db_call. split; [reflexivity|].
  unfold App5Health.good. cbn [journalTitle subject].
  destruct (keywords_of_text5 s _ Hsub) as [kw Hkw]. now exists s, kw.
Qed.

Lemma forEach_healthy5 uid name data index js :
  Forall (fun r => App5Health.good_row r = true) data ->
  exists lookups,
    queue (forEach uid name data index js) = queue js ++ lookups
    /\ Forall (healthy_task App5Health.good) lookups
    /\ row_callbacks lookups = List.length data.
Proof.
  intros Hgood. revert index js.
  induction Hgood as [|r data Hr _ IH]; intros index js.
  - exists []. simpl. now rewrite app_nil_r.
  - cbn [forEach].
    destruct (forEach_row_healthy5 uid name r index js Hr) as (ctx & Hq1 & Hg).
    destruct (IH (S index) (forEach_row uid name r index js))
      as (lookups & Hq2 & Hf & Hl).
    exists ((SelectJournal (journalTitle ctx), Some (KJournalLookup ctx))
            :: lookups).
    rewrite Hq2, Hq1, <- app_assoc. split; [reflexivity|].
    split; [constructor; [exact Hg | exact Hf]|].
    unfold row_callbacks in *. simpl. now rewrite Hl.
Qed.

Section File.
Variables (name : string) (data : list (object num)).
Hypothesis data_good : Forall (fun r => App5Health.good_row r = true) data.

Lemma rows_begin_healthy5 uid js0 (db : Store num) :
  queue js0 = [] -> promise js0 = Pending -> App5Rows.done js0 = 0%nat ->
  data_length js0 = List.length data -> crashed js0 = false ->
  healthy App5Rows.done App5Health.good name data
          (mkMachine db (processSheetData uid name data js0)).
Proof.
  intros Hq Hp Hpr Hd Hc.
  destruct data as [|r0 rest] eqn:Edata.
  - cbn [processSheetData]. unfold resolve, settle. rewrite Hp.
    split; [exact Hc|]. split; [exact Hd|].
    apply healthy_in_rows; cbn [js store queue promise].
    + rewrite Hq. constructor.
    + rewrite Hq. unfold App5Rows.done, row_callbacks in *. simpl in *. lia.
    + right. split; [reflexivity | simpl; lia].
  - rewrite <- Edata in *.
    assert (Hdata : data <> []) by (rewrite Edata; discriminate).
    destruct (App5Progress.processSheetData_progress uid name js0 Hdata Hq)
      as ((Ep & Epr & Ee & Ed) & _ & _).
    assert (Eq : processSheetData uid name data js0
                 = forEach uid name data 0
                     (db_run (DeleteBrowsingHistory uid)
                             (db_run (DeleteSubscriptions uid) js0)))
      by (rewrite Edata; reflexivity).
    assert (Hcr : crashed (processSheetData uid name data js0) = false).
    { rewrite Eq.
      destruct (App5Replace.forEach_tasks5 uid name 0%Z 0%Z db (incl_refl data) 0
                  (db_run (DeleteBrowsingHistory uid)
                          (db_run (DeleteSubscriptions uid) js0))) as [Hcr _].
      rewrite Hcr. exact Hc. }
    destruct (forEach_healthy5 uid name 0
                (db_run (DeleteBrowsingHistory uid)
                        (db_run (DeleteSubscriptions uid) js0)) data_good)
      as (lookups & Hql & Hf & Hl).
    rewrite !queue_db_run, Hq in Hql. cbn [app] in Hql. rewrite <- Eq in Hql.
    unfold App5Rows.done in *.
    split; [exact Hcr|]. split; [simpl; congruence|].
    apply healthy_in_rows; cbn [js store].
    + rewrite Hql. constructor; [exact I|]. constructor; [exact I | exact Hf].
    + rewrite Hql, Epr, Ee, Hpr.
      unfold row_callbacks in *. simpl. exact Hl.
    + left. split; [congruence|]. rewrite Epr, Ee, Hpr.
      rewrite Edata. simpl; lia.
Qed.

Lemma healthy_step5 m m' :
  healthy App5Rows.done App5Health.good name data m ->
  step resume m = Some m' ->
  healthy App5Rows.done App5Health.good name data m'.
Proof.
  intros (Hc & Hd & Hph) Hstep. unfold step in Hstep. rewrite Hc in Hstep.
  destruct Hph as [pre Hpre Hq Hp Hpr | country type Hq Hex Hp Hpr | Hf Hsum Hp].
  - rewrite Hq in Hstep. destruct pre as [|[s k] pre].
    + cbn [app] in Hstep. cbn [exec] in Hstep. injection Hstep as <-.
      destruct (find (fun u => seq (u_name u) name) (universities (store m)))
        as [u|] eqn:Ef; cbn [option_map resume].
      * now apply rows_begin_healthy5.
      * split; [exact Hc|]. split; [exact Hd|].
        eapply healthy_inserting; simpl; eauto using find_none_existsb.
    + cbn [app] in Hstep. apply Forall_cons_iff in Hpre.
      destruct Hpre as [Hk Hpre]. simpl in Hk. subst k.
      destruct (exec s (store m)) as [db r]. injection Hstep as <-.
      split; [exact Hc|]. split; [exact Hd|].
      now apply healthy_looking_up with (pre := pre).
  - rewrite Hq in Hstep. cbn [exec] in Hstep. rewrite Hex in Hstep.
    injection Hstep as <-. cbn [resume]. now apply rows_begin_healthy5.
  - destruct (queue (js m)) as [|[s k] q] eqn:Hq; [discriminate|].
    apply Forall_cons_iff in Hf. destruct Hf as [Hk Hf].
    assert (Hsynth : forall row id db,
               (App5Rows.done (js m) + S (row_callbacks q))%nat
               = List.length data ->
               healthy App5Rows.done App5Health.good name data
                       (mkMachine db (insertSubscriptionAndBrowsing row id
                                        (set_queue q (js m))))).
    { intros row id db Hs.
      destruct (App5Progress.insertSubscriptionAndBrowsing_counters
                  row id (set_queue q (js m))) as (Ed & Epr & Ep).
      destruct (App5Progress.insertSubscriptionAndBrowsing_progress
                  row id (set_queue q (js m))) as (new & Enew & Hnew).
      unfold App5Rows.done in *.
      cbn [queue set_queue data_length processed errors promise]
        in Ed, Epr, Ep, Enew.
      split; [cbn [js];
              rewrite App5Facts.insertSubscriptionAndBrowsing_crashed;
              exact Hc|].
      split; [simpl; congruence|].
      apply healthy_in_rows; cbn [js store].
      - rewrite Enew. apply Forall_app. split; [exact Hf|].
        now apply healthy_passive.
      - rewrite Enew, row_callbacks_app, Epr,
          (row_callbacks_passive Hnew). lia.
      - rewrite Ep, Epr, Hd. unfold promise_after.
        destruct (List.length data
                  <=? S (processed (js m) + errors (js m)))%nat eqn:El.
        + apply Nat.leb_le in El. right. split; [|exact El].
          destruct Hp as [[-> _] | [-> _]]; reflexivity.
        + apply Nat.leb_gt in El. left. split; [|exact El].
          destruct Hp as [[Hp _] | [_ Hl]]; [exact Hp | lia]. }
    destruct k as [[| |row|row]|]; simpl in Hk; try contradiction.
    + (* the lookup of a journal *)
      destruct s; try contradiction.
      cbn [exec] in Hstep. injection Hstep as <-.
      unfold row_callbacks in Hsum. simpl in Hsum.
      destruct (find (title_is title) (journals (store m))) as [j|];
        cbn [option_map resume].
      * apply Hsynth. unfold row_callbacks. exact Hsum.
      * destruct Hk as (s0 & kw & Et & Ekw). rewrite Ekw.
        split; [exact Hc|]. split; [exact Hd|].
        apply healthy_in_rows; cbn [js store].
        -- rewrite queue_db_call. apply Forall_app. split; [exact Hf|].
           constructor; [|constructor]. simpl. rewrite Et.
           now exists s0, kw.
        -- rewrite queue_db_call, row_callbacks_app.
           unfold App5Rows.done, row_callbacks in *. simpl in *. lia.
        -- exact Hp.
    + (* the insert of a journal *)
      destruct s; try contradiction.
      destruct title as [| | | |s0]; try contradiction.
      cbn [exec sql_text] in Hstep. injection Hstep as <-. cbn [resume].
      unfold row_callbacks in Hsum. simpl in Hsum.
      apply Hsynth. unfold row_callbacks. exact Hsum.
    + destruct (exec s (store m)) as [db r]. injection Hstep as <-.
      split; [exact Hc|]. split; [exact Hd|].
      apply healthy_in_rows; simpl; auto.
Qed.

End File.

Lemma healthy_start5 filename name workbook m :
  extractUniversityFromFilename filename = Some name ->
  crashed (js m) = false ->
  Forall (fun t => snd t = None) (queue (js m)) ->
  healthy App5Rows.done App5Health.good name (subscription_sheet workbook)
          (on_js (processUniversityExcelFile workbook filename) m).
Proof.
  intros Hname Hc Hpassive. unfold on_js, processUniversityExcelFile.
  rewrite Hname. split; [exact Hc|]. split; [reflexivity|].
  apply healthy_looking_up with (pre := queue (js m)); auto.
Qed.

End Healthy.
End App5Healthy.

Module App5Batch.
Import App5.

Section Batch.
Context {num : Type} `{JsNumber num}.
Variable readFile : string -> Workbook num + string.
Implicit Types (m : Machine num (RowData num)).

(** Where [await] leaves a file whose rows are all good: resolved, or
    rejected at once when the name of the file gives no university. *)
Lemma await_healthy5 filename workbook m :
  Forall (fun r => App5Health.good_row r = true) (subscription_sheet workbook) ->
  crashed (js m) = false ->
  Forall (fun t => snd t = None) (queue (js m)) ->
  let m1 := await resume kweight
                  (on_js (processUniversityExcelFile workbook filename) m) in
  crashed (js m1) = false
  /\ match extractUniversityFromFilename filename with
     | Some _ => promise (js m1) = Resolved
     | None => exists message, promise (js m1) = Rejected message
     end
  /\ Forall (fun t => snd t = None) (queue (js m1)).
Proof.
  intros Hgood Hc Hpassive m1.
  destruct (extractUniversityFromFilename filename) as [name|] eqn:Hname.
  - pose proof (App5Healthy.healthy_start5 filename workbook m Hname Hc Hpassive)
      as Hstart.
    assert (Hh : healthy App5Rows.done App5Health.good name
                         (subscription_sheet workbook) m1).
    { unfold m1, await. apply run_until_settled_invariant; [|exact Hstart].
      intros a b Ha Hs.
      eapply App5Healthy.healthy_step5; [exact Hgood|exact Ha|exact Hs]. }
    assert (Hend : settled (js m1) = true \/ quiescent m1).
    { unfold m1. apply await_settled_or_quiescent.
      apply App5Rest.resume_budget5. }
    destruct (healthy_end Hh Hend) as [Hp Hq].
    destruct Hh as (Hc1 & _). auto.
  - unfold m1, await. rewrite run_until_settled_settled.
    + unfold on_js, processUniversityExcelFile. rewrite Hname.
      cbn [js]. unfold reject, settle. simpl. eauto.
    + unfold on_js, processUniversityExcelFile. rewrite Hname. reflexivity.
Qed.

Lemma files_loop_healthy5 files m :
  (forall f workbook,
      In f files -> readFile f = inl workbook ->
      Forall (fun r => App5Health.good_row r = true)
             (subscription_sheet workbook)) ->
  crashed (js m) = false ->
  Forall (fun t => snd t = None) (queue (js m)) ->
  snd (files_loop readFile files m) = AllFilesHandled
  /\ crashed (js (fst (files_loop readFile files m))) = false
  /\ Forall (fun t => snd t = None)
            (queue (js (fst (files_loop readFile files m)))).
Proof.
  revert m. induction files as [|f rest IH]; intros m Hgood Hc Hpassive.
  - simpl. auto.
  - cbn [files_loop].
    assert (Hrest : forall f' workbook,
               In f' rest -> readFile f' = inl workbook ->
               Forall (fun r => App5Health.good_row r = true)
                      (subscription_sheet workbook))
      by (intros f' w Hin; apply Hgood; now right).
    destruct (readFile f) as [workbook|message] eqn:Hread.
    + destruct (await_healthy5 f workbook
                  (on_js (console_log (LogProcessing f)) m))
        as (Hc1 & Hp1 & Hq1);
        [apply (Hgood f); [now left | exact Hread] | exact Hc | exact Hpassive|].
      cbv zeta in Hc1, Hp1, Hq1. rewrite Hc1.
      destruct (extractUniversityFromFilename f).
      * rewrite Hp1. apply IH; [exact Hrest | exact Hc1 | exact Hq1].
      * destruct Hp1 as [message Hp1]. rewrite Hp1.
        apply IH; [exact Hrest | exact Hc1 | exact Hq1].
    + apply IH; [exact Hrest | exact Hc | exact Hpassive].
Qed.

End Batch.
End App5Batch.

(** X11: a batch in which every file that can be read has only good rows
    (a title that is text and not blank, a subject that is text or
    absent) is taken to its end by app1.js and by app5.js, whatever the
    files that cannot be read and, on app5.js, the files whose name
    gives no university: every file is handled, the process is alive,
    and no callback is left waiting. *)
Theorem X11_batch_of_good_rows_completes :
  forall (num : Type) (JN : JsNumber num)
         (readFile : string -> Workbook num + string) (files : list string),
    (forall (P : Policy) (m : Machine num (App1.RowData num)),
        (forall f workbook,
            In f files -> readFile f = inl workbook ->
            Forall (fun r => App1Health.good_row r = true)
                   (App1.first_sheet workbook)) ->
        crashed (js m) = false ->
        Forall (fun t => snd t = None) (queue (js m)) ->
        snd (App1.processAllExcelFiles P readFile files m) = AllFilesHandled
        /\ crashed (js (fst (App1.processAllExcelFiles P readFile files m)))
           = false
        /\ Forall (fun t => snd t = None)
                  (queue (js (fst (App1.processAllExcelFiles
                                     P readFile files m)))))
    /\ (forall (m : Machine num (App5.RowData num)),
           (forall f workbook,
               In f files -> readFile f = inl workbook ->
               Forall (fun r => App5Health.good_row r = true)
                      (App5.subscription_sheet workbook)) ->
           crashed (js m) = false ->
           Forall (fun t => snd t = None) (queue (js m)) ->
           snd (App5.processExcelFilesFromFolder readFile files m)
           = AllFilesHandled
           /\ crashed (js (fst (App5.processExcelFilesFromFolder
                                  readFile files m))) = false
           /\ Forall (fun t => snd t = None)
                     (queue (js (fst (App5.processExcelFilesFromFolder
                                        readFile files m))))).
Proof.
  intros num JN readFile files. split.
  - intros P m Hgood Hc Hpassive.
    destruct (App1Batch.files_loop_healthy P readFile files m Hgood Hc Hpassive)
      as (Ho & Hc' & Hq').
    unfold App1.processAllExcelFiles.
    destruct (App1.files_loop P readFile files m) as [m' o].
    simpl in Ho, Hc', Hq'. subst o. simpl. auto.
  - intros m Hgood Hc Hpassive.
    destruct (App5Batch.files_loop_healthy5 readFile files m Hgood Hc Hpassive)
      as (Ho & Hc' & Hq').
    unfold App5.processExcelFilesFromFolder.
    destruct (App5.files_loop readFile files m) as [m' o].
    simpl in Ho, Hc', Hq'. subst o. simpl. auto.
Qed.

Lemma X11_batch_of_good_rows_completes_witness :
  snd (App1.processAllExcelFiles App1.policy Scenario.disk
         [Scenario.aalborg_2024; Scenario.unreadable; Scenario.aalborg_2025]
         Scenario.start) = AllFilesHandled
  /\ snd (App5.processExcelFilesFromFolder Scenario.disk
            [Scenario.aalborg_2024; Scenario.unreadable; Scenario.anonymous]
            Scenario.start) = AllFilesHandled.
Proof.
  assert (Hdisk : forall f workbook,
             Scenario.disk f = inl workbook ->
             workbook = Scenario.subscribed_export
             \/ workbook = Scenario.empty_export).
  { intros f w. unfold Scenario.disk.
    destruct (String.eqb f Scenario.aalborg_2024);
      [intros E; injection E as <-; now left|].
    destruct (String.eqb f Scenario.aalborg_2025);
      [intros E; injection E as <-; now right|].
    destruct (String.eqb f Scenario.anonymous);
      [intros E; injection E as <-; now left|].
    discriminate. }
  split.
  - destruct (@X11_batch_of_good_rows_completes
                intnum intnum_JsNumber Scenario.disk
                [Scenario.aalborg_2024; Scenario.unreadable;
                 Scenario.aalborg_2025]) as [H1 _].
    apply (H1 App1.policy Scenario.start).
    + intros f w _ E. destruct (Hdisk f w E) as [-> | ->].
      * constructor; [vm_compute; reflexivity | constructor].
      * constructor.
    + reflexivity.
    + constructor.
  - destruct (@X11_batch_of_good_rows_completes
                intnum intnum_JsNumber Scenario.disk
                [Scenario.aalborg_2024; Scenario.unreadable;
                 Scenario.anonymous]) as [_ H5].
    apply (H5 Scenario.start).
    + intros f w _ E. destruct (Hdisk f w E) as [-> | ->].
      * constructor; [vm_compute; reflexivity | constructor].
      * constructor.
    + reflexivity.
    + constructor.
Defined.

(* ------------------------------------------------------------------------- *)
(** ** A sheet without rows *)

Module App1Empty.
Import App1.

Section Empty.
Context {num : Type} `{JsNumber num}.
Variable P : Policy.
Implicit Types (m : Machine num (RowData num)).

Lemma processExcelFile_empty workbook filename m :
  crashed (js m) = false ->
  Forall (fun t => snd t = None) (queue (js m)) ->
  first_sheet workbook = [] ->
  drain (resume P) (kweight P) (on_js (processExcelFile workbook filename) m)
  = mkMachine (complete (queue (js m)) (store m))
              (set_queue [] (resolve (new_promise 0 (js m)))).
Proof.
  intros Hc Hpassive Hdata.
  set (m1 := on_js (processExcelFile workbook filename) m).
  assert (Ejs : js m1 = resolve (new_promise 0 (js m))).
  { unfold m1, on_js, processExcelFile. rewrite Hdata. reflexivity. }
  assert (Hq1 : queue (js m1) = queue (js m) ++ []).
  { rewrite Ejs, app_nil_r. reflexivity. }
  assert (Hc1 : crashed (js m1) = false) by (rewrite Ejs; exact Hc).
  pose proof (@run_passive _ _ _ (resume P) _ Hpassive m1 _ Hc1 Hq1) as Hrun.
  rewrite <- (@drain_run _ _ _ (resume P) (kweight P) (App1Rest.resume_budget P)
                (List.length (queue (js m)))), Hrun.
  rewrite Ejs. reflexivity.
Qed.

End Empty.
End App1Empty.

Module App5Empty.
Import App5.

Section Empty.
Context {num : Type} `{JsNumber num}.
Implicit Types (m : Machine num (RowData num)).

Lemma processUniversityExcelFile_empty workbook filename name m :
  crashed (js m) = false ->
  Forall (fun t => snd t = None) (queue (js m)) ->
  extractUniversityFromFilename filename = Some name ->
  subscription_sheet workbook = [] ->
  let m' := drain resume kweight
                  (on_js (processUniversityExcelFile workbook filename) m) in
  promise (js m') = Resolved
  /\ (exists u, In u (universities (store m')) /\ u_name u = name)
  /\ subscriptions (store m')
     = subscriptions (complete (queue (js m)) (store m))
  /\ browsing_history (store m')
     = browsing_history (complete (queue (js m)) (store m)).
Proof.
  intros Hc Hpassive Hname Hdata m'. split.
  - assert (Hh : healthy App5Rows.done App5Health.good name
                         (subscription_sheet workbook) m').
    { unfold m', drain. apply run_invariant.
      - intros a b Ha Hs. eapply App5Healthy.healthy_step5; [|exact Ha|exact Hs].
        rewrite Hdata. constructor.
      - now apply App5Healthy.healthy_start5. }
    apply (healthy_end Hh). right. unfold m'. apply drain_quiescent.
    apply App5Rest.resume_budget5.
  - destruct (App5Replace.processUniversityExcelFile_reaches_rows
                workbook filename m Hc Hpassive Hname)
      as (a & uid & db & st & Hrun & Hq & Hcs & (u & Hu & _ & Hn) & Hs & Hb
          & _ & _).
    assert (Em : m' = mkMachine db (resolve st)).
    { unfold m'.
      rewrite <- (@drain_run _ _ _ resume kweight App5Rest.resume_budget5 a),
        Hrun.
      rewrite Hdata. cbn [processSheetData]. unfold drain. cbn [js].
      unfold resolve. rewrite queue_settle, Hq. reflexivity. }
    rewrite Em. cbn [store]. split; [now exists u|]. now split.
Qed.

End Empty.
End App5Empty.

(** X12.  An export without rows deletes nothing.  When the sheet a file
    is read from is empty, the file runs to the end with its promise
    resolved and neither server issues its two deletes: on app1.js the
    store is what the statements still in flight make of it, and on
    app5.js, where the university of the file is looked up first and
    created if it is new, the subscriptions and the browsing events of
    every university are the ones that were there before. *)
Theorem X12_empty_sheet_deletes_nothing :
  forall (num : Type) (JN : JsNumber num),
    (forall (P : Policy) (workbook : Workbook num) (filename : string)
            (m : Machine num (App1.RowData num)),
        crashed (js m) = false ->
        Forall (fun t => snd t = None) (queue (js m)) ->
        App1.first_sheet workbook = [] ->
        store (drain (App1.resume P) (App1.kweight P)
                     (App1.on_js (App1.processExcelFile workbook filename) m))
        = complete (queue (js m)) (store m)
        /\ promise (js (drain (App1.resume P) (App1.kweight P)
                              (App1.on_js
                                 (App1.processExcelFile workbook filename) m)))
           = Resolved)
    /\ (forall (workbook : Workbook num) (filename name : string)
               (m : Machine num (App5.RowData num)),
           crashed (js m) = false ->
           Forall (fun t => snd t = None) (queue (js m)) ->
           App5.extractUniversityFromFilename filename = Some name ->
           App5.subscription_sheet workbook = [] ->
           promise (js (drain App5.resume App5.kweight
                              (App5.on_js
                                 (App5.processUniversityExcelFile
                                    workbook filename) m)))
           = Resolved
           /\ (exists u,
                  In u (universities
                          (store (drain App5.resume App5.kweight
                                        (App5.on_js
                                           (App5.processUniversityExcelFile
                                              workbook filename) m))))
                  /\ u_name u = name)
           /\ subscriptions
                (store (drain App5.resume App5.kweight
                              (App5.on_js
                                 (App5.processUniversityExcelFile
                                    workbook filename) m)))
              = subscriptions (complete (queue (js m)) (store m))
           /\ browsing_history
                (store (drain App5.resume App5.kweight
                              (App5.on_js
                                 (App5.processUniversityExcelFile
                                    workbook filename) m)))
              = browsing_history (complete (queue (js m)) (store m))).
Proof.
  intros num JN. split.
  - intros P workbook filename m Hc Hpassive Hdata.
    rewrite (App1Empty.processExcelFile_empty P workbook filename m
               Hc Hpassive Hdata).
    split; reflexivity.
  - intros workbook filename name m Hc Hpassive Hname Hdata.
    exact (App5Empty.processUniversityExcelFile_empty
             workbook filename m Hc Hpassive Hname Hdata).
Qed.

Lemma X12_empty_sheet_deletes_nothing_witness :
  subscriptions
    (store (drain App5.resume App5.kweight
                  (App5.on_js
                     (App5.processUniversityExcelFile
                        Scenario.empty_export Scenario.mahidol_2024)
                     Examples.app5_after_mahidol)))
  = subscriptions (complete (queue (js Examples.app5_after_mahidol))
                            (store Examples.app5_after_mahidol))
  /\ store (drain (App1.resume App1.policy) (App1.kweight App1.policy)
                  (App1.on_js
                     (App1.processExcelFile
                        Scenario.empty_export Scenario.mahidol_2024)
                     Examples.app1_after_mahidol))
     = complete (queue (js Examples.app1_after_mahidol))
                (store Examples.app1_after_mahidol).
Proof.
  destruct (@X12_empty_sheet_deletes_nothing intnum intnum_JsNumber)
    as [H1 H5].
  split.
  - apply (H5 Scenario.empty_export Scenario.mahidol_2024
              "Mahidol University" Examples.app5_after_mahidol).
    + vm_compute. reflexivity.
    + vm_compute. repeat constructor.
    + vm_compute. reflexivity.
    + reflexivity.
  - apply (H1 App1.policy Scenario.empty_export Scenario.mahidol_2024
              Examples.app1_after_mahidol).
    + vm_compute. reflexivity.
    + vm_compute. repeat constructor.
    + reflexivity.
Defined.

(* ------------------------------------------------------------------------- *)
(** ** The keyword generators *)

Lemma prefix_join_head (a : string) (l : list string) :
  String.prefix a (Text.join (a :: l)) = true.
Proof.
  unfold Text.join. destruct l as [|b l]; cbn [String.concat].
  - rewrite <- (string_app_nil_r a) at 2. apply prefix_app.
  - apply prefix_app.
Qed.

Lemma seq_toLowerCase_nil (s : string) :
  seq (toLowerCase s) "" = seq s "".
Proof. now destruct s. Qed.

Section KeywordFacts.
Context {num : Type} `{JsNumber num}.
Implicit Types (title subject : value num).

Lemma generateJournalKeywords_throws title subject :
  App1.generateJournalKeywords title subject = None
  <-> is_text title = false
      \/ (falsy subject = false /\ is_text subject = false).
Proof.
  unfold App1.generateJournalKeywords, option_bind.
  destruct title as [| |b|n|s], subject as [| |b'|n'|t];
    cbn [falsy js_toLowerCase is_text];
    repeat match goal with
           | |- context [num_falsy ?x] => destruct (num_falsy x)
           | |- context [seq ?x ""] => destruct (seq x "")
           | |- context [negb ?x] => destruct x; cbn [negb]
           end;
    (split;
     [ intros E; try discriminate E;
       first [left; reflexivity | right; split; reflexivity]
     | intros [E | [E1 E2]]; try discriminate; reflexivity ]).
Qed.

Lemma generateKeywords_throws title subject :
  App5.generateKeywords title subject = None
  <-> (falsy title = false /\ is_text title = false)
      \/ (falsy subject = false /\ is_text subject = false).
Proof.
  unfold App5.generateKeywords, option_bind.
  destruct title as [| |b|n|s], subject as [| |b'|n'|t];
    cbn [falsy js_toLowerCase is_text];
    repeat match goal with
           | |- context [num_falsy ?x] => destruct (num_falsy x)
           | |- context [seq ?x ""] => destruct (seq x "")
           | |- context [negb ?x] => destruct x; cbn [negb]
           end;
    (split;
     [ intros E; try discriminate E;
       first [left; split; reflexivity | right; split; reflexivity]
     | intros [[E1 E2] | [E1 E2]]; try discriminate; reflexivity ]).
Qed.

Lemma keywords_begin_with_title (s : string) subject kw :
  seq s "" = false ->
  (App1.generateJournalKeywords (VStr s) subject = Some kw ->
   String.prefix (toLowerCase s) kw = true)
  /\ (App5.generateKeywords (VStr s) subject = Some kw ->
      String.prefix (toLowerCase s) kw = true).
Proof.
  intros Hs.
  unfold App1.generateJournalKeywords, App5.generateKeywords, option_bind.
  cbn [falsy js_toLowerCase]. rewrite Hs.
  split.
  - destruct (falsy subject); [|destruct (js_toLowerCase subject)];
      try discriminate;
      intros E; injection E as <-;
      repeat match goal with
             | |- context [if ?b then _ else _] => destruct b
             end;
      cbn [app]; apply prefix_join_head.
  - destruct (falsy subject); [|destruct (js_toLowerCase subject)];
      try discriminate;
      repeat match goal with
             | |- context [if ?b then _ else _] => destruct b
             end;
      intros E; injection E as <-;
      cbn [app]; apply prefix_join_head.
Qed.

Lemma keywords_case (s t : string) subject :
  toLowerCase s = toLowerCase t ->
  App1.generateJournalKeywords (VStr s) subject
  = App1.generateJournalKeywords (VStr t) subject
  /\ App5.generateKeywords (VStr s) subject
     = App5.generateKeywords (VStr t) subject.
Proof.
  intros E.
  assert (Hn : seq s "" = seq t "")
    by (rewrite <- (seq_toLowerCase_nil s), <- (seq_toLowerCase_nil t), E;
        reflexivity).
  unfold App1.generateJournalKeywords, App5.generateKeywords.
  cbn [falsy js_toLowerCase]. now rewrite E, Hn.
Qed.

End KeywordFacts.

(** X13.  When the keyword generators throw, and what they return.
    [generateJournalKeywords] of app1.js and of the unnamed variant throws
    exactly when the title is not text (a missing title included), or the
    subject is truthy and not text; [generateKeywords] of app5.js throws
    exactly when the title, or the subject, is truthy and not text.  When
    the title is text that is not empty, the keywords begin with the
    title in lower case; and titles that differ in letter case only get
    the same keywords. *)
Theorem X13_keyword_generators :
  forall (num : Type) (JN : JsNumber num) (title subject : value num)
         (s t kw : string),
    (App1.generateJournalKeywords title subject = None
     <-> is_text title = false
         \/ (falsy subject = false /\ is_text subject = false))
    /\ (App5.generateKeywords title subject = None
        <-> (falsy title = false /\ is_text title = false)
            \/ (falsy subject = false /\ is_text subject = false))
    /\ (seq s "" = false ->
        (App1.generateJournalKeywords (VStr s) subject = Some kw ->
         String.prefix (toLowerCase s) kw = true)
        /\ (App5.generateKeywords (VStr s) subject = Some kw ->
            String.prefix (toLowerCase s) kw = true))
    /\ (toLowerCase s = toLowerCase t ->
        App1.generateJournalKeywords (VStr s) subject
        = App1.generateJournalKeywords (VStr t) subject
        /\ App5.generateKeywords (VStr s) subject
           = App5.generateKeywords (VStr t) subject).
Proof.
  intros num JN title subject s t kw.
  split; [apply generateJournalKeywords_throws|].
  split; [apply generateKeywords_throws|].
  split; [apply keywords_begin_with_title | apply keywords_case].
Qed.

Lemma X13_keyword_generators_witness :
  (App1.generateJournalKeywords (VNum (IInt 2024) : value intnum) VUndefined
   = None)
  /\ String.prefix "nature ai"
       "nature ai, artificial intelligence, machine learning, AI strategy"
     = true
  /\ App5.generateKeywords (VStr "NATURE" : value intnum) (VStr "Science")
     = App5.generateKeywords (VStr "Nature") (VStr "Science").
Proof.
  destruct (@X13_keyword_generators intnum intnum_JsNumber
              (VNum (IInt 2024)) VUndefined "Nature AI" "Nature AI"
              "nature ai, artificial intelligence, machine learning, AI strategy")
    as (H1 & _ & H3 & _).
  destruct (@X13_keyword_generators intnum intnum_JsNumber
              VUndefined (VStr "Science") "NATURE" "Nature" "")
    as (_ & _ & _ & H4).
  split; [apply H1; now left|].
  split; [apply H3; reflexivity|].
  apply H4. reflexivity.
Defined.

(* ------------------------------------------------------------------------- *)
(** ** What the chat endpoints answer *)

Lemma blank_head (s : string) (c : ascii) (s' : string) :
  s = String c s' -> is_space c = false -> Chat7.blank s = false.
Proof.
  intros -> Hc. unfold Chat7.blank, trim. cbn [trimStart]. rewrite Hc.
  cbn [trimEnd]. destruct (trimEnd s'); [rewrite Hc|]; reflexivity.
Qed.

Lemma blank_fallback (message : string) :
  Chat7.blank (Chat7.fallback message) = false.
Proof.
  eapply blank_head; [unfold Chat7.fallback; cbn; reflexivity | reflexivity].
Qed.

Section Chat1Facts.
Context {num : Type} `{JsNumber num}.
Variable calculateRevenuePotential : list (string * num) -> num.
Variable toLocaleString : num -> string.

Lemma generateOpenAIResponse_returns create message (context : Chat1.Context num) :
  exists response,
    Chat1.generateOpenAIResponse calculateRevenuePotential toLocaleString
      create message context = Returned response.
Proof.
  unfold Chat1.generateOpenAIResponse, try_catch, and_then,
    Chat1.completion_content.
  destruct create as [[[|[[m|]] cs]]|e]; cbn; eauto.
Qed.

Lemma chat1_answers OPENAI_API_KEY getDatabaseContext create req :
  let r := Chat1.chat calculateRevenuePotential toLocaleString OPENAI_API_KEY
                      getDatabaseContext create req in
  (status r = 400
   <-> Chat1.message req = None \/ Chat1.message req = Some EmptyString)
  /\ (status r = 500
      <-> (exists message, Chat1.message req = Some message
                           /\ message <> EmptyString)
          /\ exists error, getDatabaseContext = Thrown error)
  /\ (status r = 200
      <-> (exists message, Chat1.message req = Some message
                           /\ message <> EmptyString)
          /\ exists context response,
              getDatabaseContext = Returned context
              /\ json r = Chat1.Answer response context).
Proof.
  unfold Chat1.chat.
  destruct (Chat1.message req) as [[|c message]|].
  - cbn. repeat split; auto; try discriminate;
      intros [(m & E & Hm) _]; injection E as <-; now destruct Hm.
  - destruct getDatabaseContext as [context|error]; cbn [and_then].
    + destruct (Chat1.key_configured OPENAI_API_KEY).
      * destruct (generateOpenAIResponse_returns create (String c message)
                    context) as [response ->].
        cbn. repeat split; try discriminate; eauto.
        -- intros [E | E]; discriminate.
        -- intros [_ [e E]]; discriminate.
        -- eexists; split; [reflexivity | discriminate].
      * cbn. repeat split; try discriminate; eauto.
        -- intros [E | E]; discriminate.
        -- intros [_ [e E]]; discriminate.
        -- eexists; split; [reflexivity | discriminate].
    + cbn. repeat split; try discriminate; eauto.
      * intros [E | E]; discriminate.
      * eexists; split; [reflexivity | discriminate].
      * intros [_ (ctx & r & E & _)]; discriminate.
  - cbn. repeat split; auto; try discriminate;
      intros [(m & E & Hm) _]; discriminate.
Qed.

Lemma chat1_without_key OPENAI_API_KEY getDatabaseContext create create' req :
  Chat1.key_configured OPENAI_API_KEY = false ->
  Chat1.chat calculateRevenuePotential toLocaleString OPENAI_API_KEY
             getDatabaseContext create req
  = Chat1.chat calculateRevenuePotential toLocaleString OPENAI_API_KEY
               getDatabaseContext create' req.
Proof. intros Hk. unfold Chat1.chat. now rewrite Hk. Qed.

End Chat1Facts.

Section Chat7Facts.
Variable generateSubscriptionAnalysis : string -> string -> Outcome string.
Variable generateUniversityAnalysis : string -> Outcome string.
Variable generateBrowsingAnalysis : string -> Outcome string.
Variable generateDataSummary : string -> Outcome string.

Lemma chat7_answers openai create req :
  let r := Chat7.chat generateSubscriptionAnalysis generateUniversityAnalysis
                      generateBrowsingAnalysis generateDataSummary
                      openai create req in
  (status r = 400
   <-> Chat7.message req = None
       \/ exists message, Chat7.message req = Some message
                          /\ Chat7.blank message = true)
  /\ (status r = 400 \/ status r = 200)
  /\ (forall response assistant usingOpenAI,
         json r = Chat7.Answer response assistant usingOpenAI ->
         status r = 200
         /\ Chat7.blank response = false
         /\ assistant = Chat7.or_default (Chat7.assistantType req) "general"
         /\ (usingOpenAI = true ->
             openai = true /\ exists completion, create = Returned completion)).
Proof.
  unfold Chat7.chat.
  destruct (Chat7.message req) as [message|].
  - destruct (Chat7.blank message) eqn:Eb.
    + cbn. split; [split; eauto|]. split; [now left|]. discriminate.
    + match goal with
      | |- context [let '(a, u) := ?p in _] => destruct p as [ai u] eqn:Ep
      end.
      cbn. split.
      * split; [discriminate|].
        intros [E | (m & E & Hm)]; [discriminate|].
        injection E as <-. congruence.
      * split; [now right|].
        intros response assistant flag E. injection E as E1 E2 E3.
        subst response assistant flag.
        split; [reflexivity|]. split.
        -- destruct (Chat7.blank ai) eqn:Ea; [apply blank_fallback | exact Ea].
        -- split; [reflexivity|]. intros ->.
           destruct openai; [|injection Ep as _ E; discriminate].
           destruct create as [completion|e];
             [eauto | injection Ep as _ E; discriminate].
  - cbn. split; [split; auto|]. split; [now left|]. discriminate.
Qed.

Lemma chat7_without_client create create' req :
  Chat7.chat generateSubscriptionAnalysis generateUniversityAnalysis
             generateBrowsingAnalysis generateDataSummary false create req
  = Chat7.chat generateSubscriptionAnalysis generateUniversityAnalysis
               generateBrowsingAnalysis generateDataSummary false create' req.
Proof. reflexivity. Qed.

End Chat7Facts.

(** X14.  What [POST /api/chat] of app1.js answers to a request whose
    message, if any, is text.  It answers 400 exactly when the message is
    missing or empty; 500 exactly when there is a message and
    [getDatabaseContext] throws; and 200, with the context the database
    gave, exactly when there is a message and [getDatabaseContext]
    returns.  So, the message being text, nothing the completion call
    does, a completion without choices or without a message included,
    turns into an error answer; and without a configured key the
    completion call has no part in the answer. *)
Theorem X14_chat_app1_status :
  forall (num : Type) (JN : JsNumber num)
         (calculateRevenuePotential : list (string * num) -> num)
         (toLocaleString : num -> string)
         (OPENAI_API_KEY : option string)
         (getDatabaseContext : Outcome (Chat1.Context num))
         (create create' : Outcome Completion) (req : Chat1.Request),
    let r := Chat1.chat calculateRevenuePotential toLocaleString OPENAI_API_KEY
                        getDatabaseContext create req in
    (status r = 400
     <-> Chat1.message req = None \/ Chat1.message req = Some EmptyString)
    /\ (status r = 500
        <-> (exists message, Chat1.message req = Some message
                             /\ message <> EmptyString)
            /\ exists error, getDatabaseContext = Thrown error)
    /\ (status r = 200
        <-> (exists message, Chat1.message req = Some message
                             /\ message <> EmptyString)
            /\ exists context response,
                getDatabaseContext = Returned context
                /\ json r = Chat1.Answer response context)
    /\ (Chat1.key_configured OPENAI_API_KEY = false ->
        r = Chat1.chat calculateRevenuePotential toLocaleString OPENAI_API_KEY
                       getDatabaseContext create' req).
Proof.
  intros num JN calc loc key ctx create create' req r.
  destruct (chat1_answers calc loc key ctx create req) as (H1 & H2 & H3).
  split; [exact H1|]. split; [exact H2|]. split; [exact H3|].
  intros Hk. now apply chat1_without_key.
Qed.

Lemma X14_chat_app1_status_witness :
  status (Chat1.chat (fun _ => IInt 0) IntNum.to_string
            (Some "sk-test") (Returned (Chat1.mkContext (IInt 4) (IInt 12) []))
            (Returned (mkCompletion []))
            (Chat1.mkRequest (Some "revenue")))
  = 200
  /\ status (Chat1.chat (fun _ => IInt 0) IntNum.to_string
               None (Thrown "SQLITE_ERROR")
               (Returned (mkCompletion []))
               (Chat1.mkRequest (Some "revenue")))
     = 500.
Proof.
  split.
  - apply (@X14_chat_app1_status intnum intnum_JsNumber
             (fun _ => IInt 0) IntNum.to_string (Some "sk-test")
             (Returned (Chat1.mkContext (IInt 4) (IInt 12) []))
             (Returned (mkCompletion [])) (Thrown "timeout")
             (Chat1.mkRequest (Some "revenue"))).
    split; [exists "revenue"; split; [reflexivity | discriminate]|].
    eexists. eexists. split; reflexivity.
  - apply (@X14_chat_app1_status intnum intnum_JsNumber
             (fun _ => IInt 0) IntNum.to_string None
             (Thrown "SQLITE_ERROR")
             (Returned (mkCompletion [])) (Thrown "timeout")
             (Chat1.mkRequest (Some "revenue"))).
    split; [exists "revenue"; split; [reflexivity | discriminate]|].
    now exists "SQLITE_ERROR".
Defined.

(** X15.  What [POST /api/chat/send] of app7.js answers to a request
    whose message, if any, is text.  It answers 400 exactly when the
    message is missing or blank, and 200 otherwise; the response of a 200
    answer is never blank (a blank completion or report is replaced by the
    canned hints), its assistant type is the one of the request or
    [general], and it is marked as coming from the model only when the
    client exists and the completion call returned.  Without a client the
    completion call has no part in the answer. *)
Theorem X15_chat_app7_answer :
  forall (generateSubscriptionAnalysis : string -> string -> Outcome string)
         (generateUniversityAnalysis generateBrowsingAnalysis
            generateDataSummary : string -> Outcome string)
         (openai : bool) (create create' : Outcome Completion)
         (req : Chat7.Request),
    let chat := Chat7.chat generateSubscriptionAnalysis
                           generateUniversityAnalysis generateBrowsingAnalysis
                           generateDataSummary in
    let r := chat openai create req in
    (status r = 400
     <-> Chat7.message req = None
         \/ exists message, Chat7.message req = Some message
                            /\ Chat7.blank message = true)
    /\ (status r = 400 \/ status r = 200)
    /\ (forall response assistant usingOpenAI,
           json r = Chat7.Answer response assistant usingOpenAI ->
           status r = 200
           /\ Chat7.blank response = false
           /\ assistant = Chat7.or_default (Chat7.assistantType req) "general"
           /\ (usingOpenAI = true ->
               openai = true
               /\ exists completion, create = Returned completion))
    /\ chat false create req = chat false create' req.
Proof.
  intros sub uni bro summ openai create create' req chat r.
  destruct (chat7_answers sub uni bro summ openai create req) as (H1 & H2 & H3).
  split; [exact H1|]. split; [exact H2|]. split; [exact H3|]. reflexivity.
Qed.

Lemma X15_chat_app7_answer_witness :
  Chat7.blank
    match json (Chat7.chat (fun _ _ => Returned " ") (fun _ => Returned " ")
                  (fun _ => Returned " ") (fun _ => Returned " ")
                  true (Returned (mkCompletion []))
                  (Chat7.mkRequest (Some "journal trends") None None)) with
    | Chat7.Answer response _ _ => response
    | Chat7.Problem _ response => response
    end
  = false.
Proof.
  destruct (X15_chat_app7_answer
              (fun _ _ => Returned " ") (fun _ => Returned " ")
              (fun _ => Returned " ") (fun _ => Returned " ")
              true (Returned (mkCompletion [])) (Thrown "timeout")
              (Chat7.mkRequest (Some "journal trends") None None))
    as (_ & _ & H3 & _).
  eapply H3. reflexivity.
Defined.

(* ------------------------------------------------------------------------- *)
(** ** A journal that is there is not inserted again *)

Section ReuseFacts.
Context {num : Type} `{JsNumber num} {R : Type}.
Variable title_of : R -> value num.
Variable T : string.
Implicit Types (db : Store num) (m : Machine num R) (t : Task num R).

Lemma spares_passive (s : Stmt num) :
  match s with InsertJournal _ _ _ _ _ _ => False | _ => True end ->
  spares title_of T (s, None).
Proof. intros Hs. split; [|exact I]. destruct s; auto. destruct Hs. Qed.

Lemma spares_browsing uid jid b q :
  Forall (browsing_ok uid jid b) q -> Forall (spares title_of T) q.
Proof.
  apply Forall_impl. intros [s k] (Hb & _).
  unfold is_browsing_of in Hb. destruct s; try discriminate.
  destruct k; [discriminate|]. now apply spares_passive.
Qed.

(** A statement that spares [T] leaves the journals of that title alone. *)
Lemma exec_spares (s : Stmt num) (k : option (Cont num R)) db :
  spares title_of T (s, k) ->
  journals_titled T (fst (exec s db)) = journals_titled T db.
Proof.
  intros [Hs _]. cbn [fst] in Hs. unfold journals_titled.
  destruct s; cbn [exec]; try reflexivity.
  - destruct (existsb _ _); reflexivity.
  - destruct (sql_text title) as [t|] eqn:Et; [|reflexivity].
    cbn [fst journals]. rewrite filter_app. cbn [filter j_title].
    destruct (seq t T) eqn:E; [|apply app_nil_r].
    apply seq_eq in E. subst t. now destruct Hs.
Qed.

(** The lookup of a title that is there finds a journal. *)
Lemma lookup_finds (v : value num) db :
  sql_text v = Some T -> journals_titled T db <> [] ->
  find (title_is v) (journals db) <> None.
Proof.
  intros Hv Hj Hnone. apply Hj. unfold journals_titled.
  induction (journals db) as [|j l IH]; [reflexivity|].
  cbn [find filter] in *. unfold title_is in Hnone at 1. rewrite Hv in Hnone.
  destruct (seq (j_title j) T); [discriminate|]. now apply IH.
Qed.

End ReuseFacts.

Module App1Reuse.
Import App1.

Section Reuse.
Context {num : Type} `{JsNumber num}.
Variable P : Policy.
Variable T : string.
Variable db0 : Store num.
Implicit Types (js : State num) (row : RowData num) (m : Machine num (RowData num)).

Lemma forEach_spares uid name data index js :
  exists lookups,
    queue (forEach uid name data index js) = queue js ++ lookups
    /\ Forall (spares (@journalTitle num) T) lookups.
Proof.
  revert index js. induction data as [|r data IH]; intros index js.
  - exists []. simpl. now rewrite app_nil_r.
  - cbn [forEach].
    destruct (IH (S index) (forEach_row uid name r index js))
      as (lookups & Hq & Hf).
    assert (Hrow : exists new,
               queue (forEach_row uid name r index js) = queue js ++ new
               /\ Forall (spares (@journalTitle num) T) new).
    { unfold forEach_row. destruct (falsy (findValue r title_keys)).
      - exists []. rewrite queue_console_log, app_nil_r. now split.
      - destruct (cost_or_fallback _ js) as [c js1] eqn:Ec.
        assert (Hq1 : queue js1 = queue js).
        { unfold cost_or_fallback in Ec. destruct (num_falsy _);
            injection Ec as _ <-; reflexivity. }
        eexists. rewrite queue_db_call, Hq1. split; [reflexivity|].
        constructor; [|constructor]. split; [exact I | reflexivity]. }
    destruct Hrow as (new & Hq1 & Hf1).
    exists (new ++ lookups). rewrite Hq, Hq1, <- app_assoc.
    split; [reflexivity | now apply Forall_app].
Qed.

Lemma processSubscriptionData_spares uid name data js :
  Forall (spares (@journalTitle num) T) (queue js) ->
  Forall (spares (@journalTitle num) T)
         (queue (processSubscriptionData uid name data js)).
Proof.
  intros Hf. unfold processSubscriptionData.
  destruct (forEach_spares uid name data 0
              (db_run (DeleteBrowsingHistory uid)
                      (db_run (DeleteSubscriptions uid) js)))
    as (lookups & Hq & Hl).
  rewrite Hq, !queue_db_run. repeat (apply Forall_app; split); auto;
    constructor; auto; now apply spares_passive.
Qed.

Lemma createSubscriptionData_spares row jid js :
  Forall (spares (@journalTitle num) T) (queue js) ->
  Forall (spares (@journalTitle num) T)
         (queue (createSubscriptionData P row jid js)).
Proof.
  intros Hf.
  destruct (App1Facts.createSubscriptionData_queue P row jid js)
    as (events & Hq & _ & He).
  rewrite Hq. repeat (apply Forall_app; split); auto.
  - unfold subscription_of. destruct (isSubscribed row); constructor; auto.
    now apply spares_passive.
  - eapply spares_browsing; exact He.
Qed.

Lemma reuses_step m m' :
  reuses (@journalTitle num) T db0 m ->
  step (resume P) m = Some m' ->
  reuses (@journalTitle num) T db0 m'.
Proof.
  intros (Hj & Hne & Hf) Hstep. unfold step in Hstep.
  destruct (crashed (js m)); [discriminate|].
  destruct (queue (js m)) as [|[s k] q] eqn:Hq; [discriminate|].
  apply Forall_cons_iff in Hf. destruct Hf as [Hs Hf].
  pose proof (exec_spares (store m) Hs) as He.
  assert (Hfound : forall ctx, k = Some (KJournalLookup ctx) ->
             snd (exec s (store m))
             = RRow (option_map j_id
                       (find (title_is (journalTitle ctx))
                             (journals (store m))))).
  { intros ctx ->. destruct Hs as [_ Hs]. cbn [fst snd] in Hs. subst s.
    reflexivity. }
  destruct (exec s (store m)) as [db r]. cbn [fst snd] in He, Hfound.
  injection Hstep as <-.
  split; [cbn [store]; congruence|]. split; [exact Hne|]. cbn [js].
  destruct k as [k|]; [|exact Hf].
  destruct k as [name data|name data|row|row]; destruct r as [[id|]|lastID|];
    cbn [resume]; unfold reject; rewrite ?queue_settle; try exact Hf;
    try (now apply processSubscriptionData_spares);
    try (now apply createSubscriptionData_spares).
  - rewrite queue_db_call. apply Forall_app. split; [exact Hf|].
    constructor; [|constructor]. now split.
  - (* a title that was not found *)
    specialize (Hfound row eq_refl).
    destruct (generateJournalKeywords (journalTitle row) (subject row));
      [|exact Hf].
    rewrite queue_db_call. apply Forall_app. split; [exact Hf|].
    constructor; [|constructor]. split; [|exact I]. cbn [fst].
    intros Ht. apply (lookup_finds (journalTitle row) (store m) Ht).
    + rewrite Hj. exact Hne.
    + destruct (find _ _); [discriminate Hfound | reflexivity].
Qed.

Lemma reuses_on_js (f : State num -> State num) m :
  (forall js, queue (f js) = queue js) ->
  reuses (@journalTitle num) T db0 m ->
  reuses (@journalTitle num) T db0 (on_js f m).
Proof.
  intros Hq (Hj & Hne & Hf). split; [exact Hj|]. split; [exact Hne|].
  cbn [on_js js]. now rewrite Hq.
Qed.

Lemma reuses_start workbook filename m :
  reuses (@journalTitle num) T db0 m ->
  reuses (@journalTitle num) T db0 (on_js (processExcelFile workbook filename) m).
Proof.
  intros (Hj & Hne & Hf). split; [exact Hj|]. split; [exact Hne|].
  cbn [on_js js]. unfold processExcelFile.
  destruct (first_sheet workbook).
  - unfold resolve. rewrite queue_settle. exact Hf.
  - rewrite queue_db_call. apply Forall_app. split; [exact Hf|].
    constructor; [|constructor]. now split.
Qed.

Lemma reuses_files_loop readFile files m :
  reuses (@journalTitle num) T db0 m ->
  reuses (@journalTitle num) T db0 (fst (files_loop P readFile files m)).
Proof.
  revert m. induction files as [|f files IH]; intros m Hi; [exact Hi|].
  cbn [files_loop]. destruct (readFile f) as [workbook|message].
  - set (m1 := await _ _ _).
    assert (H1 : reuses (@journalTitle num) T db0 m1).
    { unfold m1, await. apply run_until_settled_invariant;
        [intros a b; apply reuses_step|].
      apply reuses_start. apply reuses_on_js; [|exact Hi].
      intros js. apply queue_console_log. }
    clearbody m1. destruct (crashed (js m1)); [exact H1|].
    destruct (promise (js m1)); [exact H1| |];
      apply IH; (apply reuses_on_js; [|exact H1]);
      intros js; apply queue_console_log.
  - apply IH. apply reuses_on_js;
      [intros js; apply queue_console_log|].
    apply reuses_on_js; [intros js; apply queue_console_log | exact Hi].
Qed.

Lemma reuses_ingest readFile files m :
  reuses (@journalTitle num) T db0 m ->
  reuses (@journalTitle num) T db0 (fst (ingest P readFile files m)).
Proof.
  intros Hi. unfold ingest, processAllExcelFiles.
  pose proof (reuses_files_loop readFile files Hi) as Hl.
  destruct (files_loop P readFile files m) as [m' [| |]];
    cbn [fst] in *; unfold drain; apply run_invariant;
    try (intros a b; apply reuses_step); exact Hl.
Qed.

End Reuse.
End App1Reuse.

Module App5Reuse.
Import App5.

Section Reuse.
Context {num : Type} `{JsNumber num}.
Variable T : string.
Variable db0 : Store num.
Implicit Types (js : State num) (row : RowData num) (m : Machine num (RowData num)).

Lemma forEach_spares5 uid name data index js :
  exists lookups,
    queue (forEach uid name data index js) = queue js ++ lookups
    /\ Forall (spares (@journalTitle num) T) lookups.
Proof.
  revert index js. induction data as [|r data IH]; intros index js.
  - exists []. simpl. now rewrite app_nil_r.
  - cbn [forEach].
    destruct (IH (S index) (forEach_row uid name r index js))
      as (lookups & Hq & Hf).
    assert (Hrow : exists new,
               queue (forEach_row uid name r index js) = queue js ++ new
               /\ Forall (spares (@journalTitle num) T) new).
    { unfold forEach_row.
      destruct (no_title (findColumnValue r title_names)).
      - exists []. rewrite app_nil_r. now split.
      - eexists. rewrite queue_db_call. split; [reflexivity|].
        constructor; [|constructor]. split; [exact I | reflexivity]. }
    destruct Hrow as (new & Hq1 & Hf1).
    exists (new ++ lookups). rewrite Hq, Hq1, <- app_assoc.
    split; [reflexivity | now apply Forall_app].
Qed.

Lemma processSheetData_spares uid name data js :
  Forall (spares (@journalTitle num) T) (queue js) ->
  Forall (spares (@journalTitle num) T)
         (queue (processSheetData uid name data js)).
Proof.
  intros Hf. unfold processSheetData. destruct data as [|r0 rest] eqn:Edata.
  - unfold resolve. rewrite queue_settle. exact Hf.
  - rewrite <- Edata.
    destruct (forEach_spares5 uid name data 0
                (db_run (DeleteBrowsingHistory uid)
                        (db_run (DeleteSubscriptions uid) js)))
      as (lookups & Hq & Hl).
    rewrite Hq, !queue_db_run. repeat (apply Forall_app; split); auto;
      constructor; auto; now apply spares_passive.
Qed.

Lemma insertSubscriptionAndBrowsing_spares row jid js :
  Forall (spares (@journalTitle num) T) (queue js) ->
  Forall (spares (@journalTitle num) T)
         (queue (insertSubscriptionAndBrowsing row jid js)).
Proof.
  intros Hf.
  destruct (App5Facts.insertSubscriptionAndBrowsing_queue row jid js)
    as (c & u & events & Hq & _ & _ & He).
  rewrite Hq. repeat (apply Forall_app; split); auto.
  - unfold subscription_with. destruct (isCurrentlySubscribed row);
      constructor; auto.
    now apply spares_passive.
  - eapply spares_browsing; exact He.
Qed.

Lemma reuses_step5 m m' :
  reuses (@journalTitle num) T db0 m ->
  step resume m = Some m' ->
  reuses (@journalTitle num) T db0 m'.
Proof.
  intros (Hj & Hne & Hf) Hstep. unfold step in Hstep.
  destruct (crashed (js m)); [discriminate|].
  destruct (queue (js m)) as [|[s k] q] eqn:Hq; [discriminate|].
  apply Forall_cons_iff in Hf. destruct Hf as [Hs Hf].
  pose proof (exec_spares (store m) Hs) as He.
  assert (Hfound : forall ctx, k = Some (KJournalLookup ctx) ->
             snd (exec s (store m))
             = RRow (option_map j_id
                       (find (title_is (journalTitle ctx))
                             (journals (store m))))).
  { intros ctx ->. destruct Hs as [_ Hs]. cbn [fst snd] in Hs. subst s.
    reflexivity. }
  destruct (exec s (store m)) as [db r]. cbn [fst snd] in He, Hfound.
  injection Hstep as <-.
  split; [cbn [store]; congruence|]. split; [exact Hne|]. cbn [js].
  destruct k as [k|]; [|exact Hf].
  destruct k as [name data|name data|row|row]; destruct r as [[id|]|lastID|];
    cbn [resume]; unfold reject;
    rewrite ?App5Facts.queue_checkCompletion, ?queue_incr_errors, ?queue_settle;
    try exact Hf;
    try (now apply processSheetData_spares);
    try (now apply insertSubscriptionAndBrowsing_spares).
  - rewrite queue_db_call. apply Forall_app. split; [exact Hf|].
    constructor; [|constructor]. now split.
  - (* a title that was not found *)
    specialize (Hfound row eq_refl).
    destruct (generateKeywords (journalTitle row) (subject row));
      [|exact Hf].
    rewrite queue_db_call. apply Forall_app. split; [exact Hf|].
    constructor; [|constructor]. split; [|exact I]. cbn [fst].
    intros Ht. apply (lookup_finds (journalTitle row) (store m) Ht).
    + rewrite Hj. exact Hne.
    + destruct (find _ _); [discriminate Hfound | reflexivity].
Qed.

Lemma reuses_on_js5 (f : State num -> State num) m :
  (forall js, queue (f js) = queue js) ->
  reuses (@journalTitle num) T db0 m ->
  reuses (@journalTitle num) T db0 (on_js f m).
Proof.
  intros Hq (Hj & Hne & Hf). split; [exact Hj|]. split; [exact Hne|].
  cbn [on_js js]. now rewrite Hq.
Qed.

Lemma reuses_start5 workbook filename m :
  reuses (@journalTitle num) T db0 m ->
  reuses (@journalTitle num) T db0
         (on_js (processUniversityExcelFile workbook filename) m).
Proof.
  intros (Hj & Hne & Hf). split; [exact Hj|]. split; [exact Hne|].
  cbn [on_js js]. unfold processUniversityExcelFile.
  destruct (extractUniversityFromFilename filename).
  - rewrite queue_db_call. apply Forall_app. split; [exact Hf|].
    constructor; [|constructor]. now split.
  - unfold reject. rewrite queue_settle. exact Hf.
Qed.

Lemma reuses_files_loop5 readFile files m :
  reuses (@journalTitle num) T db0 m ->
  reuses (@journalTitle num) T db0 (fst (files_loop readFile files m)).
Proof.
  revert m. induction files as [|f files IH]; intros m Hi; [exact Hi|].
  cbn [files_loop]. destruct (readFile f) as [workbook|message].
  - set (m1 := await _ _ _).
    assert (H1 : reuses (@journalTitle num) T db0 m1).
    { unfold m1, await. apply run_until_settled_invariant;
        [intros a b; apply reuses_step5|].
      apply reuses_start5. apply reuses_on_js5; [|exact Hi].
      intros js. apply queue_console_log. }
    clearbody m1. destruct (crashed (js m1)); [exact H1|].
    destruct (promise (js m1)); [exact H1| |];
      apply IH; (apply reuses_on_js5; [|exact H1]);
      intros js; apply queue_console_log.
  - apply IH. apply reuses_on_js5;
      [intros js; apply queue_console_log|].
    apply reuses_on_js5; [intros js; apply queue_console_log | exact Hi].
Qed.

Lemma reuses_ingest5 readFile files m :
  reuses (@journalTitle num) T db0 m ->
  reuses (@journalTitle num) T db0 (fst (ingest readFile files m)).
Proof.
  intros Hi. unfold ingest, processExcelFilesFromFolder.
  pose proof (reuses_files_loop5 readFile files Hi) as Hl.
  destruct (files_loop readFile files m) as [m' [| |]];
    cbn [fst] in *; unfold drain; apply run_invariant;
    try (intros a b; apply reuses_step5); exact Hl.
Qed.

End Reuse.
End App5Reuse.

(** X16.  A journal that is there is not inserted again.  When the table
    holds a journal of a title before a batch starts, and nothing in
    flight can add one, then whatever files the batch reads, on app1.js
    (with any synthesis literals) and on app5.js, the journals of that
    title are afterwards the ones that were there before: every row of
    that title finds the journal, and reuses it.  Re-ingesting a file
    adds no journal under a title the table already has. *)
Theorem X16_journal_there_is_reused :
  forall (num : Type) (JN : JsNumber num) (T : string)
         (readFile : string -> Workbook num + string) (files : list string),
    (forall (P : Policy) (m : Machine num (App1.RowData num)),
        (exists j, In j (journals (store m)) /\ j_title j = T) ->
        Forall (spares (@App1.journalTitle num) T) (queue (js m)) ->
        journals_titled T (store (fst (App1.ingest P readFile files m)))
        = journals_titled T (store m))
    /\ (forall (m : Machine num (App5.RowData num)),
           (exists j, In j (journals (store m)) /\ j_title j = T) ->
           Forall (spares (@App5.journalTitle num) T) (queue (js m)) ->
           journals_titled T (store (fst (App5.ingest readFile files m)))
           = journals_titled T (store m)).
Proof.
  intros num JN T readFile files.
  assert (Hthere : forall db : Store num,
             (exists j, In j (journals db) /\ j_title j = T) ->
             journals_titled T db <> []).
  { intros db (j & Hin & Ht) E.
    assert (Hj : In j (journals_titled T db)).
    { unfold journals_titled. apply filter_In. split; [exact Hin|].
      now apply seq_eq. }
    rewrite E in Hj. destruct Hj. }
  split.
  - intros P m Hj Hf.
    apply (@App1Reuse.reuses_ingest num JN P T (store m) readFile files m).
    split; [reflexivity|]. split; [now apply Hthere | exact Hf].
  - intros m Hj Hf.
    apply (@App5Reuse.reuses_ingest5 num JN T (store m) readFile files m).
    split; [reflexivity|]. split; [now apply Hthere | exact Hf].
Qed.

Lemma X16_journal_there_is_reused_witness :
  journals_titled "Nature"
    (store (fst (App1.ingest App1.policy Scenario.disk
                   [Scenario.aalborg_2024; Scenario.anonymous]
                   Examples.app1_after_mahidol)))
  = journals_titled "Nature" (store Examples.app1_after_mahidol)
  /\ journals_titled "Nature"
       (store (fst (App5.ingest Scenario.disk
                      [Scenario.aalborg_2024; Scenario.anonymous]
                      Examples.app5_after_mahidol)))
     = journals_titled "Nature" (store Examples.app5_after_mahidol).
Proof.
  destruct (@X16_journal_there_is_reused intnum intnum_JsNumber "Nature"
              Scenario.disk [Scenario.aalborg_2024; Scenario.anonymous])
    as [H1 H5].
  split.
  - apply H1.
    + vm_compute. eexists. split; [left; reflexivity | reflexivity].
    + vm_compute. constructor.
  - apply H5.
    + vm_compute. eexists. split; [left; reflexivity | reflexivity].
    + vm_compute. constructor.
Defined.

(* ------------------------------------------------------------------------- *)
(** ** The country of a university *)

Section CountryFacts.
Variable name : string.

Ltac by_inclusion :=
  repeat match goal with
         | |- context [includes name ?u] => destruct (includes name u) eqn:?
         end.

Lemma getCountryFromName_cases :
  In (App1.getCountryFromName name) (map fst App1.countryMap ++ ["Unknown"])
  /\ (App1.getCountryFromName name = "Unknown"
      <-> forall uni, In uni (table_names App1.countryMap) ->
                      includes name uni = false).
Proof.
  unfold App1.getCountryFromName, App1.countryMap, table_names.
  cbn [find existsb snd fst map List.concat app orb].
  by_inclusion; cbn [orb fst]; (split; [cbn; tauto|]);
    (split;
     [ intros E; try discriminate E;
       intros uni Hin; cbn [In] in Hin;
       repeat (destruct Hin as [<- | Hin]; [assumption|]); destruct Hin
     | intros Hall; try reflexivity; exfalso;
       match goal with
       | Ht : includes name ?u = true |- _ =>
           rewrite (Hall u) in Ht; [discriminate | cbn; tauto]
       end ]).
Qed.

Lemma getCountryFromUniversity_cases :
  In (App5.getCountryFromUniversity name)
     (map fst App5.countryMap ++ ["Unknown"])
  /\ (App5.getCountryFromUniversity name = "Unknown"
      <-> forall uni, In uni (table_names App5.countryMap) ->
                      includes name uni = false).
Proof.
  unfold App5.getCountryFromUniversity, App5.countryMap, table_names.
  cbn [find existsb snd fst map List.concat app orb].
  by_inclusion; cbn [orb fst]; (split; [cbn; tauto|]);
    (split;
     [ intros E; try discriminate E;
       intros uni Hin; cbn [In] in Hin;
       repeat (destruct Hin as [<- | Hin]; [assumption|]); destruct Hin
     | intros Hall; try reflexivity; exfalso;
       match goal with
       | Ht : includes name ?u = true |- _ =>
           rewrite (Hall u) in Ht; [discriminate | cbn; tauto]
       end ]).
Qed.

Lemma country_tables_agree :
  App1.getCountryFromName name <> "Unknown" ->
  App5.getCountryFromUniversity name = App1.getCountryFromName name.
Proof.
  unfold App1.getCountryFromName, App5.getCountryFromUniversity,
    App1.countryMap, App5.countryMap.
  cbn [find existsb snd fst orb].
  by_inclusion; cbn [orb fst]; intros Hn; try reflexivity; now destruct Hn.
Qed.

End CountryFacts.

(** X17.  The country of a university, as [getCountryFromName] of app1.js
    and of the unnamed variant and [getCountryFromUniversity] of app5.js
    give it.  The result is a country of the table, or [Unknown]; it is
    [Unknown] exactly when the name contains none of the university names
    of the table, letter for letter; and the table of app5.js extends the
    other: whenever app1.js knows the country of a name, app5.js gives
    the same one. *)
Theorem X17_country_of_university :
  forall name : string,
    In (App1.getCountryFromName name) (map fst App1.countryMap ++ ["Unknown"])
    /\ (App1.getCountryFromName name = "Unknown"
        <-> forall uni, In uni (table_names App1.countryMap) ->
                        includes name uni = false)
    /\ In (App5.getCountryFromUniversity name)
          (map fst App5.countryMap ++ ["Unknown"])
    /\ (App5.getCountryFromUniversity name = "Unknown"
        <-> forall uni, In uni (table_names App5.countryMap) ->
                        includes name uni = false)
    /\ (App1.getCountryFromName name <> "Unknown" ->
        App5.getCountryFromUniversity name = App1.getCountryFromName name).
Proof.
  intros name.
  destruct (getCountryFromName_cases name) as [H1 H2].
  destruct (getCountryFromUniversity_cases name) as [H3 H4].
  repeat split; try assumption; try apply H2; try apply H4.
  apply country_tables_agree.
Qed.

Lemma X17_country_of_university_witness :
  App5.getCountryFromUniversity "Mahidol University Library" = "Thailand"
  /\ App1.getCountryFromName "mahidol university" = "Unknown".
Proof.
  destruct (X17_country_of_university "Mahidol University Library")
    as (_ & _ & _ & _ & H5).
  destruct (X17_country_of_university "mahidol university")
    as (_ & H2 & _).
  split.
  - rewrite H5; [reflexivity | vm_compute; discriminate].
  - apply H2. intros uni Hin. cbn in Hin.
    repeat (destruct Hin as [<- | Hin]; [reflexivity|]). destruct Hin.
Defined.

(* ------------------------------------------------------------------------- *)
(** ** How much a file can cause *)

(** X18.  A file causes a bounded number of statements.  Started with
    nothing in flight, a file whose sheet has [n] rows has come to rest
    (nothing is in flight any more, or the process is dead) after at most
    [5 + n * (4 + s)] completions, where [s] bounds the browsing sessions
    of one row (28 with the literals of app1.js, 35 on app5.js), and
    further completions change nothing; and a whole batch, once the
    connection is drained, leaves nothing in flight. *)
Theorem X18_file_comes_to_rest :
  forall (num : Type) (JN : JsNumber num),
    (forall (P : Policy) (workbook : Workbook num) (filename : string)
            (readFile : string -> Workbook num + string) (files : list string)
            (m : Machine num (App1.RowData num)) (fuel : nat),
        (queue (js m) = [] ->
         (5 + List.length (App1.first_sheet workbook)
              * (4 + App1.max_sessions P) <= fuel)%nat ->
         quiescent (run (App1.resume P) fuel
                        (App1.on_js (App1.processExcelFile workbook filename) m))
         /\ run (App1.resume P) (S fuel)
                (App1.on_js (App1.processExcelFile workbook filename) m)
            = run (App1.resume P) fuel
                  (App1.on_js (App1.processExcelFile workbook filename) m))
        /\ quiescent (fst (App1.ingest P readFile files m)))
    /\ (forall (workbook : Workbook num) (filename : string)
               (readFile : string -> Workbook num + string)
               (files : list string)
               (m : Machine num (App5.RowData num)) (fuel : nat),
           (queue (js m) = [] ->
            (5 + List.length (App5.subscription_sheet workbook) * 39 <= fuel)%nat ->
            quiescent (run App5.resume fuel
                           (App5.on_js
                              (App5.processUniversityExcelFile workbook filename)
                              m))
            /\ run App5.resume (S fuel)
                   (App5.on_js
                      (App5.processUniversityExcelFile workbook filename) m)
               = run App5.resume fuel
                     (App5.on_js
                        (App5.processUniversityExcelFile workbook filename) m))
           /\ quiescent (fst (App5.ingest readFile files m))).
Proof.
  intros num JN. split.
  - intros P workbook filename readFile files m fuel.
    split; [|apply App1Rest.ingest_quiescent].
    intros Hq Hfuel.
    set (m0 := App1.on_js (App1.processExcelFile workbook filename) m).
    assert (Hb : (budget (App1.kweight P) (queue (js m0)) <= fuel)%nat).
    { unfold m0, App1.on_js, App1.processExcelFile. cbn [js].
      destruct (App1.first_sheet workbook) as [|r rest] eqn:E.
      - unfold resolve. rewrite queue_settle.
        simpl. rewrite Hq. simpl. lia.
      - rewrite queue_db_call. simpl queue. rewrite Hq.
        cbn [app budget fold_right]. unfold task_weight.
        cbn [snd App1.kweight]. lia. }
    assert (Hb' : (budget (App1.kweight P) (queue (js m0)) <= S fuel)%nat)
      by lia.
    rewrite (@run_enough _ _ _ (App1.resume P) (App1.kweight P)
               (App1Rest.resume_budget P) fuel m0 Hb).
    rewrite (@run_enough _ _ _ (App1.resume P) (App1.kweight P)
               (App1Rest.resume_budget P) (S fuel) m0 Hb').
    split; [|reflexivity]. apply drain_quiescent. apply App1Rest.resume_budget.
  - intros workbook filename readFile files m fuel.
    split; [|apply App5Rest.ingest_quiescent5].
    intros Hq Hfuel.
    set (m0 := App5.on_js (App5.processUniversityExcelFile workbook filename) m).
    assert (Hb : (budget App5.kweight (queue (js m0)) <= fuel)%nat).
    { unfold m0, App5.on_js, App5.processUniversityExcelFile. cbn [js].
      destruct (App5.extractUniversityFromFilename filename).
      - rewrite queue_db_call. simpl queue. rewrite Hq.
        cbn [app budget fold_right]. unfold task_weight.
        cbn [snd App5.kweight]. unfold App5.max_sessions. lia.
      - unfold reject. rewrite queue_settle. simpl. rewrite Hq. simpl. lia. }
    assert (Hb' : (budget App5.kweight (queue (js m0)) <= S fuel)%nat) by lia.
    rewrite (@run_enough _ _ _ App5.resume App5.kweight
               App5Rest.resume_budget5 fuel m0 Hb).
    rewrite (@run_enough _ _ _ App5.resume App5.kweight
               App5Rest.resume_budget5 (S fuel) m0 Hb').
    split; [|reflexivity]. apply drain_quiescent. apply App5Rest.resume_budget5.
Qed.

Lemma X18_file_comes_to_rest_witness :
  quiescent (run (App1.resume App1.policy) 37
                 (App1.on_js
                    (App1.processExcelFile Scenario.subscribed_export
                                           Scenario.aalborg_2024)
                    Scenario.start))
  /\ quiescent (run App5.resume 44
                    (App5.on_js
                       (App5.processUniversityExcelFile
                          Scenario.subscribed_export Scenario.aalborg_2024)
                       Scenario.start)).
Proof.
  destruct (@X18_file_comes_to_rest intnum intnum_JsNumber) as [H1 H5].
  destruct (H1 App1.policy Scenario.subscribed_export Scenario.aalborg_2024
               Scenario.disk [] Scenario.start 37%nat) as [Hfile1 _].
  destruct (H5 Scenario.subscribed_export Scenario.aalborg_2024
               Scenario.disk [] Scenario.start 44%nat) as [Hfile5 _].
  split.
  - apply Hfile1; [reflexivity | vm_compute; lia].
  - apply Hfile5; [reflexivity | vm_compute; lia].
Defined.
